(* ===== verification/_CoqProject ===== *)
-Q . S2P
Prelude.v
Providers.v
Types.v
Storage.v
Auth.v
PairChat.v
Cart.v
CartSpec.v
Animation.v
LeafFall.v
CartUi.v
CheckoutPage.v
Chat.v
Contexts.v
Pages.v
Account.v
BrowsePages.v
AiUi.v
AiFlows.v
FlowSchemas.v
VoiceAssistant.v
Session.v
StoreTyping.v
Quiescence.v
