(* ===== verification/Prelude.v ===== *)
(** * SocialCart: a verification development of the pair-shopping storefront

    The program ([src/src], Next.js + React, TypeScript) is a social shop
    demo.  All of its state lives in four React context providers under
    [src/src/contexts] and in the browser's [localStorage], which every
    open tab shares; a write to [localStorage] fires a [storage] event in
    the *other* tabs only.  The pages and components under [src/src/app]
    and [src/src/components] call the providers' operations.

    ** Parts of the program and how they interact

    - [AuthContext.tsx] keeps the user directory [users] and the logged in
      [currentUser]; [login], [signup], [logout], [toggleFollow],
      [addEcoPoints], [updateUser] update both copies in step.
    - [PairChatContext.tsx] keeps the list of pair-shopping invitations
      (persisted under the key [socialCartPairChatInvites]) and the
      session derived from it ([isPairChatActive], [activeRecipient],
      [activeInvitation]); [navigateShared] broadcasts navigation through
      the key [socialCartSharedNav].
    - [CartContext.tsx] chooses the cart partition from the session
      ([socialCartItems_shared_<invitation>] in a session, else
      [socialCartItems_<user>]) and keeps the cart lines and the personal
      favourites.
    - [ChatContext.tsx] keeps the direct-message logs, one per
      conversation id [sort([a,b]).join('--')], under
      [socialCartChatHistory].
    - The UI handlers (cart line quantity buttons, product page, checkout,
      leaderboard, voice assistant, AI recommendation filters, chat
      header affordances) only call the operations above.
    - [app/layout.tsx] nests the providers ([AuthProvider] outermost,
      then [PairChatProvider], [CartProvider], [ChatProvider],
      [AnimationProvider]); each context's hook throws outside its
      provider.
    - The Genkit flows under [src/src/ai/flows] render a Handlebars
      prompt from the widget's request and return the model's answer;
      the widgets consume the answer after their [await].

    ** Files (in dependency order, as in [_CoqProject])

    - [Prelude] (this file): the notation scope [sc_scope] ([===] is the
      code's [===] on strings), the tactics, the hint databases [sc] and
      [sc_rw], [Result] (a value or a thrown error's message), and the
      list, option and string lemmas the components share.
    - [Providers] (Module [Providers]): the provider tree of
      [app/layout.tsx], the five hooks and the hooks each provider and
      layout component calls; rendering fails with the first hook that
      finds no provider.
    - [Types]: the records of [lib/types.ts] and the seed data of
      [lib/mockData.ts], each record in a Module named after its
      TypeScript interface so that field names stay those of the source.
    - [Storage]: [localStorage] as a stdpp [gmap] from key strings to typed
      payloads, with [setItem]/[removeItem] returning the storage events
      they fire (none when the value is unchanged).
    - [Auth] (Module [Auth]): [AuthContext.tsx]: the directory, its
      operations as a step relation, the invariant (unique ids and
      usernames, the current-user copy equal to its entry) and the
      persistence effects ([loadFromStorage], [mountAuth]).
    - [PairChat] (Module [PairChat]): [PairChatContext.tsx] for one tab:
      invitation handlers, the write-back, the session effect, the
      storage listener and the navigation broadcast.
    - [Cart] (Module [Cart]): [CartContext.tsx]: partition key, cart
      lines, totals, favourites, persistence and the key-change sequence.
    - [CartSpec] (Module [CartSpec]): the contract of [useCart()]: an
      abstract bag (a [gmap] from product id to unit price and quantity)
      with its operations, the typeclasses [CartImpl]/[CartLaws] of an
      implementation that refines it, and the instance for [Cart].
    - [Animation] (Module [Animation]): [AnimationContext.tsx] as a step
      relation (a trigger, or a pending 9 s timer firing).
    - [LeafFall] (Module [LeafFall]): [LeafFall.tsx]'s twenty leaves
      from the draws of [Math.random()] (rationals in [[0, 1)]).
    - [CartUi] (Module [CartUi], one sub-Module per component):
      [CartItem.tsx], [ProductDetailClient.tsx] (its add-to-cart also
      starts the leaf fall), [ProductCard.tsx], the arithmetic and order
      placement of [checkout/page.tsx], [cart/page.tsx], the command
      dispatch of [VoiceAssistant.tsx] and [PairRecommendations.tsx],
      with [toFixed2], [Number.prototype.toFixed(2)] on cents.
    - [CheckoutPage] (Module [CheckoutPage]): the checkout form's required
      fields, the delivery cards, the order summary, and the page's own
      state ([selectedDelivery], eco at first) with its two events and
      the toast and alert of an order.
    - [Chat] (Module [Chat]): [ChatContext.tsx]: conversation id, logs,
      storage sync.
    - [Contexts] (Module [Contexts]): what each hook returns: the
      [...ContextType] interfaces as records of operations over the
      provider's state and each Provider's [value] object; the class
      [CartContextSpec] a cart consumer relies on (stated on [CartSpec]'s
      bag), the consumers' lemmas proved against it, and the instance
      for [CartProvider].
    - [Pages] (Module [Pages]): leaderboard, social, chat list, profile,
      home (login/sign-up forms and redirect), [Header.tsx] (with the
      mobile sheet), [ChatInterface.tsx] (handlers, bubbles, buttons),
      [GlobalPairChat.tsx], and the account page's save handler.
    - [Account] (Module [AccountPage]): [app/account/page.tsx]: the form
      state, the effect that fills it from the profile, save, logout and
      what the page shows.
    - [BrowsePages] (Module [BrowsePages]): the product list and product
      route (with [generateMetadata]), the leaderboard table, the social
      cards and the chat list.
    - [AiUi] (Module [AiUi]): the widgets around the AI flows (visual
      search, sentiment, eco planner, image generator, voice listening),
      each a record of its [useState]s with its asynchronous handlers
      split at the [await], and what each shows.
    - [AiFlows] (Module [AiFlows]): the flows: a Handlebars evaluator,
      the five prompt templates, the requests the widgets build, the
      model as an argument, the image flow's error.
    - [FlowSchemas] (Module [FlowSchemas]): the flows' zod input and
      output schemas and zod's [safeParse] on JSON values.
    - [VoiceAssistant] (Module [VoiceAssistant]): the whole voice widget:
      recognizer events, the interpretation settling, the 800 ms timer,
      acting on the auth and cart contexts.
    - [Session] (Module [Session]): two tabs sharing one [localStorage];
      a user action followed by delivery of the storage events it fires;
      the cross-component theorems.
    - [StoreTyping] (Module [StoreTyping]): which payload shape each
      [localStorage] key holds, and that every writer keeps it.
    - [Quiescence] (Module [Quiescence]): when two tabs are at rest, and
      that the exchange of storage events after a cart operation stops.

    ** What the theorems show

    - Invariants preserved by every operation: at most one pending
      request between two users ([PairChat]), one cart line per product
      ([Cart]), the directory invariant ([Auth], also under the account
      page's save), the quantity bounds of the cart controls ([CartUi]),
      and the shape of every [localStorage] key in every two-tab run
      ([StoreTyping]).
    - Refinement: [CartContext]'s lines implement the abstract bag on
      every sequence of operations, with [cartTotal] and [cartCount] its
      sums ([CartSpec]); the checkout summary, a client of the contract,
      prints the bag's total plus shipping ([CheckoutPage]); the value
      [CartProvider] hands to [useCart()] meets the consumers' contract,
      so the header badge rises by the quantity a consumer adds (one
      when omitted), and a cleared cart counts and costs nothing
      ([Contexts]).
    - Equivalence: a voice "add" is the product page's add-to-cart
      ([CartUi]); the Handlebars evaluation of the visual search prompt
      is the direct listing of the products passed ([AiFlows]).
    - Error behaviour: under [RootLayout] no hook throws, while moving
      [CartProvider] outside [PairChatProvider] makes every page throw
      ([Providers]); the image flow throws exactly when the model answers
      without media ([AiFlows]).
    - Bounds: the leaves' styles stay in the commented ranges and every
      leaf lands within 11 s ([LeafFall]); a product page's metadata
      description is a prefix of at most 150 characters ([BrowsePages]);
      from the product page's mount, any clicks and inputs keep its
      quantity between 1 and the stock ([CartUi]).
    - Functional behaviour of each handler on every branch: merging and
      totals of [addToCart], [updateQuantity] with removal at zero,
      checkout totals and eco points, order placement behind the form's
      required fields (eco delivery preselected, so an untouched order
      earns 15 points), the chat send/read round trip and its bubbles, the
      leaderboard order (a stable sort by points, a permutation), a whole
      voice interaction ending idle whatever the flow answers.
    - Round trips: a profile save refills the form with what it saved
      ([Account]); a cart write is what the other tab loads ([Session]);
      the cart names printed in the recommendations prompt split back
      into the names ([AiFlows]).
    - Types: every request a page sends to a flow passes the flow's
      [inputSchema] ([FlowSchemas]).
    - Safety of the chat logs: for the ids the program makes (the seed
      ids and [uuidv4()]s, which hold no ["--"] and do not end in ['-']),
      two different pairs of users never share a conversation id
      ([Chat]).
    - Liveness: the leaf animation always stops ([Animation]).
    - Termination: in two tabs at rest, a cart operation and its save
      are delivered with one unit of fuel; the partner's reload of a
      shared cart writes nothing, and both tabs are at rest again
      ([Quiescence]).
    - The two-tab protocol ([Session]): accepting an invitation, or
      receiving the storage event of an acceptance, starts the session
      on the shared cart partition; ending it in one tab ends it in the
      other; logging in as an uninvolved user ends it; an item added in
      one tab reaches the partner's cart; a full scripted exchange.
    - Findings: behaviours the code has that its comments or the spec do
      not promise (see the theorems named in the manifest), such as
      stale recommendations, a
      negative-quantity voice command, the eco planner's reset timer
      clearing a reopened dialog, a voice command wiping the account
      form's unsaved edits, leaves still falling when the 9 s timer
      unmounts them, the image flow missing from [ai/dev.ts].

    ** Numbers, strings, fuel

    JavaScript numbers are modelled as [Z]: counters, quantities, stock
    and points are integers in the code.  Prices are [Z] in cents (the
    seed data has two decimals); the IEEE rounding of the source's float
    sums is not modelled.  [Math.round(e / 10 * q)] is exact on integers
    (see [CartUi]), and so is [toFixed(2)] on a whole number of cents.
    Strings are Rocq [string]s: every id and key the code
    builds is ASCII, and the default [Array.prototype.sort] order on such
    strings is [String.leb].  Every loop of the code is a [map],
    [filter], [find], [sort] or [reduce] over a finite array, modelled by
    structural recursion.  The only fuel is that of [Session.deliver]:
    it bounds the number of storage events delivered after one action.
    A handler fires an event only when it changes a key, and the
    write-backs a delivered event causes store values equal to the
    stored ones, so delivery ends after a few events; the scenario
    theorem uses 20 and proves that the run finishes within it (a run
    out of fuel makes the theorem false).  For cart operations in a
    world at rest, [Quiescence] proves that one unit is enough.  Timers
    ([setTimeout]) are pending events counted in the state (the
    animation's 9 s timer, the eco planner's 300 ms reset, the voice
    widget's 800 ms [finally]).  [Math.random()] in [LeafFall] is the
    stream of its draws, rationals in [[0, 1)]; the times it yields are
    in seconds, as the style strings print them.

    ** Not modelled

    Rendering (JSX and styling), toasts other than as returned notices,
    the generative model behind the AI flows (its answer is an argument;
    the prompts it receives are modelled, assuming dotprompt's
    [noEscape], which leaves the catalogue's names unchanged in any
    case since they hold no HTML-special character), JSON text (payloads are typed values; a payload of the wrong
    kind plays the role of a parse failure), the [uuid] generator (a
    fresh id is an argument), the camera, clipboard and speech APIs
    (their results are arguments), the browser's e-mail validation (an
    argument), text to speech (its failure is caught and ignored), the
    [globals.css] keyframes of the leaves (not among the sources), and the
    [ChatProvider], [AnimationProvider] and voice widget inside the
    two-tab [Session] model (they are modelled for one tab in [Chat],
    [Animation] and [VoiceAssistant]).  The rest of the sources that has no
    definition is markup or plumbing: the [import] lines, skeleton
    placeholders ([AuthFormSkeleton], [ChatPageSkeleton]), headings and
    static text, the chat window's scroll-to-bottom effect (a DOM call),
    the [useToast] and [useRouter] calls (their effects are the returned
    notices and routes), and the [console] logging.  Zod's [.describe]
    texts and the voice command's output schema (enum, number, optional
    fields, with no numbers among the JSON values here) are not in
    [FlowSchemas]; that answer is the record [CartUi.Voice.Command]. *)

From stdpp Require Import base list strings.
From Stdlib Require Import ZArith String Bool List Lia.
Import ListNotations.

Declare Scope sc_scope.
Delimit Scope sc_scope with sc.

(** The code compares ids with [===]; on strings this is [String.eqb]. *)
Notation "a === b" := (String.eqb a b) (at level 70, no associativity) : sc_scope.
Notation "a !== b" := (negb (String.eqb a b)) (at level 70, no associativity) : sc_scope.

Open Scope sc_scope.

Create HintDb sc.
Create Rewrite HintDb sc_rw.

(** [Array.prototype.includes] on arrays of strings. *)
Definition includes (l : list string) (x : string) : bool := existsb (fun y => y === x) l.

(** [l.reduce((acc, x) => acc + f(x), 0)] *)
Definition sumZ {A} (f : A -> Z) (l : list A) : Z := fold_left (fun acc x => (acc + f x)%Z) l 0%Z.

(** A line break and a double quote, for the texts the code prints. *)
Definition nl : string := String (Ascii.ascii_of_nat 10) EmptyString.
Definition dq : string := String (Ascii.ascii_of_nat 34) EmptyString.

(** [s.charAt(0)]: the first character, or [""] for the empty string
    (the avatar fallbacks). *)
Definition charAt0 (s : string) : string :=
  match s with EmptyString => "" | String c _ => String c EmptyString end.

(** What a call yields: a value, or the message of the [Error] it
    throws. *)
Inductive Result (A : Type) := Success (a : A) | Failure (msg : string).
Arguments Success {A} a.
Arguments Failure {A} msg.

(** The next statement runs only when the previous one did not throw. *)
Definition rbind {A B} (r : Result A) (f : A -> Result B) : Result B :=
  match r with Success a => f a | Failure m => Failure m end.

(** ** Strings *)

Lemma streqb_refl (s : string) : (s === s) = true.
Proof. apply String.eqb_refl. Qed.

Lemma streqb_sym (a b : string) : (a === b) = (b === a).
Proof. apply String.eqb_sym. Qed.

Lemma streqb_true (a b : string) : (a === b) = true <-> a = b.
Proof. apply String.eqb_eq. Qed.

Lemma streqb_false (a b : string) : a <> b -> (a === b) = false.
Proof. apply String.eqb_neq. Qed.

#[export] Hint Rewrite streqb_refl : sc_rw.
#[export] Hint Resolve streqb_refl streqb_false : sc.

(** Case on every [a === b] of the goal, substituting on equality. *)
Ltac streq_cases :=
  repeat match goal with
  | |- context [String.eqb ?a ?b] =>
      destruct (String.eqb_spec a b); try subst a; try subst b
  | H : context [String.eqb ?a ?b] |- _ =>
      destruct (String.eqb_spec a b); try subst a; try subst b
  end.

(** stdpp makes [String.append] opaque to [simpl]; unfold one step by
    conversion. *)
Lemma string_app_cons (x : Ascii.ascii) (a b : string) : String x a +:+ b = String x (a +:+ b).
Proof. reflexivity. Qed.

Lemma string_app_nil_l (a : string) : "" +:+ a = a.
Proof. reflexivity. Qed.

Lemma string_app_assoc (a b c : string) : (a +:+ b) +:+ c = a +:+ (b +:+ c).
Proof. induction a as [|x a IH]; [done | by rewrite !string_app_cons, IH]. Qed.

Lemma string_app_nil_r (a : string) : a +:+ "" = a.
Proof. induction a as [|x a IH]; [done | by rewrite string_app_cons, IH]. Qed.

(** Two keys built on the same prefix are equal exactly when the
    suffixes are. *)
Lemma string_prefix_inj (p a b : string) : p +:+ a = p +:+ b <-> a = b.
Proof. split; [apply (inj (String.append p)) | by intros ->]. Qed.

Lemma string_length_app (a b : string) :
  String.length (a +:+ b) = String.length a + String.length b.
Proof. induction a as [|x a IH]; [done | rewrite string_app_cons; simpl; lia]. Qed.

(** ** Lists: [Array.prototype.find], [some], [filter], [map] *)

Section ListLemmas.
Context {A : Type}.
Implicit Types (p q : A -> bool) (l : list A) (f : A -> A).

Lemma find_none_iff p l : List.find p l = None <-> (forall x, In x l -> p x = false).
Proof.
  split; [apply find_none |].
  induction l as [|y l IH]; intros H; simpl; [done |].
  rewrite (H y (or_introl eq_refl)). apply IH. intros x Hx. apply H. by right.
Qed.

Lemma find_some_in p l x : List.find p l = Some x -> In x l /\ p x = true.
Proof. apply find_some. Qed.

Lemma existsb_find p l : existsb p l = true <-> exists x, List.find p l = Some x.
Proof.
  induction l as [|y l IH]; simpl; [split; [done | by intros []] |].
  destruct (p y); simpl; [split; eauto |]. done.
Qed.

Lemma existsb_false_find p l : existsb p l = false <-> List.find p l = None.
Proof.
  induction l as [|y l IH]; simpl; [done |].
  destruct (p y); simpl; [split; discriminate | done].
Qed.

Lemma find_app_none p l1 l2 :
  List.find p l1 = None -> List.find p (l1 ++ l2) = List.find p l2.
Proof. induction l1 as [|y l1 IH]; simpl; [done |]. destruct (p y); [discriminate | done]. Qed.

(** [find] after a [map] that changes no element the predicate
    rejects into one it accepts. *)
Lemma find_map_same p f l :
  (forall x, In x l -> f x = x) -> List.find p (map f l) = List.find p l.
Proof. intros H. rewrite (map_ext_in f (fun x => x)); [by rewrite map_id | done]. Qed.

Lemma map_id_in f l : (forall x, In x l -> f x = x) -> map f l = l.
Proof. intros H. rewrite (map_ext_in f (fun x => x)); [apply map_id | done]. Qed.

Lemma filter_id_in p l : (forall x, In x l -> p x = true) -> filter p l = l.
Proof.
  induction l as [|y l IH]; intros H; simpl; [done |].
  rewrite (H y (or_introl eq_refl)), IH; [done |]. intros x Hx. apply H. by right.
Qed.

Lemma filter_filter_same p l : filter p (filter p l) = filter p l.
Proof. apply filter_id_in. intros x Hx. by apply filter_In in Hx as [_ ?]. Qed.

Lemma in_app_or_middle l1 l2 (x y : A) : In y (l1 ++ l2) -> In y (l1 ++ x :: l2).
Proof. rewrite !in_app_iff. simpl. tauto. Qed.

Lemma In_filter_iff p l x : In x (filter p l) <-> In x l /\ p x = true.
Proof. apply filter_In. Qed.

(** Counting with [filter]: what the invariants on invitation lists
    and cart lines are stated with. *)
Lemma existsb_false_filter p l : existsb p l = false -> filter p l = [].
Proof.
  intros H. rewrite existsb_false_find, find_none_iff in H.
  induction l as [|y l IH]; simpl; [done |].
  rewrite (H y (or_introl eq_refl)). apply IH. intros x Hx. apply H. by right.
Qed.

Lemma length_filter_filter_le p q l :
  length (filter p (filter q l)) <= length (filter p l).
Proof. induction l as [|y l IH]; simpl; [lia |]. destruct (q y); simpl; destruct (p y); simpl; lia. Qed.

(** A [map] that never turns a rejected element into an accepted one
    does not increase the count. *)
Lemma length_filter_map_le p f l :
  (forall x, In x l -> p (f x) = true -> p x = true) ->
  length (filter p (map f l)) <= length (filter p l).
Proof.
  induction l as [|y l IH]; intros H; simpl; [lia |].
  assert (IH' : length (filter p (map f l)) <= length (filter p l))
    by (apply IH; intros x Hx; apply H; by right).
  destruct (p (f y)) eqn:E1.
  - rewrite (H y (or_introl eq_refl) E1). simpl. lia.
  - destruct (p y); simpl; lia.
Qed.

Lemma find_filter_none p q l : List.find p l = None -> List.find p (filter q l) = None.
Proof.
  rewrite !find_none_iff. intros H x Hx. apply filter_In in Hx as [Hx _]. by apply H.
Qed.

Lemma find_filter_implied p q l :
  (forall x, p x = true -> q x = true) -> List.find p (filter q l) = List.find p l.
Proof.
  intros H. induction l as [| x l IH]; [done |]. simpl.
  destruct (q x) eqn:Eq, (p x) eqn:Ep; simpl; rewrite ?Ep; try done.
  by rewrite (H x Ep) in Eq.
Qed.

Lemma find_filter_keep p q l x :
  List.find p l = Some x -> q x = true ->
  (forall y, In y l -> p y = true -> q y = false -> False) ->
  List.find p (filter q l) = Some x.
Proof.
  induction l as [|y l IH]; simpl; [done |]. intros Hf Hq Hall.
  destruct (p y) eqn:Ep.
  - injection Hf as <-. by rewrite Hq; simpl; rewrite Ep.
  - destruct (q y) eqn:Eq; simpl; [rewrite Ep |]; apply IH; eauto.
Qed.
End ListLemmas.

#[export] Hint Resolve length_filter_filter_le filter_length_le : sc.

(** ** Keyed lists: arrays of records with an [id] *)

Section Keyed.
Context {A : Type} (key : A -> string).
Implicit Types (l : list A).

Lemma NoDup_map_filter (p : A -> bool) l :
  NoDup (map key l) -> NoDup (map key (filter p l)).
Proof.
  induction l as [|x l IH]; simpl; [done |]. intros Hnd. inversion Hnd as [|? ? Hx Hnd']; subst.
  destruct (p x); simpl; [| by apply IH]. constructor; [| by apply IH].
  intros Hin. apply Hx. apply in_map_iff in Hin as (y & <- & Hy). apply filter_In in Hy as [Hy _].
  by apply in_map.
Qed.

Lemma map_key_map (g : A -> A) l :
  (forall x, key (g x) = key x) -> map key (map g l) = map key l.
Proof. intros H. rewrite map_map. apply map_ext. apply H. Qed.

(** With unique keys, the element a [find] on the key returns splits the
    list, and no other element has that key. *)
Lemma split_unique_key k l x :
  NoDup (map key l) -> List.find (fun y => key y === k) l = Some x ->
  exists l1 l2, l = l1 ++ x :: l2 /\ key x = k /\
                (forall y, In y (l1 ++ l2) -> (key y === k) = false).
Proof.
  intros Hnd Hf. apply find_some in Hf as [Hin Hk]. apply streqb_true in Hk.
  apply in_split in Hin as (l1 & l2 & ->). exists l1, l2. split; [done | split; [done |]].
  intros y Hy. apply streqb_false. intros Hyk. subst k.
  rewrite map_app in Hnd. simpl in Hnd. apply NoDup_remove_2 in Hnd. apply Hnd.
  rewrite <- map_app. rewrite <- Hyk. by apply in_map.
Qed.

Lemma map_update_split (g : A -> A) k l1 x l2 :
  (forall y, In y (l1 ++ l2) -> (key y === k) = false) -> key x = k ->
  map (fun y => if key y === k then g y else y) (l1 ++ x :: l2) = l1 ++ g x :: l2.
Proof.
  intros Hout Hx. rewrite map_app. simpl. rewrite Hx, streqb_refl.
  rewrite !map_id_in; [done | |]; intros y Hy; rewrite Hout; auto using in_or_app.
Qed.
End Keyed.

Lemma includes_true l x : includes l x = true <-> In x l.
Proof.
  unfold includes. rewrite existsb_exists. split.
  - intros (y & Hy & Hx). apply streqb_true in Hx. by subst.
  - intros Hx. exists x. by rewrite streqb_refl.
Qed.

Lemma includes_false l x : includes l x = false <-> ~ In x l.
Proof. rewrite <- includes_true. destruct (includes l x); split; done. Qed.

#[export] Hint Resolve find_some_in : sc.
#[export] Hint Rewrite @filter_filter_same : sc_rw.

(** ** Options *)

Lemma option_map_some {A B} (f : A -> B) (o : option A) (b : B) :
  option_map f o = Some b <-> exists a, o = Some a /\ f a = b.
Proof. destruct o; simpl; split; [intros [= <-]; eauto | by intros (? & [= ->] & <-) | done | by intros (? & ? & _)]. Qed.

(** ** Integers: the sums the code computes with [reduce] *)

Lemma sumZ_acc {A} (f : A -> Z) (l : list A) (z : Z) :
  fold_left (fun acc x => (acc + f x)%Z) l z = (z + sumZ f l)%Z.
Proof.
  unfold sumZ. revert z. induction l as [|x l IH]; intros z; simpl; [lia |].
  rewrite (IH (z + f x)%Z), (IH (0 + f x)%Z). lia.
Qed.

Lemma sumZ_nil {A} (f : A -> Z) : sumZ f [] = 0%Z.
Proof. done. Qed.

Lemma sumZ_cons {A} (f : A -> Z) x l : sumZ f (x :: l) = (f x + sumZ f l)%Z.
Proof. unfold sumZ at 1. simpl. rewrite sumZ_acc. lia. Qed.

Lemma sumZ_app {A} (f : A -> Z) l1 l2 : sumZ f (l1 ++ l2) = (sumZ f l1 + sumZ f l2)%Z.
Proof. induction l1 as [|x l1 IH]; simpl; rewrite ?sumZ_cons; [done | rewrite IH; lia]. Qed.

#[export] Hint Rewrite @sumZ_nil @sumZ_cons @sumZ_app : sc_rw.

Lemma sumZ_ext_in {A} (f g : A -> Z) l :
  (forall x, In x l -> f x = g x) -> sumZ f l = sumZ g l.
Proof.
  induction l as [|x l IH]; intros H; [done |]. rewrite !sumZ_cons, (H x (or_introl eq_refl)), IH; [done |].
  intros y Hy. apply H. by right.
Qed.

Lemma sumZ_add {A} (f g : A -> Z) l : sumZ (fun x => f x + g x)%Z l = (sumZ f l + sumZ g l)%Z.
Proof. induction l as [|x l IH]; [done |]. rewrite !sumZ_cons, IH. lia. Qed.

Lemma sumZ_map {A B} (f : B -> Z) (g : A -> B) l : sumZ f (map g l) = sumZ (fun x => f (g x)) l.
Proof. induction l as [|x l IH]; [done |]. simpl. by rewrite !sumZ_cons, IH. Qed.

Lemma sumZ_zero {A} (l : list A) : sumZ (fun _ => 0%Z) l = 0%Z.
Proof. induction l as [|x l IH]; [done |]. rewrite sumZ_cons, IH. lia. Qed.

(** Summing an indicator over a list with unique keys that contains the
    key. *)
Lemma sumZ_indicator {A} (key : A -> string) (k : string) (a : Z) l :
  NoDup (map key l) -> In k (map key l) -> sumZ (fun x => if key x === k then a else 0)%Z l = a.
Proof.
  induction l as [|x l IH]; intros Hnd Hin; [done |]. simpl in Hnd, Hin. rewrite sumZ_cons.
  inversion Hnd as [| ? ? Hx Hnd']; subst.
  destruct (String.eqb_spec (key x) k) as [<- | Hne].
  - rewrite (sumZ_ext_in _ (fun _ => 0%Z)); [rewrite sumZ_zero; lia |].
    intros y Hy. rewrite streqb_false; [done |]. intros He. apply Hx. rewrite <- He. by apply in_map.
  - destruct Hin as [Heq | Hin]; [congruence |]. rewrite IH; [lia | done | done].
Qed.

Lemma NoDup_map_inj_in {A} (key : A -> string) l x y :
  NoDup (map key l) -> In x l -> In y l -> key x = key y -> x = y.
Proof.
  induction l as [|z l IH]; intros Hnd Hx Hy Hk; [done |]. simpl in Hnd. inversion Hnd as [| ? ? Hz Hnd']; subst.
  destruct Hx as [<- | Hx], Hy as [<- | Hy]; try done.
  - exfalso. apply Hz. rewrite Hk. by apply in_map.
  - exfalso. apply Hz. rewrite <- Hk. by apply in_map.
  - by apply IH.
Qed.
