(* ===== verification/Providers.v ===== *)
(** * Providers: the provider tree of [app/layout.tsx] and the context hooks.

    Each context file ends with its hook ([useAuth], [usePairChat],
    [useCart], [useChat], [useAnimation]): [useContext] yields the value
    of the nearest provider above the caller, or [undefined] without one,
    and the hook then throws "useX must be used within an XProvider".
    Providers read contexts too: [PairChatProvider] and [ChatProvider]
    call [useAuth], [CartProvider] calls [useAuth] then [usePairChat].

    A [Node] is a component with the hooks its body calls, in order, the
    context it provides to its children, if any, and the children it
    renders.  [render above n] renders [n] under the providers [above]:
    the first hook call that finds no provider throws, and an error
    thrown anywhere aborts the whole render (the layout has no error
    boundary), so the result is the first error in render order.  A
    component that renders a child only on a condition ([GlobalPairChat]
    its [ChatInterface], [AnimationProvider] its [LeafFall]) is given the
    child: the theorems hold for every render, so they hold for the one
    where the child is shown.  [RootLayout page] is the layout around the
    page of the route. *)

From stdpp Require Import base list strings.
From Stdlib Require Import String List.
From S2P Require Import Prelude.
Import ListNotations.

Module Providers.

Inductive Ctx := AuthCtx | PairChatCtx | CartCtx | ChatCtx | AnimationCtx.

#[global] Instance Ctx_eq_dec : EqDecision Ctx.
Proof. solve_decision. Defined.

(** [useContext(XContext)] under the providers [above]: the provider's
    value, or [undefined], on which the hook throws [msg]. *)
Definition useContextOr (c : Ctx) (above : list Ctx) (msg : string) : Result unit :=
  if decide (c ∈ above) then Success tt else Failure msg.

Definition useAuth (above : list Ctx) : Result unit :=
  useContextOr AuthCtx above "useAuth must be used within an AuthProvider".
Definition usePairChat (above : list Ctx) : Result unit :=
  useContextOr PairChatCtx above "usePairChat must be used within a PairChatProvider".
Definition useCart (above : list Ctx) : Result unit :=
  useContextOr CartCtx above "useCart must be used within a CartProvider".
Definition useChat (above : list Ctx) : Result unit :=
  useContextOr ChatCtx above "useChat must be used within a ChatProvider".
Definition useAnimation (above : list Ctx) : Result unit :=
  useContextOr AnimationCtx above "useAnimation must be used within an AnimationProvider".

(** The hook that reads context [c]. *)
Definition useCtx (above : list Ctx) (c : Ctx) : Result unit :=
  match c with
  | AuthCtx => useAuth above
  | PairChatCtx => usePairChat above
  | CartCtx => useCart above
  | ChatCtx => useChat above
  | AnimationCtx => useAnimation above
  end.

(** A component's hook calls, in order: the first failing one throws. *)
Fixpoint useAll (above : list Ctx) (hs : list Ctx) : Result unit :=
  match hs with
  | [] => Success tt
  | h :: hs' => rbind (useCtx above h) (fun _ => useAll above hs')
  end.

#[warnings="-register-all"]
Inductive Node := El (name : string) (hooks : list Ctx) (provides : option Ctx) (children : list Node).

Definition under (p : option Ctx) (above : list Ctx) : list Ctx :=
  match p with Some c => c :: above | None => above end.

Fixpoint render (above : list Ctx) (n : Node) : Result unit :=
  match n with
  | El _ hs p cs =>
      rbind (useAll above hs) (fun _ =>
        (fix go (cs : list Node) : Result unit :=
           match cs with
           | [] => Success tt
           | c :: cs' => rbind (render (under p above) c) (fun _ => go cs')
           end) cs)
  end.

(** The children of one component, rendered in order. *)
Fixpoint renderAll (above : list Ctx) (cs : list Node) : Result unit :=
  match cs with
  | [] => Success tt
  | c :: cs' => rbind (render above c) (fun _ => renderAll above cs')
  end.

(** A provider component: its name, the hooks its body calls, the
    context it provides, and what it renders after its children. *)
Record Provider := mkProvider { pname : string; phooks : list Ctx; pctx : Ctx; pextra : list Node }.

Definition wrap (p : Provider) (cs : list Node) : Node :=
  El (pname p) (phooks p) (Some (pctx p)) (cs ++ pextra p).

(** Providers nested, the first outermost, around [body]. *)
Fixpoint nest (ps : list Provider) (body : list Node) : list Node :=
  match ps with
  | [] => body
  | p :: ps' => [wrap p (nest ps' body)]
  end.

(** The providers' own hook calls, outermost first: the contexts the body
    gets, or the first error. *)
Fixpoint providersRender (above : list Ctx) (ps : list Provider) : Result (list Ctx) :=
  match ps with
  | [] => Success above
  | p :: ps' => rbind (useAll above (phooks p)) (fun _ => providersRender (pctx p :: above) ps')
  end.

(** The five providers, with the hooks their bodies call. *)
Definition authProvider : Provider := mkProvider "AuthProvider" [] AuthCtx [].
Definition pairChatProvider : Provider := mkProvider "PairChatProvider" [AuthCtx] PairChatCtx [].
Definition cartProvider : Provider := mkProvider "CartProvider" [AuthCtx; PairChatCtx] CartCtx [].
Definition chatProvider : Provider := mkProvider "ChatProvider" [AuthCtx] ChatCtx [].
Definition animationProvider : Provider :=
  mkProvider "AnimationProvider" [] AnimationCtx [El "LeafFall" [] None []].

(** The components of the layout and the hooks they call. *)
Definition VoiceAssistant : Node := El "VoiceAssistant" [CartCtx; AuthCtx] None [].
Definition Header : Node := El "Header" [CartCtx; AuthCtx] None [VoiceAssistant; VoiceAssistant].
Definition Footer : Node := El "Footer" [] None [].
Definition MainLayoutWrapper (children : list Node) : Node :=
  El "MainLayoutWrapper" [PairChatCtx] None ([Header] ++ children ++ [Footer]).
Definition ChatInterface : Node := El "ChatInterface" [PairChatCtx; AuthCtx; ChatCtx] None [].
Definition GlobalPairChat : Node := El "GlobalPairChat" [PairChatCtx] None [ChatInterface].
Definition Toaster : Node := El "Toaster" [] None [].

Definition layoutProviders : list Provider :=
  [authProvider; pairChatProvider; cartProvider; chatProvider; animationProvider].

Definition layoutBody (page : Node) : list Node := [MainLayoutWrapper [page]; GlobalPairChat; Toaster].

(** [RootLayout]: the page of the route inside the providers. *)
Definition RootLayout (page : Node) : Node := El "RootLayout" [] None (nest layoutProviders (layoutBody page)).

(** ** Lemmas *)

(** Induction on nodes, with the hypothesis on every child. *)
Section Node_ind'.
Variable P : Node -> Prop.
Hypothesis P_El : forall name hs p cs, Forall P cs -> P (El name hs p cs).

Fixpoint Node_ind' (n : Node) : P n :=
  match n with
  | El name hs p cs =>
      P_El name hs p cs
        ((fix go (cs : list Node) : Forall P cs :=
            match cs with
            | [] => Forall_nil P
            | c :: cs' => Forall_cons P c cs' (Node_ind' c) (go cs')
            end) cs)
  end.
End Node_ind'.

Lemma render_El above name hs p cs :
  render above (El name hs p cs) = rbind (useAll above hs) (fun _ => renderAll (under p above) cs).
Proof.
  simpl. destruct (useAll above hs); simpl; [| done].
  induction cs as [| c cs IH]; simpl; [done |]. destruct (render (under p above) c); simpl; [exact IH | done].
Qed.

Lemma renderAll_app above cs1 cs2 :
  renderAll above (cs1 ++ cs2) = rbind (renderAll above cs1) (fun _ => renderAll above cs2).
Proof.
  induction cs1 as [| c cs1 IH]; simpl; [done |].
  destruct (render above c); simpl; [exact IH | done].
Qed.

Lemma useAll_all above hs : Forall (fun h => h ∈ above) hs -> useAll above hs = Success tt.
Proof.
  induction 1 as [| h hs Hh _ IH]; [done |]. simpl.
  assert (Hu : useCtx above h = Success tt)
    by (destruct h; cbv [useCtx useAuth usePairChat useCart useChat useAnimation useContextOr]; by rewrite decide_True).
  by rewrite Hu.
Qed.

Lemma under_all p above : (forall c, c ∈ above) -> forall c, c ∈ under p above.
Proof. intros H c. destruct p; simpl; [apply elem_of_cons; right |]; apply H. Qed.

(** Under all five providers, any component renders. *)
Lemma render_full above n : (forall c, c ∈ above) -> render above n = Success tt.
Proof.
  revert above. induction n as [name hs p cs IH] using Node_ind'. intros above Hall.
  rewrite render_El, useAll_all by (apply Forall_forall; intros; apply Hall). simpl.
  pose proof (under_all p above Hall) as Hu. generalize dependent (under p above).
  induction IH as [| c cs Hc _ IHcs]; intros above' Hu; [done |].
  simpl. rewrite (Hc above' Hu). simpl. by apply IHcs.
Qed.

Lemma renderAll_full above cs : (forall c, c ∈ above) -> renderAll above cs = Success tt.
Proof. intros H. induction cs as [| c cs IH]; simpl; [done |]. rewrite (render_full above c H). exact IH. Qed.

(** The nest renders as its providers' hook calls, then the body under
    the contexts they provide, provided what the providers render after
    their children calls no hook. *)
Lemma renderAll_nest above ps body :
  Forall (fun p => forall above', renderAll above' (pextra p) = Success tt) ps ->
  renderAll above (nest ps body) = rbind (providersRender above ps) (fun above' => renderAll above' body).
Proof.
  intros Hx. revert above. induction Hx as [| p ps Hp _ IH]; intros above; [done |].
  cbn [nest renderAll providersRender]. unfold wrap. rewrite render_El.
  destruct (useAll above (phooks p)); cbn [rbind providersRender under]; [| done].
  rewrite renderAll_app, IH. destruct (providersRender (pctx p :: above) ps); cbn [rbind]; [| done].
  destruct (renderAll a0 body) as [[] |]; cbn [rbind]; [by rewrite Hp | done].
Qed.

Lemma providersRender_ctx above ps above' :
  providersRender above ps = Success above' -> above' = rev (map pctx ps) ++ above.
Proof.
  revert above. induction ps as [| p ps IH]; simpl; intros above H; [by injection H |].
  destruct (useAll above (phooks p)); simpl in H; [| done].
  rewrite (IH _ H), <- app_assoc. done.
Qed.

Lemma extras_layout ps :
  Permutation ps layoutProviders -> Forall (fun p => forall above', renderAll above' (pextra p) = Success tt) ps.
Proof.
  intros Hp. apply Forall_forall. intros p Hin. apply (Permutation_in _ Hp) in Hin.
  repeat destruct Hin as [<- | Hin]; intros; done.
Qed.

Lemma layout_ctx_all ps : Permutation ps layoutProviders -> forall c, c ∈ rev (map pctx ps) ++ [].
Proof.
  intros Hp c. rewrite app_nil_r. apply list_elem_of_In. rewrite <- in_rev.
  apply (Permutation_in _ (Permutation_map pctx (Permutation_sym Hp))).
  destruct c; simpl; tauto.
Qed.

(** Under any order of the five providers the body of the layout finds
    every context, so the layout renders exactly when the providers' own
    hooks do. *)
Lemma renderAll_layout_perm ps page :
  Permutation ps layoutProviders ->
  renderAll [] (nest ps (layoutBody page)) =
    rbind (providersRender [] ps) (fun _ => Success tt).
Proof.
  intros Hp. rewrite renderAll_nest by (by apply extras_layout).
  destruct (providersRender [] ps) as [above' |] eqn:E; cbn [rbind]; [| done].
  apply providersRender_ctx in E as ->. by apply renderAll_full, layout_ctx_all.
Qed.

(** ** Theorems *)

(** C22: No hook of the app throws under [RootLayout]: whatever the page of
    the route and whatever it calls, it renders, and so do the header,
    the voice assistant, the pair-chat overlay and the leaves. *)
Theorem root_layout_renders page : render [] (RootLayout page) = Success tt.
Proof.
  unfold RootLayout. rewrite render_El. cbn [useAll rbind under].
  rewrite renderAll_nest by (by apply extras_layout). vm_compute providersRender.
  cbn [rbind]. by apply renderAll_full, (layout_ctx_all layoutProviders).
Qed.

(** Moving [CartProvider] outside [PairChatProvider] breaks every page:
    [CartProvider]'s [usePairChat()] finds no provider and throws. *)
Theorem cart_outside_pairchat_throws page :
  renderAll [] (nest [authProvider; cartProvider; pairChatProvider; chatProvider; animationProvider] (layoutBody page)) =
    Failure "usePairChat must be used within a PairChatProvider".
Proof. rewrite renderAll_layout_perm by (unfold layoutProviders; by apply perm_skip, perm_swap). reflexivity. Qed.

End Providers.
