(* ===== verification/Types.v ===== *)
(** * Types: the records of [lib/types.ts], the invitation record of
    [contexts/PairChatContext.tsx] and the seed data of [lib/mockData.ts].

    Each TypeScript interface is a Module holding a Record [t] whose
    fields carry the interface's field names; [Product.price] is in
    cents.  Optional fields are [option]s.  Every record has decidable
    equality, which [Storage] needs to tell whether a write changes the
    stored value. *)

From stdpp Require Import base list strings.
From Stdlib Require Import ZArith String List.
From S2P Require Import Prelude.
Import ListNotations.
Local Open Scope string_scope.
Local Open Scope list_scope.
Local Open Scope Z_scope.

Module Review.
Record t := mk {
  id : string;
  author : string;
  rating : Z;
  comment : string;
  date : string;
}.
#[global] Instance eq_dec : EqDecision t.
Proof. solve_decision. Defined.
End Review.

Module Product.
Record t := mk {
  id : string;
  name : string;
  description : string;
  price : Z;
  images : list string;
  category : string;
  stock : Z;
  reviews : option (list Review.t);
  ecoFriendliness : Z;
  imageHint : string;
}.
#[global] Instance eq_dec : EqDecision t.
Proof. solve_decision. Defined.
End Product.

(** [interface CartItemType extends Product { quantity: number }]: the
    product's fields and the quantity. *)
Module CartItemType.
Record t := mk {
  product : Product.t;
  quantity : Z;
}.
Definition id (c : t) : string := Product.id (product c).
Definition price (c : t) : Z := Product.price (product c).
Definition stock (c : t) : Z := Product.stock (product c).
Definition name (c : t) : string := Product.name (product c).
#[global] Instance eq_dec : EqDecision t.
Proof. solve_decision. Defined.
End CartItemType.

Module UserProfile.
Record t := mk {
  id : string;
  username : string;
  name : string;
  bio : string;
  avatarUrl : string;
  followers : Z;
  following : Z;
  favorites : list string;
  wishlist : list string;
  followingIds : list string;
  ecoPoints : Z;
  isOnline : bool;
}.
#[global] Instance eq_dec : EqDecision t.
Proof. solve_decision. Defined.
End UserProfile.

Module ChatMessage.
Record t := mk {
  senderId : string;
  text : string;
}.
#[global] Instance eq_dec : EqDecision t.
Proof. solve_decision. Defined.
End ChatMessage.

Module PairChatInvitation.
Inductive Status := pending | accepted | declined.
#[global] Instance Status_eq_dec : EqDecision Status.
Proof. solve_decision. Defined.

Record t := mk {
  id : string;
  from : UserProfile.t;
  to : UserProfile.t;
  status : Status;
}.
#[global] Instance eq_dec : EqDecision t.
Proof. solve_decision. Defined.

Definition is_pending (inv : t) : bool :=
  match status inv with pending => true | _ => false end.
Definition is_accepted (inv : t) : bool :=
  match status inv with accepted => true | _ => false end.
End PairChatInvitation.

(** ** Seed data *)

Definition mockProducts : list Product.t := [
  Product.mk "1" "Wireless Noise-Cancelling Headphones"
    "Experience immersive sound with these comfortable, long-lasting wireless headphones. Featuring active noise-cancellation and a sleek design."
    19999 ["/images/wireless-headphones.png"] "Electronics" 50
    (Some [Review.mk "r1" "Jane D." 5 "Amazing sound quality and very comfortable!" "2023-05-10";
           Review.mk "r2" "John S." 4 "Great headphones, but they came in a huge box with lots of non-recyclable plastic packaging." "2023-05-15"])
    40 "wireless headphones";
  Product.mk "2" "Smart Fitness Tracker Watch"
    "Track your workouts, monitor your health, and stay connected with this stylish smart fitness tracker. Water-resistant and with multiple sport modes."
    8950 ["/images/fitness-tracker.png"] "Wearables" 120
    (Some [Review.mk "r3" "Alice B." 5 "Love it! Tracks my sleep and workouts perfectly." "2023-06-01"])
    65 "fitness tracker";
  Product.mk "3" "Organic Cotton T-Shirt"
    "Soft, breathable, and eco-friendly. This organic cotton t-shirt is a wardrobe staple available in various colors."
    2500 ["/images/cotton-t-shirt.png"] "Apparel" 200 None 95 "cotton t-shirt";
  Product.mk "4" "Portable Bluetooth Speaker"
    "Take your music anywhere with this compact and powerful Bluetooth speaker. Features a long battery life and rugged, water-resistant design."
    5999 ["/images/bluetooth-speaker.png"] "Electronics" 75
    (Some [Review.mk "r4" "Mike C." 4 "Good sound for its size, very portable." "2023-04-20"])
    50 "bluetooth speaker";
  Product.mk "5" "Stainless Steel Water Bottle"
    "Stay hydrated with this durable, double-walled insulated water bottle. Keeps drinks cold for 24 hours or hot for 12 hours."
    2295 ["/images/steel-bottle.png"] "Home & Kitchen" 150
    (Some [Review.mk "r5" "EcoWarrior22" 5 "This is my third purchase, I bought them for my whole family! So durable and helps us avoid plastic bottles." "2023-07-12";
           Review.mk "r6" "Chris P." 5 "It feels really solid and has already survived a few drops. I expect this to last for years." "2023-08-01"])
    90 "steel bottle";
  Product.mk "6" "Yoga Mat with Carrying Strap"
    "High-density, non-slip yoga mat for all types of yoga and exercise. Includes a convenient carrying strap."
    3500 ["/images/yoga-mat.png"] "Sports & Outdoors" 90 None 80 "yoga mat";
  Product.mk "7" "Reusable Beeswax Food Wraps"
    "A sustainable alternative to plastic wrap. Keep your food fresh with these natural, reusable, and biodegradable wraps."
    1850 ["/images/food-wraps.png"] "Home & Kitchen" 110 None 98 "food wraps";
  Product.mk "8" "Bamboo Cutlery Set"
    "Ditch single-use plastic with this lightweight and durable bamboo cutlery set. Perfect for travel, work, or picnics. Comes in a handy travel pouch."
    1599 ["/images/bamboo-cutlery.png"] "Home & Kitchen" 130 None 92 "bamboo cutlery";
  Product.mk "9" "Solar-Powered Phone Charger"
    "Harness the power of the sun to charge your devices on the go. This portable solar charger is perfect for camping, hiking, and emergencies."
    4500 ["/images/solar-charger.png"] "Electronics" 60 None 75 "solar charger";
  Product.mk "10" "Recycled Paper Notebook"
    "Jot down your thoughts in this stylish notebook made from 100% recycled paper. A perfect gift for the eco-conscious writer or artist."
    1200 ["/images/recycled-notebook.png"] "Office" 180 None 90 "recycled notebook"
].

Definition getProductById (id : string) : option Product.t :=
  List.find (fun product => Product.id product === id) mockProducts.

Definition mockUsers : list UserProfile.t := [
  UserProfile.mk "u1" "janedoe" "Jane Doe"
    "Fashion lover & tech enthusiast. Finding the best products so you don't have to."
    "/images/fitness-tracker.png" 1258 0 ["1"; "4"] ["2"; "6"] [] 150 true;
  UserProfile.mk "u2" "johnsmith" "John Smith"
    "Gadget reviewer and outdoor adventurer."
    "/images/fitness-tracker.png" 876 0 ["2"; "4"; "5"] ["1"] [] 80 false
].

(** The seed users, by position; the examples of the other files use
    them as the two participants. *)
Definition seedUser (n : nat) : UserProfile.t :=
  nth n mockUsers (UserProfile.mk "" "" "" "" "" 0 0 [] [] [] 0 false).

Definition seedProduct (n : nat) : Product.t :=
  nth n mockProducts (Product.mk "" "" "" 0 [] "" 0 None 0 "").
