(* ===== verification/Storage.v ===== *)
(** * Storage: the browser's [localStorage] shared by all tabs.

    A store maps key strings to payloads.  The code only ever stores the
    [JSON.stringify] of a handful of value shapes, so a payload is a
    tagged value of one of those shapes; reading a key that holds a value
    of another shape is the code's parse failure.  [setItem] and
    [removeItem] return the [storage] events they fire in the other tabs:
    none when the stored value does not change (the Web Storage rule that
    makes the code's write-back effects quiet). *)

From stdpp Require Import base list strings gmap.
From Stdlib Require Import ZArith String List.
From S2P Require Import Prelude Types.
Import ListNotations.
Local Open Scope string_scope.
Local Open Scope list_scope.

(** [{ path, initiatorId, timestamp }] written by [navigateShared]. *)
Module NavRecord.
Record t := mk { path : string; initiatorId : string; timestamp : Z }.
#[global] Instance eq_dec : EqDecision t.
Proof. solve_decision. Defined.
End NavRecord.

Inductive Payload :=
| PInvites (l : list PairChatInvitation.t)
| PCart (l : list CartItemType.t)
| PFavorites (l : list string)
| PNav (n : NavRecord.t)
| PChat (h : gmap string (list ChatMessage.t))
| PUser (u : UserProfile.t)
| PUsers (l : list UserProfile.t).

#[global] Instance Payload_eq_dec : EqDecision Payload.
Proof. solve_decision. Defined.

Abbreviation Store := (gmap string Payload).

(** A [StorageEvent]: the key and [newValue] ([None] after a removal). *)
Record StorageEvent := mkEvent { key : string; newValue : option Payload }.

Definition getItem (k : string) (st : Store) : option Payload := st !! k.

Definition setItem (k : string) (v : Payload) (st : Store) : Store * list StorageEvent :=
  if decide (st !! k = Some v) then (st, [])
  else (<[k := v]> st, [mkEvent k (Some v)]).

Definition removeItem (k : string) (st : Store) : Store * list StorageEvent :=
  match st !! k with
  | None => (st, [])
  | Some _ => (delete k st, [mkEvent k None])
  end.

(** ** Laws of the store *)

Lemma getItem_setItem_same k v st : getItem k (setItem k v st).1 = Some v.
Proof. unfold getItem, setItem. case_decide; simpl; [done | by rewrite lookup_insert_eq]. Qed.

Lemma getItem_setItem_other k k' v st :
  k <> k' -> getItem k' (setItem k v st).1 = getItem k' st.
Proof. intros Hne. unfold getItem, setItem. case_decide; simpl; [done | by rewrite lookup_insert_ne]. Qed.

Lemma getItem_removeItem_same k st : getItem k (removeItem k st).1 = None.
Proof. unfold getItem, removeItem. destruct (st !! k) eqn:E; simpl; [by rewrite lookup_delete_eq | done]. Qed.

Lemma getItem_removeItem_other k k' st :
  k <> k' -> getItem k' (removeItem k st).1 = getItem k' st.
Proof. intros Hne. unfold getItem, removeItem. destruct (st !! k); simpl; [by rewrite lookup_delete_ne | done]. Qed.

(** A write fires an event exactly when it changes the stored value. *)
Lemma setItem_events k v st :
  (setItem k v st).2 = if decide (getItem k st = Some v) then [] else [mkEvent k (Some v)].
Proof. unfold setItem, getItem. by case_decide. Qed.

Lemma setItem_unchanged k v st : getItem k st = Some v -> setItem k v st = (st, []).
Proof. unfold setItem, getItem. intros H. by rewrite decide_True. Qed.

#[export] Hint Rewrite getItem_setItem_same getItem_removeItem_same : sc_rw.
#[export] Hint Rewrite getItem_setItem_other getItem_removeItem_other using congruence : sc_rw.
