(* ===== verification/Auth.v ===== *)
(** * Auth: [contexts/AuthContext.tsx] in one tab.

    [State] is the pair of [useState]s [currentUser] and [users].  Every
    mutator updates the directory entry (by [map] over [users]) and the
    separate [currentUser] copy in the same way, which is what keeps the
    copy equal to its entry.  [signup] takes the [uuidv4()] of the code as
    [newId]; [updateUser] takes the [Partial] profile as a record of
    options ([Some v] for a key that is present).  JavaScript's
    truthiness of the new username ([""] is falsy) is kept. *)

From stdpp Require Import base list strings.
From Stdlib Require Import ZArith String List Bool Lia.
From S2P Require Import Prelude Types Storage.
Import ListNotations.
Local Open Scope string_scope.
Local Open Scope list_scope.

Module Auth.

Record State := mk {
  currentUser : option UserProfile.t;
  users : list UserProfile.t;
}.

Definition init : State := mk None mockUsers.

Abbreviation uid := UserProfile.id.

(** [{ ...user, followingIds, following }] *)
Definition with_following (ids : list string) (u : UserProfile.t) : UserProfile.t :=
  UserProfile.mk (uid u) (UserProfile.username u) (UserProfile.name u) (UserProfile.bio u)
    (UserProfile.avatarUrl u) (UserProfile.followers u) (Z.of_nat (length ids))
    (UserProfile.favorites u) (UserProfile.wishlist u) ids (UserProfile.ecoPoints u)
    (UserProfile.isOnline u).

(** [{ ...user, followers }] *)
Definition with_followers (n : Z) (u : UserProfile.t) : UserProfile.t :=
  UserProfile.mk (uid u) (UserProfile.username u) (UserProfile.name u) (UserProfile.bio u)
    (UserProfile.avatarUrl u) n (UserProfile.following u)
    (UserProfile.favorites u) (UserProfile.wishlist u) (UserProfile.followingIds u)
    (UserProfile.ecoPoints u) (UserProfile.isOnline u).

(** [{ ...user, ecoPoints }] *)
Definition with_ecoPoints (n : Z) (u : UserProfile.t) : UserProfile.t :=
  UserProfile.mk (uid u) (UserProfile.username u) (UserProfile.name u) (UserProfile.bio u)
    (UserProfile.avatarUrl u) (UserProfile.followers u) (UserProfile.following u)
    (UserProfile.favorites u) (UserProfile.wishlist u) (UserProfile.followingIds u)
    n (UserProfile.isOnline u).

(** [Partial<Pick<UserProfile, 'name' | 'username' | 'bio' | 'avatarUrl'>>] *)
Record ProfileUpdate := mkUpdate {
  upd_name : option string;
  upd_username : option string;
  upd_bio : option string;
  upd_avatarUrl : option string;
}.

(** [{ ...currentUser, ...updatedProfile }] *)
Definition merge (u : UserProfile.t) (p : ProfileUpdate) : UserProfile.t :=
  UserProfile.mk (uid u) (default (UserProfile.username u) (upd_username p))
    (default (UserProfile.name u) (upd_name p)) (default (UserProfile.bio u) (upd_bio p))
    (default (UserProfile.avatarUrl u) (upd_avatarUrl p)) (UserProfile.followers u)
    (UserProfile.following u) (UserProfile.favorites u) (UserProfile.wishlist u)
    (UserProfile.followingIds u) (UserProfile.ecoPoints u) (UserProfile.isOnline u).

Definition getUserByUsername (username : string) (s : State) : option UserProfile.t :=
  List.find (fun user => UserProfile.username user === username) (users s).

Definition login (username : string) (s : State) : State * bool :=
  match getUserByUsername username s with
  | Some user => (mk (Some user) (users s), true)
  | None => (s, false)
  end.

Definition signup (name username newId : string) (s : State) : State * bool :=
  match getUserByUsername username s with
  | Some _ => (s, false)
  | None =>
      let newUser := UserProfile.mk newId username name
                       "Just joined SocialCart! Ready to shop and connect."
                       "https://source.unsplash.com/150x150/?person" 0 0 [] [] [] 0 true in
      (mk (Some newUser) (users s ++ [newUser]), true)
  end.

Definition logout (s : State) : State := mk None (users s).

Definition isFollowing (userIdToFollow : string) (s : State) : bool :=
  match currentUser s with
  | Some cu => includes (UserProfile.followingIds cu) userIdToFollow
  | None => false
  end.

(** The new [followingIds] of the follower. *)
Definition toggled (following : bool) (t : string) (ids : list string) : list string :=
  if following then filter (fun id => id !== t) ids else ids ++ [t].

(** The per-entry update of [toggleFollow]. *)
Definition toggleEntry (cuId t : string) (following : bool) (user : UserProfile.t) : UserProfile.t :=
  if uid user === cuId then with_following (toggled following t (UserProfile.followingIds user)) user
  else if uid user === t then
    with_followers (if following then UserProfile.followers user - 1 else UserProfile.followers user + 1)%Z user
  else user.

Definition toggleFollow (userIdToFollow : string) (s : State) : State :=
  match currentUser s with
  | None => s
  | Some cu =>
      let f := isFollowing userIdToFollow s in
      mk (Some (with_following (toggled f userIdToFollow (UserProfile.followingIds cu)) cu))
         (map (toggleEntry (uid cu) userIdToFollow f) (users s))
  end.

Definition addEcoPoints (points : Z) (s : State) : State :=
  match currentUser s with
  | None => s
  | Some cu =>
      mk (Some (with_ecoPoints (UserProfile.ecoPoints cu + points) cu))
         (map (fun user => if uid user === uid cu
                           then with_ecoPoints (UserProfile.ecoPoints user + points) user
                           else user) (users s))
  end.

(** JavaScript truthiness of an optional string. *)
Definition truthy (o : option string) : bool :=
  match o with Some v => negb (v === "") | None => false end.

Definition updateUser (p : ProfileUpdate) (s : State) : State * bool :=
  match currentUser s with
  | None => (s, false)
  | Some cu =>
      if truthy (upd_username p) && negb (default "" (upd_username p) === UserProfile.username cu)
         && existsb (fun user => UserProfile.username user === default "" (upd_username p)) (users s)
      then (s, false)
      else
        let updatedUser := merge cu p in
        (mk (Some updatedUser)
            (map (fun user => if uid user === uid cu then updatedUser else user) (users s)), true)
  end.

(** ** The directory as a state machine *)

Inductive Op :=
| OpLogin (username : string)
| OpSignup (name username newId : string)
| OpLogout
| OpToggleFollow (userIdToFollow : string)
| OpAddEcoPoints (points : Z)
| OpUpdateUser (p : ProfileUpdate).

Definition step (o : Op) (s : State) : State :=
  match o with
  | OpLogin n => (login n s).1
  | OpSignup name n newId => (signup name n newId s).1
  | OpLogout => logout s
  | OpToggleFollow t => toggleFollow t s
  | OpAddEcoPoints pts => addEcoPoints pts s
  | OpUpdateUser p => (updateUser p s).1
  end.

(** What the environment guarantees of an operation: [uuidv4()] is fresh,
    and the account page never submits an empty username. *)
Definition op_ok (o : Op) (s : State) : Prop :=
  match o with
  | OpSignup _ _ newId => ~ In newId (map uid (users s))
  | OpUpdateUser p => upd_username p <> Some ""
  | _ => True
  end.

(** [following] is the length of [followingIds]. *)
Definition Counted (u : UserProfile.t) : Prop :=
  UserProfile.following u = Z.of_nat (length (UserProfile.followingIds u)).

Record Inv (s : State) : Prop := {
  inv_counted : Forall Counted (users s);
  inv_current : forall c, currentUser s = Some c -> In c (users s);
  inv_ids : NoDup (map uid (users s));
  inv_names : NoDup (map UserProfile.username (users s));
}.

(** A user's [followers] counter minus the number of directory entries
    whose following list contains the user: the spec wants it 0; the
    seed data starts it elsewhere, and the code keeps it fixed. *)
Definition contrib (x : string) (u : UserProfile.t) : Z :=
  ((if uid u === x then UserProfile.followers u else 0) -
   (if includes (UserProfile.followingIds u) x then 1 else 0))%Z.

Definition followerGap (x : string) (l : list UserProfile.t) : Z := sumZ (contrib x) l.

(** ** Persistence *)

Definition CURRENT_USER_KEY : string := "socialCartCurrentUser".
Definition USERS_KEY : string := "socialCartUsers".

(** The mount effect: each key that is set is parsed; a value of another
    shape is the [JSON.parse] exception, whose handler clears both keys
    (a current user read before the failure stays set). *)
Definition loadFromStorage (st : Store) (s : State) : State * Store * list StorageEvent :=
  let clear s' := let '(st1, e1) := removeItem CURRENT_USER_KEY st in
                  let '(st2, e2) := removeItem USERS_KEY st1 in (s', st2, e1 ++ e2) in
  let loadUsers s1 := match getItem USERS_KEY st with
                      | Some (PUsers l) => (mk (currentUser s1) l, st, [])
                      | Some _ => clear s1
                      | None => (s1, st, [])
                      end in
  match getItem CURRENT_USER_KEY st with
  | Some (PUser u) => loadUsers (mk (Some u) (users s))
  | Some _ => clear s
  | None => loadUsers s
  end.

(** The effect on [[currentUser]]. *)
Definition persistCurrentUser (s : State) (st : Store) : Store * list StorageEvent :=
  match currentUser s with
  | Some u => setItem CURRENT_USER_KEY (PUser u) st
  | None => removeItem CURRENT_USER_KEY st
  end.

(** The effect on [[users]]: it writes only when the list is longer than
    [initialUsers] or the key already exists. *)
Definition persistUsers (s : State) (st : Store) : Store * list StorageEvent :=
  if (length mockUsers <? length (users s))%nat || bool_decide (getItem USERS_KEY st <> None)
  then setItem USERS_KEY (PUsers (users s)) st
  else (st, []).

(** A tab's provider mounting on [st]: the first commit runs the load
    effect (its updates land in the next render) and the two write-back
    effects on the initial state; the second commit runs the write-backs
    on the loaded state. *)
Definition mountAuth (st : Store) : State * Store :=
  let '(s1, st1, _) := loadFromStorage st init in
  let '(st2, _) := persistCurrentUser init st1 in
  let '(st3, _) := persistUsers init st2 in
  let '(st4, _) := persistCurrentUser s1 st3 in
  let '(st5, _) := persistUsers s1 st4 in
  (s1, st5).

(** ** Lemmas *)

Lemma NoDup_swap_middle {A} (l1 l2 : list A) x y :
  NoDup (l1 ++ x :: l2) -> ~ In y (l1 ++ l2) -> NoDup (l1 ++ y :: l2).
Proof.
  intros Hnd Hy. apply (Permutation_NoDup (Permutation_middle l1 l2 y)).
  constructor; [done |]. apply (Permutation_NoDup (Permutation_sym (Permutation_middle l1 l2 x))) in Hnd.
  by inversion Hnd.
Qed.

Lemma Counted_with_following ids u : Counted (with_following ids u).
Proof. done. Qed.

Lemma Counted_toggleEntry cuId t f u : Counted u -> Counted (toggleEntry cuId t f u).
Proof. unfold toggleEntry. by destruct (uid u === cuId), (uid u === t). Qed.

#[export] Hint Resolve Counted_with_following Counted_toggleEntry : sc.

Lemma Forall_map_in {A} (P : A -> Prop) (f : A -> A) l :
  Forall P l -> (forall x, In x l -> P x -> P (f x)) -> Forall P (map f l).
Proof.
  intros H Hf. apply Forall_map. apply Forall_forall. intros x Hx.
  apply Hf; [done |]. by apply (proj1 (Forall_forall P l) H).
Qed.

Lemma map_keeps_keys (f : UserProfile.t -> UserProfile.t) l :
  (forall u, uid (f u) = uid u /\ UserProfile.username (f u) = UserProfile.username u) ->
  map uid (map f l) = map uid l /\
  map UserProfile.username (map f l) = map UserProfile.username l.
Proof. intros H. split; apply map_key_map; intros u; apply H. Qed.

Lemma toggleEntry_keys cuId t f u :
  uid (toggleEntry cuId t f u) = uid u /\
  UserProfile.username (toggleEntry cuId t f u) = UserProfile.username u.
Proof. unfold toggleEntry. by destruct (uid u === cuId), (uid u === t). Qed.

(** The entry of the current user, split out of the directory. *)
Lemma current_split s c :
  Inv s -> currentUser s = Some c ->
  exists l1 l2, users s = l1 ++ c :: l2 /\ (forall y, In y (l1 ++ l2) -> (uid y === uid c) = false).
Proof.
  intros [_ Hcur Hids _] Hc. specialize (Hcur c Hc).
  destruct (List.find (fun y => uid y === uid c) (users s)) as [x |] eqn:Ef.
  - destruct (split_unique_key uid (uid c) (users s) x Hids Ef) as (l1 & l2 & Hs & Hx & Hout).
    rewrite Hs in Hcur. apply in_app_or in Hcur as [Hin | [-> | Hin]].
    + specialize (Hout c (in_or_app _ _ _ (or_introl Hin))). by rewrite streqb_refl in Hout.
    + by exists l1, l2.
    + specialize (Hout c (in_or_app _ _ _ (or_intror Hin))). by rewrite streqb_refl in Hout.
  - apply find_none_iff with (x := c) in Ef; [| done]. by rewrite streqb_refl in Ef.
Qed.

Lemma Inv_login n s : Inv s -> Inv (login n s).1.
Proof.
  intros H. unfold login, getUserByUsername. destruct (List.find _ _) as [u |] eqn:Ef; [| done].
  destruct H as [H1 H2 H3 H4]. split; try done. intros c [= <-]. by apply find_some in Ef as [? _].
Qed.

Lemma Inv_signup name n newId s :
  ~ In newId (map uid (users s)) -> Inv s -> Inv (signup name n newId s).1.
Proof.
  intros Hfresh [H1 H2 H3 H4]. unfold signup, getUserByUsername.
  destruct (List.find _ _) eqn:Ef; [done |]. simpl. split; simpl.
  - apply Forall_app. split; [done |]. repeat constructor.
  - intros c [= <-]. apply in_or_app. by right; left.
  - rewrite map_app. apply NoDup_app; [done | constructor; [intros [] | constructor] |].
    intros a Ha [<- | []]. done.
  - rewrite map_app. apply NoDup_app; [done | constructor; [intros [] | constructor] |].
    intros a Ha [<- | []]. apply in_map_iff in Ha as (u & Hu & Hin).
    apply find_none_iff with (x := u) in Ef; [| done]. by rewrite Hu, streqb_refl in Ef.
Qed.

Lemma Inv_logout s : Inv s -> Inv (logout s).
Proof. intros [H1 H2 H3 H4]. by split. Qed.

Lemma Inv_toggleFollow t s : Inv s -> Inv (toggleFollow t s).
Proof.
  intros HI. unfold toggleFollow. destruct (currentUser s) as [c |] eqn:Hc; [| exact HI].
  destruct HI as [H1 H2 H3 H4].
  destruct (map_keeps_keys (toggleEntry (uid c) t (isFollowing t s)) (users s)
              (toggleEntry_keys (uid c) t (isFollowing t s))) as [Hk1 Hk2].
  split; simpl.
  - apply Forall_map_in; [done |]. intros x _. apply Counted_toggleEntry.
  - intros c' [= <-]. apply in_map_iff. exists c. split; [| by apply H2].
    unfold toggleEntry. by rewrite streqb_refl.
  - by rewrite Hk1.
  - by rewrite Hk2.
Qed.

Lemma Inv_addEcoPoints pts s : Inv s -> Inv (addEcoPoints pts s).
Proof.
  intros HI. unfold addEcoPoints. destruct (currentUser s) as [c |] eqn:Hc; [| exact HI].
  destruct HI as [H1 H2 H3 H4].
  set (g := fun user : UserProfile.t => if uid user === uid c
                           then with_ecoPoints (UserProfile.ecoPoints user + pts) user else user).
  assert (Hg : forall u, uid (g u) = uid u /\ UserProfile.username (g u) = UserProfile.username u)
    by (intros u; unfold g; by destruct (uid u === uid c)).
  destruct (map_keeps_keys g (users s) Hg) as [Hk1 Hk2].
  split; simpl.
  - apply Forall_map_in; [done |]. intros x _ Hx. unfold g. by destruct (uid x === uid c).
  - intros c' [= <-]. apply in_map_iff. exists c. split; [| by apply H2].
    unfold g. by rewrite streqb_refl.
  - by rewrite Hk1.
  - by rewrite Hk2.
Qed.

Lemma Inv_updateUser p s : upd_username p <> Some "" -> Inv s -> Inv (updateUser p s).1.
Proof.
  intros Hne HI. pose proof HI as [H1 H2 H3 H4]. unfold updateUser.
  destruct (currentUser s) as [c |] eqn:Hc; [| done].
  destruct (_ && _ && _) eqn:Eg; [done |]. simpl.
  destruct (current_split s c HI Hc) as (l1 & l2 & Hs & Hout).
  assert (Hm : map (fun user => if uid user === uid c then merge c p else user) (users s) =
               l1 ++ merge c p :: l2)
    by (rewrite Hs; exact (map_update_split uid (fun _ => merge c p) (uid c) l1 c l2 Hout eq_refl)).
  assert (Hc' : Counted c) by (apply (proj1 (Forall_forall _ _) H1), (H2 c eq_refl)).
  rewrite Hm. rewrite Hs in H1, H3, H4. split; simpl.
  - apply Forall_app in H1 as [Hl1 Hl2]. inversion Hl2. apply Forall_app. by repeat constructor.
  - intros c' [= <-]. apply in_or_app. by right; left.
  - rewrite map_app in H3 |- *. exact H3.
  - rewrite map_app in H4 |- *. simpl in H4 |- *.
    apply (NoDup_swap_middle _ _ (UserProfile.username c)); [exact H4 |].
    rewrite <- map_app. intros Hin.
    destruct (upd_username p) as [u |] eqn:Hu; simpl in Hin.
    + destruct (String.eqb_spec u (UserProfile.username c)) as [-> | Hneq].
      * apply NoDup_remove_2 in H4. apply H4. by rewrite map_app in Hin.
      * unfold truthy in Eg. simpl in Eg.
        rewrite streqb_false in Eg by congruence. rewrite streqb_false in Eg by done. simpl in Eg.
        rewrite existsb_false_find, find_none_iff in Eg.
        apply in_map_iff in Hin as (y & Hy & Hin). rewrite Hs in Eg.
        specialize (Eg y (in_app_or_middle _ _ c y Hin)). by rewrite Hy, streqb_refl in Eg.
    + apply NoDup_remove_2 in H4. apply H4. by rewrite map_app in Hin.
Qed.

Lemma includes_toggled_same f t ids :
  includes ids t = f -> includes (toggled f t ids) t = negb f.
Proof.
  intros Hf. unfold toggled. destruct f; simpl.
  - apply includes_false. intros Hin. apply filter_In in Hin as [_ H]. by rewrite streqb_refl in H.
  - apply includes_true. apply in_or_app. by right; left.
Qed.

Lemma includes_toggled_other f t ids x :
  x <> t -> includes (toggled f t ids) x = includes ids x.
Proof.
  intros Hne. unfold toggled. destruct f.
  - destruct (includes ids x) eqn:E.
    + apply includes_true in E. apply includes_true, filter_In. split; [done |]. by rewrite streqb_false.
    + apply includes_false in E. apply includes_false. intros Hin. by apply filter_In in Hin as [? _].
  - unfold includes. rewrite existsb_app. simpl. rewrite streqb_false by congruence.
    by rewrite orb_false_r.
Qed.

Lemma toggled_thrice f t ids :
  includes ids t = f -> toggled f t (toggled (negb f) t (toggled f t ids)) = toggled f t ids.
Proof.
  intros Hf. unfold toggled. destruct f; simpl.
  - rewrite filter_app. simpl. rewrite streqb_refl. simpl. by rewrite app_nil_r, filter_filter_same.
  - f_equal. rewrite filter_app. simpl. rewrite streqb_refl, app_nil_r.
    apply filter_id_in. intros x Hx. apply negb_true_iff, streqb_false. intros ->.
    apply includes_false in Hf. done.
Qed.

Lemma with_following_twice a b u : with_following a (with_following b u) = with_following a u.
Proof. done. Qed.

Lemma with_followers_twice a b u : with_followers a (with_followers b u) = with_followers a u.
Proof. done. Qed.

Lemma toggleEntry_thrice cuId t f u :
  (uid u = cuId -> includes (UserProfile.followingIds u) t = f) ->
  toggleEntry cuId t f (toggleEntry cuId t (negb f) (toggleEntry cuId t f u)) = toggleEntry cuId t f u.
Proof.
  intros Hinc. unfold toggleEntry.
  destruct (String.eqb_spec (uid u) cuId) as [<- | Hneq].
  - simpl. rewrite !streqb_refl. simpl. by rewrite toggled_thrice by (by apply Hinc).
  - destruct (String.eqb_spec (uid u) t) as [<- | Hnt]; simpl.
    + repeat progress (rewrite ?(streqb_false (uid u) cuId) by done; rewrite ?streqb_refl; simpl).
      rewrite !with_followers_twice. f_equal. destruct f; simpl; lia.
    + by repeat progress (rewrite ?(streqb_false (uid u) cuId), ?(streqb_false (uid u) t) by done; simpl).
Qed.

(** ** Theorems *)

(** C9: every operation of the directory keeps the following
    counters equal to the length of the following lists, keeps the
    current user an entry of the directory, and keeps ids and usernames
    unique, provided the [uuidv4()] of [signup] is fresh and [updateUser]
    is not given an empty username (the account page's check). *)
Theorem step_preserves_Inv o s : op_ok o s -> Inv s -> Inv (step o s).
Proof.
  destruct o; simpl; intros Hok HI.
  - by apply Inv_login.
  - by apply Inv_signup.
  - by apply Inv_logout.
  - by apply Inv_toggleFollow.
  - by apply Inv_addEcoPoints.
  - by apply Inv_updateUser.
Qed.

Lemma Inv_init : Inv init.
Proof.
  split; simpl.
  - repeat constructor.
  - discriminate.
  - repeat constructor; simpl; intuition discriminate.
  - repeat constructor; simpl; intuition discriminate.
Qed.

Lemma step_preserves_Inv_witness :
  (op_ok (OpSignup "Ann" "ann" "u3") init /\ Inv init) /\ Inv (step (OpSignup "Ann" "ann" "u3") init).
Proof.
  assert (Hok : op_ok (OpSignup "Ann" "ann" "u3") init) by (simpl; intuition discriminate).
  split; [split; [exact Hok | exact Inv_init] |].
  exact (step_preserves_Inv _ _ Hok Inv_init).
Defined.

(** C28: [updateUser] skips the uniqueness check for an
    empty username (it is falsy), so two users can end up with the same
    username [""]; only the account page's own check prevents it. *)
Theorem updateUser_empty_username_duplicates :
  let s0 := mk (Some (seedUser 0)) mockUsers in
  let s1 := (updateUser (mkUpdate None (Some "") None None) s0).1 in
  let s2 := (updateUser (mkUpdate None (Some "") None None) (mk (Some (seedUser 1)) (users s1))).1 in
  Inv s0 /\ ~ NoDup (map UserProfile.username (users s2)).
Proof.
  split.
  - split; simpl; [repeat constructor | | |].
    + intros c [= <-]. by left.
    + repeat constructor; simpl; intuition discriminate.
    + repeat constructor; simpl; intuition discriminate.
  - vm_compute. intros H. inversion H as [| ? ? Hn]. apply Hn. by left.
Qed.

(** Toggling the follow of the same user three times has
    the effect of toggling it once (the spec's follow, unfollow, follow),
    on the current user and on every directory entry, as long as the
    current user's entry has the current user's following list. *)
Theorem toggleFollow_thrice t s c :
  currentUser s = Some c ->
  (forall u, In u (users s) -> uid u = uid c -> UserProfile.followingIds u = UserProfile.followingIds c) ->
  toggleFollow t (toggleFollow t (toggleFollow t s)) = toggleFollow t s.
Proof.
  intros Hc Hsync. set (f := includes (UserProfile.followingIds c) t).
  assert (Hf : isFollowing t s = f) by (unfold isFollowing; by rewrite Hc).
  assert (Hthr := toggled_thrice f t (UserProfile.followingIds c) eq_refl).
  assert (Hf1 := includes_toggled_same f t (UserProfile.followingIds c) eq_refl).
  assert (Hf2 := includes_toggled_same (negb f) t _ Hf1). rewrite negb_involutive in Hf2.
  unfold toggleFollow at 3. rewrite Hc, Hf.
  unfold toggleFollow at 2, isFollowing. simpl. rewrite Hf1.
  unfold toggleFollow, isFollowing. simpl. rewrite Hf2, Hc. fold f.
  f_equal; [f_equal; rewrite !with_following_twice; by rewrite Hthr |].
  rewrite !map_map. apply map_ext_in. intros u Hu.
  apply toggleEntry_thrice. intros Heq. by rewrite (Hsync u Hu Heq).
Qed.

Lemma toggleFollow_thrice_witness :
  (currentUser (mk (Some (seedUser 0)) mockUsers) = Some (seedUser 0) /\
   (forall u, In u mockUsers -> uid u = uid (seedUser 0) ->
      UserProfile.followingIds u = UserProfile.followingIds (seedUser 0))) /\
  toggleFollow "u2" (toggleFollow "u2" (toggleFollow "u2" (mk (Some (seedUser 0)) mockUsers))) =
    toggleFollow "u2" (mk (Some (seedUser 0)) mockUsers).
Proof.
  assert (Hs : forall u, In u mockUsers -> uid u = uid (seedUser 0) ->
                 UserProfile.followingIds u = UserProfile.followingIds (seedUser 0))
    by (intros u [<- | [<- | []]]; [reflexivity | discriminate]).
  split; [split; [reflexivity | exact Hs] |].
  exact (toggleFollow_thrice "u2" (mk (Some (seedUser 0)) mockUsers) (seedUser 0) eq_refl Hs).
Defined.

Lemma b2z_includes_toggled f t ids x :
  includes ids t = f ->
  ((if includes ids x then 1 else 0) - (if includes (toggled f t ids) x then 1 else 0) +
   (if x === t then (if f then -1 else 1) else 0))%Z = 0%Z.
Proof.
  intros Hf. destruct (String.eqb_spec x t) as [-> | Hne].
  - rewrite (includes_toggled_same f t ids Hf), Hf. by destruct f.
  - rewrite includes_toggled_other by done. lia.
Qed.

(** C10: toggling the follow of another existing user keeps,
    for every user [x], [x]'s followers counter minus the number of
    entries following [x]: the counters move exactly with the graph. *)
Theorem toggleFollow_keeps_followerGap t s c x :
  Inv s -> currentUser s = Some c -> t <> uid c -> In t (map uid (users s)) ->
  followerGap x (users (toggleFollow t s)) = followerGap x (users s).
Proof.
  intros HI Hc Hne Ht. pose proof HI as [_ Hcur Hids _]. specialize (Hcur c Hc).
  set (f := isFollowing t s).
  assert (Hf : includes (UserProfile.followingIds c) t = f) by (unfold f, isFollowing; by rewrite Hc).
  set (A := ((if includes (UserProfile.followingIds c) x then 1 else 0) -
             (if includes (toggled f t (UserProfile.followingIds c)) x then 1 else 0))%Z).
  set (B := if x === t then (if f then -1 else 1)%Z else 0%Z).
  unfold toggleFollow, followerGap. rewrite Hc. fold f. simpl. rewrite sumZ_map.
  rewrite (sumZ_ext_in _ (fun u => contrib x u + ((if uid u === uid c then A else 0) +
                                                   (if uid u === t then B else 0)))%Z).
  - rewrite sumZ_add, sumZ_add, (sumZ_indicator uid (uid c)), (sumZ_indicator uid t); try done.
    + pose proof (b2z_includes_toggled f t _ x Hf). unfold A, B. lia.
    + by apply in_map.
  - intros u Hu. unfold toggleEntry, contrib.
    destruct (String.eqb_spec (uid u) (uid c)) as [Heq | Hneq].
    + rewrite (NoDup_map_inj_in uid _ u c Hids Hu Hcur Heq). simpl. rewrite (streqb_false (uid c) t) by congruence.
      unfold A. destruct (uid c === x); lia.
    + destruct (String.eqb_spec (uid u) t) as [Heqt | Hnt]; simpl; [| lia].
      rewrite Heqt. unfold B. streq_cases; simpl; try destruct f; first [congruence | lia].
Qed.

Lemma toggleFollow_keeps_followerGap_witness :
  (Inv (mk (Some (seedUser 0)) mockUsers) /\ currentUser (mk (Some (seedUser 0)) mockUsers) = Some (seedUser 0) /\
   "u2" <> uid (seedUser 0) /\ In "u2" (map uid (users (mk (Some (seedUser 0)) mockUsers)))) /\
  followerGap "u2" (users (toggleFollow "u2" (mk (Some (seedUser 0)) mockUsers))) =
    followerGap "u2" (users (mk (Some (seedUser 0)) mockUsers)).
Proof.
  assert (HI : Inv (mk (Some (seedUser 0)) mockUsers)).
  { split; simpl; [repeat constructor | intros c [= <-]; by left
                  | repeat constructor; simpl; intuition discriminate
                  | repeat constructor; simpl; intuition discriminate]. }
  assert (Hin : In "u2" (map uid (users (mk (Some (seedUser 0)) mockUsers)))) by (right; left; reflexivity).
  split; [split; [exact HI | split; [reflexivity | split; [discriminate | exact Hin]]] |].
  exact (toggleFollow_keeps_followerGap "u2" _ (seedUser 0) "u2" HI eq_refl ltac:(discriminate) Hin).
Defined.

(** C29: following oneself is allowed by [toggleFollow] (only
    the social page hides the button), and then the first branch of the
    entry update wins: the following list grows but the followers
    counter does not, so the counters stop matching the graph. *)
Theorem toggleFollow_self_breaks_followerGap :
  let s := mk (Some (seedUser 0)) mockUsers in
  followerGap "u1" (users (toggleFollow "u1" s)) = (followerGap "u1" (users s) - 1)%Z.
Proof. vm_compute. reflexivity. Qed.

(** awarding a non-negative number of points never lowers
    anyone's balance, raises the current user's copy by exactly that
    number, and leaves the directory's ids in place. *)
Theorem addEcoPoints_monotone pts s :
  (0 <= pts)%Z ->
  Forall2 (fun u v => uid u = uid v /\ (UserProfile.ecoPoints u <= UserProfile.ecoPoints v)%Z)
    (users s) (users (addEcoPoints pts s)) /\
  (forall c, currentUser s = Some c ->
     option_map UserProfile.ecoPoints (currentUser (addEcoPoints pts s)) = Some (UserProfile.ecoPoints c + pts)%Z).
Proof.
  intros Hp. unfold addEcoPoints. destruct (currentUser s) as [c |]; split.
  - simpl. induction (users s) as [| u l IH]; simpl; constructor; [| done].
    destruct (uid u === uid c); simpl; split; [done | lia | done | lia].
  - intros c' [= <-]. done.
  - induction (users s) as [| u l IH]; constructor; [split; [done | lia] | done].
  - done.
Qed.

Lemma addEcoPoints_monotone_witness :
  (0 <= 15)%Z /\
  Forall2 (fun u v => uid u = uid v /\ (UserProfile.ecoPoints u <= UserProfile.ecoPoints v)%Z)
    (users (mk (Some (seedUser 0)) mockUsers)) (users (addEcoPoints 15 (mk (Some (seedUser 0)) mockUsers))).
Proof. split; [lia | exact (proj1 (addEcoPoints_monotone 15 _ ltac:(lia)))]. Defined.

Lemma persistUsers_present s st :
  getItem USERS_KEY st <> None -> persistUsers s st = setItem USERS_KEY (PUsers (users s)) st.
Proof. intros H. unfold persistUsers. by rewrite (bool_decide_eq_true_2 _ H), orb_true_r. Qed.

Lemma keys_differ : CURRENT_USER_KEY <> USERS_KEY.
Proof. discriminate. Qed.

(** reloading a tab keeps the session's user and directory: the mount
    reads both stored values, and although its first commit removes the
    current user and writes the initial directory over the stored one,
    the second commit writes both back. *)
Theorem mountAuth_restores u l st :
  getItem CURRENT_USER_KEY st = Some (PUser u) -> getItem USERS_KEY st = Some (PUsers l) ->
  let '(s, st') := mountAuth st in
  s = mk (Some u) l /\ getItem CURRENT_USER_KEY st' = Some (PUser u) /\ getItem USERS_KEY st' = Some (PUsers l).
Proof.
  intros Hu Hl. unfold mountAuth, loadFromStorage. rewrite Hu. cbv zeta. rewrite Hl. cbv beta iota.
  unfold persistCurrentUser at 1. cbn [currentUser init].
  pose proof (getItem_removeItem_other _ _ st keys_differ) as H2.
  destruct (removeItem CURRENT_USER_KEY st) as [st2 e2]. simpl in H2. rewrite Hl in H2.
  rewrite persistUsers_present by congruence.
  pose proof (getItem_setItem_same USERS_KEY (PUsers (users init)) st2) as H3.
  destruct (setItem USERS_KEY _ st2) as [st3 e3]. simpl in H3.
  unfold persistCurrentUser. cbn [currentUser].
  pose proof (getItem_setItem_same CURRENT_USER_KEY (PUser u) st3) as H4.
  pose proof (getItem_setItem_other _ _ (PUser u) st3 keys_differ) as H4'.
  destruct (setItem CURRENT_USER_KEY _ st3) as [st4 e4]. simpl in H4, H4'. rewrite H3 in H4'.
  rewrite persistUsers_present by congruence.
  pose proof (getItem_setItem_same USERS_KEY (PUsers l) st4) as H5.
  pose proof (getItem_setItem_other _ _ (PUsers l) st4 (not_eq_sym keys_differ)) as H5'.
  destruct (setItem USERS_KEY _ st4) as [st5 e5]. simpl in H5, H5'. by rewrite H5', H4.
Qed.

Lemma mountAuth_restores_witness :
  let st : Store := {[ CURRENT_USER_KEY := PUser (seedUser 0); USERS_KEY := PUsers mockUsers ]} in
  (getItem CURRENT_USER_KEY st = Some (PUser (seedUser 0)) /\ getItem USERS_KEY st = Some (PUsers mockUsers)) /\
  let '(s, st') := mountAuth st in
  s = mk (Some (seedUser 0)) mockUsers /\ getItem CURRENT_USER_KEY st' = Some (PUser (seedUser 0)) /\
  getItem USERS_KEY st' = Some (PUsers mockUsers).
Proof.
  cbv zeta. split; [split; reflexivity |].
  apply mountAuth_restores; reflexivity.
Defined.

(** The directory is written back only when it grew or the key already
    exists: a follow (or any change that keeps the two seed users) made
    before any sign-up is never stored, so a reload loses it. *)
Theorem persistUsers_drops_follow :
  let s := toggleFollow "u2" (mk (Some (seedUser 0)) mockUsers) in
  users s <> mockUsers /\ persistUsers s (∅ : Store) = (∅, []) /\
  (mountAuth (∅ : Store)).1 = init.
Proof. vm_compute. split; [discriminate | split; reflexivity]. Qed.

End Auth.
