(* ===== verification/PairChat.v ===== *)
(** * PairChat: [contexts/PairChatContext.tsx] in one tab.

    The provider's four [useState]s form [State].  Each handler is a
    function of the logged-in user (read by the code from [useAuth]) and
    the state; the handlers that show a toast also return the [Notice].
    The three [useEffect]s become explicit functions: [persistInvitations]
    (write-back to [localStorage]), [sessionEffect] (the derivation of the
    session from the invitation list) and [syncFromStorage] (the reaction
    to a [storage] event).  [handleStorageChange] is the navigation
    listener. *)

From stdpp Require Import base list strings gmap.
From Stdlib Require Import ZArith String List Bool Lia.
From S2P Require Import Prelude Types Storage.
Import ListNotations.
Local Open Scope string_scope.
Local Open Scope list_scope.

Module PairChat.

Definition INVITES_KEY : string := "socialCartPairChatInvites".
Definition SHARED_NAV_KEY : string := "socialCartSharedNav".

Record State := mk {
  invitations : list PairChatInvitation.t;
  isPairChatActive : bool;
  activeRecipient : option UserProfile.t;
  activeInvitation : option PairChatInvitation.t;
}.

Definition init : State := mk [] false None None.

Definition set_invitations (l : list PairChatInvitation.t) (s : State) : State :=
  mk l (isPairChatActive s) (activeRecipient s) (activeInvitation s).

Inductive Notice :=
| RequestAlreadySent
| RequestSent (recipientName : string)
| RequestDeclined.

Abbreviation uid := UserProfile.id.
Abbreviation iid := PairChatInvitation.id.
Abbreviation from_id inv := (uid (PairChatInvitation.from inv)).
Abbreviation to_id inv := (uid (PairChatInvitation.to inv)).

(** The test the code repeats: [inv] joins [a] and [b], in either
    direction. *)
Definition between (a b : string) (inv : PairChatInvitation.t) : bool :=
  ((from_id inv === a) && (to_id inv === b)) || ((from_id inv === b) && (to_id inv === a)).

(** [inv.from.id === u || inv.to.id === u] *)
Definition involves (u : string) (inv : PairChatInvitation.t) : bool :=
  (from_id inv === u) || (to_id inv === u).

Definition with_status (st : PairChatInvitation.Status) (inv : PairChatInvitation.t) :=
  PairChatInvitation.mk (iid inv) (PairChatInvitation.from inv) (PairChatInvitation.to inv) st.

Section Handlers.
Variable currentUser : option UserProfile.t.

(** [sendPairChatRequest]: [newId] is the [uuidv4()] of the code. *)
Definition sendPairChatRequest (recipient : UserProfile.t) (newId : string) (s : State)
  : State * option Notice :=
  match currentUser with
  | None => (s, None)
  | Some cu =>
      if existsb (fun inv => between (uid cu) (uid recipient) inv && PairChatInvitation.is_pending inv)
           (invitations s)
      then (s, Some RequestAlreadySent)
      else (set_invitations (invitations s ++
              [PairChatInvitation.mk newId cu recipient PairChatInvitation.pending]) s,
            Some (RequestSent (UserProfile.name recipient)))
  end.

Definition acceptPairChatRequest (invitationId : string) (s : State) : State :=
  set_invitations
    (map (fun inv => if iid inv === invitationId then with_status PairChatInvitation.accepted inv else inv)
         (invitations s)) s.

Definition declinePairChatRequest (invitationId : string) (s : State) : State * option Notice :=
  match List.find (fun inv => iid inv === invitationId) (invitations s) with
  | Some _ => (set_invitations (filter (fun inv => iid inv !== invitationId) (invitations s)) s,
               Some RequestDeclined)
  | None => (s, None)
  end.

Definition endPairChat (s : State) : State :=
  mk (match activeInvitation s with
      | Some a => filter (fun inv => iid inv !== iid a) (invitations s)
      | None => invitations s
      end) false None None.

Definition getInvitationForConversation (participantId : string) (s : State)
  : option PairChatInvitation.t :=
  match currentUser with
  | None => None
  | Some cu =>
      List.find (fun inv => PairChatInvitation.is_pending inv && between (uid cu) participantId inv)
        (invitations s)
  end.

(** The effect on [[invitations, currentUser, isPairChatActive]]. *)
Definition sessionEffect (s : State) : State :=
  match currentUser with
  | None => s
  | Some cu =>
      match List.find (fun inv => PairChatInvitation.is_accepted inv && involves (uid cu) inv)
              (invitations s) with
      | Some a =>
          if isPairChatActive s then s
          else mk (invitations s) true
                  (Some (if from_id a === uid cu then PairChatInvitation.to a
                         else PairChatInvitation.from a))
                  (Some a)
      | None => if isPairChatActive s then endPairChat s else s
      end
  end.

(** [navigateShared path]: the route the tab goes to, and the write of
    the broadcast record when a session is active. *)
Definition navigateShared (path : string) (now : Z) (s : State) (st : Store)
  : string * Store * list StorageEvent :=
  match currentUser with
  | Some cu =>
      if isPairChatActive s then
        let '(st', evs) := setItem SHARED_NAV_KEY (PNav (NavRecord.mk path (uid cu) now)) st in
        (path, st', evs)
      else (path, st, [])
  | None => (path, st, [])
  end.
End Handlers.

(** The navigation listener: the path to push, if any. *)
Definition handleStorageChange (e : StorageEvent) (s : State) : option string :=
  if key e === SHARED_NAV_KEY then
    match newValue e with
    | Some (PNav n) =>
        match activeRecipient s with
        | Some r =>
            if isPairChatActive s && (NavRecord.initiatorId n === uid r)
            then Some (NavRecord.path n) else None
        | None => None
        end
    | _ => None
    end
  else None.

(** [syncFromStorage]: keep the pending and accepted invitations of the
    stored list; a missing key or an unreadable value leaves the state. *)
Definition syncFromStorage (st : Store) (s : State) : State :=
  match getItem INVITES_KEY st with
  | Some (PInvites l) =>
      set_invitations
        (filter (fun inv => PairChatInvitation.is_pending inv || PairChatInvitation.is_accepted inv) l) s
  | _ => s
  end.

(** The write-back effect on [[invitations]]. *)
Definition persistInvitations (s : State) (st : Store) : Store * list StorageEvent :=
  match invitations s, getItem INVITES_KEY st with
  | [], None => (st, [])
  | l, _ => setItem INVITES_KEY (PInvites l) st
  end.

(** ** The invitation store as a state machine *)

(** The operations a tab performs on its invitation list: the four
    handlers and one run of the session effect. *)
Inductive Op :=
| OpSend (recipient : UserProfile.t) (newId : string)
| OpAccept (invitationId : string)
| OpDecline (invitationId : string)
| OpEnd
| OpEffect.

Definition step (currentUser : option UserProfile.t) (o : Op) (s : State) : State :=
  match o with
  | OpSend r n => (sendPairChatRequest currentUser r n s).1
  | OpAccept i => acceptPairChatRequest i s
  | OpDecline i => (declinePairChatRequest i s).1
  | OpEnd => endPairChat s
  | OpEffect => sessionEffect currentUser s
  end.

(** Number of pending invitations joining [a] and [b]. *)
Definition pending_between (a b : string) (l : list PairChatInvitation.t) : nat :=
  length (filter (fun inv => between a b inv && PairChatInvitation.is_pending inv) l).

(** The invariant the guard of [sendPairChatRequest] is there for: at most
    one pending invitation per unordered pair of users. *)
Definition PendingUnique (l : list PairChatInvitation.t) : Prop :=
  forall a b, pending_between a b l <= 1.

(** The session's other participant, as [sessionEffect] picks it. *)
Definition counterpart (me : string) (a : PairChatInvitation.t) : UserProfile.t :=
  if from_id a === me then PairChatInvitation.to a else PairChatInvitation.from a.

(** ** Lemmas *)

Lemma between_sym a b inv : between a b inv = between b a inv.
Proof. unfold between. by rewrite orb_comm. Qed.

(** An invitation from [c] to [r] joins [a] and [b] only when [{a,b}] is
    [{c,r}]; then the two tests agree on every invitation. *)
Lemma between_same_pair a b n c r st inv :
  between a b (PairChatInvitation.mk n c r st) = true ->
  between a b inv = between (uid c) (uid r) inv.
Proof.
  unfold between; simpl. intros H.
  apply orb_true_iff in H as [H | H]; apply andb_true_iff in H as [H1 H2];
    apply streqb_true in H1, H2; subst; [done | apply orb_comm].
Qed.

Lemma PendingUnique_filter q l : PendingUnique l -> PendingUnique (filter q l).
Proof.
  intros H a b. unfold pending_between.
  etransitivity; [apply length_filter_filter_le | apply H].
Qed.

Lemma PendingUnique_accept i l :
  PendingUnique l ->
  PendingUnique (map (fun inv => if iid inv === i then with_status PairChatInvitation.accepted inv else inv) l).
Proof.
  intros H a b. unfold pending_between. etransitivity; [| apply (H a b)].
  apply length_filter_map_le. intros x _. destruct (iid x === i); [| done].
  cbn [with_status PairChatInvitation.is_pending PairChatInvitation.status].
  by rewrite andb_false_r.
Qed.

#[export] Hint Resolve PendingUnique_filter PendingUnique_accept : sc.

Lemma sessionEffect_invitations cu s :
  invitations (sessionEffect cu s) = invitations s \/
  invitations (sessionEffect cu s) = invitations (endPairChat s).
Proof.
  unfold sessionEffect. destruct cu; [| by left].
  destruct (List.find _ _); destruct (isPairChatActive s); auto.
Qed.

Lemma endPairChat_invitations s :
  exists q, invitations (endPairChat s) = filter q (invitations s).
Proof.
  unfold endPairChat. destruct (activeInvitation s) as [a |]; simpl; [eexists; reflexivity |].
  exists (fun _ => true). symmetry. by apply filter_id_in.
Qed.

Lemma PendingUnique_endPairChat s :
  PendingUnique (invitations s) -> PendingUnique (invitations (endPairChat s)).
Proof. destruct (endPairChat_invitations s) as [q ->]. auto with sc. Qed.

#[export] Hint Resolve PendingUnique_endPairChat : sc.

Lemma PendingUnique_send cu r n s :
  PendingUnique (invitations s) ->
  PendingUnique (invitations (sendPairChatRequest cu r n s).1).
Proof.
  intros H. unfold sendPairChatRequest. destruct cu as [c |]; [| done].
  destruct (existsb _ _) eqn:E; [done |]. simpl. intros a b.
  unfold pending_between. rewrite filter_app, length_app. simpl.
  destruct (between a b _ && _) eqn:Eb; simpl; [| pose proof (H a b); unfold pending_between in *; lia].
  apply andb_true_iff in Eb as [Eb _].
  rewrite (filter_ext _ _ (fun inv => f_equal (fun x => x && _) (between_same_pair _ _ _ _ _ _ inv Eb))).
  rewrite (existsb_false_filter _ _ E). simpl. lia.
Qed.


Lemma persistInvitations_present s st :
  getItem INVITES_KEY st <> None -> persistInvitations s st = setItem INVITES_KEY (PInvites (invitations s)) st.
Proof. intros H. unfold persistInvitations. by destruct (invitations s), (getItem INVITES_KEY st). Qed.

(** Ending a session whose invitation is in the list shrinks the list. *)
Lemma endPairChat_shrinks s a :
  activeInvitation s = Some a -> In a (invitations s) ->
  invitations (endPairChat s) = filter (fun inv => iid inv !== iid a) (invitations s) /\
  invitations (endPairChat s) <> invitations s.
Proof.
  intros Hai Hin. unfold endPairChat. rewrite Hai. simpl. split; [done |]. intros Heq.
  assert (Hin' : In a (filter (fun inv => iid inv !== iid a) (invitations s))) by (rewrite Heq; done).
  apply filter_In in Hin' as [_ Hn]. by rewrite String.eqb_refl in Hn.
Qed.

Lemma sessionEffect_inactive_invitations cu s :
  isPairChatActive s = false -> invitations (sessionEffect cu s) = invitations s.
Proof.
  intros Ha. unfold sessionEffect. destruct cu; [| done].
  destruct (List.find _ _); rewrite Ha; done.
Qed.

Lemma sessionEffect_none_ends c s :
  isPairChatActive s = true ->
  List.find (fun inv => PairChatInvitation.is_accepted inv && involves (uid c) inv) (invitations s) = None ->
  sessionEffect (Some c) s = endPairChat s.
Proof. intros Ha Hf. unfold sessionEffect. by rewrite Hf, Ha. Qed.

(** ** Theorems *)

(** C1: every operation of a tab (sending, accepting,
    declining, ending, and the session effect) keeps at most one pending
    invitation per unordered pair of users. *)
Theorem step_preserves_PendingUnique cu o s :
  PendingUnique (invitations s) -> PendingUnique (invitations (step cu o s)).
Proof.
  intros H. destruct o as [r n | i | i | |]; unfold step.
  - by apply PendingUnique_send.
  - by apply PendingUnique_accept.
  - unfold declinePairChatRequest. destruct (List.find _ _); simpl; auto with sc.
  - auto with sc.
  - destruct (sessionEffect_invitations cu s) as [-> | ->]; auto with sc.
Qed.

Lemma step_preserves_PendingUnique_witness :
  PendingUnique [] /\
  PendingUnique (invitations (step (Some (seedUser 0)) (OpSend (seedUser 1) "inv1") init)).
Proof.
  assert (H0 : PendingUnique []) by (intros a b; unfold pending_between; simpl; lia).
  split; [exact H0 | apply (step_preserves_PendingUnique (Some (seedUser 0)) (OpSend (seedUser 1) "inv1") init H0)].
Defined.

(** The session effect reaches its fixpoint in one
    run: running it again on its own result changes nothing, so the
    re-renders it causes (it changes [isPairChatActive], one of its own
    dependencies) stop. *)
Theorem sessionEffect_idempotent cu s :
  sessionEffect cu (sessionEffect cu s) = sessionEffect cu s.
Proof.
  unfold sessionEffect at 2 3. destruct cu as [c |]; [| done].
  destruct (List.find _ (invitations s)) as [a |] eqn:Ef;
    destruct (isPairChatActive s) eqn:Ea.
  - unfold sessionEffect. by rewrite Ef, Ea.
  - unfold sessionEffect. simpl. by rewrite Ef.
  - unfold sessionEffect, endPairChat at 1. simpl.
    destruct (activeInvitation s); simpl;
      [by rewrite (find_filter_none _ _ _ Ef) | by rewrite Ef].
  - unfold sessionEffect. by rewrite Ef, Ea.
Qed.

(** when no pending invitation joins the two users, a
    request appends exactly one pending invitation from the sender to the
    recipient, returns the "Request Sent" notice, and both users' chat
    views ([getInvitationForConversation] from either side) find it. *)
Theorem sendPairChatRequest_fresh c r n s :
  pending_between (uid c) (uid r) (invitations s) = 0 ->
  let inv := PairChatInvitation.mk n c r PairChatInvitation.pending in
  let '(s', notice) := sendPairChatRequest (Some c) r n s in
  invitations s' = (invitations s ++ [inv])%list /\
  notice = Some (RequestSent (UserProfile.name r)) /\
  getInvitationForConversation (Some c) (uid r) s' = Some inv /\
  getInvitationForConversation (Some r) (uid c) s' = Some inv.
Proof.
  intros H0 inv. unfold pending_between in H0.
  assert (Hnone : forall x, In x (invitations s) ->
            between (uid c) (uid r) x && PairChatInvitation.is_pending x = false).
  { intros x Hx. destruct (_ && _) eqn:E; [| done].
    assert (In x (filter (fun inv => between (uid c) (uid r) inv && PairChatInvitation.is_pending inv) (invitations s)))
      by (apply filter_In; auto).
    destruct (filter _ _); [done | discriminate]. }
  unfold sendPairChatRequest.
  replace (existsb _ _) with false
    by (symmetry; apply existsb_false_find, find_none_iff; exact Hnone).
  simpl. split; [done | split; [done |]].
  unfold getInvitationForConversation; simpl.
  split; rewrite find_app_none.
  - unfold between. cbn. by rewrite !streqb_refl.
  - apply find_none_iff. intros x Hx. rewrite andb_comm. apply Hnone, Hx.
  - unfold between. cbn. rewrite !streqb_refl. by rewrite orb_true_r.
  - apply find_none_iff. intros x Hx. rewrite between_sym, andb_comm. apply Hnone, Hx.
Qed.

Lemma sendPairChatRequest_fresh_witness :
  pending_between (uid (seedUser 0)) (uid (seedUser 1)) (invitations init) = 0 /\
  let inv := PairChatInvitation.mk "inv1" (seedUser 0) (seedUser 1) PairChatInvitation.pending in
  let '(s', notice) := sendPairChatRequest (Some (seedUser 0)) (seedUser 1) "inv1" init in
  invitations s' = (invitations init ++ [inv])%list /\
  notice = Some (RequestSent (UserProfile.name (seedUser 1))) /\
  getInvitationForConversation (Some (seedUser 0)) (uid (seedUser 1)) s' = Some inv /\
  getInvitationForConversation (Some (seedUser 1)) (uid (seedUser 0)) s' = Some inv.
Proof.
  split; [reflexivity |].
  exact (sendPairChatRequest_fresh (seedUser 0) (seedUser 1) "inv1" init eq_refl).
Defined.

(** C13: a request while a pending invitation joins the two
    users (in either direction) changes nothing and returns the "Request
    already sent" notice. *)
Theorem sendPairChatRequest_duplicate c r n s inv :
  In inv (invitations s) -> PairChatInvitation.is_pending inv = true ->
  between (uid r) (uid c) inv = true ->
  sendPairChatRequest (Some c) r n s = (s, Some RequestAlreadySent).
Proof.
  intros Hin Hp Hb. unfold sendPairChatRequest.
  replace (existsb _ _) with true; [done |].
  symmetry. apply existsb_exists. exists inv. by rewrite between_sym, Hb, Hp.
Qed.

Lemma sendPairChatRequest_duplicate_witness :
  let inv := PairChatInvitation.mk "inv1" (seedUser 0) (seedUser 1) PairChatInvitation.pending in
  let s := set_invitations [inv] init in
  (In inv (invitations s) /\ PairChatInvitation.is_pending inv = true /\
   between (uid (seedUser 0)) (uid (seedUser 1)) inv = true) /\
  sendPairChatRequest (Some (seedUser 1)) (seedUser 0) "inv2" s = (s, Some RequestAlreadySent).
Proof.
  cbv zeta. split; [split; [left; reflexivity | split; reflexivity] |].
  apply (sendPairChatRequest_duplicate (seedUser 1) (seedUser 0) "inv2" _
           (PairChatInvitation.mk "inv1" (seedUser 0) (seedUser 1) PairChatInvitation.pending));
    [left; reflexivity | reflexivity | reflexivity].
Defined.

(** when the logged-in user has an accepted
    invitation and no session is active, the session effect starts the
    session on the first such invitation, with the other participant as
    recipient; the invitation list is unchanged. *)
Theorem sessionEffect_activates c s a :
  isPairChatActive s = false ->
  List.find (fun inv => PairChatInvitation.is_accepted inv && involves (uid c) inv) (invitations s) = Some a ->
  sessionEffect (Some c) s = mk (invitations s) true (Some (counterpart (uid c) a)) (Some a).
Proof. intros Ha Hf. unfold sessionEffect. by rewrite Hf, Ha. Qed.

Lemma sessionEffect_activates_witness :
  let a := PairChatInvitation.mk "inv1" (seedUser 0) (seedUser 1) PairChatInvitation.accepted in
  let s := set_invitations [a] init in
  (isPairChatActive s = false /\
   List.find (fun inv => PairChatInvitation.is_accepted inv && involves (uid (seedUser 1)) inv) (invitations s) = Some a) /\
  sessionEffect (Some (seedUser 1)) s = mk (invitations s) true (Some (counterpart (uid (seedUser 1)) a)) (Some a).
Proof.
  cbv zeta. split; [split; reflexivity |].
  apply sessionEffect_activates; reflexivity.
Defined.

(** C23: the session effect ends a session only when *no*
    accepted invitation involves the user.  If the invitation backing the
    active session is gone but another accepted invitation involves the
    user, the effect leaves the tab in the session bound to the vanished
    invitation (the spec asks for deactivation). *)
Theorem sessionEffect_keeps_stale_session c s a b :
  isPairChatActive s = true -> activeInvitation s = Some a ->
  ~ In a (invitations s) ->
  List.find (fun inv => PairChatInvitation.is_accepted inv && involves (uid c) inv) (invitations s) = Some b ->
  sessionEffect (Some c) s = s /\ activeInvitation (sessionEffect (Some c) s) = Some a.
Proof. intros Ha Hi _ Hf. unfold sessionEffect. rewrite Hf, Ha. by split. Qed.

Lemma sessionEffect_keeps_stale_session_witness :
  let a := PairChatInvitation.mk "inv1" (seedUser 0) (seedUser 1) PairChatInvitation.accepted in
  let b := PairChatInvitation.mk "inv2" (seedUser 1) (seedUser 0) PairChatInvitation.accepted in
  let s := mk [b] true (Some (seedUser 1)) (Some a) in
  (isPairChatActive s = true /\ activeInvitation s = Some a /\ ~ In a (invitations s) /\
   List.find (fun inv => PairChatInvitation.is_accepted inv && involves (uid (seedUser 0)) inv) (invitations s) = Some b) /\
  sessionEffect (Some (seedUser 0)) s = s /\ activeInvitation (sessionEffect (Some (seedUser 0)) s) = Some a.
Proof.
  cbv zeta.
  assert (Hni : ~ In (PairChatInvitation.mk "inv1" (seedUser 0) (seedUser 1) PairChatInvitation.accepted)
                  [PairChatInvitation.mk "inv2" (seedUser 1) (seedUser 0) PairChatInvitation.accepted])
    by (intros [H | []]; discriminate).
  split; [repeat split; exact Hni |].
  apply sessionEffect_keeps_stale_session with
    (b := PairChatInvitation.mk "inv2" (seedUser 1) (seedUser 0) PairChatInvitation.accepted);
    [reflexivity | reflexivity | exact Hni | reflexivity].
Defined.

(** ending a session removes every invitation carrying the
    backing invitation's id, keeps all others, and clears the session. *)
Theorem endPairChat_spec s a :
  activeInvitation s = Some a ->
  let s' := endPairChat s in
  (forall inv, In inv (invitations s') <-> In inv (invitations s) /\ iid inv <> iid a) /\
  isPairChatActive s' = false /\ activeRecipient s' = None /\ activeInvitation s' = None.
Proof.
  intros Ha. unfold endPairChat. rewrite Ha. simpl. split; [| repeat split].
  intros inv. rewrite filter_In. split.
  - intros [Hin H]. apply negb_true_iff, String.eqb_neq in H. done.
  - intros [Hin Hne]. split; [done |]. by rewrite streqb_false.
Qed.

Lemma endPairChat_spec_witness :
  let a := PairChatInvitation.mk "inv1" (seedUser 0) (seedUser 1) PairChatInvitation.accepted in
  let s := mk [a] true (Some (seedUser 1)) (Some a) in
  activeInvitation s = Some a /\
  let s' := endPairChat s in
  (forall inv, In inv (invitations s') <-> In inv (invitations s) /\ iid inv <> iid a) /\
  isPairChatActive s' = false /\ activeRecipient s' = None /\ activeInvitation s' = None.
Proof. cbv zeta. split; [reflexivity | apply endPairChat_spec; reflexivity]. Defined.

(** declining a listed invitation removes it (and any other
    entry with its id) and returns the "Request Declined" notice;
    declining an unknown id is a silent no-op. *)
Theorem declinePairChatRequest_spec i s :
  declinePairChatRequest i s =
    if existsb (fun inv => iid inv === i) (invitations s)
    then (set_invitations (filter (fun inv => iid inv !== i) (invitations s)) s, Some RequestDeclined)
    else (s, None).
Proof.
  unfold declinePairChatRequest.
  destruct (existsb _ _) eqn:E.
  - apply existsb_find in E as [x Hx]. by rewrite Hx.
  - apply existsb_false_find in E. by rewrite E.
Qed.

(** a tab follows a broadcast navigation only when it is
    in a session and the record was written by its session counterpart;
    in particular it never follows its own broadcasts while its
    counterpart is another user. *)
Theorem handleStorageChange_spec e s p :
  handleStorageChange e s = Some p <->
  key e = SHARED_NAV_KEY /\ isPairChatActive s = true /\
  exists n r, newValue e = Some (PNav n) /\ activeRecipient s = Some r /\
              NavRecord.initiatorId n = uid r /\ NavRecord.path n = p.
Proof.
  unfold handleStorageChange. split.
  - destruct (String.eqb_spec (key e) SHARED_NAV_KEY) as [Hk |]; [| done].
    destruct (newValue e) as [[| | | n | | |] |]; try done.
    destruct (activeRecipient s) as [r |]; [| done].
    destruct (isPairChatActive s) eqn:Ea; [| done].
    destruct (String.eqb_spec (NavRecord.initiatorId n) (uid r)); [| done].
    intros [= <-]. split; [done | split; [done |]]. by exists n, r.
  - intros (Hk & Ha & n & r & Hv & Hr & Hi & Hp).
    rewrite Hk, streqb_refl, Hv, Hr, Ha, Hi, streqb_refl. simpl. by rewrite Hp.
Qed.

Corollary handleStorageChange_ignores_self e s n r :
  newValue e = Some (PNav n) -> activeRecipient s = Some r ->
  NavRecord.initiatorId n <> uid r -> handleStorageChange e s = None.
Proof.
  intros Hv Hr Hne. unfold handleStorageChange.
  rewrite Hv, Hr, (streqb_false _ _ Hne), andb_false_r. by destruct (_ === _).
Qed.

(** [navigateShared] always moves the tab itself;
    it writes a broadcast record naming the user as initiator exactly
    when a user is logged in and a session is active. *)
Theorem navigateShared_spec cu path now s st :
  let '(route, st', evs) := navigateShared cu path now s st in
  route = path /\
  match cu with
  | Some c =>
      if isPairChatActive s
      then getItem SHARED_NAV_KEY st' = Some (PNav (NavRecord.mk path (uid c) now)) /\
           (forall k, k <> SHARED_NAV_KEY -> getItem k st' = getItem k st)
      else st' = st /\ evs = []
  | None => st' = st /\ evs = []
  end.
Proof.
  unfold navigateShared. destruct cu as [c |]; [| done].
  destruct (isPairChatActive s); [| done].
  set (v := PNav (NavRecord.mk path (uid c) now)).
  pose proof (getItem_setItem_same SHARED_NAV_KEY v st) as H1.
  pose proof (fun k Hk => getItem_setItem_other SHARED_NAV_KEY k v st Hk) as H2.
  destruct (setItem SHARED_NAV_KEY v st) as [st' evs]. simpl in *.
  split; [done |]. split; [done |]. intros k Hk. apply H2. congruence.
Qed.

End PairChat.
