(* ===== verification/Cart.v ===== *)
(** * Cart: [contexts/CartContext.tsx] in one tab.

    [State] holds the provider's four [useState]s.  The partition key is
    chosen by [cartKeyFor] from the session of [PairChat] and the user of
    [Auth]; the handlers act on [cartItems] only when a key is chosen.
    The effects are explicit: [loadCart] (read on a key change or a
    [storage] event on the key), [saveCart] (write-back), and [keyChange],
    the sequence React runs when the key changes: the load effect reads
    the new partition, the save effect of the same commit writes the
    *old* lines under the new key, and the next commit writes back what
    was read. *)

From stdpp Require Import base list strings gmap.
From Stdlib Require Import ZArith String List Bool Lia.
From S2P Require Import Prelude Types Storage.
Import ListNotations.
Local Open Scope string_scope.
Local Open Scope list_scope.

Module Cart.

Record State := mk {
  cartItems : list CartItemType.t;
  favorites : list string;
  activeCartKey : option string;
  favKey : option string;
}.

#[global] Instance State_eq_dec : EqDecision State.
Proof. solve_decision. Defined.

Definition init : State := mk [] [] None None.

Definition set_cartItems (l : list CartItemType.t) (s : State) : State :=
  mk l (favorites s) (activeCartKey s) (favKey s).
Definition set_favorites (l : list string) (s : State) : State :=
  mk (cartItems s) l (activeCartKey s) (favKey s).

Definition CART_PREFIX : string := "socialCartItems_".
Definition SHARED_CART_PREFIX : string := "socialCartItems_shared_".
Definition FAV_PREFIX : string := "socialCartFavorites_".

(** The effect on [[currentUser, isPairChatActive, activeInvitation]]. *)
Definition cartKeyFor (currentUser : option UserProfile.t) (isPairChatActive : bool)
    (activeInvitation : option PairChatInvitation.t) : option string :=
  match isPairChatActive, activeInvitation with
  | true, Some inv => Some (SHARED_CART_PREFIX +:+ PairChatInvitation.id inv)
  | _, _ =>
      match currentUser with
      | Some u => Some (CART_PREFIX +:+ UserProfile.id u)
      | None => None
      end
  end.

Definition favKeyFor (currentUser : option UserProfile.t) : option string :=
  match currentUser with
  | Some u => Some (FAV_PREFIX +:+ UserProfile.id u)
  | None => None
  end.

(** [loadCart]: the stored lines, or [[]] when the key is missing or holds
    something else. *)
Definition loadCart (k : option string) (st : Store) : list CartItemType.t :=
  match k with
  | None => []
  | Some k => match getItem k st with Some (PCart l) => l | _ => [] end
  end.

(** The save effect on [[cartItems, activeCartKey]]. *)
Definition saveCart (s : State) (st : Store) : Store * list StorageEvent :=
  match activeCartKey s with
  | None => (st, [])
  | Some k =>
      match cartItems s with
      | [] => removeItem k st
      | l => setItem k (PCart l) st
      end
  end.

Definition loadFavorites (k : option string) (st : Store) : list string :=
  match k with
  | None => []
  | Some k => match getItem k st with Some (PFavorites l) => l | _ => [] end
  end.

Definition saveFavorites (s : State) (st : Store) : Store * list StorageEvent :=
  match favKey s with
  | None => (st, [])
  | Some k =>
      match favorites s with
      | [] => removeItem k st
      | l => setItem k (PFavorites l) st
      end
  end.

(** The commits that follow a change of the cart key. *)
Definition keyChange (newKey : option string) (s : State) (st : Store)
    : State * Store * list StorageEvent :=
  let s1 := mk (cartItems s) (favorites s) newKey (favKey s) in
  let loaded := loadCart newKey st in
  let '(st1, ev1) := saveCart s1 st in
  let s2 := set_cartItems loaded s1 in
  let '(st2, ev2) := saveCart s2 st1 in
  (s2, st2, ev1 ++ ev2).

Definition line_is (productId : string) (item : CartItemType.t) : bool :=
  CartItemType.id item === productId.

Definition with_quantity (q : Z) (item : CartItemType.t) : CartItemType.t :=
  CartItemType.mk (CartItemType.product item) q.

Definition addToCart (product : Product.t) (quantity : Z) (s : State) : State :=
  match activeCartKey s with
  | None => s
  | Some _ =>
      set_cartItems
        (match List.find (line_is (Product.id product)) (cartItems s) with
         | Some _ =>
             map (fun item => if line_is (Product.id product) item
                              then with_quantity (CartItemType.quantity item + quantity)%Z item
                              else item) (cartItems s)
         | None => cartItems s ++ [CartItemType.mk product quantity]
         end) s
  end.

Definition removeFromCart (productId : string) (s : State) : State :=
  match activeCartKey s with
  | None => s
  | Some _ => set_cartItems (filter (fun item => CartItemType.id item !== productId) (cartItems s)) s
  end.

Definition updateQuantity (productId : string) (quantity : Z) (s : State) : State :=
  match activeCartKey s with
  | None => s
  | Some _ =>
      if (quantity <=? 0)%Z then removeFromCart productId s
      else set_cartItems
             (map (fun item => if line_is productId item then with_quantity quantity item else item)
                  (cartItems s)) s
  end.

Definition clearCart (s : State) : State := set_cartItems [] s.

Definition cartTotal (s : State) : Z :=
  sumZ (fun item => CartItemType.price item * CartItemType.quantity item)%Z (cartItems s).

Definition cartCount (s : State) : Z := sumZ CartItemType.quantity (cartItems s).

Definition toggleFavorite (productId : string) (s : State) : State :=
  match favKey s with
  | None => s
  | Some _ =>
      set_favorites
        (if includes (favorites s) productId
         then filter (fun id => id !== productId) (favorites s)
         else favorites s ++ [productId]) s
  end.

Definition isFavorite (productId : string) (s : State) : bool := includes (favorites s) productId.

(** One line per product: the invariant [addToCart]'s merge keeps. *)
Definition ids (l : list CartItemType.t) : list string := map CartItemType.id l.
Definition OneLinePerProduct (s : State) : Prop := NoDup (ids (cartItems s)).

(** The unit price [addToCart] charges: the stored line's, or the
    product's for a new line. *)
Definition unitPrice (p : Product.t) (s : State) : Z :=
  match List.find (line_is (Product.id p)) (cartItems s) with
  | Some x => CartItemType.price x
  | None => Product.price p
  end.

(** ** Lemmas *)

Lemma line_is_id item k : line_is k item = (CartItemType.id item === k).
Proof. done. Qed.

Lemma with_quantity_id q item : CartItemType.id (with_quantity q item) = CartItemType.id item.
Proof. done. Qed.

(** A unique line for [pid] splits the cart. *)
Lemma cart_split s pid x :
  OneLinePerProduct s -> List.find (line_is pid) (cartItems s) = Some x ->
  exists l1 l2, cartItems s = l1 ++ x :: l2 /\ CartItemType.id x = pid /\
                (forall y, In y (l1 ++ l2) -> line_is pid y = false).
Proof. apply (split_unique_key CartItemType.id). Qed.

Lemma ids_app l1 l2 : ids (l1 ++ l2) = ids l1 ++ ids l2.
Proof. apply map_app. Qed.

Lemma not_in_ids pid l :
  List.find (line_is pid) l = None -> ~ In pid (ids l).
Proof.
  rewrite find_none_iff. intros H Hin. apply in_map_iff in Hin as (y & Hy & Hin).
  specialize (H y Hin). unfold line_is in H. rewrite Hy, streqb_refl in H. discriminate.
Qed.

(** Each cart operation keeps the ids of the lines distinct. *)
Lemma one_line_ops s p q pid q' :
  OneLinePerProduct s ->
  OneLinePerProduct (addToCart p q s) /\ OneLinePerProduct (removeFromCart pid s) /\
  OneLinePerProduct (updateQuantity pid q' s) /\ OneLinePerProduct (clearCart s).
Proof.
  unfold OneLinePerProduct, addToCart, updateQuantity, removeFromCart, clearCart, ids.
  intros H. destruct (activeCartKey s); [| repeat split; try done; constructor].
  assert (Hrm : NoDup (map CartItemType.id (filter (fun item => CartItemType.id item !== pid) (cartItems s))))
    by (by apply NoDup_map_filter).
  repeat split; simpl.
  - destruct (List.find _ _) eqn:Ef.
    + rewrite map_key_map; [done |]. intros x. by destruct (line_is _ x).
    + rewrite map_app. simpl. apply NoDup_app; [done | constructor; [intros [] | constructor] |].
      intros a Ha [<- | []]. by apply (not_in_ids (Product.id p) (cartItems s)).
  - exact Hrm.
  - destruct (q' <=? 0)%Z; [exact Hrm |]. simpl.
    rewrite map_key_map; [done |]. intros x. by destruct (line_is _ x).
  - constructor.
Qed.

(** ** Theorems *)

(** C6: adding, removing, updating and clearing keep one cart line
    per product id. *)
Theorem cart_ops_preserve_OneLinePerProduct s p q pid q' :
  OneLinePerProduct s ->
  OneLinePerProduct (addToCart p q s) /\ OneLinePerProduct (removeFromCart pid s) /\
  OneLinePerProduct (updateQuantity pid q' s) /\ OneLinePerProduct (clearCart s).
Proof. apply one_line_ops. Qed.

Lemma cart_ops_preserve_OneLinePerProduct_witness :
  OneLinePerProduct (mk [] [] (Some "socialCartItems_u1") None) /\
  OneLinePerProduct (addToCart (seedProduct 0) 1 (mk [] [] (Some "socialCartItems_u1") None)).
Proof.
  assert (H : OneLinePerProduct (mk [] [] (Some "socialCartItems_u1") None)) by constructor.
  split; [exact H |].
  exact (proj1 (cart_ops_preserve_OneLinePerProduct _ (seedProduct 0) 1 "" 0 H)).
Defined.

(** C7: with a partition chosen and one line per product,
    adding [q] units of [p] raises the item count by [q] and the total by
    [q] times the line's unit price. *)
Theorem addToCart_totals p q s k :
  OneLinePerProduct s -> activeCartKey s = Some k ->
  cartCount (addToCart p q s) = (cartCount s + q)%Z /\
  cartTotal (addToCart p q s) = (cartTotal s + unitPrice p s * q)%Z.
Proof.
  intros H Hk. unfold cartCount, cartTotal, addToCart, unitPrice. rewrite Hk. simpl.
  destruct (List.find _ _) as [x |] eqn:Ef.
  - destruct (cart_split s _ x H Ef) as (l1 & l2 & Hs & Hx & Hout). rewrite Hs. unfold line_is.
    rewrite (map_update_split CartItemType.id
               (fun item => with_quantity (CartItemType.quantity item + q)%Z item) _ l1 x l2 Hout Hx).
    autorewrite with sc_rw. unfold CartItemType.price. simpl. lia.
  - autorewrite with sc_rw. unfold CartItemType.price. simpl. lia.
Qed.

Lemma addToCart_totals_witness :
  let s := mk [] [] (Some "socialCartItems_u1") None in
  (OneLinePerProduct s /\ activeCartKey s = Some "socialCartItems_u1") /\
  cartCount (addToCart (seedProduct 2) 2 s) = (cartCount s + 2)%Z /\
  cartTotal (addToCart (seedProduct 2) 2 s) = (cartTotal s + unitPrice (seedProduct 2) s * 2)%Z.
Proof.
  cbv zeta. split; [split; [constructor | reflexivity] |].
  apply addToCart_totals with (k := "socialCartItems_u1"); [constructor | reflexivity].
Defined.

(** adding a product twice to a cart without it makes one
    line whose quantity is the sum (the spec's 1 + 2 = 3 scenario). *)
Theorem addToCart_merges p q1 q2 s k :
  activeCartKey s = Some k -> List.find (line_is (Product.id p)) (cartItems s) = None ->
  cartItems (addToCart p q2 (addToCart p q1 s)) =
    cartItems s ++ [CartItemType.mk p (q1 + q2)%Z].
Proof.
  intros Hk Hf.
  assert (H1 : addToCart p q1 s = set_cartItems (cartItems s ++ [CartItemType.mk p q1]) s)
    by (unfold addToCart; by rewrite Hk, Hf).
  rewrite H1. unfold addToCart. cbn [activeCartKey set_cartItems cartItems]. rewrite Hk.
  rewrite find_app_none by done. unfold line_is. simpl. rewrite streqb_refl. simpl.
  rewrite map_app. simpl. rewrite streqb_refl.
  rewrite map_id_in; [done |]. intros x Hx.
  apply find_none_iff with (x := x) in Hf; [| done]. unfold line_is in Hf. by rewrite Hf.
Qed.

Lemma addToCart_merges_witness :
  let p := Product.mk "P" "P" "" 1000 [] "" 10 None 0 "" in
  let s := mk [] [] (Some "socialCartItems_u1") None in
  (activeCartKey s = Some "socialCartItems_u1" /\ List.find (line_is (Product.id p)) (cartItems s) = None) /\
  cartItems (addToCart p 2 (addToCart p 1 s)) = cartItems s ++ [CartItemType.mk p 3] /\
  cartTotal (addToCart p 2 (addToCart p 1 s)) = 3000%Z.
Proof.
  cbv zeta. split; [split; reflexivity |]. split; [| reflexivity].
  exact (addToCart_merges (Product.mk "P" "P" "" 1000 [] "" 10 None 0 "") 1 2
           (mk [] [] (Some "socialCartItems_u1") None) "socialCartItems_u1" eq_refl eq_refl).
Defined.

(** C8: with one line per product, setting the quantity
    of an existing line to [q] when [q > 0] gives the line the quantity
    [q] and changes the item count by [q] minus the old quantity; when
    [q <= 0] it removes the line, and the count loses the old quantity. *)
Theorem updateQuantity_count pid q s k x :
  OneLinePerProduct s -> activeCartKey s = Some k ->
  List.find (line_is pid) (cartItems s) = Some x ->
  List.find (line_is pid) (cartItems (updateQuantity pid q s)) =
    (if (q <=? 0)%Z then None else Some (with_quantity q x)) /\
  cartCount (updateQuantity pid q s) =
    (cartCount s - CartItemType.quantity x + (if (q <=? 0)%Z then 0 else q))%Z.
Proof.
  intros H Hk Hf. destruct (cart_split s pid x H Hf) as (l1 & l2 & Hs & Hx & Hout).
  unfold cartCount, updateQuantity, removeFromCart. rewrite Hk.
  destruct (q <=? 0)%Z; simpl; rewrite Hs.
  - split.
    + apply find_none_iff. intros y Hy. apply filter_In in Hy as [_ Hy].
      unfold line_is. apply negb_true_iff in Hy. exact Hy.
    + rewrite filter_app. simpl. rewrite Hx, streqb_refl. simpl.
      rewrite !filter_id_in; [autorewrite with sc_rw; lia | |];
        intros y Hy; unfold line_is in Hout; rewrite Hout; auto using in_or_app.
  - unfold line_is. rewrite (map_update_split CartItemType.id (with_quantity q) pid l1 x l2 Hout Hx).
    split.
    + rewrite find_app_none.
      * simpl. by rewrite with_quantity_id, Hx, streqb_refl.
      * apply find_none_iff. intros y Hy. apply Hout, in_or_app. by left.
    + autorewrite with sc_rw. simpl. lia.
Qed.

Lemma updateQuantity_count_witness :
  let x := CartItemType.mk (seedProduct 0) 2 in
  let s := mk [x] [] (Some "socialCartItems_u1") None in
  (OneLinePerProduct s /\ activeCartKey s = Some "socialCartItems_u1" /\
   List.find (line_is "1") (cartItems s) = Some x) /\
  List.find (line_is "1") (cartItems (updateQuantity "1" 0 s)) =
    (if (0 <=? 0)%Z then None else Some (with_quantity 0 x)) /\
  cartCount (updateQuantity "1" 0 s) = (cartCount s - CartItemType.quantity x + (if (0 <=? 0)%Z then 0 else 0))%Z.
Proof.
  cbv zeta. assert (H : OneLinePerProduct (mk [CartItemType.mk (seedProduct 0) 2] [] (Some "socialCartItems_u1") None))
    by (repeat constructor; intros []).
  split; [repeat split; exact H |].
  exact (updateQuantity_count "1" 0 _ "socialCartItems_u1" _ H eq_refl eq_refl).
Defined.

(** What the save effect writes under the active key
    is what the load effect reads back, the empty cart included (it is
    stored as a missing key). *)
Theorem loadCart_saveCart s st k :
  activeCartKey s = Some k -> loadCart (Some k) (saveCart s st).1 = cartItems s.
Proof.
  intros Hk. unfold saveCart. rewrite Hk. unfold loadCart.
  destruct (cartItems s) as [| x l] eqn:E.
  - by rewrite getItem_removeItem_same.
  - by rewrite getItem_setItem_same.
Qed.

Lemma loadCart_saveCart_witness :
  activeCartKey (mk [] [] (Some "k") None) = Some "k" /\
  loadCart (Some "k") (saveCart (mk [] [] (Some "k") None) ∅).1 = [].
Proof. split; [reflexivity | exact (loadCart_saveCart (mk [] [] (Some "k") None) ∅ "k" eq_refl)]. Defined.

Lemma saveCart_other s st k' :
  activeCartKey s <> Some k' -> getItem k' (saveCart s st).1 = getItem k' st.
Proof.
  intros Hne. unfold saveCart. destruct (activeCartKey s) as [k |]; [| done].
  assert (k <> k') by congruence.
  destruct (cartItems s); autorewrite with sc_rw; done.
Qed.

(** After the commits that follow a key change the
    tab shows the lines stored under the new key (nothing is carried over
    from the old partition), the new key reads back the same lines, and
    no other key is touched. *)
Theorem keyChange_view newKey s st :
  let '(s2, st2, _) := keyChange newKey s st in
  cartItems s2 = loadCart newKey st /\ activeCartKey s2 = newKey /\
  loadCart newKey st2 = loadCart newKey st /\
  (forall k', newKey <> Some k' -> getItem k' st2 = getItem k' st).
Proof.
  unfold keyChange.
  set (s1 := mk (cartItems s) (favorites s) newKey (favKey s)).
  set (s2 := set_cartItems (loadCart newKey st) s1).
  pose proof (saveCart_other s1 st) as Ho1.
  destruct (saveCart s1 st) as [st1 ev1] eqn:E1.
  pose proof (saveCart_other s2 st1) as Ho2.
  destruct (saveCart s2 st1) as [st2 ev2] eqn:E2. simpl in *.
  split; [done | split; [done | split]].
  - destruct newKey as [k |] eqn:Ek; [| done].
    pose proof (loadCart_saveCart s2 st1 k eq_refl) as Hr. rewrite E2 in Hr. simpl in Hr. exact Hr.
  - intros k' Hk'. rewrite Ho2, Ho1; done.
Qed.

(** C26: the save effect of the commit that switches
    the key still sees the old lines, so a non-empty cart is written under
    the new key (firing a [storage] event that the other participant's tab
    loads) before the lines read from the new key are written back. *)
Theorem keyChange_transient_write k s st :
  cartItems s <> [] -> getItem k st <> Some (PCart (cartItems s)) ->
  let '(_, _, evs) := keyChange (Some k) s st in
  In (mkEvent k (Some (PCart (cartItems s)))) evs.
Proof.
  intros Hne Hget. unfold keyChange, saveCart. simpl.
  destruct (cartItems s) as [| x l] eqn:E; [done |].
  unfold setItem at 1. unfold getItem in Hget. rewrite decide_False by done.
  destruct (match loadCart (Some k) st with [] => _ | _ => _ end). simpl. by left.
Qed.

Lemma keyChange_transient_write_witness :
  let s := mk [CartItemType.mk (seedProduct 0) 1] [] (Some "socialCartItems_u1") None in
  let k := "socialCartItems_shared_inv1" in
  (cartItems s <> [] /\ getItem k ∅ <> Some (PCart (cartItems s))) /\
  let '(_, _, evs) := keyChange (Some k) s ∅ in
  In (mkEvent k (Some (PCart (cartItems s)))) evs.
Proof.
  cbv zeta. split; [split; [discriminate | discriminate] |].
  apply keyChange_transient_write; discriminate.
Defined.

(** Distinct literal prefixes make distinct keys. *)
Ltac prefix_neq := cbv [CART_PREFIX SHARED_CART_PREFIX FAV_PREFIX String.append]; congruence.

(** A cart partition key is never a favourites key, so
    favourites stay personal and apart from every cart. *)
Theorem cart_key_not_fav_key cu act inv cu' k :
  cartKeyFor cu act inv = Some k -> favKeyFor cu' <> Some k.
Proof.
  unfold cartKeyFor, favKeyFor.
  destruct cu' as [u' |]; [| discriminate].
  destruct act, inv, cu; intros H; try discriminate; injection H as <-; intros H; injection H; prefix_neq.
Qed.

Lemma cart_key_not_fav_key_witness :
  cartKeyFor (Some (seedUser 0)) false None = Some "socialCartItems_u1" /\
  favKeyFor (Some (seedUser 0)) <> Some "socialCartItems_u1".
Proof.
  split; [reflexivity | exact (cart_key_not_fav_key (Some (seedUser 0)) false None _ _ eq_refl)].
Defined.

(** C27: the personal partition of user [u] and the shared
    partition of invitation [i] are the same key exactly when [u]'s id is
    ["shared_"] followed by [i]'s id: the two namespaces the spec keeps
    apart share the prefix [socialCartItems_]. *)
Theorem personal_shared_key_collision u i :
  cartKeyFor (Some u) false None = cartKeyFor None true (Some i) <->
  UserProfile.id u = "shared_" +:+ PairChatInvitation.id i.
Proof.
  unfold cartKeyFor.
  replace SHARED_CART_PREFIX with (CART_PREFIX +:+ "shared_") by reflexivity.
  rewrite string_app_assoc. split.
  - intros H. injection H as H. by apply string_prefix_inj in H.
  - intros ->. reflexivity.
Qed.

(** With a favourites key, toggling a product flips
    whether it is a favourite. *)
Theorem isFavorite_toggleFavorite pid s k :
  favKey s = Some k -> isFavorite pid (toggleFavorite pid s) = negb (isFavorite pid s).
Proof.
  intros Hk. unfold toggleFavorite, isFavorite. rewrite Hk. simpl.
  destruct (includes (favorites s) pid) eqn:E; simpl.
  - apply includes_false. intros Hin. apply filter_In in Hin as [_ H].
    by rewrite streqb_refl in H.
  - apply includes_true. apply in_or_app. by right; left.
Qed.

Lemma isFavorite_toggleFavorite_witness :
  favKey (mk [] ["1"] None (Some "socialCartFavorites_u1")) = Some "socialCartFavorites_u1" /\
  isFavorite "1" (toggleFavorite "1" (mk [] ["1"] None (Some "socialCartFavorites_u1"))) = false.
Proof.
  split; [reflexivity |].
  exact (isFavorite_toggleFavorite "1" (mk [] ["1"] None (Some "socialCartFavorites_u1")) _ eq_refl).
Defined.

End Cart.
