(* ===== verification/CartSpec.v ===== *)
(** * CartSpec: what [useCart()] promises its clients, and that
    [CartContext] keeps the promise.

    A client of the cart (the cart page, the checkout, the header badge,
    the voice assistant) only relies on a [Bag]: for every product id in
    the cart, the unit price it was added at and the quantity.  The
    operations of the specification act on the bag as a finite map
    (stdpp's [gmap]): adding merges into the product's entry, removing
    deletes it, updating to a quantity of at most 0 deletes it, and the
    total and count are sums over the entries.  The class [CartImpl]
    packages an implementation with its abstraction function and
    invariant, and [CartLaws] the obligations that make it refine the
    specification; [run_refines] is proved once against the class.  The
    instance for [Cart.State] (the lines of [CartContext.tsx], the
    invariant being one line per product and an active partition key)
    discharges the obligations, which gives [cart_refines_spec]. *)

From stdpp Require Import base list strings gmap.
From Stdlib Require Import ZArith String List Bool Lia.
From S2P Require Import Prelude Types Storage Cart.
Import ListNotations.
Local Open Scope string_scope.
Local Open Scope list_scope.

Module CartSpec.

(** ** The specification *)

Abbreviation Bag := (gmap string (Z * Z)).

Definition add (p : Product.t) (q : Z) (b : Bag) : Bag :=
  match b !! Product.id p with
  | Some _ => alter (fun '(pr, q0) => (pr, q0 + q)%Z) (Product.id p) b
  | None => <[Product.id p := (Product.price p, q)]> b
  end.

Definition remove (pid : string) (b : Bag) : Bag := delete pid b.

Definition update (pid : string) (q : Z) (b : Bag) : Bag :=
  if (q <=? 0)%Z then delete pid b else alter (fun '(pr, _) => (pr, q)) pid b.

Definition clear (b : Bag) : Bag := ∅.

Definition bag_sum (w : Z * Z -> Z) (b : Bag) : Z := map_fold (fun _ v acc => w v + acc)%Z 0%Z b.

Definition total (b : Bag) : Z := bag_sum (fun v => v.1 * v.2)%Z b.

Definition count (b : Bag) : Z := bag_sum snd b.

(** The operations a client performs. *)
Inductive Op := Add (p : Product.t) (q : Z) | Remove (pid : string) | Update (pid : string) (q : Z) | Clear.

Definition spec_step (o : Op) (b : Bag) : Bag :=
  match o with
  | Add p q => add p q b
  | Remove pid => remove pid b
  | Update pid q => update pid q b
  | Clear => clear b
  end.

Definition spec_run (os : list Op) (b : Bag) : Bag := fold_left (fun b o => spec_step o b) os b.

(** ** The interface *)

Class CartImpl (S : Type) := {
  ci_add : Product.t -> Z -> S -> S;
  ci_remove : string -> S -> S;
  ci_update : string -> Z -> S -> S;
  ci_clear : S -> S;
  ci_total : S -> Z;
  ci_count : S -> Z;
  ci_abs : S -> Bag;
  ci_inv : S -> Prop;
}.

Section Run.
Context {S : Type} `{CartImpl S}.

Definition impl_step (o : Op) (s : S) : S :=
  match o with
  | Add p q => ci_add p q s
  | Remove pid => ci_remove pid s
  | Update pid q => ci_update pid q s
  | Clear => ci_clear s
  end.

Definition impl_run (os : list Op) (s : S) : S := fold_left (fun s o => impl_step o s) os s.

End Run.

(** The obligations: each operation keeps the invariant and commutes
    with the abstraction; the total and count read the abstraction. *)
Class CartLaws (S : Type) `{CartImpl S} := {
  law_step o s : ci_inv s -> ci_inv (impl_step o s) /\ ci_abs (impl_step o s) = spec_step o (ci_abs s);
  law_total s : ci_inv s -> ci_total s = total (ci_abs s);
  law_count s : ci_inv s -> ci_count s = count (ci_abs s);
}.

(** ** The implementation: [CartContext]'s lines *)

Definition entry (item : CartItemType.t) : string * (Z * Z) :=
  (CartItemType.id item, (CartItemType.price item, CartItemType.quantity item)).

Definition abs (l : list CartItemType.t) : Bag := list_to_map (map entry l).

Definition cart_inv (s : Cart.State) : Prop := Cart.OneLinePerProduct s /\ Cart.activeCartKey s <> None.

#[global] Instance cart_impl : CartImpl Cart.State := {|
  ci_add := Cart.addToCart;
  ci_remove := Cart.removeFromCart;
  ci_update := Cart.updateQuantity;
  ci_clear := Cart.clearCart;
  ci_total := Cart.cartTotal;
  ci_count := Cart.cartCount;
  ci_abs s := abs (Cart.cartItems s);
  ci_inv := cart_inv;
|}.

(** ** Lemmas on the abstraction *)

Lemma abs_cons x l : abs (x :: l) = <[CartItemType.id x := (entry x).2]> (abs l).
Proof. reflexivity. Qed.

Lemma abs_lookup_None l pid : abs l !! pid = None <-> ~ In pid (Cart.ids l).
Proof.
  induction l as [| x l IH]; [split; [intros _ [] | intros _; apply lookup_empty] |].
  rewrite abs_cons, lookup_insert_None, IH. simpl. intuition.
Qed.

Lemma abs_lookup_find l pid :
  (exists x, List.find (Cart.line_is pid) l = Some x) <-> abs l !! pid <> None.
Proof.
  rewrite abs_lookup_None. split.
  - intros [x Hx] Hn. apply find_some_in in Hx as [Hin Hx]. rewrite Cart.line_is_id, streqb_true in Hx.
    apply Hn. rewrite <- Hx. by apply in_map.
  - intros Hn. destruct (List.find (Cart.line_is pid) l) eqn:E; [by eexists |].
    by apply Cart.not_in_ids in E.
Qed.

(** Changing the quantity of the line of [pid] is [alter] on the bag. *)
Lemma abs_alter l pid (g : Z -> Z) :
  NoDup (Cart.ids l) ->
  abs (map (fun item => if Cart.line_is pid item then Cart.with_quantity (g (CartItemType.quantity item)) item else item) l)
  = alter (fun '(pr, q) => (pr, g q)) pid (abs l).
Proof.
  induction l as [| x l IH]; intros Hnd; simpl; [by rewrite alter_id' by apply lookup_empty |].
  inversion Hnd as [| ? ? Hx Hnd']; subst. rewrite !abs_cons.
  destruct (Cart.line_is pid x) eqn:E.
  - rewrite Cart.line_is_id, streqb_true in E. subst pid. rewrite alter_insert_eq.
    rewrite map_id_in; [done |]. intros y Hy. destruct (Cart.line_is _ y) eqn:Ey; [| done].
    rewrite Cart.line_is_id, streqb_true in Ey. exfalso. apply Hx. rewrite <- Ey. by apply in_map.
  - rewrite Cart.line_is_id in E. apply String.eqb_neq in E.
    rewrite alter_insert_ne by done. by rewrite IH.
Qed.

(** Dropping the lines of [pid] is [delete] on the bag. *)
Lemma abs_filter l pid :
  abs (filter (fun item => CartItemType.id item !== pid) l) = delete pid (abs l).
Proof.
  induction l as [| x l IH]; simpl; [symmetry; apply delete_empty |]. rewrite abs_cons.
  destruct (String.eqb_spec (CartItemType.id x) pid) as [<- | Hne]; simpl.
  - by rewrite IH, delete_insert_eq.
  - by rewrite abs_cons, delete_insert_ne, IH by done.
Qed.

Lemma abs_snoc l x : ~ In (CartItemType.id x) (Cart.ids l) -> abs (l ++ [x]) = <[CartItemType.id x := (entry x).2]> (abs l).
Proof.
  induction l as [| y l IH]; intros Hn; simpl; [done |]. rewrite !abs_cons.
  apply not_in_cons in Hn as [Hne Hn]. rewrite IH by done. by apply insert_insert_ne.
Qed.

(** A sum over the lines is the sum over the bag. *)
Lemma sumZ_abs (w : Z * Z -> Z) l :
  NoDup (Cart.ids l) -> sumZ (fun item => w (entry item).2) l = bag_sum w (abs l).
Proof.
  induction l as [| x l IH]; intros Hnd; [reflexivity |]. inversion Hnd as [| ? ? Hx Hnd']; subst.
  rewrite sumZ_cons, abs_cons. unfold bag_sum. rewrite map_fold_insert_L.
  - unfold bag_sum in IH. by rewrite <- IH.
  - intros. lia.
  - by apply abs_lookup_None.
Qed.

(** ** Theorems *)

(** Each operation of [CartContext] on a cart with one line per
    product and an active key keeps both and acts on the bag as the
    specification says. *)
Lemma cart_step_refines o s :
  cart_inv s -> cart_inv (impl_step o s) /\ abs (Cart.cartItems (impl_step o s)) = spec_step o (abs (Cart.cartItems s)).
Proof.
  intros [Hnd Hk]. destruct (Cart.activeCartKey s) as [k |] eqn:Ek; [| done].
  pose proof (Cart.one_line_ops s) as Hpres.
  destruct o as [p q | pid | pid q |]; simpl.
  - split; [split; [exact (proj1 (Hpres p q "" 0%Z Hnd)) | unfold Cart.addToCart; rewrite Ek; cbn; congruence] |].
    unfold Cart.addToCart, add. rewrite Ek. simpl.
    destruct (List.find (Cart.line_is (Product.id p)) (Cart.cartItems s)) eqn:E.
    + destruct (abs (Cart.cartItems s) !! Product.id p) eqn:El.
      * exact (abs_alter _ _ (fun q0 => q0 + q)%Z Hnd).
      * exfalso. by apply (proj1 (abs_lookup_find _ _)) in El; [| eexists].
    + apply Cart.not_in_ids in E as Hn. rewrite (proj2 (abs_lookup_None _ _) Hn). by apply abs_snoc.
  - split; [split; [exact (proj1 (proj2 (Hpres (seedProduct 0) 0%Z pid 0%Z Hnd))) |
              unfold Cart.removeFromCart; rewrite Ek; cbn; congruence] |].
    unfold Cart.removeFromCart, remove. rewrite Ek. apply abs_filter.
  - split; [split; [exact (proj1 (proj2 (proj2 (Hpres (seedProduct 0) 0%Z pid q Hnd)))) |] |].
    + unfold Cart.updateQuantity, Cart.removeFromCart. rewrite Ek. destruct (q <=? 0)%Z; cbn; congruence.
    + unfold Cart.updateQuantity, Cart.removeFromCart, update. rewrite Ek.
      destruct (q <=? 0)%Z; [apply abs_filter |]. exact (abs_alter _ _ (fun _ => q) Hnd).
  - split; [split; [exact (proj2 (proj2 (proj2 (Hpres (seedProduct 0) 0%Z "" 0%Z Hnd)))) | cbn; congruence] | reflexivity].
Qed.

Lemma cart_laws : CartLaws Cart.State.
Proof.
  constructor.
  - apply cart_step_refines.
  - intros s [Hnd _]. apply (sumZ_abs (fun v => v.1 * v.2)%Z), Hnd.
  - intros s [Hnd _]. apply (sumZ_abs snd), Hnd.
Qed.
#[global] Existing Instance cart_laws.

Section Refinement.
Context {S : Type} `{CartLaws S}.

(** Any implementation that meets the obligations refines the
    specification on every sequence of operations. *)
Lemma run_refines os s :
  ci_inv s -> ci_inv (impl_run os s) /\ ci_abs (impl_run os s) = spec_run os (ci_abs s).
Proof.
  revert s. induction os as [| o os IH]; intros s Hs; [done |]. simpl.
  destruct (law_step o s Hs) as [Hs' Ha]. unfold spec_run in *. simpl. rewrite <- Ha. by apply IH.
Qed.

End Refinement.

(** C14: The cart of [CartContext] refines the bag: after any sequence of
    adds, removes, quantity updates and clears on a cart with one line
    per product and an active key, its lines are the bag the
    specification computes, and [cartTotal] and [cartCount] are that
    bag's total and count. *)
Theorem cart_refines_spec os s :
  Cart.OneLinePerProduct s -> Cart.activeCartKey s <> None ->
  abs (Cart.cartItems (impl_run os s)) = spec_run os (abs (Cart.cartItems s)) /\
  Cart.cartTotal (impl_run os s) = total (spec_run os (abs (Cart.cartItems s))) /\
  Cart.cartCount (impl_run os s) = count (spec_run os (abs (Cart.cartItems s))).
Proof.
  intros Hnd Hk. pose proof (run_refines (S := Cart.State) os s) as R.
  destruct (R (conj Hnd Hk)) as [Hi Ha].
  simpl in Ha. rewrite <- Ha. split; [done |].
  split; [exact (law_total (S := Cart.State) _ Hi) | exact (law_count (S := Cart.State) _ Hi)].
Qed.

Lemma cart_refines_spec_witness :
  let s := Cart.mk [] [] (Some "socialCartItems_u1") None in
  let os := [Add (seedProduct 0) 2; Add (seedProduct 1) 1; Add (seedProduct 0) 1; Update (Product.id (seedProduct 1)) 0] in
  (Cart.OneLinePerProduct s /\ Cart.activeCartKey s <> None) /\
  abs (Cart.cartItems (impl_run os s)) = spec_run os (abs (Cart.cartItems s)) /\
  Cart.cartTotal (impl_run os s) = total (spec_run os (abs (Cart.cartItems s))) /\
  Cart.cartCount (impl_run os s) = count (spec_run os (abs (Cart.cartItems s))).
Proof.
  cbv zeta. assert (Hnd : Cart.OneLinePerProduct (Cart.mk [] [] (Some "socialCartItems_u1") None)) by constructor.
  assert (Hk : Cart.activeCartKey (Cart.mk [] [] (Some "socialCartItems_u1") None) <> None) by discriminate.
  split; [split; [exact Hnd | exact Hk] |]. exact (cart_refines_spec _ _ Hnd Hk).
Defined.

End CartSpec.
