(* ===== verification/Animation.v ===== *)
(** * Animation: [contexts/AnimationContext.tsx].

    The provider's one [useState], [isLeafFallActive], with the
    [setTimeout(..., 9000)] calls not yet fired counted in the state.
    [triggerLeafFall] is a no-op while the leaves fall; otherwise it starts
    them and schedules the timer that stops them.  [step] is the relation
    of everything that can happen to the provider: a trigger from a
    consumer ([ProductDetailClient]) or a pending timer firing. *)

From stdpp Require Import base tactics.
From Stdlib Require Import Arith Lia Relations.Relation_Operators.
From S2P Require Import Prelude.

Module Animation.

(** [isLeafFallActive], with the timers of [setTimeout(..., 9000)] not
    yet fired. *)
Record State := mk { isLeafFallActive : bool; pendingTimers : nat }.

Definition init : State := mk false 0.

Definition triggerLeafFall (s : State) : State :=
  if isLeafFallActive s then s else mk true (S (pendingTimers s)).

(** A pending timer fires: [setIsLeafFallActive(false)]. *)
Definition timeout (s : State) : State := mk false (Nat.pred (pendingTimers s)).

Inductive step : State -> State -> Prop :=
| step_trigger s : step s (triggerLeafFall s)
| step_timeout s : (0 < pendingTimers s)%nat -> step s (timeout s).

Definition reachable (s : State) : Prop := clos_refl_trans_1n _ step init s.

(** The timer bookkeeping: one pending timer exactly while the leaves
    fall. *)
Definition timers_match (s : State) : Prop :=
  pendingTimers s = if isLeafFallActive s then 1%nat else 0%nat.

(** ** Lemmas *)

Lemma timers_match_step s s' : step s s' -> timers_match s -> timers_match s'.
Proof.
  unfold timers_match. intros [s0 | s0 Hp] H; simpl.
  - unfold triggerLeafFall. destruct (isLeafFallActive s0) eqn:E; [by rewrite E | simpl; lia].
  - destruct (isLeafFallActive s0); simpl in *; lia.
Qed.

Lemma reachable_timers_match s : reachable s -> timers_match s.
Proof.
  intros H. assert (H0 : timers_match init) by reflexivity.
  induction H as [| s1 s2 s3 Hs _ IH]; [done |]. apply IH. by apply (timers_match_step s1).
Qed.

(** ** Theorems *)

(** The leaf animation never stacks: in every state reachable from the
    initial one, a timer is pending exactly while the animation runs, and
    only one. *)
Theorem animation_single_timer s : reachable s -> timers_match s.
Proof. apply reachable_timers_match. Qed.

Lemma animation_single_timer_witness :
  reachable (triggerLeafFall init) /\ timers_match (triggerLeafFall init).
Proof.
  assert (H : reachable (triggerLeafFall init)) by (econstructor; [constructor | constructor]).
  split; [exact H | exact (animation_single_timer _ H)].
Defined.

(** C19: The leaves always stop: from every reachable state, the pending
    timers alone lead back to the idle state, without another trigger. *)
Theorem leaf_fall_stops s :
  reachable s -> clos_refl_trans_1n _ step s init.
Proof.
  intros H. apply reachable_timers_match in H. destruct s as [[|] n]; unfold timers_match in H; simpl in H; subst.
  - econstructor; [apply step_timeout; simpl; lia | constructor].
  - constructor.
Qed.

Lemma leaf_fall_stops_witness :
  reachable (triggerLeafFall init) /\ clos_refl_trans_1n _ step (triggerLeafFall init) init.
Proof.
  assert (H : reachable (triggerLeafFall init)) by (econstructor; [constructor | constructor]).
  split; [exact H | exact (leaf_fall_stops _ H)].
Defined.

End Animation.
