(* ===== verification/LeafFall.v ===== *)
(** * LeafFall: [components/effects/LeafFall.tsx] and the provider's render.

    [LeafFall] draws [LEAF_COUNT] leaves once per mount ([useMemo] with no
    dependencies).  Each leaf makes five calls to [Math.random()], in the
    order of the source: the [left] offset, the [animationDuration] and the
    [animationDelay] of the style object, the [size], and the [opacity]
    of the icon.  [Math.random()] is the stream of its draws from the
    mount on, [rand k] being the [k]-th; a draw is a rational in [[0, 1)]
    ([random_ok]).  Lengths are in the units the code prints: [vw] for
    [left], seconds for the two times, pixels for the size.

    [AnimationProvider] renders [LeafFall] while [isLeafFallActive] holds,
    and a [setTimeout] of 9000 ms turns it off; the source says the
    animation "is max 8s".  [rendered] is the provider's
    [{isLeafFallActive && <LeafFall />}]. *)

From Stdlib Require Import QArith Lqa List Lia.
From S2P Require Import Prelude Animation.
Import ListNotations.

Module LeafFall.

Local Open Scope Q_scope.

Definition LEAF_COUNT : nat := 20.

(** The provider's timer, in seconds. *)
Definition STOP_AFTER : Q := 9.

Record Leaf := mkLeaf {
  key : nat;
  left : Q;
  animationDuration : Q;
  animationDelay : Q;
  size : Q;
  opacity : Q;
}.

(** The leaf of index [i], from the five draws starting at [base]. *)
Definition leaf (rand : nat -> Q) (base i : nat) : Leaf :=
  mkLeaf i
    (rand base * 100)
    (rand (base + 1)%nat * 3 + 5)
    (rand (base + 2)%nat * 3)
    (rand (base + 3)%nat * 20 + 20)
    (rand (base + 4)%nat * (1 # 2) + (1 # 2)).

(** [Array.from({ length: LEAF_COUNT }).map((_, i) => ...)]: the leaves
    in order, each consuming five draws. *)
Definition leaves (rand : nat -> Q) : list Leaf :=
  map (fun i => leaf rand (5 * i) i) (seq 0 LEAF_COUNT).

(** [{isLeafFallActive && <LeafFall />}] *)
Definition rendered (s : Animation.State) (rand : nat -> Q) : list Leaf :=
  if Animation.isLeafFallActive s then leaves rand else [].

(** When the leaf has left the screen: its delay, then one run of the
    fall.  The [.leaf] keyframes live in [globals.css], which is not among
    the sources; one run is the default [animation-iteration-count]. *)
Definition fallEnd (l : Leaf) : Q := animationDelay l + animationDuration l.

(** Every draw of [Math.random()] is in [[0, 1)]. *)
Definition random_ok (rand : nat -> Q) : Prop := forall k, 0 <= rand k /\ rand k < 1.

(** The bounds the comments of the source give each style. *)
Definition leaf_bounds (l : Leaf) : Prop :=
  (0 <= left l < 100) /\ (5 <= animationDuration l < 8) /\ (0 <= animationDelay l < 3) /\
  (20 <= size l < 40) /\ (1 # 2 <= opacity l < 1).

(** ** Lemmas *)

Lemma leaf_in rand l : In l (leaves rand) -> exists i, (i < LEAF_COUNT)%nat /\ l = leaf rand (5 * i) i.
Proof.
  unfold leaves. rewrite in_map_iff. intros (i & <- & Hi). apply in_seq in Hi. exists i. split; [lia | reflexivity].
Qed.

Lemma leaf_bounds_ok rand base i : random_ok rand -> leaf_bounds (leaf rand base i).
Proof.
  intros H. unfold leaf_bounds, leaf; simpl.
  destruct (H base), (H (base + 1)%nat), (H (base + 2)%nat), (H (base + 3)%nat), (H (base + 4)%nat).
  repeat split; lra.
Qed.

(** ** Theorems *)

(** Twenty leaves are drawn per mount, each within the ranges its
    comments state, and every leaf is off the screen within 11 seconds
    of the mount. *)
Theorem leaves_bounds rand :
  random_ok rand ->
  length (leaves rand) = LEAF_COUNT /\ Forall (fun l => leaf_bounds l /\ fallEnd l < 11) (leaves rand).
Proof.
  intros H. split; [unfold leaves; rewrite length_map, length_seq; reflexivity |].
  apply Forall_forall. intros l Hl. apply leaf_in in Hl as (i & _ & ->).
  pose proof (leaf_bounds_ok rand (5 * i) i H) as Hb. split; [exact Hb |].
  unfold fallEnd. destruct Hb as (_ & [_ Hd] & [_ Hy] & _). lra.
Qed.

Lemma leaves_bounds_witness :
  random_ok (fun _ => 0) /\
  length (leaves (fun _ => 0)) = LEAF_COUNT /\
  Forall (fun l => leaf_bounds l /\ fallEnd l < 11) (leaves (fun _ => 0)).
Proof.
  assert (H : random_ok (fun _ => 0)) by (intros k; split; lra).
  split; [exact H | exact (leaves_bounds _ H)].
Defined.

(** C32: The provider unmounts the leaves while some still fall: the comment
    bounds the animation by 8 s and stops it after 9 s, but a leaf's
    delay (up to 3 s) comes before its fall (up to 8 s).  With every draw
    at 0.9, each of the twenty leaves ends its fall at 10.4 s. *)
Theorem leaves_outlast_timer :
  let rand := fun _ : nat => 9 # 10 in
  random_ok rand /\ leaves rand <> [] /\
  Forall (fun l => STOP_AFTER < fallEnd l) (rendered (Animation.triggerLeafFall Animation.init) rand).
Proof.
  intros rand. split; [intros k; split; unfold rand; lra |]. split; [discriminate |].
  apply Forall_forall. intros l Hl. apply leaf_in in Hl as (i & _ & ->).
  unfold STOP_AFTER, fallEnd, leaf, rand; simpl. lra.
Qed.

End LeafFall.
