(* ===== verification/CartUi.v ===== *)
(** * CartUi: the pages and widgets that drive the cart.

    [components/cart/CartItem.tsx] (the quantity controls of a cart line
    and what it shows), [components/products/ProductDetailClient.tsx] (the
    local quantity and image, the add-to-cart handler with its eco points
    and leaf fall, what the page shows), [ProductCard.tsx],
    [app/checkout/page.tsx] (delivery options, total, placing an order),
    [app/cart/page.tsx], [components/voice/VoiceAssistant.tsx] (the
    dispatch of an interpreted voice command) and
    [components/ai/PairRecommendations.tsx] (turning the names the AI flow
    returns into products).  Each handler is a function of the context
    states it reads to the states it leaves; values the browser or an AI
    flow supplies ([parseInt] of an input, the interpreted command, the
    recommended names) are arguments.  Money is in cents: [toFixed2] is
    [toFixed(2)] of the dollar amount, and [Math.round(e / 10 * q)] on the
    integers [e] and [q] is [(e * q + 5) / 10] with floor division:
    [e * q / 10] is a multiple of a tenth, so the only ties are [.5],
    which the binary product hits exactly. *)

From stdpp Require Import base list strings pretty.
From Stdlib Require Import ZArith String Ascii List Bool Lia.
From S2P Require Import Prelude Types Storage Auth PairChat Cart Animation.
Import ListNotations.
Local Open Scope string_scope.
Local Open Scope list_scope.

Module CartUi.

(** [String.prototype.toLowerCase] on ASCII text (the catalogue's names
    are ASCII). *)
Definition lower_char (c : ascii) : ascii :=
  let n := nat_of_ascii c in
  if (65 <=? n)%nat && (n <=? 90)%nat then ascii_of_nat (n + 32)%nat else c.

Fixpoint toLowerCase (s : string) : string :=
  match s with
  | EmptyString => EmptyString
  | String c s' => String (lower_char c) (toLowerCase s')
  end.

(** [Math.round((ecoFriendliness / 10) * quantity)]. *)
Definition ecoPointsFor (ecoFriendliness quantity : Z) : Z :=
  ((ecoFriendliness * quantity + 5) / 10)%Z.

(** [(cents / 100).toFixed(2)]: sign, whole dollars, two digits of
    cents. *)
Definition digit (n : Z) : string := pretty (Z.to_N n).

Definition toFixed2 (cents : Z) : string :=
  let a := Z.abs cents in
  (if (cents <? 0)%Z then "-" else "") +:+ pretty (Z.to_N (a / 100)) +:+ "." +:+
    digit ((a mod 100) / 10) +:+ digit (a mod 10).

Module CartItemCard.

(** The [-] and [+] buttons. *)
Definition handleQuantityChange (item : CartItemType.t) (amount : Z) (s : Cart.State) : Cart.State :=
  let newQuantity := (CartItemType.quantity item + amount)%Z in
  if (0 <? newQuantity)%Z && (newQuantity <=? CartItemType.stock item)%Z
  then Cart.updateQuantity (CartItemType.id item) newQuantity s
  else if (newQuantity <=? 0)%Z then Cart.updateQuantity (CartItemType.id item) 0 s
  else s.

(** The number input; [parsed] is [parseInt(e.target.value)], [None]
    for [NaN]. *)
Definition handleInputChange (item : CartItemType.t) (parsed : option Z) (s : Cart.State) : Cart.State :=
  let newQuantity := match parsed with Some n => n | None => 1%Z end in
  if (newQuantity <=? 0)%Z then Cart.updateQuantity (CartItemType.id item) 0 s
  else if (CartItemType.stock item <? newQuantity)%Z
  then Cart.updateQuantity (CartItemType.id item) (CartItemType.stock item) s
  else Cart.updateQuantity (CartItemType.id item) newQuantity s.

(** A click on the line: [navigateShared(`/products/${item.id}`)]. *)
Definition handleNavigate (currentUser : option UserProfile.t) (item : CartItemType.t) (now : Z)
    (p : PairChat.State) (st : Store) : string * Store * list StorageEvent :=
  PairChat.navigateShared currentUser ("/products/" +:+ CartItemType.id item) now p st.

(** The remove button: [removeFromCart(item.id)]. *)
Definition handleRemove (item : CartItemType.t) (s : Cart.State) : Cart.State :=
  Cart.removeFromCart (CartItemType.id item) s.

(** What the line shows: name, unit price, the state of the [-] and [+]
    buttons and the line total. *)
Record View := mkView { name : string; unitLabel : string; minusDisabled : bool; plusDisabled : bool; lineTotal : string }.

Definition view (item : CartItemType.t) : View :=
  mkView (CartItemType.name item) ("$" +:+ toFixed2 (CartItemType.price item) +:+ " each")
    (CartItemType.quantity item <=? 1)%Z (CartItemType.stock item <=? CartItemType.quantity item)%Z
    ("$" +:+ toFixed2 (CartItemType.price item * CartItemType.quantity item)).

End CartItemCard.

Module ProductDetail.

(** The local quantity: [Math.max(1, Math.min(product.stock, prev + amount))]. *)
Definition handleQuantityChange (stock prev amount : Z) : Z :=
  Z.max 1 (Z.min stock (prev + amount)).

(** The input: [parseInt(...) || 1], clamped the same way. *)
Definition handleInputChange (stock : Z) (parsed : option Z) : Z :=
  let n := match parsed with Some n => if (n =? 0)%Z then 1%Z else n | None => 1%Z end in
  Z.max 1 (Z.min stock n).

(** [const [quantity, setQuantity] = useState(1)] *)
Definition initialQuantity : Z := 1.

(** The quantity controls: the minus button (disabled at [quantity <= 1]),
    the input, and the plus button (disabled at [quantity >= stock]); a
    click on a disabled button does nothing. *)
Inductive QuantityEvent := Minus | Typed (parsed : option Z) | Plus.

Definition quantityStep (stock : Z) (e : QuantityEvent) (quantity : Z) : Z :=
  match e with
  | Minus => if (quantity <=? 1)%Z then quantity else handleQuantityChange stock quantity (-1)
  | Typed parsed => handleInputChange stock parsed
  | Plus => if (stock <=? quantity)%Z then quantity else handleQuantityChange stock quantity 1
  end.

(** The quantity after a sequence of events from the page's mount. *)
Definition quantityAfter (stock : Z) (es : list QuantityEvent) : Z :=
  fold_left (fun q e => quantityStep stock e q) es initialQuantity.

(** [handleAddToCart]: the cart, the leaf fall for a product scoring over
    85, then the eco points of a logged-in user. *)
Definition handleAddToCart (product : Product.t) (quantity : Z) (a : Auth.State) (c : Cart.State)
    (an : Animation.State) : Auth.State * Cart.State * Animation.State :=
  let c' := Cart.addToCart product quantity c in
  let an' := if (85 <? Product.ecoFriendliness product)%Z then Animation.triggerLeafFall an else an in
  match Auth.currentUser a with
  | Some _ =>
      if (0 <? Product.ecoFriendliness product)%Z then
        let pointsToAdd := ecoPointsFor (Product.ecoFriendliness product) quantity in
        if (0 <? pointsToAdd)%Z then (Auth.addEcoPoints pointsToAdd a, c', an') else (a, c', an')
      else (a, c', an')
  | None => (a, c', an')
  end.

Definition handleFavoriteToggle (product : Product.t) (c : Cart.State) : Cart.State * string :=
  (Cart.toggleFavorite (Product.id product) c,
   if Cart.isFavorite (Product.id product) c then "Removed from favorites" else "Added to favorites").

(** [useState(product.images[0])]; a thumbnail click selects its image. *)
Definition initialImage (product : Product.t) : option string := head (Product.images product).

Definition selectImage (img : string) (selectedImage : option string) : option string := Some img.

(** A review's five stars: star [i] is filled when [i < review.rating]. *)
Definition stars (rating : Z) : list bool := map (fun i => (Z.of_nat i <? rating)%Z) (seq 0 5).

(** What the page shows for the product, the local quantity and image
    and the cart's favourites. *)
Record View := mkView {
  mainImage : string;
  thumbnails : list string;
  priceLabel : string;
  ecoBadge : option Z;
  minusDisabled : bool;
  plusDisabled : bool;
  stockWarning : option Z;
  addDisabled : bool;
  addLabel : string;
  favFilled : bool;
  reviewsShown : list (list bool * string * string);
}.

Definition view (product : Product.t) (quantity : Z) (selectedImage : option string) (c : Cart.State) : View :=
  mkView
    (match selectedImage with
     | Some img => if (img =? "")%string then "/images/placeholder.png" else img
     | None => "/images/placeholder.png"
     end)
    (if (1 <? length (Product.images product))%nat then Product.images product else [])
    ("$" +:+ toFixed2 (Product.price product))
    (if (0 <? Product.ecoFriendliness product)%Z then Some (Product.ecoFriendliness product) else None)
    (quantity <=? 1)%Z
    (Product.stock product <=? quantity)%Z
    (if (Product.stock product <? 10)%Z then Some (Product.stock product) else None)
    (Product.stock product =? 0)%Z
    (if (0 <? Product.stock product)%Z then "Add to Cart" else "Out of Stock")
    (Cart.isFavorite (Product.id product) c)
    (match Product.reviews product with
     | Some rs => map (fun r => (stars (Review.rating r), Review.author r, Review.comment r)) rs
     | None => []
     end).

(** [EcoSentimentAnalysis] is rendered for the product's reviews. *)
Definition showsAnalysis (product : Product.t) : bool :=
  match Product.reviews product with Some (_ :: _) => true | _ => false end.

End ProductDetail.

Module Checkout.

Module DeliveryOption.
Record t := mk { id : string; name : string; time : string; cost : Z; points : option Z }.
End DeliveryOption.

Definition deliveryOptions : list DeliveryOption.t :=
  [DeliveryOption.mk "eco" "Eco-Friendly Delivery" "5-7 business days" 0 (Some 15%Z);
   DeliveryOption.mk "standard" "Standard Shipping" "3-5 business days" 599 None;
   DeliveryOption.mk "express" "Express Shipping" "1-2 business days" 1299 None].

Definition findOption (selectedDelivery : string) : option DeliveryOption.t :=
  List.find (fun opt => DeliveryOption.id opt === selectedDelivery) deliveryOptions.

(** [deliveryOptions.find(...)?.cost || 0] *)
Definition shippingCost (selectedDelivery : string) : Z :=
  match findOption selectedDelivery with Some o => DeliveryOption.cost o | None => 0%Z end.

Definition total (c : Cart.State) (selectedDelivery : string) : Z :=
  (Cart.cartTotal c + shippingCost selectedDelivery)%Z.

Definition handlePlaceOrder (selectedDelivery : string) (a : Auth.State) : Auth.State :=
  match findOption selectedDelivery with
  | Some o =>
      if (DeliveryOption.id o === "eco") && bool_decide (Auth.currentUser a <> None) then
        match DeliveryOption.points o with
        | Some p => if (p =? 0)%Z then a else Auth.addEcoPoints p a
        | None => a
        end
      else a
  | None => a
  end.

(** The page: with an empty cart it renders no form, so no order can be
    placed; otherwise submitting runs [handlePlaceOrder]. *)
Definition submit (selectedDelivery : string) (a : Auth.State) (c : Cart.State) : option Auth.State :=
  match Cart.cartItems c with
  | [] => None
  | _ => Some (handlePlaceOrder selectedDelivery a)
  end.

End Checkout.

Module Voice.

Inductive Action :=
| SEARCH_PRODUCTS | ADD_TO_CART | VIEW_CART | NAVIGATE_HOME | NAVIGATE_SOCIAL | NAVIGATE_CHAT | UNKNOWN.

(** [VoiceCommandOutput]: the action and its payload. *)
Record Command := mkCommand {
  action : Action;
  productName : option string;
  quantity : option Z;
  responseText : string;
}.

Inductive Notice :=
| EcoPointsEarned (points : Z)
| ProductNotFound (name : option string)
| Searching (name : option string).

(** [p.name.toLowerCase() === command.payload.productName?.toLowerCase()] *)
Definition productToAdd (productName : option string) : option Product.t :=
  List.find (fun p => match productName with
                      | Some n => toLowerCase (Product.name p) === toLowerCase n
                      | None => false
                      end) mockProducts.

(** The [switch] of [processCommand], on the contexts and the route. *)
Definition processCommand (command : Command) (a : Auth.State) (c : Cart.State) (route : string)
  : Auth.State * Cart.State * string * list Notice :=
  match action command with
  | ADD_TO_CART =>
      match productToAdd (productName command) with
      | Some p =>
          let q := match quantity command with Some q => if (q =? 0)%Z then 1%Z else q | None => 1%Z end in
          let c' := Cart.addToCart p q c in
          if (0 <? Product.ecoFriendliness p)%Z then
            let pointsToAdd := ecoPointsFor (Product.ecoFriendliness p) q in
            if (0 <? pointsToAdd)%Z then (Auth.addEcoPoints pointsToAdd a, c', route, [EcoPointsEarned pointsToAdd])
            else (a, c', route, [])
          else (a, c', route, [])
      | None => (a, c, route, [ProductNotFound (productName command)])
      end
  | VIEW_CART => (a, c, "/cart", [])
  | NAVIGATE_HOME => (a, c, "/products", [])
  | NAVIGATE_SOCIAL => (a, c, "/social", [])
  | NAVIGATE_CHAT => (a, c, "/chat", [])
  | SEARCH_PRODUCTS => (a, c, route, [Searching (productName command)])
  | UNKNOWN => (a, c, route, [])
  end.

End Voice.

Module PairRecommendations.

Record State := mk { recommendations : list Product.t; isLoading : bool; error : option string }.

Definition init : State := mk [] false None.

(** Names to catalogue products, those already in the cart dropped,
    the first three kept. *)
Definition finalRecommendations (names : list string) (cartItems : list CartItemType.t) : list Product.t :=
  let detailedRecommendations :=
    omap (fun name => List.find (fun p => toLowerCase (Product.name p) === toLowerCase name) mockProducts) names in
  firstn 3 (filter (fun r => negb (existsb (fun cartItem => CartItemType.id cartItem === Product.id r) cartItems))
                   detailedRecommendations).

(** The effect on [[cartItems]]: a fetch starts, or the list is cleared. *)
Definition effectStart (cartItems : list CartItemType.t) (s : State) : State :=
  match cartItems with
  | [] => mk [] (isLoading s) (error s)
  | _ => mk (recommendations s) true None
  end.

(** The fetch started for [cartItems] completes: [Some names] when the
    flow answered, [None] when it rejected. *)
Definition fetchDone (cartItems : list CartItemType.t) (result : option (list string)) (s : State) : State :=
  match result with
  | Some names => mk (finalRecommendations names cartItems) false (error s)
  | None => mk (recommendations s) false (Some "Could not load recommendations at this time.")
  end.

(** The products the card shows. *)
Definition shown (s : State) : list Product.t :=
  if negb (isLoading s) && bool_decide (error s = None) then recommendations s else [].

(** What the component renders: nothing for an empty cart with no fetch
    in flight, else the card with the spinner, the error alert, the grid
    and the "No specific recommendations" line, each under its condition. *)
Inductive View := Hidden | Shown (spinner : bool) (alert : option string) (grid : list Product.t) (noneLine : bool).

Definition view (cartItems : list CartItemType.t) (s : State) : View :=
  if (length cartItems =? 0)%nat && negb (isLoading s) then Hidden
  else Shown (isLoading s) (error s) (shown s)
         (negb (isLoading s) && bool_decide (error s = None) && (length (recommendations s) =? 0)%nat
          && negb (length cartItems =? 0)%nat).

End PairRecommendations.

Module ProductCard.

(** The heart button: the toggle and the toast title, chosen from
    [isFavorite] before the toggle. *)
Definition handleFavoriteToggle (product : Product.t) (c : Cart.State) : Cart.State * string :=
  (Cart.toggleFavorite (Product.id product) c,
   if Cart.isFavorite (Product.id product) c then "Removed from favorites" else "Added to favorites").

(** A click on the card: [navigateShared(`/products/${product.id}`)]. *)
Definition handleNavigate (currentUser : option UserProfile.t) (product : Product.t) (now : Z)
    (p : PairChat.State) (st : Store) : string * Store * list StorageEvent :=
  PairChat.navigateShared currentUser ("/products/" +:+ Product.id product) now p st.

(** What the card shows: name, the first 60 characters of the
    description followed by "...", price, eco badge and the heart. *)
Record View := mkView { name : string; blurb : string; priceLabel : string; ecoBadge : option Z; favFilled : bool }.

Definition view (product : Product.t) (c : Cart.State) : View :=
  mkView (Product.name product) (String.substring 0 60 (Product.description product) +:+ "...")
    ("$" +:+ toFixed2 (Product.price product))
    (if (0 <? Product.ecoFriendliness product)%Z then Some (Product.ecoFriendliness product) else None)
    (Cart.isFavorite (Product.id product) c).

End ProductCard.

Module CartPage.

Inductive View := EmptyCart | Lines (clearButton : bool) (subtotalLabel : string) (subtotal : Z).

(** [Subtotal (${cartCount} item${cartCount !== 1 ? 's' : ''})] *)
Definition subtotalLabel (cartCount : Z) : string :=
  "Subtotal (" +:+ pretty cartCount +:+ " item" +:+ (if (cartCount =? 1)%Z then "" else "s") +:+ ")".

Definition view (c : Cart.State) : View :=
  match Cart.cartItems c with
  | [] => EmptyCart
  | _ => Lines (0 <? Cart.cartCount c)%Z (subtotalLabel (Cart.cartCount c)) (Cart.cartTotal c)
  end.

End CartPage.

(** A cart line of product [pid] is absent or holds a quantity in
    [[1, stock]]. *)
Definition line_in_bounds (pid : string) (stock : Z) (s : Cart.State) : Prop :=
  match List.find (Cart.line_is pid) (Cart.cartItems s) with
  | None => True
  | Some l => (1 <= CartItemType.quantity l <= stock)%Z
  end.

(** ** Lemmas *)

Lemma find_line_updateQuantity pid q s k :
  Cart.activeCartKey s = Some k ->
  List.find (Cart.line_is pid) (Cart.cartItems (Cart.updateQuantity pid q s)) =
    if (q <=? 0)%Z then None
    else option_map (Cart.with_quantity q) (List.find (Cart.line_is pid) (Cart.cartItems s)).
Proof.
  intros Hk. unfold Cart.updateQuantity. rewrite Hk. destruct (q <=? 0)%Z.
  - unfold Cart.removeFromCart. rewrite Hk. simpl. apply find_none_iff.
    intros x Hx. apply filter_In in Hx as [_ Hx]. unfold Cart.line_is.
    by destruct (CartItemType.id x === pid).
  - simpl. induction (Cart.cartItems s) as [| x l IH]; [done |]. simpl.
    destruct (Cart.line_is pid x) eqn:E; simpl.
    + change (Cart.line_is pid (Cart.with_quantity q x)) with (Cart.line_is pid x). by rewrite E.
    + by rewrite E.
Qed.

Lemma line_in_bounds_updateQuantity pid stock q s k :
  Cart.activeCartKey s = Some k -> (q <= 0 \/ 1 <= q <= stock)%Z ->
  line_in_bounds pid stock (Cart.updateQuantity pid q s).
Proof.
  intros Hk Hq. unfold line_in_bounds. rewrite (find_line_updateQuantity _ _ _ _ Hk).
  destruct (Z.leb_spec q 0); [done |]. destruct (List.find _ _); simpl; [lia | done].
Qed.

(** [ecoPointsFor] is [Math.round]: the nearest integer, ties up. *)
Lemma ecoPointsFor_round e q :
  (10 * ecoPointsFor e q - 5 <= e * q < 10 * ecoPointsFor e q + 5)%Z.
Proof.
  unfold ecoPointsFor. pose proof (Z.div_mod (e * q + 5) 10 ltac:(lia)).
  pose proof (Z.mod_pos_bound (e * q + 5) 10 ltac:(lia)). lia.
Qed.

Lemma handlePlaceOrder_eco sel a :
  Checkout.handlePlaceOrder sel a =
    if (sel === "eco") && bool_decide (Auth.currentUser a <> None) then Auth.addEcoPoints 15 a else a.
Proof.
  unfold Checkout.handlePlaceOrder, Checkout.findOption. cbn [List.find Checkout.deliveryOptions Checkout.DeliveryOption.id].
  destruct (String.eqb_spec "eco" sel) as [<- | Hne]; [by destruct (bool_decide _) |].
  rewrite (proj2 (String.eqb_neq sel "eco")) by congruence.
  destruct ("standard" === sel); [reflexivity |]. by destruct ("express" === sel).
Qed.

Lemma In_firstn {A} n (l : list A) x : In x (firstn n l) -> In x l.
Proof. intros H. rewrite <- (firstn_skipn n l). apply in_or_app. by left. Qed.

(** ** Theorems *)

(** C34: From the mount on, whatever the buttons and the input do, the
    product page's quantity stays at least 1 and at most the stock (1
    for a product out of stock, whose add button is disabled). *)
Theorem quantity_after_bounds stock es :
  (1 <= ProductDetail.quantityAfter stock es <= Z.max 1 stock)%Z.
Proof.
  unfold ProductDetail.quantityAfter.
  assert (H : (1 <= ProductDetail.initialQuantity <= Z.max 1 stock)%Z) by (unfold ProductDetail.initialQuantity; lia).
  revert H. generalize ProductDetail.initialQuantity as q. induction es as [| e es IH]; intros q Hq; [exact Hq |].
  apply IH. destruct e as [| parsed |]; simpl;
    unfold ProductDetail.handleQuantityChange, ProductDetail.handleInputChange;
    repeat case_match; lia.
Qed.

(** C33: the quantity controls of a cart line keep it within
    stock: if the line was absent or held between 1 and [stock] units,
    after the [-]/[+] buttons or the number input it is still absent or
    between 1 and [stock] (a request below 1 removes it, one above the
    stock is capped by the input and ignored by the buttons). *)
Theorem quantity_controls_bounded item s k amount parsed :
  Cart.activeCartKey s = Some k ->
  line_in_bounds (CartItemType.id item) (CartItemType.stock item) s ->
  line_in_bounds (CartItemType.id item) (CartItemType.stock item) (CartItemCard.handleQuantityChange item amount s) /\
  line_in_bounds (CartItemType.id item) (CartItemType.stock item) (CartItemCard.handleInputChange item parsed s).
Proof.
  intros Hk Hb. unfold CartItemCard.handleQuantityChange, CartItemCard.handleInputChange. cbv zeta. split.
  - set (n := (CartItemType.quantity item + amount)%Z).
    destruct (Z.ltb_spec 0 n), (Z.leb_spec n (CartItemType.stock item)); simpl;
      destruct (Z.leb_spec n 0); try done; apply (line_in_bounds_updateQuantity _ _ _ _ k Hk); lia.
  - set (n := match parsed with Some n => n | None => 1%Z end).
    destruct (Z.leb_spec n 0); [apply (line_in_bounds_updateQuantity _ _ _ _ k Hk); lia |].
    destruct (Z.ltb_spec (CartItemType.stock item) n); apply (line_in_bounds_updateQuantity _ _ _ _ k Hk); lia.
Qed.

Lemma quantity_controls_bounded_witness :
  let item := CartItemType.mk (seedProduct 7) 1 in
  let s := Cart.mk [item] [] (Some "socialCartItems_u1") None in
  (Cart.activeCartKey s = Some "socialCartItems_u1" /\
   line_in_bounds (CartItemType.id item) (CartItemType.stock item) s) /\
  line_in_bounds (CartItemType.id item) (CartItemType.stock item) (CartItemCard.handleQuantityChange item 1 s) /\
  line_in_bounds (CartItemType.id item) (CartItemType.stock item) (CartItemCard.handleInputChange item (Some 1000%Z) s).
Proof.
  cbv zeta. split; [split; [reflexivity | vm_compute; split; discriminate] |].
  apply (quantity_controls_bounded _ _ "socialCartItems_u1"); [reflexivity | vm_compute; split; discriminate].
Defined.

(** C35: adding [q] units of a product with eco score [e]
    (both positive) credits the logged-in user with [e * q / 10] rounded
    to the nearest integer, ties up, and adds the units to the cart. *)
Theorem handleAddToCart_points product q a c an u :
  Auth.currentUser a = Some u -> (0 < Product.ecoFriendliness product)%Z -> (1 <= q)%Z ->
  (5 <= Product.ecoFriendliness product)%Z ->
  let '(a', c', an') := ProductDetail.handleAddToCart product q a c an in
  exists r, Auth.currentUser a' = Some (Auth.with_ecoPoints (UserProfile.ecoPoints u + r) u) /\
    (10 * r - 5 <= Product.ecoFriendliness product * q < 10 * r + 5)%Z /\
    c' = Cart.addToCart product q c /\
    an' = (if (85 <? Product.ecoFriendliness product)%Z then Animation.triggerLeafFall an else an).
Proof.
  intros Hu He Hq He5. unfold ProductDetail.handleAddToCart. rewrite Hu.
  pose proof (ecoPointsFor_round (Product.ecoFriendliness product) q) as Hr.
  destruct (Z.ltb_spec 0 (Product.ecoFriendliness product)); [| lia].
  destruct (Z.ltb_spec 0 (ecoPointsFor (Product.ecoFriendliness product) q)); [| nia].
  exists (ecoPointsFor (Product.ecoFriendliness product) q). unfold Auth.addEcoPoints. rewrite Hu. done.
Qed.

Lemma handleAddToCart_points_witness :
  let a := Auth.mk (Some (seedUser 0)) mockUsers in
  let c := Cart.mk [] [] (Some "socialCartItems_u1") None in
  (Auth.currentUser a = Some (seedUser 0) /\ (0 < Product.ecoFriendliness (seedProduct 7))%Z /\ (1 <= 3)%Z /\
   (5 <= Product.ecoFriendliness (seedProduct 7))%Z) /\
  let '(a', c', an') := ProductDetail.handleAddToCart (seedProduct 7) 3 a c Animation.init in
  exists r, Auth.currentUser a' = Some (Auth.with_ecoPoints (UserProfile.ecoPoints (seedUser 0) + r) (seedUser 0)) /\
    (10 * r - 5 <= Product.ecoFriendliness (seedProduct 7) * 3 < 10 * r + 5)%Z /\
    c' = Cart.addToCart (seedProduct 7) 3 c /\
    an' = (if (85 <? Product.ecoFriendliness (seedProduct 7))%Z then Animation.triggerLeafFall Animation.init else Animation.init).
Proof.
  cbv zeta. split; [vm_compute; split; [reflexivity | split; [reflexivity | split; discriminate]] |].
  apply handleAddToCart_points; [reflexivity | vm_compute; reflexivity | lia | vm_compute; discriminate].
Defined.

(** C18: The voice assistant's "add" is the product page's add-to-cart
    button: for a command naming a catalogue product with a non-zero
    quantity [q], the directory and the cart it leaves are those the
    product page leaves after adding [q] units, whether or not a user is
    logged in, and the route does not change.  (The voice path never
    starts the leaf fall.) *)
Theorem voice_add_matches_product_page cmd p q a c an route :
  Voice.action cmd = Voice.ADD_TO_CART -> Voice.productToAdd (Voice.productName cmd) = Some p ->
  Voice.quantity cmd = Some q -> q <> 0%Z ->
  let '(a1, c1, route1, _) := Voice.processCommand cmd a c route in
  let '(a2, c2, _) := ProductDetail.handleAddToCart p q a c an in
  a1 = a2 /\ c1 = c2 /\ route1 = route.
Proof.
  intros Hact Hp Hq Hq0. unfold Voice.processCommand, ProductDetail.handleAddToCart.
  rewrite Hact, Hp, Hq, (proj2 (Z.eqb_neq _ _) Hq0).
  destruct (Auth.currentUser a) eqn:Hu; [| unfold Auth.addEcoPoints; rewrite Hu];
    destruct (0 <? _)%Z; try destruct (0 <? ecoPointsFor _ _)%Z; done.
Qed.

Lemma voice_add_matches_product_page_witness :
  let cmd := Voice.mkCommand Voice.ADD_TO_CART (Some "reusable beeswax food wraps") (Some 2%Z) "" in
  let a := Auth.mk (Some (seedUser 0)) mockUsers in
  let c := Cart.mk [] [] (Some "socialCartItems_u1") None in
  (Voice.action cmd = Voice.ADD_TO_CART /\ Voice.productToAdd (Voice.productName cmd) = Some (seedProduct 6) /\
   Voice.quantity cmd = Some 2%Z /\ 2%Z <> 0%Z) /\
  let '(a1, c1, route1, _) := Voice.processCommand cmd a c "/products" in
  let '(a2, c2, _) := ProductDetail.handleAddToCart (seedProduct 6) 2 a c Animation.init in
  a1 = a2 /\ c1 = c2 /\ route1 = "/products".
Proof.
  cbv zeta. split; [split; [reflexivity | split; [vm_compute; reflexivity | split; [reflexivity | discriminate]]] |].
  apply voice_add_matches_product_page; [reflexivity | vm_compute; reflexivity | reflexivity | discriminate].
Defined.

(** The product page bounds only the quantity of one add,
    not the line in the cart: adding the whole stock twice leaves a line
    with twice the stock. *)
Theorem add_to_cart_exceeds_stock :
  let p := seedProduct 7 in
  let a := Auth.mk (Some (seedUser 0)) mockUsers in
  let c := Cart.mk [] [] (Some "socialCartItems_u1") None in
  let q := ProductDetail.handleQuantityChange (Product.stock p) (Product.stock p) 0 in
  let '(a1, c1, an1) := ProductDetail.handleAddToCart p q a c Animation.init in
  let '(_, c2, _) := ProductDetail.handleAddToCart p q a1 c1 an1 in
  map CartItemType.quantity (Cart.cartItems c2) = [2 * Product.stock p]%Z /\ (Product.stock p < 2 * Product.stock p)%Z.
Proof. vm_compute. split; reflexivity. Qed.

(** The quantity picker of the product page stays at
    least 1 and, for a product in stock, at most the stock, whatever the
    buttons add or the input holds. *)
Theorem product_quantity_clamped stock prev amount parsed :
  (1 <= ProductDetail.handleQuantityChange stock prev amount)%Z /\
  (1 <= stock -> ProductDetail.handleQuantityChange stock prev amount <= stock)%Z /\
  (1 <= ProductDetail.handleInputChange stock parsed)%Z /\
  (1 <= stock -> ProductDetail.handleInputChange stock parsed <= stock)%Z.
Proof. unfold ProductDetail.handleQuantityChange, ProductDetail.handleInputChange. lia. Qed.

(** the checkout total is the cart total plus the shipping
    of the chosen option (free, 5.99 or 12.99; nothing for an unknown id),
    and placing an order credits 15 points exactly for eco delivery with a
    user logged in. *)
Theorem checkout_spec c sel a :
  Checkout.total c sel =
    (Cart.cartTotal c + (if sel === "standard" then 599 else if sel === "express" then 1299 else 0))%Z /\
  Checkout.handlePlaceOrder sel a =
    if (sel === "eco") && bool_decide (Auth.currentUser a <> None) then Auth.addEcoPoints 15 a else a.
Proof.
  split; [| apply handlePlaceOrder_eco].
  unfold Checkout.total, Checkout.shippingCost, Checkout.findOption.
  cbn [List.find Checkout.deliveryOptions Checkout.DeliveryOption.id].
  destruct (String.eqb_spec "eco" sel) as [<- | Hne]; [reflexivity |].
  rewrite !(streqb_sym sel).
  destruct ("standard" === sel); [reflexivity |]. by destruct ("express" === sel).
Qed.

(** Placing an order neither clears the cart nor marks it
    placed, so submitting the form again credits the eco bonus again. *)
Theorem place_order_twice a c u :
  Auth.currentUser a = Some u -> Cart.cartItems c <> [] ->
  (Checkout.submit "eco" a c ≫= fun a' => Checkout.submit "eco" a' c) =
    Some (Auth.addEcoPoints 15 (Auth.addEcoPoints 15 a)).
Proof.
  intros Hu Hc. unfold Checkout.submit. destruct (Cart.cartItems c); [done |]. simpl.
  assert (H1 : Auth.currentUser a <> None) by congruence.
  assert (H2 : Auth.currentUser (Auth.addEcoPoints 15 a) <> None)
    by (unfold Auth.addEcoPoints; by rewrite Hu).
  rewrite !handlePlaceOrder_eco, (bool_decide_eq_true_2 _ H1). simpl.
  by rewrite (bool_decide_eq_true_2 _ H2).
Qed.

Lemma place_order_twice_witness :
  let a := Auth.mk (Some (seedUser 0)) mockUsers in
  let c := Cart.mk [CartItemType.mk (seedProduct 0) 1] [] (Some "socialCartItems_u1") None in
  (Auth.currentUser a = Some (seedUser 0) /\ Cart.cartItems c <> []) /\
  (Checkout.submit "eco" a c ≫= fun a' => Checkout.submit "eco" a' c) =
    Some (Auth.addEcoPoints 15 (Auth.addEcoPoints 15 a)).
Proof.
  cbv zeta. split; [split; [reflexivity | discriminate] |].
  apply (place_order_twice _ _ (seedUser 0)); [reflexivity | discriminate].
Defined.
(** A voice command other than [ADD_TO_CART] never changes
    the user or the cart: it only navigates or informs. *)
Theorem processCommand_non_add cmd a c route :
  Voice.action cmd <> Voice.ADD_TO_CART ->
  let '(a', c', _, _) := Voice.processCommand cmd a c route in a' = a /\ c' = c.
Proof. intros H. unfold Voice.processCommand. by destruct (Voice.action cmd). Qed.

Lemma processCommand_non_add_witness :
  let cmd := Voice.mkCommand Voice.VIEW_CART None None "Opening your cart" in
  Voice.action cmd <> Voice.ADD_TO_CART /\
  let '(a', c', _, _) := Voice.processCommand cmd (Auth.mk None mockUsers) Cart.init "/products" in
  a' = Auth.mk None mockUsers /\ c' = Cart.init.
Proof.
  cbv zeta. split; [discriminate |]. by apply processCommand_non_add.
Defined.

(** The quantity the voice flow returns reaches [addToCart]
    unchecked (only [0] becomes 1): asking for [-2] of a product puts a
    line of [-2] units in the cart, whose total becomes negative. *)
Theorem voice_negative_quantity :
  let cmd := Voice.mkCommand Voice.ADD_TO_CART (Some "bamboo cutlery set") (Some (-2)%Z) "" in
  let c := Cart.mk [] [] (Some "socialCartItems_u1") None in
  let '(_, c', _, _) := Voice.processCommand cmd (Auth.mk (Some (seedUser 0)) mockUsers) c "/products" in
  map CartItemType.quantity (Cart.cartItems c') = [(-2)%Z] /\ (Cart.cartTotal c' < 0)%Z.
Proof. vm_compute. split; reflexivity. Qed.

(** The recommendations shown are at most three catalogue
    products, none of which is already in the cart. *)
Theorem finalRecommendations_sound names cartItems :
  length (PairRecommendations.finalRecommendations names cartItems) <= 3 /\
  Forall (fun r => In r mockProducts /\
                   existsb (fun ci => CartItemType.id ci === Product.id r) cartItems = false)
    (PairRecommendations.finalRecommendations names cartItems).
Proof.
  unfold PairRecommendations.finalRecommendations. cbv zeta. split; [rewrite length_firstn; lia |].
  apply Forall_forall. intros r Hr. apply In_firstn, filter_In in Hr as [Hr Hn].
  apply negb_true_iff in Hn. split; [| done].
  apply list_elem_of_In, list_elem_of_omap in Hr as (n & _ & Hf).
  by apply find_some_in in Hf as [? _].
Qed.

(** When the recommendation flow rejects, the card shows
    the error and no recommendation. *)
Theorem fetch_failure_shows_nothing cartItems s :
  PairRecommendations.shown (PairRecommendations.fetchDone cartItems None s) = [] /\
  PairRecommendations.error (PairRecommendations.fetchDone cartItems None s) =
    Some "Could not load recommendations at this time.".
Proof. split; reflexivity. Qed.

(** Fetches are not cancelled, so when the fetch for an
    older cart completes last its list is the one shown: here it
    recommends a product the cart already holds. *)
Theorem stale_recommendations_shown :
  let c1 := [CartItemType.mk (seedProduct 7) 1] in
  let c2 := c1 ++ [CartItemType.mk (seedProduct 6) 1] in
  let s := PairRecommendations.effectStart c2 (PairRecommendations.effectStart c1 PairRecommendations.init) in
  let s := PairRecommendations.fetchDone c2 (Some ["Recycled Paper Notebook"]) s in
  let s := PairRecommendations.fetchDone c1 (Some ["Reusable Beeswax Food Wraps"]) s in
  map Product.id (PairRecommendations.shown s) = ["7"] /\ In "7" (map CartItemType.id c2).
Proof. vm_compute. split; [reflexivity | right; left; reflexivity]. Qed.

(** The list is not made unique, though the code says "top 3
    unique recommendations": a name the flow repeats, in any case,
    yields the same product twice. *)
Theorem duplicate_recommendations :
  map Product.id (PairRecommendations.finalRecommendations ["Bamboo Cutlery Set"; "bamboo cutlery set"] []) = ["8"; "8"].
Proof. vm_compute. reflexivity. Qed.

(** The favourite toast tells the truth: with a favourites key, the
    heart button announces "Added" exactly when the product is a
    favourite afterwards. *)
Theorem favorite_toast_matches product c k :
  Cart.favKey c = Some k ->
  let '(c', title) := ProductCard.handleFavoriteToggle product c in
  (title = "Added to favorites" <-> Cart.isFavorite (Product.id product) c' = true).
Proof.
  intros Hk. unfold ProductCard.handleFavoriteToggle.
  rewrite (Cart.isFavorite_toggleFavorite _ _ _ Hk).
  by destruct (Cart.isFavorite (Product.id product) c).
Qed.

Lemma favorite_toast_matches_witness :
  Cart.favKey (Cart.mk [] [] None (Some "socialCartFavorites_u1")) = Some "socialCartFavorites_u1" /\
  let '(c', title) := ProductCard.handleFavoriteToggle (seedProduct 0) (Cart.mk [] [] None (Some "socialCartFavorites_u1")) in
  (title = "Added to favorites" <-> Cart.isFavorite (Product.id (seedProduct 0)) c' = true).
Proof. split; [reflexivity | by apply favorite_toast_matches with "socialCartFavorites_u1"]. Defined.

(** A negative voice quantity hides the "Clear Cart" button of a cart
    that still has lines: one unit added on the product page and [-1] of
    another product by voice make the count 0 ("0 items"). *)
Theorem cart_page_negative_count :
  let c := Cart.mk [] [] (Some "socialCartItems_u1") None in
  let '(_, c1, _) := ProductDetail.handleAddToCart (seedProduct 7) 1 (Auth.mk (Some (seedUser 0)) mockUsers) c Animation.init in
  let cmd := Voice.mkCommand Voice.ADD_TO_CART (Some "Reusable Beeswax Food Wraps") (Some (-1)%Z) "" in
  let '(_, c2, _, _) := Voice.processCommand cmd (Auth.mk (Some (seedUser 0)) mockUsers) c1 "/cart" in
  length (Cart.cartItems c2) = 2 /\
  exists total, CartPage.view c2 = CartPage.Lines false "Subtotal (0 items)" total.
Proof. vm_compute. split; [reflexivity | eexists; reflexivity]. Qed.

End CartUi.
