(* ===== verification/CheckoutPage.v ===== *)
(** * CheckoutPage: the form and the order summary of [app/checkout/page.tsx].

    [CartUi.Checkout] holds the page's arithmetic and [handlePlaceOrder];
    this file adds what the page shows and when it submits.  The form has
    ten [required] inputs: the browser fires [onSubmit] only when every
    one is filled and the [type="email"] input holds a valid address
    (the browser's check is an argument, [emailValid]).  Prices are
    cents; [CartUi.toFixed2] is [Number.prototype.toFixed(2)] on the amount in
    dollars, which on a whole number of cents is exact.  The summary
    reads [cartTotal] from [useCart()], so [CartSpec]'s refinement gives
    the total in terms of the abstract bag. *)

From stdpp Require Import base list strings gmap pretty.
From Stdlib Require Import ZArith String List Bool Lia.
From S2P Require Import Prelude Types Storage Auth Cart CartSpec Animation CartUi.
Import ListNotations.
Local Open Scope string_scope.
Local Open Scope list_scope.

Module CheckoutPage.

(** The ten [required] inputs, in the order of the page. *)
Record Form := mkForm {
  fullName : string; email : string; address : string; city : string; state : string; zip : string;
  cardName : string; cardNumber : string; expiry : string; cvc : string;
}.

Definition fields (f : Form) : list string :=
  [fullName f; email f; address f; city f; state f; zip f; cardName f; cardNumber f; expiry f; cvc f].

(** The browser's constraint validation of the form. *)
Definition formValid (f : Form) (emailValid : bool) : bool :=
  forallb (fun v => negb (v =? "")%string) (fields f) && emailValid.

(** Pressing "Place Order": [None] when no order is placed (no form is
    rendered for an empty cart, or the browser blocks the submit). *)
Definition placeOrder (f : Form) (emailValid : bool) (selectedDelivery : string) (a : Auth.State) (c : Cart.State)
  : option Auth.State :=
  if formValid f emailValid then CartUi.Checkout.submit selectedDelivery a c else None.

(** [option.cost > 0 ? `$${option.cost.toFixed(2)}` : 'FREE'] *)
Definition costLabel (cost : Z) : string := if (0 <? cost)%Z then "$" +:+ CartUi.toFixed2 cost else "FREE".

(** One card of the delivery options: name, time, description-free
    data, price label and whether it is the selected one. *)
Record OptionCard := mkOptionCard { oc_id : string; oc_name : string; oc_time : string; oc_price : string; oc_selected : bool }.

Definition optionCards (selectedDelivery : string) : list OptionCard :=
  map (fun o => mkOptionCard (CartUi.Checkout.DeliveryOption.id o) (CartUi.Checkout.DeliveryOption.name o)
                  (CartUi.Checkout.DeliveryOption.time o) (costLabel (CartUi.Checkout.DeliveryOption.cost o))
                  (selectedDelivery === CartUi.Checkout.DeliveryOption.id o))
      CartUi.Checkout.deliveryOptions.

(** One line of the order summary: name, [Qty: n] and
    [$(item.price * item.quantity).toFixed(2)]. *)
Record SummaryLine := mkLine { sl_name : string; sl_quantity : Z; sl_amount : string }.

Record Summary := mkSummary {
  lines : list SummaryLine; subtotal : string; shipping : string; totalLabel : string;
}.

Definition summary (c : Cart.State) (selectedDelivery : string) : Summary :=
  mkSummary
    (map (fun item => mkLine (CartItemType.name item) (CartItemType.quantity item)
                        (CartUi.toFixed2 (CartItemType.price item * CartItemType.quantity item))) (Cart.cartItems c))
    ("$" +:+ CartUi.toFixed2 (Cart.cartTotal c))
    (costLabel (CartUi.Checkout.shippingCost selectedDelivery))
    ("$" +:+ CartUi.toFixed2 (CartUi.Checkout.total c selectedDelivery)).

(** The page: the empty-cart notice, or the form with its cards and
    summary. *)
Inductive View := EmptyCart | Page (cards : list OptionCard) (s : Summary).

Definition view (c : Cart.State) (selectedDelivery : string) : View :=
  match Cart.cartItems c with
  | [] => EmptyCart
  | _ => Page (optionCards selectedDelivery) (summary c selectedDelivery)
  end.

(** ** The page's own state and its events *)

(** [const [selectedDelivery, setSelectedDelivery] = useState('eco')] *)
Record PageState := mkPageState { selectedDelivery : string }.

Definition init : PageState := mkPageState "eco".

(** [<RadioGroup value={selectedDelivery} onValueChange={setSelectedDelivery}>] *)
Definition setSelectedDelivery (v : string) (s : PageState) : PageState := mkPageState v.

(** What [handlePlaceOrder] shows: the eco toast, then the [alert]. *)
Inductive Notice := EcoPointsRewarded (description : string) | OrderAlert (message : string).

Definition orderNotices (sel : string) (a : Auth.State) : list Notice :=
  match CartUi.Checkout.findOption sel with
  | Some o =>
      if (CartUi.Checkout.DeliveryOption.id o === "eco") && bool_decide (Auth.currentUser a <> None) then
        match CartUi.Checkout.DeliveryOption.points o with
        | Some pts => if (pts =? 0)%Z then []
                      else [EcoPointsRewarded ("You've earned an extra " +:+ pretty pts +:+ " points for choosing eco-delivery!")]
        | None => []
        end
      else []
  | None => []
  end ++ [OrderAlert "Thank you for your order! (This is a demo)"].

Inductive Event := SelectDelivery (id : string) | Submit (f : Form) (emailValid : bool).

(** One event on the page: the new page state, the directory after it,
    and what it shows. *)
Definition step (e : Event) (s : PageState) (a : Auth.State) (c : Cart.State) : PageState * Auth.State * list Notice :=
  match e with
  | SelectDelivery v => (setSelectedDelivery v s, a, [])
  | Submit f ev =>
      match placeOrder f ev (selectedDelivery s) a c with
      | Some a' => (s, a', orderNotices (selectedDelivery s) a)
      | None => (s, a, [])
      end
  end.

(** ** Lemmas *)

Lemma formValid_true f e : formValid f e = true <-> Forall (fun v => v <> "") (fields f) /\ e = true.
Proof.
  unfold formValid. rewrite andb_true_iff, forallb_forall, Forall_forall. split.
  - intros [H ->]. split; [| done]. intros v Hv. specialize (H v Hv). apply negb_true_iff, String.eqb_neq in H. done.
  - intros [H ->]. split; [| done]. intros v Hv. apply negb_true_iff, String.eqb_neq. by apply H.
Qed.

(** The option found is the one of the id asked for. *)
Lemma findOption_id sel o :
  CartUi.Checkout.findOption sel = Some o -> CartUi.Checkout.DeliveryOption.id o = sel.
Proof.
  unfold CartUi.Checkout.findOption. intros H. apply find_some in H as [_ H]. by apply streqb_true.
Qed.

(** Any option but eco credits nothing and shows only the alert. *)
Lemma not_eco_plain sel a :
  sel <> "eco" ->
  CartUi.Checkout.handlePlaceOrder sel a = a /\ orderNotices sel a = [OrderAlert "Thank you for your order! (This is a demo)"].
Proof.
  intros Hs. unfold CartUi.Checkout.handlePlaceOrder, orderNotices.
  destruct (CartUi.Checkout.findOption sel) as [o |] eqn:E; [| done].
  apply findOption_id in E. rewrite E. by rewrite (proj2 (String.eqb_neq sel "eco") Hs).
Qed.

(** ** Theorems *)

(** C36: The page opens on eco delivery: submitting a valid form for a
    non-empty cart right away credits a logged-in user 15 points and
    shows the eco toast and the alert, while after choosing any other
    option the same submit credits nothing and shows only the alert. *)
Theorem checkout_default_eco f a c v :
  Auth.currentUser a <> None -> Cart.cartItems c <> [] -> formValid f true = true -> v <> "eco" ->
  step (Submit f true) init a c =
    (init, Auth.addEcoPoints 15 a,
     [EcoPointsRewarded "You've earned an extra 15 points for choosing eco-delivery!";
      OrderAlert "Thank you for your order! (This is a demo)"]) /\
  step (Submit f true) (setSelectedDelivery v init) a c =
    (setSelectedDelivery v init, a, [OrderAlert "Thank you for your order! (This is a demo)"]).
Proof.
  intros Hu Hc Hf Hv. unfold step, placeOrder, CartUi.Checkout.submit. rewrite Hf.
  destruct (Cart.cartItems c) as [| x l]; [done |]. cbn [selectedDelivery setSelectedDelivery init].
  destruct (not_eco_plain v a Hv) as [-> ->]. split; [| done].
  unfold CartUi.Checkout.handlePlaceOrder, orderNotices. simpl.
  by rewrite (bool_decide_eq_true_2 _ Hu).
Qed.

Lemma checkout_default_eco_witness :
  let a := Auth.mk (Some (seedUser 0)) mockUsers in
  let c := Cart.mk [CartItemType.mk (seedProduct 0) 1] [] (Some "socialCartItems_u1") None in
  let f := mkForm "A" "a@b.c" "1 Road" "Town" "CA" "90210" "A" "4242" "12/30" "123" in
  (Auth.currentUser a <> None /\ Cart.cartItems c <> [] /\ formValid f true = true /\ "standard" <> "eco") /\
  step (Submit f true) init a c =
    (init, Auth.addEcoPoints 15 a,
     [EcoPointsRewarded "You've earned an extra 15 points for choosing eco-delivery!";
      OrderAlert "Thank you for your order! (This is a demo)"]) /\
  step (Submit f true) (setSelectedDelivery "standard" init) a c =
    (setSelectedDelivery "standard" init, a, [OrderAlert "Thank you for your order! (This is a demo)"]).
Proof.
  cbv zeta.
  assert (H1 : Auth.currentUser (Auth.mk (Some (seedUser 0)) mockUsers) <> None) by discriminate.
  assert (H2 : Cart.cartItems (Cart.mk [CartItemType.mk (seedProduct 0) 1] [] (Some "socialCartItems_u1") None) <> [])
    by discriminate.
  assert (H3 : formValid (mkForm "A" "a@b.c" "1 Road" "Town" "CA" "90210" "A" "4242" "12/30" "123") true = true)
    by reflexivity.
  assert (H4 : "standard" <> "eco") by discriminate.
  split; [split; [exact H1 | split; [exact H2 | split; [exact H3 | exact H4]]] |].
  exact (checkout_default_eco _ _ _ _ H1 H2 H3 H4).
Defined.

(** The labels the page prints, on the seed options: free eco
    delivery, $5.99 and $12.99. *)
Example optionCards_eco :
  map oc_price (optionCards "eco") = ["FREE"; "$5.99"; "$12.99"] /\
  map oc_selected (optionCards "eco") = [true; false; false].
Proof. vm_compute. split; reflexivity. Qed.

(** An order is placed exactly when the cart has lines, all ten required
    fields are filled and the e-mail is valid, and it then is
    [handlePlaceOrder] on the selected option. *)
Theorem placeOrder_spec f e sel a c :
  placeOrder f e sel a c =
    if bool_decide (Cart.cartItems c <> [] /\ Forall (fun v => v <> "") (fields f) /\ e = true)
    then Some (CartUi.Checkout.handlePlaceOrder sel a) else None.
Proof.
  unfold placeOrder, CartUi.Checkout.submit. case_bool_decide as Hc.
  - destruct Hc as (Hne & Hf). rewrite (proj2 (formValid_true f e) Hf). by destruct (Cart.cartItems c).
  - destruct (formValid f e) eqn:Hv; [| done]. apply formValid_true in Hv.
    destruct (Cart.cartItems c) eqn:Ec; [done |]. exfalso. apply Hc. split; [done | exact Hv].
Qed.

(** C38: The summary is a client of [useCart()]'s contract: after any
    sequence of cart operations on a cart with one line per product and
    an active key, the total it prints is the abstract bag's total plus
    the shipping of the selected option. *)
Theorem summary_total_refines os c sel :
  Cart.OneLinePerProduct c -> Cart.activeCartKey c <> None ->
  totalLabel (summary (CartSpec.impl_run os c) sel) =
    "$" +:+ CartUi.toFixed2 (CartSpec.total (CartSpec.spec_run os (CartSpec.abs (Cart.cartItems c)))
                      + CartUi.Checkout.shippingCost sel)%Z.
Proof.
  intros Hnd Hk. pose proof (CartSpec.run_refines (S := Cart.State) os c) as R.
  destruct (R (conj Hnd Hk)) as [Hi Ha]. simpl in Ha.
  pose proof (CartSpec.law_total (S := Cart.State) _ Hi) as Ht. simpl in Ht.
  unfold summary, CartUi.Checkout.total. cbn [totalLabel]. by rewrite Ht, Ha.
Qed.

Lemma summary_total_refines_witness :
  let c := Cart.mk [CartItemType.mk (seedProduct 0) 1] [] (Some "socialCartItems_u1") None in
  let os := [CartSpec.Add (seedProduct 1) 2; CartSpec.Update (Product.id (seedProduct 0)) 3] in
  (Cart.OneLinePerProduct c /\ Cart.activeCartKey c <> None) /\
  totalLabel (summary (CartSpec.impl_run os c) "standard") =
    "$" +:+ CartUi.toFixed2 (CartSpec.total (CartSpec.spec_run os (CartSpec.abs (Cart.cartItems c)))
                      + CartUi.Checkout.shippingCost "standard")%Z.
Proof.
  cbv zeta.
  assert (Hnd : Cart.OneLinePerProduct (Cart.mk [CartItemType.mk (seedProduct 0) 1] [] (Some "socialCartItems_u1") None))
    by (constructor; [intros [] | constructor]).
  assert (Hk : Cart.activeCartKey (Cart.mk [CartItemType.mk (seedProduct 0) 1] [] (Some "socialCartItems_u1") None) <> None)
    by discriminate.
  split; [split; [exact Hnd | exact Hk] |]. exact (summary_total_refines _ _ _ Hnd Hk).
Defined.

End CheckoutPage.
