(* ===== verification/Chat.v ===== *)
(** * Chat: [contexts/ChatContext.tsx] in one tab.

    The state is the [chatHistories] object, a map from conversation id
    to the ordered log of messages (a stdpp [gmap]).  [getConversationId]
    is [[a, b].sort().join('--')]: on two strings the default sort keeps
    them when [a <= b] in code-unit order ([String.leb]) and swaps them
    otherwise.  [sendMessage] also returns the "offline" toast, and
    [syncFromStorage] returns the store because its error branch removes
    the unreadable key. *)

From stdpp Require Import base list strings gmap.
From Stdlib Require Import ZArith String Ascii List Bool Lia.
From S2P Require Import Prelude Types Storage.
Import ListNotations.
Local Open Scope string_scope.
Local Open Scope list_scope.

Module Chat.

Definition CHAT_KEY : string := "socialCartChatHistory".

Abbreviation ChatHistories := (gmap string (list ChatMessage.t)).

Definition getConversationId (userId1 userId2 : string) : string :=
  if String.leb userId1 userId2 then userId1 +:+ "--" +:+ userId2
  else userId2 +:+ "--" +:+ userId1.

Inductive Notice := RecipientOffline (name : string).

Definition sendMessage (currentUser : option UserProfile.t) (users : list UserProfile.t)
    (recipientId text : string) (h : ChatHistories) : ChatHistories * option Notice :=
  match currentUser with
  | None => (h, None)
  | Some cu =>
      let conversationId := getConversationId (UserProfile.id cu) recipientId in
      let newMessage := ChatMessage.mk (UserProfile.id cu) text in
      let existingHistory := default [] (h !! conversationId) in
      (<[conversationId := existingHistory ++ [newMessage]]> h,
       match List.find (fun user => UserProfile.id user === recipientId) users with
       | Some r => if UserProfile.isOnline r then None else Some (RecipientOffline (UserProfile.name r))
       | None => None
       end)
  end.

Definition getMessages (currentUser : option UserProfile.t) (recipientId : string)
    (h : ChatHistories) : list ChatMessage.t :=
  match currentUser with
  | None => []
  | Some cu => default [] (h !! getConversationId (UserProfile.id cu) recipientId)
  end.

Definition syncFromStorage (st : Store) (h : ChatHistories) : ChatHistories * Store * list StorageEvent :=
  match getItem CHAT_KEY st with
  | Some (PChat h') => (h', st, [])
  | Some _ => let '(st', evs) := removeItem CHAT_KEY st in (h, st', evs)
  | None => (h, st, [])
  end.

Definition persistHistories (h : ChatHistories) (st : Store) : Store * list StorageEvent :=
  if decide (h = ∅) then
    match getItem CHAT_KEY st with
    | None => (st, [])
    | Some _ => setItem CHAT_KEY (PChat h) st
    end
  else setItem CHAT_KEY (PChat h) st.

(** Ids in which ["--"] cannot start before the separator: no two
    ['-'] in a row and no ['-'] at the end.  Every id the program makes
    is one: the seed ids [u1] and [u2], and the [uuidv4()] of [signup]
    (hexadecimal groups joined by single dashes). *)
Fixpoint sep_safe (s : string) : bool :=
  match s with
  | EmptyString => true
  | String c EmptyString => negb (Ascii.eqb c "-"%char)
  | String c ((String c' _) as s') =>
      negb (Ascii.eqb c "-"%char && Ascii.eqb c' "-"%char) && sep_safe s'
  end.

(** ** Lemmas *)

Lemma sep_safe_tail c s : sep_safe (String c s) = true -> sep_safe s = true.
Proof. destruct s as [| c' s]; simpl; [done |]. intros H. by apply andb_prop in H as [_ H]. Qed.

(** A [sep_safe] id cannot start the rest of a joined id. *)
Lemma sep_safe_not_prefix x y y' :
  sep_safe x = true -> x <> "" -> "--" +:+ y <> x +:+ "--" +:+ y'.
Proof.
  destruct x as [| c [| c' x]]; intros Hx Hne H; [done | |].
  - simpl in Hx. rewrite string_app_cons in H. simpl in H. injection H as <- _. done.
  - rewrite !string_app_cons in H. simpl in H. injection H as <- <- _. done.
Qed.

(** Joining with ["--"] is injective on [sep_safe] left parts: the
    first ["--"] of the id is the separator. *)
Lemma sep_join_inj x x' y y' :
  sep_safe x = true -> sep_safe x' = true ->
  x +:+ "--" +:+ y = x' +:+ "--" +:+ y' -> x = x' /\ y = y'.
Proof.
  revert x'. induction x as [| c x IH]; intros [| c' x'] Hx Hx' H;
    rewrite ?string_app_nil_l in H.
  - split; [done |]. by injection H.
  - exfalso. by apply (sep_safe_not_prefix (String c' x') y y').
  - exfalso. symmetry in H. by apply (sep_safe_not_prefix (String c x) y' y).
  - rewrite !string_app_cons in H. injection H as <- H.
    destruct (IH x' (sep_safe_tail _ _ Hx) (sep_safe_tail _ _ Hx') H) as [-> ->]. done.
Qed.

Lemma string_leb_total a b : String.leb a b = false -> String.leb b a = true.
Proof.
  intros H. pose proof (String.le_total a b) as [Hab | Hba]; unfold String.le in *.
  - rewrite H in Hab. destruct Hab.
  - destruct (String.leb b a); [done | destruct Hba].
Qed.

Lemma string_leb_antisym a b : String.leb a b = true -> String.leb b a = true -> a = b.
Proof.
  intros H1 H2. apply (anti_symm String.le); unfold String.le; [rewrite H1 | rewrite H2]; exact I.
Qed.

(** ** Theorems *)

(** The conversation id does not depend on who writes:
    both participants address the same log. *)
Theorem getConversationId_comm a b : getConversationId a b = getConversationId b a.
Proof.
  unfold getConversationId.
  destruct (String.leb a b) eqn:E1, (String.leb b a) eqn:E2; try done.
  - by rewrite (string_leb_antisym a b E1 E2).
  - apply string_leb_total in E1. congruence.
Qed.

(** C11: after [a] sends [text] to [b], the conversation as
    [b] reads it (with [a] as recipient) is the old one followed by the
    message from [a]; every other conversation is unchanged. *)
Theorem sendMessage_getMessages a b users text h :
  getMessages (Some b) (UserProfile.id a) (sendMessage (Some a) users (UserProfile.id b) text h).1 =
    getMessages (Some b) (UserProfile.id a) h ++ [ChatMessage.mk (UserProfile.id a) text] /\
  (forall k, k <> getConversationId (UserProfile.id a) (UserProfile.id b) ->
     (sendMessage (Some a) users (UserProfile.id b) text h).1 !! k = h !! k).
Proof.
  unfold sendMessage, getMessages. simpl. split.
  - rewrite getConversationId_comm. by rewrite lookup_insert_eq.
  - intros k Hk. by rewrite lookup_insert_ne.
Qed.

(** The sender is told the recipient is offline exactly
    when the recipient is a known user whose presence flag is off. *)
Theorem sendMessage_notice a users rid text h r :
  List.find (fun user => UserProfile.id user === rid) users = Some r ->
  (sendMessage (Some a) users rid text h).2 =
    if UserProfile.isOnline r then None else Some (RecipientOffline (UserProfile.name r)).
Proof. intros Hf. unfold sendMessage. simpl. by rewrite Hf. Qed.

Lemma sendMessage_notice_witness :
  List.find (fun user => UserProfile.id user === "u2") mockUsers = Some (seedUser 1) /\
  (sendMessage (Some (seedUser 0)) mockUsers "u2" "hi" ∅).2 = Some (RecipientOffline "John Smith").
Proof.
  split; [reflexivity |].
  exact (sendMessage_notice (seedUser 0) mockUsers "u2" "hi" ∅ (seedUser 1) eq_refl).
Defined.


(** C30: the conversation id tells the pair apart: for ids with no
    ["--"] inside and no ['-'] at the end (the seed ids and every
    [uuidv4()]), two conversation ids are equal only for the same pair
    of participants, so different pairs never share a log. *)
Theorem getConversationId_inj a b c d :
  sep_safe a = true -> sep_safe b = true -> sep_safe c = true -> sep_safe d = true ->
  getConversationId a b = getConversationId c d -> (a = c /\ b = d) \/ (a = d /\ b = c).
Proof.
  intros Ha Hb Hc Hd. unfold getConversationId.
  destruct (String.leb a b), (String.leb c d); intros H;
    [left | right | right | left]; eapply sep_join_inj in H; try eassumption;
    destruct H; split; congruence.
Qed.

Lemma getConversationId_inj_witness :
  let u := "3b241101-e2bb-4255-8caf-4136c566a962" in
  (sep_safe "u1" = true /\ sep_safe u = true /\ sep_safe u = true /\ sep_safe "u1" = true /\
   getConversationId "u1" u = getConversationId u "u1") /\
  (("u1" = u /\ u = "u1") \/ ("u1" = "u1" /\ u = u)).
Proof.
  cbv zeta. split; [repeat split; vm_compute; reflexivity |].
  apply (getConversationId_inj "u1" "3b241101-e2bb-4255-8caf-4136c566a962"
           "3b241101-e2bb-4255-8caf-4136c566a962" "u1"); vm_compute; reflexivity.
Defined.

End Chat.
