(* ===== verification/Contexts.v ===== *)
(** * Contexts: what [useCart()], [useAuth()], [usePairChat()],
    [useChat()] and [useAnimation()] hand their consumers.

    Each provider of [src/src/contexts] declares an [interface
    ...ContextType] and renders [<...Context.Provider value={{ ... }}>].
    The interface is a [Record] of operations over the provider's state
    [S]: a read is a field of its type, and a handler that calls
    [setState] is a field whose result is the provider's state after the
    call (the state the consumer sees on its next render).  [value] is the
    object literal of the provider, built from the operations of [Cart],
    [Auth], [PairChat], [Chat] and [Animation]; [uuidv4()] and [Date.now()] are
    arguments of the fields that call them.

    [CartContextSpec] is what a consumer of the cart may rely on, stated
    over any [value] function and invariant: the lines read as
    [CartSpec]'s bag, every operation acts on the bag as the
    specification says, and [toggleFavorite] flips [isFavorite].  The
    section [Clients] proves the consumers' facts (the header badge after
    "Add to Cart", the cart page after "Clear Cart", the heart's toast)
    against the class alone; the instance [cart_context_spec] discharges
    it for [CartProvider]. *)

From stdpp Require Import base list strings gmap.
From Stdlib Require Import ZArith String List Bool Lia.
From S2P Require Import Prelude Types Storage Auth PairChat Cart CartSpec Animation Chat.
Import ListNotations.
Local Open Scope string_scope.
Local Open Scope list_scope.

Module Contexts.

Local Set Implicit Arguments.

Module CartCtx.

(** [interface CartContextType] *)
Record CartContextType (S : Type) := mkCartContext {
  cartItems : list CartItemType.t;
  addToCart : Product.t -> option Z -> S;
  removeFromCart : string -> S;
  updateQuantity : string -> Z -> S;
  clearCart : S;
  cartTotal : Z;
  cartCount : Z;
  favorites : list string;
  toggleFavorite : string -> S;
  isFavorite : string -> bool;
}.

(** [addToCart = (product, quantity: number = 1) => ...]: an omitted
    quantity is one unit. *)
Definition addToCart_default (product : Product.t) (quantity : option Z) (s : Cart.State) : Cart.State :=
  Cart.addToCart product (default 1%Z quantity) s.

(** The [value] of [<CartContext.Provider>]. *)
Definition value (s : Cart.State) : CartContextType Cart.State :=
  mkCartContext (Cart.cartItems s) (fun p q => addToCart_default p q s) (fun pid => Cart.removeFromCart pid s)
    (fun pid q => Cart.updateQuantity pid q s) (Cart.clearCart s) (Cart.cartTotal s) (Cart.cartCount s)
    (Cart.favorites s) (fun pid => Cart.toggleFavorite pid s) (fun pid => Cart.isFavorite pid s).

(** The state in which every operation of the value acts: one line per
    product, a cart partition and a favourites key (a logged-in user). *)
Definition ctx_inv (s : Cart.State) : Prop :=
  CartSpec.cart_inv s /\ Cart.favKey s <> None.

(** What a consumer of a cart context may rely on. *)
Class CartContextSpec {S : Type} (value : S -> CartContextType S) (inv : S -> Prop) := {
  spec_total s : inv s -> cartTotal (value s) = CartSpec.total (CartSpec.abs (cartItems (value s)));
  spec_count s : inv s -> cartCount (value s) = CartSpec.count (CartSpec.abs (cartItems (value s)));
  spec_add s p q : inv s -> inv (addToCart (value s) p q) /\
    CartSpec.abs (cartItems (value (addToCart (value s) p q))) =
    CartSpec.add p (default 1%Z q) (CartSpec.abs (cartItems (value s)));
  spec_remove s pid : inv s -> inv (removeFromCart (value s) pid) /\
    CartSpec.abs (cartItems (value (removeFromCart (value s) pid))) = CartSpec.remove pid (CartSpec.abs (cartItems (value s)));
  spec_update s pid q : inv s -> inv (updateQuantity (value s) pid q) /\
    CartSpec.abs (cartItems (value (updateQuantity (value s) pid q))) =
    CartSpec.update pid q (CartSpec.abs (cartItems (value s)));
  spec_clear s : inv s -> inv (clearCart (value s)) /\ CartSpec.abs (cartItems (value (clearCart (value s)))) = ∅;
  spec_favorite s pid : inv s -> inv (toggleFavorite (value s) pid) /\
    isFavorite (value (toggleFavorite (value s) pid)) pid = negb (isFavorite (value s) pid);
}.

End CartCtx.

Module AuthCtx.

(** [interface AuthContextType]; [signup]'s last argument is the
    [uuidv4()] of the new user. *)
Record AuthContextType (S : Type) := mkAuthContext {
  currentUser : option UserProfile.t;
  login : string -> S * bool;
  signup : string -> string -> string -> S * bool;
  logout : S;
  users : list UserProfile.t;
  getUserByUsername : string -> option UserProfile.t;
  toggleFollow : string -> S;
  isFollowing : string -> bool;
  addEcoPoints : Z -> S;
  updateUser : Auth.ProfileUpdate -> S * bool;
}.

(** The [value] of [<AuthContext.Provider>]. *)
Definition value (s : Auth.State) : AuthContextType Auth.State :=
  mkAuthContext (Auth.currentUser s) (fun n => Auth.login n s) (fun name n newId => Auth.signup name n newId s)
    (Auth.logout s) (Auth.users s) (fun n => Auth.getUserByUsername n s) (fun t => Auth.toggleFollow t s)
    (fun t => Auth.isFollowing t s) (fun pts => Auth.addEcoPoints pts s) (fun p => Auth.updateUser p s).

End AuthCtx.

Module PairChatCtx.

(** [interface PairChatContextType]; [sendPairChatRequest] takes the
    [uuidv4()] of the invitation, [navigateShared] the [Date.now()] of the
    broadcast and the store, and both return what the call shows or
    writes besides the new state. *)
Record PairChatContextType (S : Type) := mkPairChatContext {
  isPairChatActive : bool;
  activeRecipient : option UserProfile.t;
  activeInvitation : option PairChatInvitation.t;
  sendPairChatRequest : UserProfile.t -> string -> S * option PairChat.Notice;
  acceptPairChatRequest : string -> S;
  declinePairChatRequest : string -> S * option PairChat.Notice;
  endPairChat : S;
  getInvitationForConversation : string -> option PairChatInvitation.t;
  navigateShared : string -> Z -> Store -> string * Store * list StorageEvent;
}.

(** The [value] of [<PairChatContext.Provider>], under the [currentUser]
    of [useAuth()]. *)
Definition value (currentUser : option UserProfile.t) (s : PairChat.State) : PairChatContextType PairChat.State :=
  mkPairChatContext (PairChat.isPairChatActive s) (PairChat.activeRecipient s) (PairChat.activeInvitation s)
    (fun r n => PairChat.sendPairChatRequest currentUser r n s)
    (fun i => PairChat.acceptPairChatRequest i s) (fun i => PairChat.declinePairChatRequest i s)
    (PairChat.endPairChat s) (fun pid => PairChat.getInvitationForConversation currentUser pid s)
    (fun path now st => PairChat.navigateShared currentUser path now s st).

End PairChatCtx.

Module ChatCtx.

(** [interface ChatContextType] *)
Record ChatContextType (S : Type) := mkChatContext {
  sendMessage : string -> string -> S * option Chat.Notice;
  getMessages : string -> list ChatMessage.t;
}.

(** The [value] of [<ChatContext.Provider>], under the [currentUser] and
    [users] of [useAuth()]. *)
Definition value (currentUser : option UserProfile.t) (users : list UserProfile.t) (h : Chat.ChatHistories)
  : ChatContextType Chat.ChatHistories :=
  mkChatContext (fun r text => Chat.sendMessage currentUser users r text h)
    (fun r => Chat.getMessages currentUser r h).

End ChatCtx.

Module AnimationCtx.

(** [interface AnimationContextType] *)
Record AnimationContextType (S : Type) := mkAnimationContext { triggerLeafFall : S }.

(** [<AnimationContext.Provider value={{ triggerLeafFall }}>] *)
Definition value (s : Animation.State) : AnimationContextType Animation.State :=
  mkAnimationContext (Animation.triggerLeafFall s).

End AnimationCtx.

(** ** Lemmas on the bag *)

Local Unset Implicit Arguments.
Import CartCtx.

Lemma bag_sum_lookup w b k v :
  b !! k = Some v -> CartSpec.bag_sum w b = (w v + CartSpec.bag_sum w (delete k b))%Z.
Proof.
  intros E. rewrite <- (insert_delete_id b k v E) at 1. unfold CartSpec.bag_sum.
  rewrite map_fold_insert_L; [done | intros; lia | apply lookup_delete_eq].
Qed.

Lemma bag_sum_insert w b k v :
  CartSpec.bag_sum w (<[k:=v]> b) = (w v + CartSpec.bag_sum w (delete k b))%Z.
Proof. rewrite (bag_sum_lookup w _ k v) by apply lookup_insert_eq. by rewrite delete_insert_eq. Qed.

(** Adding [q] units adds [q] to the count of the bag, merged or not. *)
Lemma count_add p q b : CartSpec.count (CartSpec.add p q b) = (CartSpec.count b + q)%Z.
Proof.
  unfold CartSpec.count, CartSpec.add. destruct (b !! Product.id p) as [[pr q0] |] eqn:E.
  - rewrite <- (insert_id b _ _ E) at 1. rewrite alter_insert_eq, bag_sum_insert.
    rewrite (bag_sum_lookup _ b _ _ E). simpl. lia.
  - rewrite bag_sum_insert, delete_id by done. simpl. lia.
Qed.

Lemma bag_sum_empty w : CartSpec.bag_sum w ∅ = 0%Z.
Proof. apply map_fold_empty. Qed.

(** Removing a product takes its quantity off the count. *)
Lemma count_remove pid b :
  CartSpec.count (CartSpec.remove pid b) = (CartSpec.count b - default 0 (snd <$> b !! pid))%Z.
Proof.
  unfold CartSpec.count, CartSpec.remove. destruct (b !! pid) as [v |] eqn:E; simpl.
  - rewrite (bag_sum_lookup _ b _ _ E). lia.
  - rewrite delete_id by done. lia.
Qed.

(** ** Consumers, against the interface *)

Section Clients.
Context {S : Type} (val : S -> CartContextType S) (inv : S -> Prop) `{!CartContextSpec val inv}.

(** The header's badge reads [cartCount]: a consumer's [addToCart(p, q)]
    raises it by [q], by one when the quantity is omitted. *)
Lemma client_count_add s p q :
  inv s -> cartCount (val (addToCart (val s) p q)) = (cartCount (val s) + default 1%Z q)%Z.
Proof.
  intros Hs. destruct (spec_add s p q Hs) as [Hs' Ha].
  rewrite (spec_count _ Hs'), (spec_count _ Hs), Ha. apply count_add.
Qed.

(** "Clear Cart" leaves nothing to pay and nothing to count. *)
Lemma client_clear s :
  inv s -> cartTotal (val (clearCart (val s))) = 0%Z /\ cartCount (val (clearCart (val s))) = 0%Z.
Proof.
  intros Hs. destruct (spec_clear s Hs) as [Hs' Ha].
  rewrite (spec_total _ Hs'), (spec_count _ Hs'), Ha. split; apply bag_sum_empty.
Qed.

(** [removeFromCart] takes the line's quantity off the count. *)
Lemma client_count_remove s pid :
  inv s -> cartCount (val (removeFromCart (val s) pid)) =
    (cartCount (val s) - default 0 (snd <$> CartSpec.abs (cartItems (val s)) !! pid))%Z.
Proof.
  intros Hs. destruct (spec_remove s pid Hs) as [Hs' Ha].
  rewrite (spec_count _ Hs'), (spec_count _ Hs), Ha. apply count_remove.
Qed.

End Clients.

(** ** The provider meets the interface *)

Lemma cart_context_spec : CartContextSpec value ctx_inv.
Proof.
  pose proof (CartSpec.cart_step_refines) as R.
  constructor.
  - intros s [[Hnd _] _]. apply (CartSpec.sumZ_abs (fun v => v.1 * v.2)%Z), Hnd.
  - intros s [[Hnd _] _]. apply (CartSpec.sumZ_abs snd), Hnd.
  - intros s p q [Hi Hf]. destruct (R (CartSpec.Add p (default 1%Z q)) s Hi) as [Hi' Ha].
    split; [split; [exact Hi' | simpl; unfold addToCart_default, Cart.addToCart; destruct (Cart.activeCartKey s); cbn; congruence] | exact Ha].
  - intros s pid [Hi Hf]. destruct (R (CartSpec.Remove pid) s Hi) as [Hi' Ha].
    split; [split; [exact Hi' | simpl; unfold Cart.removeFromCart; destruct (Cart.activeCartKey s); cbn; congruence] | exact Ha].
  - intros s pid q [Hi Hf]. destruct (R (CartSpec.Update pid q) s Hi) as [Hi' Ha].
    split; [split; [exact Hi' |] | exact Ha].
    simpl; unfold Cart.updateQuantity, Cart.removeFromCart. destruct (Cart.activeCartKey s), (q <=? 0)%Z; cbn; congruence.
  - intros s [Hi Hf]. destruct (R CartSpec.Clear s Hi) as [Hi' Ha]. split; [split; [exact Hi' | cbn; congruence] | exact Ha].
  - intros s pid [Hi Hf]. simpl. destruct (Cart.favKey s) as [k |] eqn:Ek; [| done].
    split; [| exact (Cart.isFavorite_toggleFavorite pid s k Ek)].
    unfold Cart.toggleFavorite; rewrite Ek. split; [exact Hi | cbn; congruence].
Qed.
#[global] Existing Instance cart_context_spec.

(** ** Theorems *)

(** C15: What a consumer of [useCart()] sees in a logged-in cart: after
    its [addToCart(product, quantity)] the value's [cartCount] (the
    header's badge) has risen by [quantity], by one when it is omitted;
    after [clearCart()] the total and the count are 0; and
    [toggleFavorite(id)] flips [isFavorite(id)]. *)
Theorem provider_value_contract s p q pid :
  ctx_inv s ->
  cartCount (value (addToCart (value s) p q)) = (cartCount (value s) + default 1%Z q)%Z /\
  cartTotal (value (clearCart (value s))) = 0%Z /\ cartCount (value (clearCart (value s))) = 0%Z /\
  isFavorite (value (toggleFavorite (value s) pid)) pid = negb (isFavorite (value s) pid).
Proof.
  intros Hs. split; [exact (client_count_add value ctx_inv s p q Hs) |].
  destruct (client_clear value ctx_inv s Hs) as [Ht Hc].
  split; [exact Ht | split; [exact Hc | exact (proj2 (spec_favorite s pid Hs))]].
Qed.

Lemma provider_value_contract_witness :
  let s := Cart.mk [] [] (Some "socialCartItems_u1") (Some "socialCartFavorites_u1") in
  ctx_inv s /\
  cartCount (value (addToCart (value s) (seedProduct 0) None)) = (cartCount (value s) + default 1%Z None)%Z /\
  cartTotal (value (clearCart (value s))) = 0%Z /\ cartCount (value (clearCart (value s))) = 0%Z /\
  isFavorite (value (toggleFavorite (value s) "1")) "1" = negb (isFavorite (value s) "1").
Proof.
  cbv zeta.
  assert (H : ctx_inv (Cart.mk [] [] (Some "socialCartItems_u1") (Some "socialCartFavorites_u1")))
    by (split; [split; [constructor | discriminate] | discriminate]).
  split; [exact H | exact (provider_value_contract _ (seedProduct 0) None "1" H)].
Defined.

End Contexts.
