(* ===== verification/Pages.v ===== *)
(** * Pages: the social pages, the home and header, and the chat widget.

    [app/leaderboard/page.tsx] (the ranking and its badges),
    [app/social/page.tsx] (the users offered for following and the follow
    toast), [app/chat/page.tsx] (the followed users),
    [app/profile/[username]/page.tsx] with
    [components/profile/ProfilePageClient.tsx] (the profile lookup, the
    follow button and toast, what the profile shows),
    [app/account/page.tsx] (the save handler; the page is in [Account]),
    [app/page.tsx] (the login and sign-up forms, their [required] inputs
    and the redirect), [components/layout/Header.tsx] (links, mobile
    sheet, cart badge), [components/chat/ChatInterface.tsx] (every
    handler, the request affordances, the message bubbles, the send
    button) and [components/chat/GlobalPairChat.tsx].  The leaderboard's
    [Array.prototype.sort] is stable (ES2019), so it is the insertion
    sort below; [String.prototype.trim] is modelled on ASCII white
    space. *)

From stdpp Require Import base list strings gmap pretty.
From Stdlib Require Import ZArith String Ascii List Bool Lia Sorting.Permutation Sorting.Sorted.
From S2P Require Import Prelude Types Auth PairChat Chat.
Import ListNotations.
Local Open Scope string_scope.
Local Open Scope list_scope.

Module Pages.

Module Leaderboard.

(** Insert [x] before the first user with no more points: the stable
    sort with comparator [(a, b) => b.ecoPoints - a.ecoPoints]. *)
Fixpoint insert (x : UserProfile.t) (l : list UserProfile.t) : list UserProfile.t :=
  match l with
  | [] => [x]
  | y :: l' => if (UserProfile.ecoPoints y <=? UserProfile.ecoPoints x)%Z then x :: y :: l' else y :: insert x l'
  end.

Definition sortedUsers (users : list UserProfile.t) : list UserProfile.t :=
  fold_right insert [] users.

Definition getRankBadge (rank : Z) : string :=
  if (rank =? 1)%Z then "🥇"
  else if (rank =? 2)%Z then "🥈"
  else if (rank =? 3)%Z then "🥉"
  else "#" +:+ pretty rank.

(** The rows: badge, user, and whether the row is the current user's. *)
Definition rows (users : list UserProfile.t) (currentUser : option UserProfile.t)
  : list (string * UserProfile.t * bool) :=
  imap (fun index user =>
          (getRankBadge (Z.of_nat index + 1), user,
           match currentUser with Some c => UserProfile.id c === UserProfile.id user | None => false end))
       (sortedUsers users).

End Leaderboard.

Module Social.

(** [users.filter(u => u.id !== currentUser?.id)] *)
Definition visibleUsers (users : list UserProfile.t) (currentUser : option UserProfile.t) : list UserProfile.t :=
  filter (fun u => match currentUser with Some c => UserProfile.id u !== UserProfile.id c | None => true end) users.

(** [handleFollowToggle] of a [UserCard]: the follow and the toast title,
    chosen from [isFollowing] before the toggle. *)
Definition handleFollowToggle (user : UserProfile.t) (a : Auth.State) : Auth.State * string :=
  let isFollowed := Auth.isFollowing (UserProfile.id user) a in
  (Auth.toggleFollow (UserProfile.id user) a,
   if isFollowed then "Unfollowed " +:+ UserProfile.name user else "Followed " +:+ UserProfile.name user +:+ "!").

End Social.

Module ChatPage.

(** [None] is the login prompt. *)
Definition followedUsers (users : list UserProfile.t) (currentUser : option UserProfile.t)
  : option (list UserProfile.t) :=
  match currentUser with
  | None => None
  | Some c => Some (filter (fun user => includes (UserProfile.followingIds c) (UserProfile.id user)) users)
  end.

End ChatPage.

Module Profile.

(** [app/profile/[username]/page.tsx]: the user is looked up in the
    static [mockUsers]; [None] is [notFound()]. *)
Definition findUser (username : string) : option UserProfile.t :=
  List.find (fun u => UserProfile.username u === username) mockUsers.

Definition isOwnProfile (currentUser : option UserProfile.t) (user : UserProfile.t) : bool :=
  match currentUser with Some c => UserProfile.id c === UserProfile.id user | None => false end.

(** [ProductGrid]: the ids that name a catalogue product, in order. *)
Definition productGrid (productIds : list string) : list Product.t :=
  omap getProductById productIds.

Definition handleFollowToggle (user : UserProfile.t) (a : Auth.State) : Auth.State :=
  Auth.toggleFollow (UserProfile.id user) a.

(** The toast of [handleFollowToggle], from [isFollowing] before the
    toggle. *)
Definition followToast (user : UserProfile.t) (isFollowed : bool) : string :=
  if isFollowed then "Unfollowed " +:+ UserProfile.name user else "Followed " +:+ UserProfile.name user +:+ "!".

(** What the profile shows: the header (with the follow button, absent
    on one's own profile), the message link, the three stats of [user]
    and the two product grids. *)
Record View := mkView {
  handle : string;
  followButton : option bool;
  messageLink : string;
  stats : Z * Z * Z;
  favoritesGrid : list Product.t;
  wishlistGrid : list Product.t;
}.

Definition view (currentUser : option UserProfile.t) (user : UserProfile.t) (a : Auth.State) : View :=
  mkView ("@" +:+ UserProfile.username user)
    (if isOwnProfile currentUser user then None else Some (Auth.isFollowing (UserProfile.id user) a))
    ("/chat/" +:+ UserProfile.username user)
    (UserProfile.followers user, UserProfile.following user, UserProfile.ecoPoints user)
    (productGrid (UserProfile.favorites user)) (productGrid (UserProfile.wishlist user)).

End Profile.

Module ChatUserPage.

Inductive View := Skeleton | NotFound | Chat (recipient : UserProfile.t).

(** [app/chat/[username]/page.tsx]: nothing is looked up before the
    mount effect has run ([isClient]). *)
Definition view (isClient : bool) (username : string) (a : Auth.State) : View :=
  if isClient then
    match Auth.getUserByUsername username a with Some r => Chat r | None => NotFound end
  else Skeleton.

End ChatUserPage.

Module Header.

(** The cart badge and the account link of the header. *)
Definition cartBadge (cartCount : Z) : option Z := if (0 <? cartCount)%Z then Some cartCount else None.

Definition accountLink (currentUser : option UserProfile.t) : string :=
  match currentUser with Some _ => "/account" | None => "/" end.

(** [navLinks]: route and label. *)
Definition navLinks : list (string * string) :=
  [("/products", "Products"); ("/social", "Social"); ("/chat", "Chat"); ("/leaderboard", "Leaderboard")].

(** The mobile sheet's footer link: "Account" or "Login". *)
Definition mobileAccountLink (currentUser : option UserProfile.t) : string * string :=
  match currentUser with Some _ => ("/account", "Account") | None => ("/", "Login") end.

(** [const [isMobileMenuOpen, setIsMobileMenuOpen] = React.useState(false)] *)
Definition initialMenuOpen : bool := false.

(** [isMobileMenuOpen]: the sheet's [onOpenChange], and a click on one of
    its links (the logo, a nav link or the account link), which follows
    the link and closes the sheet. *)
Definition onOpenChange (open : bool) (isMobileMenuOpen : bool) : bool := open.

Definition clickMobileLink (href : string) (isMobileMenuOpen : bool) : string * bool := (href, false).

(** What the header shows: the nav links (the same in the bar and the
    sheet), the cart badge of both layouts, the account link of the bar
    and of the sheet, and whether the sheet is open. *)
Record View := mkView {
  links : list (string * string);
  badge : option Z;
  account : string;
  mobileAccount : string * string;
  sheetOpen : bool;
}.

Definition view (currentUser : option UserProfile.t) (cartCount : Z) (isMobileMenuOpen : bool) : View :=
  mkView navLinks (cartBadge cartCount) (accountLink currentUser) (mobileAccountLink currentUser) isMobileMenuOpen.

End Header.

Inductive FormResult := Rejected | Succeeded | Failed.

Module Account.

Definition handleSaveChanges (name username bio avatarUrl : string) (a : Auth.State) : Auth.State * FormResult :=
  match Auth.currentUser a with
  | None => (a, Rejected)
  | Some _ =>
      if (name =? "")%string || (username =? "")%string then (a, Rejected)
      else let '(a', success) := Auth.updateUser (Auth.mkUpdate (Some name) (Some username) (Some bio) (Some avatarUrl)) a in
           (a', if success then Succeeded else Failed)
  end.

End Account.

Module Home.

Definition handleLogin (loginUsername : string) (a : Auth.State) : Auth.State * FormResult :=
  let '(a', success) := Auth.login loginUsername a in (a', if success then Succeeded else Failed).

(** [newId] is the [uuidv4()] of [signup]. *)
Definition handleSignUp (signupName signupUsername signupPassword newId : string) (a : Auth.State)
  : Auth.State * FormResult :=
  if (signupName =? "")%string || (signupUsername =? "")%string || (signupPassword =? "")%string
  then (a, Rejected)
  else let '(a', success) := Auth.signup signupName signupUsername newId a in
       (a', if success then Succeeded else Failed).

(** The page's [useState]s: [isClient] and the five inputs. *)
Record State := mk {
  isClient : bool; loginUsername : string; loginPassword : string;
  signupName : string; signupUsername : string; signupPassword : string;
}.

Definition init : State := mk false "" "" "" "" "".

(** The effect on [[currentUser, router]]: [setIsClient(true)], and the
    redirect of a logged-in visitor. *)
Definition effect (currentUser : option UserProfile.t) (s : State) : State * option string :=
  (mk true (loginUsername s) (loginPassword s) (signupName s) (signupUsername s) (signupPassword s),
   match currentUser with Some _ => Some "/products" | None => None end).

(** Submitting the login form: both inputs are [required], so the
    browser only calls [handleLogin] when they are filled; a success
    pushes [/products]. *)
Definition submitLogin (s : State) (a : Auth.State) : option (Auth.State * FormResult * option string) :=
  if (loginUsername s =? "")%string || (loginPassword s =? "")%string then None
  else let '(a', r) := handleLogin (loginUsername s) a in
       Some (a', r, match r with Succeeded => Some "/products" | _ => None end).

(** Submitting the sign-up form, its three inputs [required] too. *)
Definition submitSignUp (s : State) (newId : string) (a : Auth.State) : option (Auth.State * FormResult * option string) :=
  if (signupName s =? "")%string || (signupUsername s =? "")%string || (signupPassword s =? "")%string then None
  else let '(a', r) := handleSignUp (signupName s) (signupUsername s) (signupPassword s) newId a in
       Some (a', r, match r with Succeeded => Some "/products" | _ => None end).

(** [!isClient ? <AuthFormSkeleton /> : form] *)
Inductive View := Skeleton | Forms.

Definition view (s : State) : View := if isClient s then Forms else Skeleton.

End Home.

Module ChatInterface.

Definition is_space (c : ascii) : bool :=
  match nat_of_ascii c with 9 | 10 | 11 | 12 | 13 | 32 => true | _ => false end.

(** [!s.trim()] *)
Fixpoint is_blank (s : string) : bool :=
  match s with EmptyString => true | String c s' => is_space c && is_blank s' end.

(** [invitation?.from.id === currentUser?.id] *)
Definition isMyRequest (invitation : option PairChatInvitation.t) (currentUser : option UserProfile.t) : bool :=
  match invitation, currentUser with
  | Some i, Some c => UserProfile.id (PairChatInvitation.from i) === UserProfile.id c
  | None, None => true
  | _, _ => false
  end.

(** [invitation?.from.id === recipient.id] *)
Definition isIncomingRequest (invitation : option PairChatInvitation.t) (recipient : UserProfile.t) : bool :=
  match invitation with
  | Some i => UserProfile.id (PairChatInvitation.from i) === UserProfile.id recipient
  | None => false
  end.

Inductive HeaderButton := EndSession | RequestSent | PairShop (disabled : bool).

Definition headerButton (isSidebar : bool) (invitation : option PairChatInvitation.t)
    (currentUser : option UserProfile.t) : HeaderButton :=
  if isSidebar then EndSession
  else match invitation with
       | Some _ => if isMyRequest invitation currentUser then RequestSent else PairShop true
       | None => PairShop false
       end.

(** The accept and decline buttons are shown. *)
Definition showIncoming (invitation : option PairChatInvitation.t) (recipient : UserProfile.t) : bool :=
  bool_decide (invitation <> None) && isIncomingRequest invitation recipient.

(** What the widget shows for [recipient] in the current tab. *)
Definition view (currentUser : option UserProfile.t) (recipient : UserProfile.t) (isSidebar : bool)
    (p : PairChat.State) : HeaderButton * bool :=
  let invitation := PairChat.getInvitationForConversation currentUser (UserProfile.id recipient) p in
  (headerButton isSidebar invitation currentUser, showIncoming invitation recipient).

(** [handleSendMessage]: the histories and the input box after it. *)
Definition handleSendMessage (newMessage : string) (currentUser : option UserProfile.t)
    (users : list UserProfile.t) (recipient : UserProfile.t) (h : Chat.ChatHistories)
  : Chat.ChatHistories * string :=
  if is_blank newMessage || negb (bool_decide (currentUser <> None)) then (h, newMessage)
  else ((Chat.sendMessage currentUser users (UserProfile.id recipient) newMessage h).1, "").

(** [handleStartPairShop]: [sendPairChatRequest(recipient)]. *)
Definition handleStartPairShop (currentUser : option UserProfile.t) (recipient : UserProfile.t) (newId : string)
    (p : PairChat.State) : PairChat.State * option PairChat.Notice :=
  PairChat.sendPairChatRequest currentUser recipient newId p.

(** The alert's buttons: [acceptPairChatRequest(invitation.id)] and
    [declinePairChatRequest(invitation.id)]. *)
Definition handleAccept (invitation : PairChatInvitation.t) (p : PairChat.State) : PairChat.State :=
  PairChat.acceptPairChatRequest (PairChatInvitation.id invitation) p.

Definition handleDecline (invitation : PairChatInvitation.t) (p : PairChat.State)
  : PairChat.State * option PairChat.Notice :=
  PairChat.declinePairChatRequest (PairChatInvitation.id invitation) p.

(** [recipient.isOnline ? "Online" : "Offline"] *)
Definition statusLabel (recipient : UserProfile.t) : string :=
  if UserProfile.isOnline recipient then "Online" else "Offline".

(** A message bubble: its text and whether it is the user's own
    ([message.senderId === currentUser?.id], right-aligned, no avatar). *)
Record Bubble := mkBubble { b_text : string; b_mine : bool }.

Definition bubbles (currentUser : option UserProfile.t) (recipient : UserProfile.t) (h : Chat.ChatHistories)
  : list Bubble :=
  map (fun m => mkBubble (ChatMessage.text m)
                  (match currentUser with
                   | Some cu => ChatMessage.senderId m === UserProfile.id cu
                   | None => false
                   end))
      (Chat.getMessages currentUser (UserProfile.id recipient) h).

(** [messages.length === 0 && !invitation]: the "Start the
    conversation!" prompt. *)
Definition showEmptyPrompt (currentUser : option UserProfile.t) (recipient : UserProfile.t)
    (h : Chat.ChatHistories) (p : PairChat.State) : bool :=
  (length (Chat.getMessages currentUser (UserProfile.id recipient) h) =? 0)%nat
  && bool_decide (PairChat.getInvitationForConversation currentUser (UserProfile.id recipient) p = None).

(** [disabled={!newMessage.trim() || !currentUser}] on the send button. *)
Definition sendEnabled (newMessage : string) (currentUser : option UserProfile.t) : bool :=
  negb (is_blank newMessage) && bool_decide (currentUser <> None).

(** The header's avatar fallback, name and status dot. *)
Definition headerView (recipient : UserProfile.t) : string * string * bool :=
  (charAt0 (UserProfile.name recipient), UserProfile.name recipient, UserProfile.isOnline recipient).

(** [disabled={!currentUser}] on the message input. *)
Definition inputEnabled (currentUser : option UserProfile.t) : bool := bool_decide (currentUser <> None).

End ChatInterface.

Module GlobalPairChat.

(** The floating chat is rendered, for [activeRecipient]. *)
Definition shown (p : PairChat.State) : option UserProfile.t :=
  if PairChat.isPairChatActive p then PairChat.activeRecipient p else None.

End GlobalPairChat.

(** The leaderboard order: each user has at least the points of the
    next. *)
Definition ranked (a b : UserProfile.t) : Prop := (UserProfile.ecoPoints b <= UserProfile.ecoPoints a)%Z.

(** ** Lemmas *)

Lemma insert_perm x l : Permutation (Leaderboard.insert x l) (x :: l).
Proof.
  induction l as [| y l IH]; simpl; [done |].
  destruct (_ <=? _)%Z; [done |]. rewrite IH. apply perm_swap.
Qed.

Lemma insert_sorted x l : Sorted ranked l -> Sorted ranked (Leaderboard.insert x l).
Proof.
  induction l as [| y l IH]; simpl; intros Hs; [by repeat constructor |].
  destruct (Z.leb_spec (UserProfile.ecoPoints y) (UserProfile.ecoPoints x)) as [Hle | Hlt].
  - constructor; [done | constructor; unfold ranked; lia].
  - apply Sorted_inv in Hs as [Hs Hhd]. constructor; [by apply IH |].
    destruct l as [| z l]; simpl; [constructor; unfold ranked; lia |].
    destruct (_ <=? _)%Z; constructor; [unfold ranked; lia |]. by inversion Hhd.
Qed.

Lemma between_cases a b inv :
  PairChat.between a b inv = true ->
  (UserProfile.id (PairChatInvitation.from inv) = a /\ UserProfile.id (PairChatInvitation.to inv) = b) \/
  (UserProfile.id (PairChatInvitation.from inv) = b /\ UserProfile.id (PairChatInvitation.to inv) = a).
Proof.
  unfold PairChat.between. intros [[H1 H2]%andb_prop | [H1 H2]%andb_prop]%orb_prop;
    apply streqb_true in H1, H2; auto.
Qed.

(** ** Theorems *)

(** the leaderboard lists every user once, in
    non-increasing order of eco points. *)
Theorem sortedUsers_spec users :
  Sorted ranked (Leaderboard.sortedUsers users) /\ Permutation (Leaderboard.sortedUsers users) users.
Proof.
  induction users as [| u users [IHs IHp]]; simpl; [done |]. split.
  - by apply insert_sorted.
  - rewrite insert_perm. by constructor.
Qed.

(** The social page offers every other user for following
    and never the logged-in user. *)
Theorem visibleUsers_spec users c u :
  In u (Social.visibleUsers users (Some c)) <-> In u users /\ UserProfile.id u <> UserProfile.id c.
Proof.
  unfold Social.visibleUsers. rewrite filter_In. split.
  - intros [Hin Hn]. split; [done |]. intros Heq. by rewrite Heq, streqb_refl in Hn.
  - intros [Hin Hne]. split; [done |]. by rewrite streqb_false.
Qed.

(** Logged out, the social page still lists everyone
    and its follow button announces a follow that [toggleFollow] ignores. *)
Theorem follow_toast_logged_out :
  Social.visibleUsers mockUsers None = mockUsers /\
  Social.handleFollowToggle (seedUser 1) (Auth.mk None mockUsers) = (Auth.mk None mockUsers, "Followed John Smith!").
Proof. split; vm_compute; reflexivity. Qed.

(** The chat page lists exactly the known users the current
    user follows. *)
Theorem followedUsers_spec users c u :
  match ChatPage.followedUsers users (Some c) with
  | Some l => In u l <-> In u users /\ In (UserProfile.id u) (UserProfile.followingIds c)
  | None => False
  end.
Proof. simpl. by rewrite filter_In, includes_true. Qed.

(** the profile route reads the static [mockUsers], not
    the users of the session: a user who just signed up has no profile
    page, and a follow is not reflected in the follower count it shows. *)
Theorem profile_reads_static_users :
  let a := Auth.mk (Some (seedUser 0)) mockUsers in
  (Auth.getUserByUsername "carol" (Auth.signup "Carol" "carol" "1700000000000" a).1 <> None /\
   Profile.findUser "carol" = None) /\
  (option_map UserProfile.followers (Auth.getUserByUsername "johnsmith" (Profile.handleFollowToggle (seedUser 1) a)) = Some 877%Z /\
   option_map UserProfile.followers (Profile.findUser "johnsmith") = Some 876%Z).
Proof. vm_compute. split; split; (discriminate || reflexivity). Qed.

(** saving the account form keeps the user store sound
    (counters, unique ids and usernames): the form refuses an empty name
    or username, the one update [updateUser] would let through with a
    duplicate username. *)
Theorem handleSaveChanges_preserves_Inv name username bio avatarUrl a :
  Auth.Inv a -> Auth.Inv (Account.handleSaveChanges name username bio avatarUrl a).1.
Proof.
  intros HI. unfold Account.handleSaveChanges. destruct (Auth.currentUser a); [| done].
  destruct (String.eqb_spec name ""), (String.eqb_spec username ""); simpl; try done.
  pose proof (Auth.Inv_updateUser (Auth.mkUpdate (Some name) (Some username) (Some bio) (Some avatarUrl)) a) as H.
  destruct (Auth.updateUser _ a) as [a' b]. apply H; [simpl; congruence | done].
Qed.

Lemma handleSaveChanges_preserves_Inv_witness :
  Auth.Inv Auth.init /\ Auth.Inv (Account.handleSaveChanges "Jane" "johnsmith" "" "" Auth.init).1.
Proof. split; [exact Auth.Inv_init | apply handleSaveChanges_preserves_Inv, Auth.Inv_init]. Defined.

(** The sign-up form keeps the user store sound when the
    new id is fresh, and refuses a form with an empty field. *)
Theorem handleSignUp_spec name username password newId a :
  ~ In newId (map UserProfile.id (Auth.users a)) -> Auth.Inv a ->
  Auth.Inv (Home.handleSignUp name username password newId a).1 /\
  ((name = "" \/ username = "" \/ password = "") -> Home.handleSignUp name username password newId a = (a, Rejected)).
Proof.
  intros Hf HI. unfold Home.handleSignUp. split.
  - destruct (_ || _ || _); [done |].
    pose proof (Auth.Inv_signup name username newId a Hf HI) as H.
    destruct (Auth.signup _ _ _ a) as [a' b]. exact H.
  - intros [-> | [-> | ->]]; by rewrite ?orb_true_r.
Qed.

Lemma handleSignUp_spec_witness :
  (~ In "1700000000000" (map UserProfile.id (Auth.users Auth.init)) /\ Auth.Inv Auth.init) /\
  Auth.Inv (Home.handleSignUp "Carol" "carol" "pw" "1700000000000" Auth.init).1 /\
  (("Carol" = "" \/ "carol" = "" \/ "pw" = "") ->
   Home.handleSignUp "Carol" "carol" "pw" "1700000000000" Auth.init = (Auth.init, Rejected)).
Proof.
  assert (Hf : ~ In "1700000000000" (map UserProfile.id (Auth.users Auth.init))).
  { vm_compute. intros [H | [H | []]]; discriminate. }
  split; [split; [exact Hf | exact Auth.Inv_init] |].
  exact (handleSignUp_spec _ _ _ _ _ Hf Auth.Inv_init).
Defined.

(** in the chat with [r], a pending invitation between
    the two shows "Request Sent" to its sender and the accept and decline
    buttons (with "Pair Shop" disabled) to its recipient. *)
Theorem chat_request_affordances me r p inv :
  UserProfile.id me <> UserProfile.id r ->
  PairChat.getInvitationForConversation (Some me) (UserProfile.id r) p = Some inv ->
  (UserProfile.id (PairChatInvitation.from inv) = UserProfile.id me /\
   ChatInterface.view (Some me) r false p = (ChatInterface.RequestSent, false)) \/
  (UserProfile.id (PairChatInvitation.from inv) = UserProfile.id r /\
   ChatInterface.view (Some me) r false p = (ChatInterface.PairShop true, true)).
Proof.
  intros Hne Hg. unfold ChatInterface.view. rewrite Hg.
  unfold PairChat.getInvitationForConversation in Hg.
  apply find_some_in in Hg as [_ [_ Hb]%andb_prop]. unfold ChatInterface.headerButton, ChatInterface.showIncoming.
  cbn [ChatInterface.isMyRequest ChatInterface.isIncomingRequest].
  destruct (between_cases _ _ _ Hb) as [[-> _] | [-> _]]; [left | right];
    rewrite ?streqb_refl, ?(streqb_false _ _ Hne), ?(streqb_false _ _ (not_eq_sym Hne)); done.
Qed.

Lemma chat_request_affordances_witness :
  let inv := PairChatInvitation.mk "inv1" (seedUser 0) (seedUser 1) PairChatInvitation.pending in
  let p := PairChat.set_invitations [inv] PairChat.init in
  (UserProfile.id (seedUser 1) <> UserProfile.id (seedUser 0) /\
   PairChat.getInvitationForConversation (Some (seedUser 1)) (UserProfile.id (seedUser 0)) p = Some inv) /\
  ((UserProfile.id (PairChatInvitation.from inv) = UserProfile.id (seedUser 1) /\
    ChatInterface.view (Some (seedUser 1)) (seedUser 0) false p = (ChatInterface.RequestSent, false)) \/
   (UserProfile.id (PairChatInvitation.from inv) = UserProfile.id (seedUser 0) /\
    ChatInterface.view (Some (seedUser 1)) (seedUser 0) false p = (ChatInterface.PairShop true, true))).
Proof.
  cbv zeta. split; [split; [discriminate | reflexivity] |].
  apply chat_request_affordances; [discriminate | reflexivity].
Defined.

(** Sending from the chat widget appends the typed text to
    the conversation as the recipient reads it and clears the input; a
    blank text (or no user) sends nothing and keeps the input. *)
Theorem handleSendMessage_spec m me users r h :
  (ChatInterface.is_blank m = false ->
   Chat.getMessages (Some r) (UserProfile.id me) (ChatInterface.handleSendMessage m (Some me) users r h).1 =
     Chat.getMessages (Some r) (UserProfile.id me) h ++ [ChatMessage.mk (UserProfile.id me) m] /\
   (ChatInterface.handleSendMessage m (Some me) users r h).2 = "") /\
  (ChatInterface.is_blank m = true -> ChatInterface.handleSendMessage m (Some me) users r h = (h, m)).
Proof.
  unfold ChatInterface.handleSendMessage. split; intros Hb; rewrite Hb; [| done].
  rewrite bool_decide_eq_true_2 by done. simpl. split; [| done].
  unfold Chat.getMessages. rewrite (Chat.getConversationId_comm (UserProfile.id r)).
  by rewrite lookup_insert_eq.
Qed.

Lemma handleSendMessage_spec_witness :
  (ChatInterface.is_blank "hi" = false ->
   Chat.getMessages (Some (seedUser 1)) "u1" (ChatInterface.handleSendMessage "hi" (Some (seedUser 0)) mockUsers (seedUser 1) ∅).1 =
     Chat.getMessages (Some (seedUser 1)) "u1" ∅ ++ [ChatMessage.mk "u1" "hi"] /\
   (ChatInterface.handleSendMessage "hi" (Some (seedUser 0)) mockUsers (seedUser 1) ∅).2 = "") /\
  (ChatInterface.is_blank "hi" = true ->
   ChatInterface.handleSendMessage "hi" (Some (seedUser 0)) mockUsers (seedUser 1) ∅ = (∅, "hi")).
Proof. exact (handleSendMessage_spec "hi" (seedUser 0) mockUsers (seedUser 1) ∅). Defined.

(** After a send from the chat widget, the sender's widget shows the
    text as its last bubble, on the sender's side, after the bubbles it
    showed before; and the send button is enabled exactly when the
    handler sends. *)
Theorem handleSendMessage_bubbles m me users r h :
  ChatInterface.is_blank m = false ->
  ChatInterface.sendEnabled m (Some me) = true /\
  ChatInterface.bubbles (Some me) r (ChatInterface.handleSendMessage m (Some me) users r h).1 =
    ChatInterface.bubbles (Some me) r h ++ [ChatInterface.mkBubble m true].
Proof.
  intros Hb. unfold ChatInterface.sendEnabled, ChatInterface.handleSendMessage.
  rewrite Hb, bool_decide_eq_true_2 by done. split; [done |]. simpl.
  unfold ChatInterface.bubbles, Chat.getMessages. rewrite lookup_insert_eq. simpl.
  rewrite map_app. simpl. by rewrite streqb_refl.
Qed.

Lemma handleSendMessage_bubbles_witness :
  ChatInterface.is_blank "hi" = false /\
  ChatInterface.sendEnabled "hi" (Some (seedUser 0)) = true /\
  ChatInterface.bubbles (Some (seedUser 0)) (seedUser 1)
    (ChatInterface.handleSendMessage "hi" (Some (seedUser 0)) mockUsers (seedUser 1) ∅).1 =
    ChatInterface.bubbles (Some (seedUser 0)) (seedUser 1) ∅ ++ [ChatInterface.mkBubble "hi" true].
Proof. split; [reflexivity | apply handleSendMessage_bubbles; reflexivity]. Defined.

(** Passwords are never checked: the login form gives the same outcome
    whatever non-empty password is typed (so anyone who knows a username
    logs in as that user), and the sign-up form's password reaches no
    state. *)
Theorem passwords_ignored s a p :
  Home.loginPassword s <> "" -> p <> "" ->
  Home.submitLogin (Home.mk (Home.isClient s) (Home.loginUsername s) p (Home.signupName s)
                      (Home.signupUsername s) (Home.signupPassword s)) a = Home.submitLogin s a /\
  (forall n u newId p1 p2, p1 <> "" -> p2 <> "" -> Home.handleSignUp n u p1 newId a = Home.handleSignUp n u p2 newId a).
Proof.
  intros Hs Hp. split.
  - unfold Home.submitLogin. cbn [Home.loginUsername Home.loginPassword].
    by rewrite (proj2 (String.eqb_neq _ _) Hs), (proj2 (String.eqb_neq _ _) Hp).
  - intros n u newId p1 p2 H1 H2. unfold Home.handleSignUp.
    by rewrite (proj2 (String.eqb_neq _ _) H1), (proj2 (String.eqb_neq _ _) H2).
Qed.

Lemma passwords_ignored_witness :
  let s := Home.mk true "janedoe" "her-real-password" "" "" "" in
  let a := Auth.mk None mockUsers in
  (Home.loginPassword s <> "" /\ "guess" <> "") /\
  Home.submitLogin (Home.mk true "janedoe" "guess" "" "" "") a = Home.submitLogin s a /\
  (forall n u newId p1 p2, p1 <> "" -> p2 <> "" -> Home.handleSignUp n u p1 newId a = Home.handleSignUp n u p2 newId a).
Proof.
  cbv zeta. assert (Hs : Home.loginPassword (Home.mk true "janedoe" "her-real-password" "" "" "") <> "") by discriminate.
  assert (Hp : "guess" <> "") by discriminate.
  split; [split; [exact Hs | exact Hp] | exact (passwords_ignored _ (Auth.mk None mockUsers) "guess" Hs Hp)].
Defined.

End Pages.
