(* ===== verification/Account.v ===== *)
(** * Account: the account page [app/account/page.tsx].

    [AccountPage.State] holds the page's five [useState]s: the edit
    dialog's [isEditing] and the four form fields.  The page's effect on
    [[user, router]] is [userEffect]: it redirects a logged-out visitor
    and otherwise copies the profile into the form.  React runs it after
    the first render ([mount]) and after every render whose [user] is a
    different object ([commit]); every [AuthContext] operation that
    changes the logged-in profile builds a new object with new contents,
    so "different object" is "different value" here.  The handlers are
    the field setters, the dialog's [onOpenChange], [handleLogout] and the
    save button, which calls [Pages.Account.handleSaveChanges] and closes
    the dialog on success.  [view] is what the page shows. *)

From stdpp Require Import base list strings.
From Stdlib Require Import ZArith String List Bool Lia.
From S2P Require Import Prelude Types Auth Cart Animation CartUi Pages.
Import ListNotations.
Local Open Scope string_scope.
Local Open Scope list_scope.

Module AccountPage.

Record State := mk { isEditing : bool; name : string; username : string; bio : string; avatarUrl : string }.

Definition init : State := mk false "" "" "" "".

(** The effect: [router.replace('/')] without a user, else the four
    [set...] calls with the profile's values. *)
Definition userEffect (user : option UserProfile.t) (s : State) : State * option string :=
  match user with
  | None => (s, Some "/")
  | Some u => (mk (isEditing s) (UserProfile.name u) (UserProfile.username u) (UserProfile.bio u)
                  (UserProfile.avatarUrl u), None)
  end.

Definition mount (user : option UserProfile.t) : State * option string := userEffect user init.

(** A render after an update of the contexts: the effect runs when [user]
    changed. *)
Definition commit (prevUser user : option UserProfile.t) (s : State) : State * option string :=
  if decide (prevUser = user) then (s, None) else userEffect user s.

(** The inputs of the dialog and its [onOpenChange={setIsEditing}]. *)
Definition setName (v : string) (s : State) : State := mk (isEditing s) v (username s) (bio s) (avatarUrl s).
Definition setUsername (v : string) (s : State) : State := mk (isEditing s) (name s) v (bio s) (avatarUrl s).
Definition setBio (v : string) (s : State) : State := mk (isEditing s) (name s) (username s) v (avatarUrl s).
Definition setAvatarUrl (v : string) (s : State) : State := mk (isEditing s) (name s) (username s) (bio s) v.
Definition setIsEditing (v : bool) (s : State) : State := mk v (name s) (username s) (bio s) (avatarUrl s).

(** [favorites.map(getProductById).filter(p => p !== undefined)] for a
    logged-in user, else [[]]. *)
Definition favoriteProducts (user : option UserProfile.t) (favorites : list string) : list Product.t :=
  match user with Some _ => omap getProductById favorites | None => [] end.

(** [handleLogout]: [logout()], the toast, [router.push('/')]. *)
Definition handleLogout (a : Auth.State) : Auth.State * string * string :=
  (Auth.logout a, "Logged out successfully.", "/").

(** The save button: [handleSaveChanges] with the form's values;
    [setIsEditing(false)] on success only. *)
Definition save (s : State) (a : Auth.State) : Auth.State * State * Pages.FormResult :=
  let '(a', r) := Pages.Account.handleSaveChanges (name s) (username s) (bio s) (avatarUrl s) a in
  (a', match r with Pages.Succeeded => setIsEditing false s | _ => s end, r).

Inductive Favorites := FavoritesGrid (ps : list Product.t) | NoFavorites.

Inductive View :=
| Redirecting
| Profile (fallback displayName handle bio : string) (ecoPoints : Z) (dialogOpen : bool) (favorites : Favorites).

(** The page: "Redirecting to login..." without a user; otherwise the
    header ([@username], [(user.ecoPoints || 0)], which is the points on
    an integer) and the favourites tab. *)
Definition view (user : option UserProfile.t) (favorites : list string) (s : State) : View :=
  match user with
  | None => Redirecting
  | Some u =>
      Profile (charAt0 (UserProfile.name u)) (UserProfile.name u) ("@" +:+ UserProfile.username u)
              (UserProfile.bio u) (UserProfile.ecoPoints u) (isEditing s)
              (match favoriteProducts user favorites with [] => NoFavorites | ps => FavoritesGrid ps end)
  end.

(** ** Lemmas *)

(** The username guard of [updateUser] lets the form's username through
    when it is the user's own or no user of the directory has it. *)
Lemma username_guard_false (a : Auth.State) u un :
  un = UserProfile.username u \/ Forall (fun user => UserProfile.username user <> un) (Auth.users a) ->
  negb (un === UserProfile.username u)
    && existsb (fun user => UserProfile.username user === un) (Auth.users a) = false.
Proof.
  intros [-> | Hall]; [by rewrite streqb_refl |].
  apply andb_false_iff. right. apply not_true_iff_false. rewrite existsb_exists.
  intros (user & Hin & Heq). apply streqb_true in Heq. by apply (proj1 (Forall_forall _ _) Hall user Hin).
Qed.

(** ** Theorems *)

(** A save that goes through closes the dialog, keeps the user's id and
    points, and the form survives the round trip through [AuthContext]:
    the effect that runs on the new profile refills the form with exactly
    the values it saved. *)
Theorem save_roundtrip s a u :
  Auth.currentUser a = Some u -> name s <> "" -> username s <> "" ->
  username s = UserProfile.username u \/ Forall (fun user => UserProfile.username user <> username s) (Auth.users a) ->
  let '(a', s', r) := save s a in
  r = Pages.Succeeded /\ isEditing s' = false /\
  exists u', Auth.currentUser a' = Some u' /\ UserProfile.id u' = UserProfile.id u /\
    UserProfile.ecoPoints u' = UserProfile.ecoPoints u /\ commit (Some u) (Some u') s' = (s', None).
Proof.
  intros Hu Hn Hun Hfree. unfold save, Pages.Account.handleSaveChanges. rewrite Hu.
  rewrite (proj2 (String.eqb_neq _ _) Hn), (proj2 (String.eqb_neq _ _) Hun). simpl.
  unfold Auth.updateUser. rewrite Hu. simpl.
  rewrite (proj2 (String.eqb_neq _ _) Hun). simpl.
  rewrite (username_guard_false a u _ Hfree). simpl.
  split; [done | split; [done |]]. eexists. split; [reflexivity |]. split; [done | split; [done |]].
  unfold commit. case_decide; reflexivity.
Qed.

Lemma save_roundtrip_witness :
  let a := Auth.mk (Some (seedUser 0)) mockUsers in
  let s := mk true "Jane Q. Doe" (UserProfile.username (seedUser 0)) "Eco fan" "" in
  (Auth.currentUser a = Some (seedUser 0) /\ name s <> "" /\ username s <> "" /\
   (username s = UserProfile.username (seedUser 0) \/
    Forall (fun user => UserProfile.username user <> username s) (Auth.users a))) /\
  let '(a', s', r) := save s a in
  r = Pages.Succeeded /\ isEditing s' = false /\
  exists u', Auth.currentUser a' = Some u' /\ UserProfile.id u' = UserProfile.id (seedUser 0) /\
    UserProfile.ecoPoints u' = UserProfile.ecoPoints (seedUser 0) /\ commit (Some (seedUser 0)) (Some u') s' = (s', None).
Proof.
  cbv zeta. split.
  - split; [reflexivity | split; [discriminate | split; [vm_compute; discriminate | left; reflexivity]]].
  - apply save_roundtrip; [reflexivity | discriminate | vm_compute; discriminate | left; reflexivity].
Defined.

(** A save the page or the directory refuses (an empty name or username,
    or a username another user has) changes neither the directory nor the
    form, and leaves the dialog open. *)
Theorem save_refused s a u :
  Auth.currentUser a = Some u ->
  name s = "" \/ username s = "" \/
  (username s <> UserProfile.username u /\ Exists (fun user => UserProfile.username user = username s) (Auth.users a)) ->
  exists r, save s a = (a, s, r) /\ r <> Pages.Succeeded.
Proof.
  intros Hu Hc. unfold save, Pages.Account.handleSaveChanges. rewrite Hu.
  destruct (String.eqb_spec (name s) ""), (String.eqb_spec (username s) ""); simpl; try by eexists.
  destruct Hc as [? | [? | [Hne Hex]]]; [done | done |].
  unfold Auth.updateUser. rewrite Hu. simpl.
  rewrite (proj2 (String.eqb_neq _ _) n0), (proj2 (String.eqb_neq _ _) Hne). simpl.
  replace (existsb _ _) with true; [by eexists |]. symmetry. apply existsb_exists.
  apply Exists_exists in Hex as (user & Hin & Heq). exists user. split; [done | by apply streqb_true].
Qed.

Lemma save_refused_witness :
  let a := Auth.mk (Some (seedUser 0)) mockUsers in
  let s := mk true "" "janedoe" "" "" in
  (Auth.currentUser a = Some (seedUser 0) /\
   (name s = "" \/ username s = "" \/
    (username s <> UserProfile.username (seedUser 0) /\
     Exists (fun user => UserProfile.username user = username s) (Auth.users a)))) /\
  exists r, save s a = (a, s, r) /\ r <> Pages.Succeeded.
Proof.
  cbv zeta. split; [split; [reflexivity | left; reflexivity] |].
  apply (save_refused _ _ (seedUser 0)); [reflexivity | left; reflexivity].
Defined.

(** C31: Unsaved edits are lost when the profile changes under the open
    dialog: the header's voice assistant adding an eco product while the
    user edits their name credits eco points, which makes a new profile
    object, and the page's effect copies the saved name back over the
    edit. *)
Theorem voice_points_discard_edits :
  let a := Auth.mk (Some (seedUser 0)) mockUsers in
  let c := Cart.mk [] [] (Some "socialCartItems_u1") None in
  let s0 := (mount (Auth.currentUser a)).1 in
  let s1 := setName "Jane Q. Doe" (setIsEditing true s0) in
  let cmd := CartUi.Voice.mkCommand CartUi.Voice.ADD_TO_CART (Some "Reusable Beeswax Food Wraps") (Some 2%Z) "" in
  let '(a', _, _, _) := CartUi.Voice.processCommand cmd a c "/account" in
  let s2 := (commit (Auth.currentUser a) (Auth.currentUser a') s1).1 in
  isEditing s2 = true /\ name s1 = "Jane Q. Doe" /\ name s2 = UserProfile.name (seedUser 0) /\
  UserProfile.name (seedUser 0) <> "Jane Q. Doe".
Proof. vm_compute. repeat split; discriminate. Qed.

End AccountPage.
