(* ===== verification/BrowsePages.v ===== *)
(** * BrowsePages: the pages that list the catalogue and the users.

    [ProductsPage] is [app/products/page.tsx], [ProductPage] the route
    [app/products/[id]/page.tsx] with its [generateMetadata].  The
    leaderboard, the social page and the chat list render the
    [AuthContext] directory: [Leaderboard.view] is the table of
    [app/leaderboard/page.tsx] over [Pages.Leaderboard.rows], [Social.view]
    the cards of [app/social/page.tsx] with their follow button and toast,
    [ChatList.view] the page [app/chat/page.tsx].  Descriptions are ASCII
    in the catalogue, so [String.substring] on bytes is JavaScript's
    [substring] on UTF-16 units. *)

From stdpp Require Import base list strings.
From Stdlib Require Import ZArith String List Bool Lia.
From S2P Require Import Prelude Types Auth Pages.
Import ListNotations.

Module BrowsePages.

Module ProductsPage.

(** The grid of [ProductCard]s, or the notice for an empty catalogue. *)
Inductive View := Grid (ps : list Product.t) | NoProducts.

Definition view (products : list Product.t) : View :=
  match products with [] => NoProducts | ps => Grid ps end.

End ProductsPage.

Module ProductPage.

Record Metadata := mkMetadata { title : string; description : option string }.

(** [generateMetadata]: the lookup, then the title and the first 150
    characters of the description. *)
Definition generateMetadata (id : string) : Metadata :=
  match getProductById id with
  | None => mkMetadata "Product Not Found" None
  | Some p => mkMetadata (Product.name p +:+ " | SocialCart") (Some (String.substring 0 150 (Product.description p)))
  end.

Inductive View := NotFound | Detail (p : Product.t).

(** [ProductPage]: [notFound()] or the client component. *)
Definition page (id : string) : View :=
  match getProductById id with None => NotFound | Some p => Detail p end.

End ProductPage.

Module Leaderboard.

Record Row := mkRow {
  badge : string;
  highlighted : bool;
  profileLink : string;
  fallback : string;
  displayName : string;
  handle : string;
  points : Z;
}.

(** One [TableRow] per ranked user. *)
Definition view (users : list UserProfile.t) (currentUser : option UserProfile.t) : list Row :=
  map (fun '(b, u, h) =>
         mkRow b h ("/profile/" +:+ UserProfile.username u) (charAt0 (UserProfile.name u))
               (UserProfile.name u) ("@" +:+ UserProfile.username u) (UserProfile.ecoPoints u))
      (Pages.Leaderboard.rows users currentUser).

End Leaderboard.

Module Social.

(** The toast's description, from [isFollowed] before the toggle. *)
Definition toastDescription (user : UserProfile.t) (isFollowed : bool) : string :=
  if isFollowed then "You are no longer following @" +:+ UserProfile.username user +:+ "."
  else "You can now see @" +:+ UserProfile.username user +:+ "'s updates and chat with them.".

Record Card := mkCard {
  profileLink : string;
  fallback : string;
  cardName : string;
  handle : string;
  bio : string;
  following : bool;
  buttonLabel : string;
}.

(** A [UserCard]: [isFollowed] decides the button's variant and label. *)
Definition userCard (user : UserProfile.t) (a : Auth.State) : Card :=
  let isFollowed := Auth.isFollowing (UserProfile.id user) a in
  mkCard ("/profile/" +:+ UserProfile.username user) (charAt0 (UserProfile.name user)) (UserProfile.name user)
         ("@" +:+ UserProfile.username user) (UserProfile.bio user) isFollowed
         (if isFollowed then "Following" else "Follow").

Definition view (a : Auth.State) : list Card :=
  map (fun u => userCard u a) (Pages.Social.visibleUsers (Auth.users a) (Auth.currentUser a)).

End Social.

Module ChatList.

Record Card := mkCard {
  profileLink : string;
  fallback : string;
  cardName : string;
  online : bool;
  handle : string;
  chatLink : string;
}.

Inductive View := LoginPrompt | NoneFollowed | Followed (cards : list Card).

Definition card (user : UserProfile.t) : Card :=
  mkCard ("/profile/" +:+ UserProfile.username user) (charAt0 (UserProfile.name user)) (UserProfile.name user)
         (UserProfile.isOnline user) ("@" +:+ UserProfile.username user) ("/chat/" +:+ UserProfile.username user).

Definition view (a : Auth.State) : View :=
  match Pages.ChatPage.followedUsers (Auth.users a) (Auth.currentUser a) with
  | None => LoginPrompt
  | Some [] => NoneFollowed
  | Some us => Followed (map card us)
  end.

End ChatList.

Module ProfileRoute.

(** [generateStaticParams]: the profile pages built ahead, one per seed
    user. *)
Definition generateStaticParams : list string := map UserProfile.username mockUsers.

End ProfileRoute.

(** ** Lemmas *)

Lemma substring_length n s : String.length (String.substring 0 n s) = Nat.min n (String.length s).
Proof.
  revert s. induction n as [| n IH]; intros [| c s]; simpl; try done. by rewrite IH.
Qed.

Lemma substring_prefix n s : String.prefix (String.substring 0 n s) s = true.
Proof.
  revert s. induction n as [| n IH]; intros [| c s]; simpl; try done.
  destruct (Ascii.ascii_dec c c) as [_ | []]; [apply IH | done].
Qed.

Lemma substring_all n s : String.length s <= n -> String.substring 0 n s = s.
Proof.
  revert s. induction n as [| n IH]; intros [| c s] H; simpl in *; try done; [lia |].
  f_equal. apply IH. lia.
Qed.

(** ** Theorems *)

(** The page's metadata: a known product gets its name with the site's
    and a description of at most 150 characters that starts its own;
    an unknown id gets the not-found title, and the page is [notFound()]. *)
Theorem generateMetadata_bounds id :
  match getProductById id with
  | Some p =>
      ProductPage.title (ProductPage.generateMetadata id) = Product.name p +:+ " | SocialCart" /\
      exists d, ProductPage.description (ProductPage.generateMetadata id) = Some d /\
        String.length d = Nat.min 150 (String.length (Product.description p)) /\
        String.prefix d (Product.description p) = true /\
        ProductPage.page id = ProductPage.Detail p
  | None =>
      ProductPage.generateMetadata id = ProductPage.mkMetadata "Product Not Found" None /\
      ProductPage.page id = ProductPage.NotFound
  end.
Proof.
  unfold ProductPage.generateMetadata, ProductPage.page.
  destruct (getProductById id) as [p |]; [| done].
  split; [done |]. eexists. split; [reflexivity |].
  split; [apply substring_length | split; [apply substring_prefix | done]].
Qed.

(** Every description of the catalogue is shorter than 150 characters, so
    its page's metadata carries it whole. *)
Example catalogue_descriptions_whole :
  Forall (fun p => ProductPage.description (ProductPage.generateMetadata (Product.id p)) = Some (Product.description p))
         mockProducts.
Proof. repeat constructor. Qed.

(** Every profile page built ahead resolves: the route's lookup in the
    seed users finds the user of each static parameter. *)
Example static_profiles_resolve :
  Forall (fun n => exists u, Pages.Profile.findUser n = Some u /\ UserProfile.username u = n)
         ProfileRoute.generateStaticParams.
Proof. vm_compute. repeat constructor; eexists; split; reflexivity. Qed.

(** A click on a card's follow button turns its label over: the card of
    the same user, re-rendered on the new directory, says "Following"
    after "Follow" and "Follow" after "Following", and shows the toast of
    the state before the click. *)
Theorem follow_button_flips user a :
  Auth.currentUser a <> None ->
  let card' := Social.userCard user (Pages.Social.handleFollowToggle user a).1 in
  Social.following card' = negb (Social.following (Social.userCard user a)) /\
  Social.buttonLabel card' = (if Social.following (Social.userCard user a) then "Follow" else "Following") /\
  (Pages.Social.handleFollowToggle user a).2 =
    (if Social.following (Social.userCard user a) then "Unfollowed " +:+ UserProfile.name user
     else "Followed " +:+ UserProfile.name user +:+ "!").
Proof.
  intros Hc. unfold Social.userCard, Pages.Social.handleFollowToggle; cbn [Social.following Social.buttonLabel fst snd].
  assert (Hf : Auth.isFollowing (UserProfile.id user) (Auth.toggleFollow (UserProfile.id user) a) =
               negb (Auth.isFollowing (UserProfile.id user) a)).
  { unfold Auth.toggleFollow. destruct (Auth.currentUser a) as [c |] eqn:E; [| done].
    unfold Auth.isFollowing at 1. simpl. apply Auth.includes_toggled_same. unfold Auth.isFollowing. by rewrite E. }
  rewrite Hf. by destruct (Auth.isFollowing (UserProfile.id user) a).
Qed.

Lemma follow_button_flips_witness :
  let a := Auth.mk (Some (seedUser 0)) mockUsers in
  Auth.currentUser a <> None /\
  let card' := Social.userCard (seedUser 1) (Pages.Social.handleFollowToggle (seedUser 1) a).1 in
  Social.following card' = negb (Social.following (Social.userCard (seedUser 1) a)) /\
  Social.buttonLabel card' = (if Social.following (Social.userCard (seedUser 1) a) then "Follow" else "Following") /\
  (Pages.Social.handleFollowToggle (seedUser 1) a).2 =
    (if Social.following (Social.userCard (seedUser 1) a) then "Unfollowed " +:+ UserProfile.name (seedUser 1)
     else "Followed " +:+ UserProfile.name (seedUser 1) +:+ "!").
Proof.
  cbv zeta. assert (H : Auth.currentUser (Auth.mk (Some (seedUser 0)) mockUsers) <> None) by discriminate.
  split; [exact H | exact (follow_button_flips (seedUser 1) _ H)].
Defined.

End BrowsePages.
