(* ===== verification/AiUi.v ===== *)
(** * AiUi: the widgets around the AI flows.

    [app/visual-search/page.tsx], [components/ai/EcoSentimentAnalysis.tsx],
    [components/eco-planner/EcoPlannerDialog.tsx],
    [app/image-generator/page.tsx] and the listening half of
    [components/voice/VoiceAssistant.tsx] (composed with the rest in
    [VoiceAssistant]).  Each widget is a record of its [useState]s; an
    asynchronous handler is split at its [await] into the part that runs
    on the click and the part that runs when the flow settles ([Some]
    answer or [None] for a rejection), and a [setTimeout] is a pending
    event counted in the state, so that interleavings are sequences of
    these functions.  Each widget's [view] is the data it renders.  The
    flows themselves are not modelled: their answers are arguments. *)

From stdpp Require Import base list strings.
From Stdlib Require Import ZArith String Ascii List Bool Lia.
From S2P Require Import Prelude Types Pages.
Import ListNotations.
Local Open Scope string_scope.
Local Open Scope list_scope.

Module AiUi.

Module VisualSearch.

Record State := mk {
  hasCameraPermission : option bool;
  isProcessing : bool;
  results : list Product.t;
  reasoning : string;
  capturedImage : option string;
}.

Definition init : State := mk None false [] "" None.

Inductive Notice := CameraNotSupported | CameraAccessDenied | NoMatchesFound | SearchFailed.

(** [getCameraPermission]: [supported] is [navigator.mediaDevices.getUserMedia]
    existing, [granted] the outcome of the request. *)
Definition cameraEffect (supported granted : bool) (s : State) : State * option Notice :=
  let set p := mk (Some p) (isProcessing s) (results s) (reasoning s) (capturedImage s) in
  if negb supported then (set false, Some CameraNotSupported)
  else if granted then (set true, None)
  else (set false, Some CameraAccessDenied).

(** [handleSearch] up to its [await]. *)
Definition searchStart (s : State) : State :=
  mk (hasCameraPermission s) true [] "" (capturedImage s).

(** [handleCapture]: [frame] is the canvas's data URI, [None] when the
    video or canvas is missing or has no 2d context. *)
Definition handleCapture (frame : option string) (s : State) : State :=
  match frame with
  | None => s
  | Some dataUri => searchStart (mk (hasCameraPermission s) (isProcessing s) (results s) (reasoning s) (Some dataUri))
  end.

(** [handleSearch] after the flow settles: the matched ids that name a
    catalogue product, in order, and the [finally]. *)
Definition searchDone (response : option (list string * string)) (s : State) : State * option Notice :=
  match response with
  | Some (matchedProductIds, r) =>
      let foundProducts := omap getProductById matchedProductIds in
      (mk (hasCameraPermission s) false foundProducts r (capturedImage s),
       match foundProducts with [] => Some NoMatchesFound | _ => None end)
  | None => (mk (hasCameraPermission s) false (results s) (reasoning s) (capturedImage s), Some SearchFailed)
  end.

Definition resetSearch (s : State) : State := mk (hasCameraPermission s) (isProcessing s) [] "" None.

(** [disabled={!hasCameraPermission || isProcessing}] *)
Definition captureEnabled (s : State) : bool :=
  bool_decide (hasCameraPermission s = Some true) && negb (isProcessing s).

(** The camera pane, the button under it and the results section. *)
Inductive Pane := Initializing | NotAvailable | LiveVideo | CapturedImage (dataUri : string).

Inductive ActionButton := ClearImage (disabled : bool) | CaptureAndSearch (disabled : bool).

Inductive ResultsView := NoResults | Analyzing (reasoning : string) | ResultsGrid (reasoning : string) (ps : list Product.t).

Record View := mkView { pane : Pane; button : ActionButton; resultsView : ResultsView }.

Definition view (s : State) : View :=
  mkView
    (match hasCameraPermission s with
     | None => Initializing
     | Some false => NotAvailable
     | Some true => match capturedImage s with Some d => CapturedImage d | None => LiveVideo end
     end)
    (match capturedImage s with
     | Some _ => ClearImage (isProcessing s)
     | None => CaptureAndSearch (negb (captureEnabled s))
     end)
    (if isProcessing s then Analyzing (reasoning s)
     else match results s with [] => NoResults | ps => ResultsGrid (reasoning s) ps end).

End VisualSearch.

Module Sentiment.

Record Output := mkOutput { positivePoints : list string; negativePoints : list string; summary : string }.

Record State := mk { analysis : option Output; isLoading : bool; error : option string }.

Definition init : State := mk None false None.

(** The effect on [[reviews]], up to the [await]. *)
Definition effectStart (reviews : list Review.t) (s : State) : State :=
  match reviews with [] => s | _ => mk (analysis s) true None end.

Definition fetchDone (result : option Output) (s : State) : State :=
  match result with
  | Some r =>
      mk (if (0 <? length (positivePoints r))%nat || (0 <? length (negativePoints r))%nat then Some r else None)
         false (error s)
  | None => mk (analysis s) false (Some "Could not load eco-analysis at this time.")
  end.

Inductive View := Loading | ErrorAlert (message : string) | Hidden | Summary (o : Output) (hasBoth : bool).

Definition view (s : State) : View :=
  if isLoading s then Loading
  else match error s with
       | Some m => ErrorAlert m
       | None =>
           match analysis s with
           | None => Hidden
           | Some a => Summary a ((0 <? length (positivePoints a))%nat && (0 <? length (negativePoints a))%nat)
           end
       end.

End Sentiment.

Module EcoPlanner.

Record PlanItem := mkItem { task : string; description : string }.

Record Output := mkOutput { suggestedProducts : list string; planner : list PlanItem }.

(** The dialog's state, with the [setTimeout(resetState, 300)] calls not
    yet fired. *)
Record State := mk {
  isOpen : bool;
  currentStep : Z;
  selectedEvent : string;
  isLoading : bool;
  plan : option Output;
  pendingResets : nat;
}.

Definition init : State := mk false 0 "" false None 0.

Definition eventOptions : list (string * string) :=
  [("birthday", "Birthday Party"); ("wedding", "Wedding"); ("celebration", "Holiday Celebration")].

(** [eventOptions.find(e => e.id === selectedEvent)?.name || 'event'] *)
Definition eventName (selectedEvent : string) : string :=
  match List.find (fun e => e.1 === selectedEvent) eventOptions with Some e => e.2 | None => "event" end.

Inductive Notice := SelectEventType | PlanFailed.


(** [handleGetPlan] up to its [await]; the third component is the event
    name the flow is asked about. *)
Definition handleGetPlan (s : State) : State * option Notice * option string :=
  if (selectedEvent s =? "")%string then (s, Some SelectEventType, None)
  else (mk (isOpen s) 1 (selectedEvent s) true (plan s) (pendingResets s), None, Some (eventName (selectedEvent s))).

Definition planDone (result : option Output) (s : State) : State * option Notice :=
  match result with
  | Some r => (mk (isOpen s) (currentStep s) (selectedEvent s) false (Some r) (pendingResets s), None)
  | None => (mk (isOpen s) 0 (selectedEvent s) false (plan s) (pendingResets s), Some PlanFailed)
  end.


(** Closing schedules [resetState] 300 ms later. *)
Definition handleOpenChange (open : bool) (s : State) : State :=
  if open then mk true (currentStep s) (selectedEvent s) (isLoading s) (plan s) (pendingResets s)
  else mk false (currentStep s) (selectedEvent s) (isLoading s) (plan s) (S (pendingResets s)).


(** [disabled={!selectedEvent}] *)
Definition generateEnabled (s : State) : bool := negb (selectedEvent s =? "")%string.

(** [DialogDescription]. *)
Definition dialogDescription (s : State) : string :=
  if (currentStep s =? 0)%Z then "First, tell us what you're planning."
  else "Your eco-friendly plan for a wonderful " +:+ eventName (selectedEvent s) +:+ "!".

Definition suggestedProductsOf (o : Output) : list Product.t :=
  omap (fun name => getProductById (match List.find (fun p => Product.name p === name) mockProducts with
                                    | Some p => Product.id p
                                    | None => ""
                                    end))
       (suggestedProducts o).

(** Step 1's body: the spinner, the plan (checklist and suggested
    products, or the "No specific product suggestions" line), or nothing
    but "Start Over". *)
Inductive Body :=
| ChooseEvent (checked : list (string * bool)) (generateEnabled : bool)
| Generating
| ShowPlan (checklist : list PlanItem) (products : list Product.t)
| NoPlan.

Inductive View := Closed | Open (text : string) (body : Body).

Definition view (s : State) : View :=
  if negb (isOpen s) then Closed
  else Open (dialogDescription s)
    (if (currentStep s =? 0)%Z then
       ChooseEvent (map (fun e => (e.1, selectedEvent s === e.1)) eventOptions) (generateEnabled s)
     else if isLoading s then Generating
     else match plan s with
          | Some o => ShowPlan (planner o) (suggestedProductsOf o)
          | None => NoPlan
          end).

(** A suggested product's link: its page, and the dialog closed. *)
Definition clickSuggested (p : Product.t) (s : State) : string * State :=
  ("/products/" +:+ Product.id p, handleOpenChange false s).

End EcoPlanner.

Module ImageGenerator.

Record State := mk { loadingProductId : option string; generatedImage : option (string * string) }.

Definition init : State := mk None None.

Inductive Notice := GenerationFailed.

(** [handleGenerateImage] up to its [await]. *)
Definition generateStart (p : Product.t) (s : State) : State := mk (Some (Product.id p)) (generatedImage s).

(** The flow settles for [p]: the image or the toast, then the [finally]. *)
Definition generateDone (p : Product.t) (result : option string) (s : State) : State * option Notice :=
  match result with
  | Some url => (mk None (Some (url, Product.name p)), None)
  | None => (mk None (generatedImage s), Some GenerationFailed)
  end.

(** The card of [p] shows its spinner. *)
Definition isLoading (p : Product.t) (s : State) : bool :=
  bool_decide (loadingProductId s = Some (Product.id p)).

Definition closeDialog (s : State) : State := mk (loadingProductId s) None.

(** [copyToClipboard]: the text written to the clipboard, with the
    "Copied!" toast, when an image is shown. *)
Definition copyToClipboard (s : State) : option string :=
  match generatedImage s with Some (url, _) => Some url | None => None end.

(** [name.replace(/\s+/g, '-')]: each run of white space becomes one
    dash. *)
Fixpoint dashWhitespace (inRun : bool) (s : string) : string :=
  match s with
  | EmptyString => EmptyString
  | String c s' =>
      if Pages.ChatInterface.is_space c then
        if inRun then dashWhitespace true s' else String "-"%char (dashWhitespace true s')
      else String c (dashWhitespace false s')
  end.

(** A product card: its name, description and whether its "Generate New
    Image" button is disabled. *)
Record Card := mkCard { card_name : string; card_description : string; card_disabled : bool }.

Definition cards (s : State) : list Card :=
  map (fun p => mkCard (Product.name p) (Product.description p) (isLoading p s)) mockProducts.

(** The dialog, open while an image is shown: its title, the image and
    the download file name. *)
Record DialogView := mkDialog { dlg_title : string; dlg_image : string; dlg_download : string }.

Definition dialog (s : State) : option DialogView :=
  match generatedImage s with
  | Some (url, name) =>
      Some (mkDialog ("Generated Image for: " +:+ name) url (dashWhitespace false name +:+ "-ai.png"))
  | None => None
  end.

End ImageGenerator.

Module VoiceListening.

Record State := mk { isListening : bool; isProcessing : bool; showDialog : bool; transcript : string }.

Definition init : State := mk false false false "".

Inductive Request := StartRecognition | StopRecognition | NotSupported.

Definition handleMicClick (supported : bool) (s : State) : Request :=
  if negb supported then NotSupported
  else if isListening s || isProcessing s then StopRecognition else StartRecognition.

Definition onstart (s : State) : State := mk true (isProcessing s) true "".

(** [processCommand] up to its [await]. *)
Definition processStart (text : string) (s : State) : State := mk (isListening s) true (showDialog s) text.

(** [recognition.onresult]: the new transcript and whether a command is
    processed. *)
Definition onresult (currentTranscript : string) (isFinal : bool) (s : State) : State * bool :=
  let s1 := mk (isListening s) (isProcessing s) (showDialog s) currentTranscript in
  if isFinal then
    if Pages.ChatInterface.is_blank currentTranscript
    then (mk (isListening s1) (isProcessing s1) false (transcript s1), false)
    else (processStart currentTranscript s1, true)
  else (s1, false).

Definition onend (s : State) : State := mk false (isProcessing s) (showDialog s) (transcript s).

Definition onerror (s : State) : State := mk false (isProcessing s) false (transcript s).

(** The [setTimeout] of [processCommand]'s [finally] fires. *)
Definition processFinish (s : State) : State := mk (isListening s) false false "".

End VoiceListening.

(** ** Lemmas *)

Lemma getProductById_in i p : getProductById i = Some p -> In p mockProducts.
Proof. unfold getProductById. intros H. by apply find_some_in in H as [? _]. Qed.

(** ** Theorems *)

(** A settled visual search shows the catalogue products whose ids the
    flow matched, in the flow's order, unknown ids dropped; the "No matches
    found" notice comes exactly when none is left; a failed search ends
    processing with the "Search Failed" notice and no result. *)
Theorem searchDone_spec ids r s :
  (let '(s', n) := VisualSearch.searchDone (Some (ids, r)) (VisualSearch.searchStart s) in
   VisualSearch.results s' = omap getProductById ids /\
   Forall (fun p => In p mockProducts) (VisualSearch.results s') /\
   (n = Some VisualSearch.NoMatchesFound <-> VisualSearch.results s' = []) /\
   VisualSearch.isProcessing s' = false) /\
  VisualSearch.searchDone None (VisualSearch.searchStart s) =
    (VisualSearch.mk (VisualSearch.hasCameraPermission s) false [] "" (VisualSearch.capturedImage s),
     Some VisualSearch.SearchFailed).
Proof.
  split; [| reflexivity]. simpl. split; [done | split; [| split; [| done]]].
  - apply Forall_forall. intros p Hp. apply list_elem_of_In, list_elem_of_omap in Hp as (i & _ & Hi).
    by apply getProductById_in in Hi.
  - destruct (omap getProductById ids); split; congruence.
Qed.

(** A capture locks the page until its search settles: the captured
    image replaces the video, the only button is "Clear Image", disabled,
    and the results section shows the spinner; once the search settles
    (found or failed) the button is enabled again. *)
Theorem capture_locks_until_settled d s resp :
  let s1 := VisualSearch.handleCapture (Some d) s in
  VisualSearch.button (VisualSearch.view s1) = VisualSearch.ClearImage true /\
  VisualSearch.resultsView (VisualSearch.view s1) = VisualSearch.Analyzing "" /\
  VisualSearch.button (VisualSearch.view (VisualSearch.searchDone resp s1).1) = VisualSearch.ClearImage false.
Proof. cbv zeta. split; [reflexivity | split; [reflexivity |]]. by destruct resp as [[ids r] |]. Qed.

(** The eco summary after the analysis settles: a failure shows the error
    alert; an answer with no positive and no negative point hides the
    card; otherwise the card shows the answer. *)
Theorem sentiment_view reviews res s :
  reviews <> [] ->
  Sentiment.view (Sentiment.fetchDone res (Sentiment.effectStart reviews s)) =
    match res with
    | None => Sentiment.ErrorAlert "Could not load eco-analysis at this time."
    | Some r =>
        match Sentiment.positivePoints r, Sentiment.negativePoints r with
        | [], [] => Sentiment.Hidden
        | ps, ns => Sentiment.Summary r ((0 <? length ps)%nat && (0 <? length ns)%nat)
        end
    end.
Proof.
  intros Hr. destruct reviews as [| x l]; [done |].
  destruct res as [[ps ns sm] |]; [| reflexivity]. by destruct ps, ns.
Qed.

Lemma sentiment_view_witness :
  let rv := Review.mk "r1" "Alice" 5 "Lasts for years" "2024-01-01" in
  let o := Sentiment.mkOutput ["durable"] [] "Positive" in
  [rv] <> [] /\
  Sentiment.view (Sentiment.fetchDone (Some o) (Sentiment.effectStart [rv] Sentiment.init)) = Sentiment.Summary o false.
Proof.
  cbv zeta. split; [discriminate |].
  exact (sentiment_view [Review.mk "r1" "Alice" 5 "Lasts for years" "2024-01-01"]
           (Some (Sentiment.mkOutput ["durable"] [] "Positive")) Sentiment.init ltac:(discriminate)).
Defined.


(** The image generator has one loading slot: while a second product's
    image is generated, the first request settling clears the second
    card's spinner, and the second answer then replaces the first image. *)
Theorem image_generator_spinner_race :
  let a := seedProduct 0 in
  let b := seedProduct 1 in
  let s := ImageGenerator.generateStart b (ImageGenerator.generateStart a ImageGenerator.init) in
  let '(s1, _) := ImageGenerator.generateDone a (Some "data:image/png;base64,AAAA") s in
  ImageGenerator.isLoading b s = true /\ ImageGenerator.isLoading b s1 = false /\
  let '(s2, _) := ImageGenerator.generateDone b (Some "data:image/png;base64,BBBB") s1 in
  ImageGenerator.generatedImage s2 = Some ("data:image/png;base64,BBBB", Product.name b).
Proof. vm_compute. repeat split. Qed.

(** One voice interaction: a final transcript runs a command exactly when
    it is not blank; after the recognizer ends and the command's delayed
    [finally] runs, the widget is back to its initial state, and a blank
    transcript closes the dialog at once. *)
Theorem voice_listening_cycle t :
  let s1 := VoiceListening.onstart VoiceListening.init in
  let '(s2, run) := VoiceListening.onresult t true s1 in
  run = negb (Pages.ChatInterface.is_blank t) /\
  (if run then VoiceListening.processFinish (VoiceListening.onend s2) = VoiceListening.init
   else VoiceListening.onend s2 = VoiceListening.mk false false false t).
Proof.
  cbv zeta. unfold VoiceListening.onresult. simpl.
  by destruct (Pages.ChatInterface.is_blank t).
Qed.

End AiUi.
