(* ===== verification/AiFlows.v ===== *)
(** * AiFlows: the Genkit flows of [src/ai/flows] and the requests the app makes.

    Five flows are [ai.definePrompt] templates: the prompt is a Handlebars
    template over the flow's input, the model answers with an output of
    the flow's schema, and the flow returns [output!].  The non-null
    assertion does no check: a missing answer is returned as [null], which
    the flow's [outputSchema] then rejects, so the caller's [await]
    throws.  The model is an argument ([model : list Part -> option O]):
    [None] is a missing or rejected answer.

    Templates are [Segment] lists: literal text, [{{field}}], [{{this}}],
    [{{#each field}} ... {{/each}}] and the [{{media url=field}}] helper.
    They are transcribed from the source after Handlebars' standalone
    rule, which drops a line holding only a block tag together with its
    line break.  [renderTemplate] is Handlebars' evaluation with
    dotprompt's [noEscape] option: a string prints as is, an array as
    [Array.prototype.toString] (its elements joined by [","]), a missing
    field as nothing; [each] iterates an array's elements (and an
    object's values).  The rendered prompt is a list of [Part]s, text and
    media, as Genkit sends it.

    [generateProductImage] is not a template: it interpolates a template
    literal and calls [ai.generate]; the answer's [media] is an argument
    ([generate]), and without it the flow throws
    ["Image generation failed."].

    The [...Input] definitions are the objects the callers build:
    [app/visual-search/page.tsx], [VoiceAssistant.tsx],
    [EcoPlannerDialog.tsx], [EcoSentimentAnalysis.tsx],
    [PairRecommendations.tsx], [app/image-generator/page.tsx].
    [devFlows] is the list of flows [ai/dev.ts] registers. *)

From stdpp Require Import base list strings.
From Stdlib Require Import String List Ascii ZArith.
From S2P Require Import Prelude Types Auth Cart Animation CartUi AiUi.
Import ListNotations.

Module AiFlows.

(** The values a template reads: the JSON of the flow's input. *)
#[warnings="-register-all"]
Inductive Value := VStr (s : string) | VList (l : list Value) | VObj (fields : list (string * Value)).

#[warnings="-register-all"]
Inductive Segment :=
| Text (s : string)
| Var (field : string)
| This
| Each (field : string) (body : list Segment)
| Media (field : string).

Inductive Part := PText (s : string) | PMedia (url : string).

Definition field (v : Value) (f : string) : option Value :=
  match v with
  | VObj fs => snd <$> List.find (fun kv => fst kv =? f)%string fs
  | _ => None
  end.

(** [elems.join(",")] *)
Fixpoint join (sep : string) (l : list string) : string :=
  match l with
  | [] => ""
  | [x] => x
  | x :: l' => x +:+ sep +:+ join sep l'
  end.

(** How [{{...}}] prints a value. *)
Fixpoint toStringV (v : Value) : string :=
  match v with
  | VStr s => s
  | VList l => join "," ((fix go (l : list Value) : list string :=
                           match l with [] => [] | x :: l' => toStringV x :: go l' end) l)
  | VObj _ => "[object Object]"
  end.

Definition printField (v : option Value) : string :=
  match v with Some v => toStringV v | None => "" end.

(** What [{{#each}}] iterates. *)
Definition items (v : option Value) : list Value :=
  match v with
  | Some (VList l) => l
  | Some (VObj fs) => map snd fs
  | _ => []
  end.

Fixpoint renderSeg (ctx : Value) (s : Segment) : list Part :=
  match s with
  | Text t => [PText t]
  | Var f => [PText (printField (field ctx f))]
  | This => [PText (toStringV ctx)]
  | Media f => [PMedia (printField (field ctx f))]
  | Each f body =>
      flat_map (fun item =>
        (fix go (b : list Segment) : list Part :=
           match b with [] => [] | x :: b' => renderSeg item x ++ go b' end) body)
        (items (field ctx f))
  end.

Definition renderTemplate (tmpl : list Segment) (ctx : Value) : list Part :=
  flat_map (renderSeg ctx) tmpl.

(** The text of a prompt, and its media. *)
Fixpoint textOf (ps : list Part) : string :=
  match ps with
  | [] => ""
  | PText t :: ps' => t +:+ textOf ps'
  | PMedia _ :: ps' => textOf ps'
  end.

Definition mediaOf (ps : list Part) : list string :=
  omap (fun p => match p with PMedia u => Some u | PText _ => None end) ps.

(** ** The five prompts *)

Definition vsIntro : string :=
  "You are an expert visual product matcher for an e-commerce store called SocialCart. Your task is to identify the main object in the user's photo and find the closest matching products from the provided list." +:+ nl +:+ nl +:+ "Here is the list of available products:" +:+ nl.

Definition vsAnalyze : string := nl +:+ "Analyze the user's image provided below." +:+ nl +:+ "User's image: ".

Definition vsRest : string :=
  nl +:+ nl +:+ "Based on the image, identify the top 3 most relevant products from the list. The match should be based on the object type, style, and color." +:+ nl +:+ nl +:+ "Provide a brief, one-sentence reasoning for your selection, for example: " +:+ dq +:+ "The image shows a pair of headphones, and these are the most similar headphone products we offer." +:+ dq +:+ nl +:+ nl +:+ "Return the IDs of the matched products. If no products are a good match, return an empty array." +:+ nl.

(** [- {{name}} (ID: {{id}})] *)
Definition vsLine : list Segment := [Text "- "; Var "name"; Text " (ID: "; Var "id"; Text (")" +:+ nl)].

Definition visualSearchPrompt : list Segment :=
  [Text vsIntro; Each "availableProducts" vsLine; Text vsAnalyze; Media "imageDataUri"; Text vsRest].

Definition voiceCommandPrompt : list Segment := [
    Text ("You are the EcoCart Voice Bot, a helpful shopping assistant." +:+ nl +:+ "Your task is to interpret the user's voice command and translate it into a structured JSON action." +:+ nl +:+ nl +:+ "User's command: " +:+ dq);
    Var "query";
    Text (dq +:+ nl +:+ nl +:+ "Based on this command, determine the user's intent. The available actions are:" +:+ nl +:+ "- SEARCH_PRODUCTS: When the user wants to find or search for an item." +:+ nl +:+ "- ADD_TO_CART: When the user wants to add an item to their shopping cart." +:+ nl +:+ "- VIEW_CART: When the user wants to see their shopping cart." +:+ nl +:+ "- NAVIGATE_HOME: When the user wants to go to the main product listing." +:+ nl +:+ "- NAVIGATE_SOCIAL: When the user wants to go to the social page." +:+ nl +:+ "- NAVIGATE_CHAT: When the user wants to go to the chat page." +:+ nl +:+ "- UNKNOWN: If the command is unclear or cannot be mapped to an action." +:+ nl +:+ nl +:+ "Here is a list of available products you can use for context to identify the correct product name:" +:+ nl);
    Each "availableProducts" [Text ("- "); This; Text (nl)];
    Text (nl +:+ "- For ADD_TO_CART, you MUST identify a product name from the query and the list. If a product is mentioned that is not in the list, choose the closest match. Also extract quantity if mentioned, otherwise default to 1." +:+ nl +:+ "- For SEARCH_PRODUCTS, extract the search term or product name." +:+ nl +:+ "- For all actions, generate a friendly and concise 'responseText' to confirm what you are doing. For example, if adding an item, say " +:+ dq +:+ "Sure, adding [Product Name] to your cart." +:+ dq +:+ " If navigating, say " +:+ dq +:+ "Navigating to the [Page Name] page." +:+ dq +:+ " If unknown, say " +:+ dq +:+ "I'm sorry, I didn't understand that. Please try again." +:+ dq +:+ nl +:+ "- Only populate the payload fields relevant to the action. For navigation actions, 'productName' and 'quantity' should be omitted." +:+ nl) ].

Definition ecoPlannerPrompt : list Segment := [
    Text ("You are an expert eco-conscious event planner. A user is planning a " +:+ dq);
    Var "eventType";
    Text (dq +:+ ". Your goal is to provide them with sustainable product suggestions from a list of available products and a simple, actionable eco-friendly planner." +:+ nl +:+ nl +:+ "List of available products:" +:+ nl);
    Each "availableProducts" [Text ("- "); This; Text (nl)];
    Text (nl +:+ "Based on the " +:+ dq);
    Var "eventType";
    Text (dq +:+ ", please provide:" +:+ nl +:+ "1.  A list of 3-5 **specific product names** from the provided list that are most relevant for the event. For a wedding, you might suggest food wraps for leftovers or bamboo cutlery for a casual reception. For a birthday, a recycled notebook could be a good gift." +:+ nl +:+ "2.  A helpful, eco-friendly planner with 3-4 key tasks. For each task, provide a short, actionable tip on how to make it sustainable. For example, for " +:+ dq +:+ "Decorations" +:+ dq +:+ ", suggest " +:+ dq +:+ "Use reusable items like fabric banners or rent decorations instead of buying single-use plastic items." +:+ dq +:+ nl +:+ nl +:+ "Generate the output in the required JSON format." +:+ nl) ].

Definition ecoSentimentPrompt : list Segment := [
    Text ("You are a sustainability expert working for an e-commerce company. Your job is to analyze customer reviews for a product to find insights about its eco-friendliness." +:+ nl +:+ nl +:+ "Carefully read the following reviews:" +:+ nl);
    Each "reviews" [Text ("- " +:+ dq); This; Text (dq +:+ nl)];
    Text (nl +:+ "From these reviews, extract key points related to:" +:+ nl +:+ "- Packaging (e.g., " +:+ dq +:+ "plastic-free" +:+ dq +:+ ", " +:+ dq +:+ "too much plastic" +:+ dq +:+ ")" +:+ nl +:+ "- Durability and longevity (e.g., " +:+ dq +:+ "long-lasting" +:+ dq +:+ ", " +:+ dq +:+ "broke quickly" +:+ dq +:+ ")" +:+ nl +:+ "- Material quality (e.g., " +:+ dq +:+ "sustainably sourced" +:+ dq +:+ ", " +:+ dq +:+ "feels cheap" +:+ dq +:+ ")" +:+ nl +:+ "- Overall environmental impact." +:+ nl +:+ nl +:+ "Summarize your findings in the JSON output format. Keep the points concise and directly related to the reviews. If there are no relevant points, return empty arrays." +:+ nl) ].

Definition psIntro : string :=
  "You are a personal shopping assistant. Based on the items in the user's cart, recommend other products that they might be interested in." +:+ nl +:+ nl +:+ "Cart items: ".

Definition psRest : string := nl +:+ nl +:+ "Recommendations:".

Definition pairShoppingPrompt : list Segment := [Text psIntro; Var "cartItems"; Text psRest].

(** ** The requests *)

(** [mockProducts.map(p => ({ id: p.id, name: p.name }))] *)
Definition productEntry (p : Product.t) : Value :=
  VObj [("id", VStr (Product.id p)); ("name", VStr (Product.name p))].

Definition visualSearchInput (imageDataUri : string) (ps : list Product.t) : Value :=
  VObj [("imageDataUri", VStr imageDataUri); ("availableProducts", VList (map productEntry ps))].

(** [mockProducts.map(p => p.name)] *)
Definition productNames : list Value := map (fun p => VStr (Product.name p)) mockProducts.

Definition voiceCommandInput (text : string) : Value :=
  VObj [("query", VStr text); ("availableProducts", VList productNames)].

Definition ecoPlannerInput (eventName : string) : Value :=
  VObj [("eventType", VStr eventName); ("availableProducts", VList productNames)].

(** [reviews.map((review) => review.comment)] *)
Definition ecoSentimentInput (reviews : list Review.t) : Value :=
  VObj [("reviews", VList (map (fun r => VStr (Review.comment r)) reviews))].

(** [cartItems.map((item) => item.name)] *)
Definition pairShoppingInput (cartItems : list CartItemType.t) : Value :=
  VObj [("cartItems", VList (map (fun i => VStr (CartItemType.name i)) cartItems))].

(** ** The flows *)

(** [const { output } = await prompt(input); return output!;] *)
Definition runPrompt {O} (tmpl : list Segment) (model : list Part -> option O) (input : Value) : option O :=
  model (renderTemplate tmpl input).

Definition visualSearchFlow (model : list Part -> option (list string * string)) (input : Value)
  : option (list string * string) :=
  runPrompt visualSearchPrompt model input.

Definition findProductsInImage (model : list Part -> option (list string * string)) (input : Value)
  : option (list string * string) :=
  visualSearchFlow model input.

Definition voiceCommandFlow (model : list Part -> option CartUi.Voice.Command) (input : Value)
  : option CartUi.Voice.Command :=
  runPrompt voiceCommandPrompt model input.

Definition interpretCommand (model : list Part -> option CartUi.Voice.Command) (input : Value)
  : option CartUi.Voice.Command :=
  voiceCommandFlow model input.

Definition ecoPlannerFlow (model : list Part -> option AiUi.EcoPlanner.Output) (input : Value)
  : option AiUi.EcoPlanner.Output :=
  runPrompt ecoPlannerPrompt model input.

Definition getEcoPlan (model : list Part -> option AiUi.EcoPlanner.Output) (input : Value)
  : option AiUi.EcoPlanner.Output :=
  ecoPlannerFlow model input.

Definition ecoSentimentAnalysisFlow (model : list Part -> option AiUi.Sentiment.Output) (input : Value)
  : option AiUi.Sentiment.Output :=
  runPrompt ecoSentimentPrompt model input.

Definition analyzeEcoSentiment (model : list Part -> option AiUi.Sentiment.Output) (input : Value)
  : option AiUi.Sentiment.Output :=
  ecoSentimentAnalysisFlow model input.

Definition pairShoppingRecommendationsFlow (model : list Part -> option (list string)) (input : Value)
  : option (list string) :=
  runPrompt pairShoppingPrompt model input.

Definition getPairShoppingRecommendations (model : list Part -> option (list string)) (input : Value)
  : option (list string) :=
  pairShoppingRecommendationsFlow model input.

Record GenerateProductImageInput := mkImageInput { productName : string; productDescription : string }.

(** The template literal of [generateProductImageFlow]. *)
Definition imagePrompt (i : GenerateProductImageInput) : string :=
  "Generate a photorealistic image of a product on a clean, white background. The product should be the only subject in the image." +:+ nl +:+
  "      Product Name: " +:+ dq +:+ productName i +:+ dq +:+ nl +:+
  "      Description: " +:+ dq +:+ productDescription i +:+ dq.

(** [ai.generate] answers with [media] or without; the flow throws
    without it. *)
Definition generateProductImage (generate : string -> option string) (i : GenerateProductImageInput) : Result string :=
  match generate (imagePrompt i) with
  | None => Failure "Image generation failed."
  | Some url => Success url
  end.

(** [handleGenerateImage]'s request, and its [try]/[catch]: a thrown
    error is [None] for [generateDone]. *)
Definition imageInput (p : Product.t) : GenerateProductImageInput := mkImageInput (Product.name p) (Product.description p).

Definition caught {A} (r : Result A) : option A := match r with Success a => Some a | Failure _ => None end.

(** The flows [ai/dev.ts] loads for the Genkit developer UI, and the flow
    files of [ai/flows]. *)
Definition devFlows : list string :=
  ["pair-shopping-recommendations"; "voice-command-flow"; "eco-sentiment-analysis-flow";
   "visual-search-flow"; "eco-planner-flow"].

Definition flowFiles : list string :=
  ["eco-planner-flow"; "eco-sentiment-analysis-flow"; "generate-product-image-flow";
   "pair-shopping-recommendations"; "visual-search-flow"; "voice-command-flow"].

(** A reading of a joined list: the pieces between the commas. *)
Fixpoint splitComma (s : string) : list string :=
  match s with
  | EmptyString => [""]
  | String c s' =>
      if Ascii.eqb c "," then "" :: splitComma s'
      else match splitComma s' with
           | [] => [String c EmptyString]
           | w :: ws => String c w :: ws
           end
  end.

(** A character Handlebars' [escapeExpression] would rewrite: the
    ampersand, the angle brackets, both quotes, the backtick and the
    equals sign. *)
Fixpoint hasHtmlSpecial (s : string) : bool :=
  match s with
  | EmptyString => false
  | String c s' =>
      existsb (Ascii.eqb c) ["&"; "<"; ">"; Ascii.ascii_of_nat 34; "'"; "`"; "="]%char || hasHtmlSpecial s'
  end.

Fixpoint hasComma (s : string) : bool :=
  match s with EmptyString => false | String c s' => Ascii.eqb c "," || hasComma s' end.

(** ** Lemmas *)

Lemma textOf_app ps qs : textOf (ps ++ qs) = textOf ps +:+ textOf qs.
Proof. induction ps as [| [t | u] ps IH]; simpl; [done | by rewrite IH, string_app_assoc | done]. Qed.

Lemma renderTemplate_cons s tmpl ctx :
  renderTemplate (s :: tmpl) ctx = renderSeg ctx s ++ renderTemplate tmpl ctx.
Proof. reflexivity. Qed.

Lemma splitComma_app a b :
  hasComma a = false -> splitComma (a +:+ "," +:+ b) = a :: splitComma b.
Proof.
  induction a as [| c a IH]; simpl; [done |]. intros H. apply orb_false_iff in H as [Hc Ha].
  rewrite Hc, IH by done. done.
Qed.

Lemma splitComma_noComma a : hasComma a = false -> splitComma a = [a].
Proof.
  induction a as [| c a IH]; simpl; [done |]. intros H. apply orb_false_iff in H as [Hc Ha].
  by rewrite Hc, IH.
Qed.

(** The template evaluated on the page's request. *)
Lemma vs_render d ps :
  renderTemplate visualSearchPrompt (visualSearchInput d ps) =
    [PText vsIntro] ++
    flat_map (fun p => [PText "- "; PText (Product.name p); PText " (ID: "; PText (Product.id p); PText (")" +:+ nl)]) ps ++
    [PText vsAnalyze; PMedia d; PText vsRest].
Proof.
  unfold renderTemplate, visualSearchPrompt. cbn [flat_map]. f_equal. f_equal.
  cbn [renderSeg]. change (items (field (visualSearchInput d ps) "availableProducts")) with (map productEntry ps).
    induction ps as [| p ps IH]; [done |]. cbn [map flat_map]. rewrite IH. reflexivity.
Qed.

Lemma toStringV_list vs : toStringV (VList vs) = join "," (map toStringV vs).
Proof. reflexivity. Qed.

Lemma splitComma_join l :
  l <> [] -> Forall (fun w => hasComma w = false) l -> splitComma (join "," l) = l.
Proof.
  intros Hne Hl. induction Hl as [| w l Hw Hl IH]; [done |].
  destruct l as [| w' l]; [by apply splitComma_noComma |].
  cbn [join]. rewrite splitComma_app by exact Hw. f_equal. by apply IH.
Qed.

(** ** Theorems *)

(** C39: The visual search request, as the model receives it: the photo is
    its one media part, and its text is the template's with one line
    [- name (ID: id)] per product of the list, in order; so every product
    the page passes, and only those, is offered to the model. *)
Theorem visual_search_prompt d ps :
  mediaOf (renderTemplate visualSearchPrompt (visualSearchInput d ps)) = [d] /\
  textOf (renderTemplate visualSearchPrompt (visualSearchInput d ps)) =
    vsIntro +:+ foldr (fun p acc => "- " +:+ Product.name p +:+ " (ID: " +:+ Product.id p +:+ ")" +:+ nl +:+ acc)
                      (vsAnalyze +:+ vsRest) ps.
Proof.
  rewrite vs_render. split.
  - unfold mediaOf. rewrite !omap_app. induction ps as [| p ps IH]; [done |]. exact IH.
  - rewrite !textOf_app. cbn [textOf]. rewrite !string_app_nil_r. f_equal.
    induction ps as [| p ps IH]; [done |]. cbn [flat_map foldr]. rewrite textOf_app, string_app_assoc, IH.
    cbn [textOf]. by rewrite string_app_nil_r, !string_app_assoc.
Qed.

(** The recommendations request prints the cart as [{{cartItems}}], the
    names joined by commas.  When no name holds a comma (no product of
    the catalogue does), the names can be read back from the prompt:
    splitting the printed list at its commas gives the cart's names, in
    order. *)
Theorem pair_prompt_roundtrip items :
  items <> [] -> Forall (fun i => hasComma (CartItemType.name i) = false) items ->
  textOf (renderTemplate pairShoppingPrompt (pairShoppingInput items)) =
    psIntro +:+ join "," (map CartItemType.name items) +:+ psRest /\
  splitComma (join "," (map CartItemType.name items)) = map CartItemType.name items.
Proof.
  intros Hne Hc. split.
  - unfold renderTemplate, pairShoppingPrompt. cbn [flat_map renderSeg textOf].
    change (field (pairShoppingInput items) "cartItems")
      with (Some (VList (map (fun i => VStr (CartItemType.name i)) items))).
    cbn [printField]. rewrite toStringV_list, map_map. by rewrite ?string_app_nil_r.
  - apply splitComma_join; [by destruct items | by apply Forall_map].
Qed.

Lemma pair_prompt_roundtrip_witness :
  let items := [CartItemType.mk (seedProduct 0) 1; CartItemType.mk (seedProduct 6) 2] in
  (items <> [] /\ Forall (fun i => hasComma (CartItemType.name i) = false) items) /\
  textOf (renderTemplate pairShoppingPrompt (pairShoppingInput items)) =
    psIntro +:+ join "," (map CartItemType.name items) +:+ psRest /\
  splitComma (join "," (map CartItemType.name items)) = map CartItemType.name items.
Proof.
  cbv zeta.
  assert (Hne : [CartItemType.mk (seedProduct 0) 1; CartItemType.mk (seedProduct 6) 2] <> []) by discriminate.
  assert (Hc : Forall (fun i => hasComma (CartItemType.name i) = false)
                 [CartItemType.mk (seedProduct 0) 1; CartItemType.mk (seedProduct 6) 2])
    by (repeat constructor; vm_compute; reflexivity).
  split; [split; [exact Hne | exact Hc] | exact (pair_prompt_roundtrip _ Hne Hc)].
Defined.

(** No name of the catalogue holds a comma, so the round trip applies to
    every cart the app builds. *)
Example catalogue_names_commaless : Forall (fun p => hasComma (Product.name p) = false) mockProducts.
Proof. repeat constructor. Qed.

(** The catalogue's names and ids hold no character Handlebars escapes,
    so the product lines of the prompts are the same whether or not the
    template engine escapes its output. *)
Example catalogue_unescaped :
  Forall (fun p => hasHtmlSpecial (Product.name p) = false /\ hasHtmlSpecial (Product.id p) = false) mockProducts.
Proof. repeat constructor. Qed.

(** The image flow throws exactly when the model answers without media,
    and the generator page then keeps its previous image, clears the
    spinner and shows the "Generation Failed" toast; otherwise it shows
    the answer's image under the product's name. *)
Theorem image_generation_settles gen p s :
  (generateProductImage gen (imageInput p) = Failure "Image generation failed." <->
     gen (imagePrompt (imageInput p)) = None) /\
  AiUi.ImageGenerator.generateDone p (caught (generateProductImage gen (imageInput p))) s =
    match gen (imagePrompt (imageInput p)) with
    | Some url => (AiUi.ImageGenerator.mk None (Some (url, Product.name p)), None)
    | None => (AiUi.ImageGenerator.mk None (AiUi.ImageGenerator.generatedImage s),
               Some AiUi.ImageGenerator.GenerationFailed)
    end.
Proof. unfold generateProductImage. by destruct (gen (imagePrompt (imageInput p))). Qed.

(** [ai/dev.ts] loads five of the six flows: the image flow cannot be run
    from the Genkit developer UI. *)
Example image_flow_not_registered :
  In "generate-product-image-flow" flowFiles /\ ~ In "generate-product-image-flow" devFlows.
Proof. split; [simpl; tauto | vm_compute; intuition discriminate]. Qed.

End AiFlows.
