(* ===== verification/FlowSchemas.v ===== *)
(** * FlowSchemas: the zod schemas of [src/ai/flows] and what they accept.

    Each flow declares an [inputSchema] and an [outputSchema] with
    [z.object], [z.array] and [z.string] ([.describe] adds a text for the
    model and does not change what is accepted).  [Schema] is that
    fragment of zod, and [conforms] its [safeParse] on the JSON values of
    [AiFlows.Value]: a string is a string, an array has every element of
    the element schema, an object has every declared key with a value of
    its schema (zod's default objects strip the keys they do not
    declare, so extra keys pass).  Genkit parses a flow's input with its
    [inputSchema] before the body runs, and the model's JSON answer with
    the [outputSchema]; a failed parse throws in the caller's [await].

    The output schemas are transcribed as well; what the widgets do with
    a parsed answer is modelled in [AiUi] on the output records (the
    [model] argument of the flows of [AiFlows] answers with those records
    directly).  The voice command's output schema has a [z.enum], a
    [z.number()] and [optional] fields; it is [CartUi.Voice.Command] and
    is not among the schemas here, since [AiFlows.Value] has no
    numbers. *)

From stdpp Require Import base list strings.
From Stdlib Require Import String List Bool ZArith.
From S2P Require Import Prelude Types AiUi AiFlows.
Import ListNotations.
Local Open Scope string_scope.
Local Open Scope list_scope.

Module FlowSchemas.

Import AiFlows.

#[warnings="-register-all"]
Inductive Schema :=
| ZString
| ZArray (s : Schema)
| ZObject (fields : list (string * Schema)).

(** [Schema.safeParse(v).success] *)
Fixpoint conforms (s : Schema) (v : Value) : bool :=
  match s with
  | ZString => match v with VStr _ => true | _ => false end
  | ZArray s' => match v with VList vs => forallb (conforms s') vs | _ => false end
  | ZObject fs =>
      match v with
      | VObj _ =>
          (fix go (fs : list (string * Schema)) : bool :=
             match fs with
             | [] => true
             | (k, s') :: fs' => match field v k with Some x => conforms s' x | None => false end && go fs'
             end) fs
      | _ => false
      end
  end.

(** ** The schemas of the flows *)

Definition VisualSearchInputSchema : Schema :=
  ZObject [("imageDataUri", ZString); ("availableProducts", ZArray (ZObject [("id", ZString); ("name", ZString)]))].

Definition VisualSearchOutputSchema : Schema :=
  ZObject [("matchedProductIds", ZArray ZString); ("reasoning", ZString)].

Definition VoiceCommandInputSchema : Schema :=
  ZObject [("query", ZString); ("availableProducts", ZArray ZString)].

Definition EcoPlannerInputSchema : Schema :=
  ZObject [("eventType", ZString); ("availableProducts", ZArray ZString)].

Definition EcoPlannerOutputSchema : Schema :=
  ZObject [("suggestedProducts", ZArray ZString);
           ("planner", ZArray (ZObject [("task", ZString); ("description", ZString)]))].

Definition EcoSentimentInputSchema : Schema := ZObject [("reviews", ZArray ZString)].

Definition EcoSentimentOutputSchema : Schema :=
  ZObject [("positivePoints", ZArray ZString); ("negativePoints", ZArray ZString); ("summary", ZString)].

Definition PairShoppingRecommendationsInputSchema : Schema := ZObject [("cartItems", ZArray ZString)].

Definition PairShoppingRecommendationsOutputSchema : Schema := ZObject [("recommendations", ZArray ZString)].

Definition GenerateProductImageInputSchema : Schema :=
  ZObject [("productName", ZString); ("productDescription", ZString)].

Definition GenerateProductImageOutputSchema : Schema := ZObject [("imageDataUri", ZString)].

(** ** The requests *)

(** The object [app/image-generator/page.tsx] passes to [generateProductImage]. *)
Definition encodeImageInput (i : GenerateProductImageInput) : Value :=
  VObj [("productName", VStr (productName i)); ("productDescription", VStr (productDescription i))].

(** ** Lemmas *)

Lemma forallb_map_true {A B} (f : B -> bool) (g : A -> B) l : (forall x, f (g x) = true) -> forallb f (map g l) = true.
Proof. intros H. induction l as [| x l IH]; [done |]. simpl. by rewrite H, IH. Qed.

(** ** Theorems *)

(** C17: Every request the app sends to a flow passes the flow's
    [inputSchema], whatever the page's data: the visual search with the
    catalogue entries, the voice command with the product names, the eco
    planner with the event's name, the sentiment analysis with the review
    comments, the recommendations with the cart's names and the image
    generator with the product's name and description. *)
Theorem requests_conform d ps text e rs items p :
  conforms VisualSearchInputSchema (visualSearchInput d ps) = true /\
  conforms VoiceCommandInputSchema (voiceCommandInput text) = true /\
  conforms EcoPlannerInputSchema (ecoPlannerInput e) = true /\
  conforms EcoSentimentInputSchema (ecoSentimentInput rs) = true /\
  conforms PairShoppingRecommendationsInputSchema (pairShoppingInput items) = true /\
  conforms GenerateProductImageInputSchema (encodeImageInput (imageInput p)) = true.
Proof.
  repeat split; cbn; rewrite ?forallb_map_true; done.
Qed.

End FlowSchemas.
