(* ===== verification/VoiceAssistant.v ===== *)
(** * VoiceAssistant: [components/voice/VoiceAssistant.tsx], whole.

    [AiUi.VoiceListening] models the widget's four [useState]s and
    [CartUi.Voice.processCommand] the [switch] on the interpreted
    command.  This file composes them with the contexts the widget
    reads: [State] adds the auth and cart states, the route, the texts
    whose [interpretCommand] call has not settled, and the [setTimeout]s
    of [processCommand]'s [finally] not yet fired.  [handle] is the
    widget's reaction to each event: a click on the microphone, the
    recognizer's [onstart], [onresult], [onend] and [onerror], the
    settling of [interpretCommand] ([Some] command or [None] for a
    rejection) and the firing of the 800 ms timer.  The text-to-speech
    call in between is not observable (its failure is caught and
    ignored), so it is not a step.  [dialogText] is the dialog's
    description. *)

From stdpp Require Import base list strings.
From Stdlib Require Import ZArith String List Bool Lia.
From S2P Require Import Prelude Types Auth Cart Animation CartUi Pages AiUi.
Import ListNotations.
Local Open Scope string_scope.
Local Open Scope list_scope.

Module VoiceAssistant.

Record State := mk {
  ui : AiUi.VoiceListening.State;
  auth : Auth.State;
  cart : Cart.State;
  route : string;
  awaiting : list string;
  finishTimers : nat;
}.

Inductive Event :=
| MicClick (supported : bool)
| OnStart
| OnResult (transcript : string) (isFinal : bool)
| OnEnd
| OnError
| Interpreted (result : option CartUi.Voice.Command)
| FinishTimer
| DialogOpenChange (open : bool).

(** The toasts, and what the widget asks of the recognizer. *)
Inductive Notice :=
| CommandNotice (n : CartUi.Voice.Notice)
| VoiceError
| BrowserNotSupported
| ListenError.

Inductive Request := StartRecognition | StopRecognition.

Definition set_ui (u : AiUi.VoiceListening.State) (s : State) : State :=
  mk u (auth s) (cart s) (route s) (awaiting s) (finishTimers s).

(** [processCommand]'s code after [await interpretCommand(...)]: the
    [switch] or the [catch], then the [finally]'s timer. *)
Definition settle (result : option CartUi.Voice.Command) (s : State) : State * list Notice :=
  let s1 := mk (ui s) (auth s) (cart s) (route s) (tl (awaiting s)) (S (finishTimers s)) in
  match result with
  | Some command =>
      let '(a', c', r', ns) := CartUi.Voice.processCommand command (auth s) (cart s) (route s) in
      (mk (ui s1) a' c' r' (awaiting s1) (finishTimers s1), map CommandNotice ns)
  | None => (s1, [VoiceError])
  end.

Definition handle (e : Event) (s : State) : State * list Notice * list Request :=
  match e with
  | MicClick supported =>
      match AiUi.VoiceListening.handleMicClick supported (ui s) with
      | AiUi.VoiceListening.NotSupported => (s, [BrowserNotSupported], [])
      | AiUi.VoiceListening.StopRecognition => (s, [], [StopRecognition])
      | AiUi.VoiceListening.StartRecognition => (s, [], [StartRecognition])
      end
  | OnStart => (set_ui (AiUi.VoiceListening.onstart (ui s)) s, [], [])
  | OnResult t isFinal =>
      let '(u', run) := AiUi.VoiceListening.onresult t isFinal (ui s) in
      let s' := set_ui u' s in
      if isFinal then
        if run then (mk u' (auth s) (cart s) (route s) (awaiting s ++ [t]) (finishTimers s), [], [StopRecognition])
        else (s', [], [StopRecognition])
      else (s', [], [])
  | OnEnd => (set_ui (AiUi.VoiceListening.onend (ui s)) s, [], [])
  | OnError => (set_ui (AiUi.VoiceListening.onerror (ui s)) s, [ListenError], [])
  | Interpreted r => let '(s', ns) := settle r s in (s', ns, [])
  | FinishTimer =>
      (mk (AiUi.VoiceListening.processFinish (ui s)) (auth s) (cart s) (route s) (awaiting s)
          (Nat.pred (finishTimers s)), [], [])
  | DialogOpenChange b =>
      let u := ui s in
      (set_ui (AiUi.VoiceListening.mk (AiUi.VoiceListening.isListening u) (AiUi.VoiceListening.isProcessing u) b
                 (AiUi.VoiceListening.transcript u)) s, [], [])
  end.

(** A run of events, the toasts collected in order. *)
Fixpoint run (es : list Event) (s : State) : State * list Notice :=
  match es with
  | [] => (s, [])
  | e :: es' =>
      let '(s1, ns1, _) := handle e s in
      let '(s2, ns2) := run es' s1 in (s2, ns1 ++ ns2)
  end.

(** The dialog's description. *)
Definition dialogText (u : AiUi.VoiceListening.State) : string :=
  (if AiUi.VoiceListening.isListening u then "Listening for your command..." else "") +:+
  (if AiUi.VoiceListening.isProcessing u then "Thinking..." else "") +:+
  (if negb (AiUi.VoiceListening.isListening u) && negb (AiUi.VoiceListening.isProcessing u)
   then "Say something like, 'Add headphones to cart'" else "").

(** [disabled={isProcessing}] on the microphone button. *)
Definition micEnabled (u : AiUi.VoiceListening.State) : bool := negb (AiUi.VoiceListening.isProcessing u).

(** The dialog's body: the spinner over the quoted transcript while
    processing, else the microphone (pulsing while listening) over the
    transcript or ["..."]. *)
Inductive Body := Thinking (quoted : string) | Waiting (pulsing : bool) (text : string).

Record View := mkView { micDisabled : bool; micSpinner : bool; dialogOpen : bool; description : string; body : Body }.

Definition view (u : AiUi.VoiceListening.State) : View :=
  mkView (negb (micEnabled u)) (AiUi.VoiceListening.isProcessing u)
    (AiUi.VoiceListening.showDialog u) (dialogText u)
    (if AiUi.VoiceListening.isProcessing u then Thinking (dq +:+ AiUi.VoiceListening.transcript u +:+ dq)
     else Waiting (AiUi.VoiceListening.isListening u)
                  (if (AiUi.VoiceListening.transcript u =? "")%string then "..." else AiUi.VoiceListening.transcript u)).

Definition init (a : Auth.State) (c : Cart.State) (rt : string) : State :=
  mk AiUi.VoiceListening.init a c rt [] 0.

(** ** Theorems *)



(** The dialog while the command is being interpreted says only
    "Thinking..." over the quoted transcript, and the microphone is
    disabled until the timer of the [finally] fires. *)
Theorem thinking_until_timer a c rt t :
  Pages.ChatInterface.is_blank t = false ->
  let s := fst (run [MicClick true; OnStart; OnResult t true; OnEnd] (init a c rt)) in
  dialogText (ui s) = "Thinking..." /\ micEnabled (ui s) = false /\
  body (view (ui s)) = Thinking (dq +:+ t +:+ dq) /\
  micEnabled (ui (fst (run [Interpreted None] s))) = false /\
  micEnabled (ui (fst (run [Interpreted None; FinishTimer] s))) = true.
Proof.
  intros Hb. cbn. unfold AiUi.VoiceListening.onresult. rewrite Hb. cbn. done.
Qed.

Lemma thinking_until_timer_witness :
  Pages.ChatInterface.is_blank "add tea" = false /\
  let s := fst (run [MicClick true; OnStart; OnResult "add tea" true; OnEnd]
                  (init Auth.init Cart.init "/")) in
  dialogText (ui s) = "Thinking..." /\ micEnabled (ui s) = false /\
  body (view (ui s)) = Thinking (dq +:+ "add tea" +:+ dq) /\
  micEnabled (ui (fst (run [Interpreted None] s))) = false /\
  micEnabled (ui (fst (run [Interpreted None; FinishTimer] s))) = true.
Proof. split; [reflexivity | apply thinking_until_timer; reflexivity]. Defined.

End VoiceAssistant.
