(* ===== verification/Session.v ===== *)
(** * Session: two tabs sharing one [localStorage].

    A [Tab] runs the providers of [app/layout.tsx] ([AuthProvider] >
    [PairChatProvider] > [CartProvider]) for one logged-in user, with the
    route the tab shows.  [react] runs the effects that follow a change of
    the tab's invitation list or user: the write-back of
    [PairChatContext], the session effect (and the write-back of what
    [endPairChat] removed), and the cart key effect of [CartContext]
    followed by [Cart.keyChange].  [act] is a user action in a tab;
    [onEvent] is what a tab does on a [storage] event: the listeners run
    in registration order on the state of the last render
    ([syncFromStorage], the navigation listener, the cart listener on the
    active key), then the effects run.  [deliver] hands every event a tab
    fires to the other tab, in order, with fuel; [run] is one action
    followed by delivery.  An event reaches only the other tab, as in the
    Web Storage API. *)

From stdpp Require Import base list strings gmap.
From Stdlib Require Import ZArith String List Bool Lia.
From S2P Require Import Prelude Types Storage Auth PairChat Cart.
Import ListNotations.
Local Open Scope string_scope.
Local Open Scope list_scope.

Module Session.

Record Tab := mkTab {
  auth : Auth.State;
  pair : PairChat.State;
  cart : Cart.State;
  route : string;
}.

Definition cu (t : Tab) : option UserProfile.t := Auth.currentUser (auth t).

Definition with_pair (p : PairChat.State) (t : Tab) : Tab := mkTab (auth t) p (cart t) (route t).
Definition with_cart (c : Cart.State) (t : Tab) : Tab := mkTab (auth t) (pair t) c (route t).
Definition with_auth (a : Auth.State) (t : Tab) : Tab := mkTab a (pair t) (cart t) (route t).
Definition with_route (r : string) (t : Tab) : Tab := mkTab (auth t) (pair t) (cart t) r.

(** Write the invitation list back when it changed. *)
Definition persistIfChanged (before after : PairChat.State) (st : Store) : Store * list StorageEvent :=
  if decide (PairChat.invitations after = PairChat.invitations before) then (st, [])
  else PairChat.persistInvitations after st.

(** The effects after the tab's invitations or user changed: [before] is
    the pair state of the previous render. *)
Definition react (before : PairChat.State) (t : Tab) (st : Store) : Tab * Store * list StorageEvent :=
  let '(st1, ev1) := persistIfChanged before (pair t) st in
  let p' := PairChat.sessionEffect (cu t) (pair t) in
  let '(st2, ev2) := persistIfChanged (pair t) p' st1 in
  let newKey := Cart.cartKeyFor (cu t) (PairChat.isPairChatActive p') (PairChat.activeInvitation p') in
  let c := cart t in
  let favKey' := Cart.favKeyFor (cu t) in
  let c0 := if decide (favKey' = Cart.favKey c) then c
            else Cart.mk (Cart.cartItems c) (Cart.loadFavorites favKey' st2) (Cart.activeCartKey c) favKey' in
  let '(c', st3, ev3) :=
    if decide (newKey = Cart.activeCartKey c0) then (c0, st2, []) else Cart.keyChange newKey c0 st2 in
  (mkTab (auth t) p' c' (route t), st3, ev1 ++ ev2 ++ ev3).

(** Cart mutations are followed by the cart's save effect. *)
Definition withCartSave (c' : Cart.State) (t : Tab) (st : Store) : Tab * Store * list StorageEvent :=
  let '(st', evs) := Cart.saveCart c' st in (with_cart c' t, st', evs).

Inductive Action :=
| ASend (recipient : UserProfile.t) (newId : string)
| AAccept (invitationId : string)
| ADecline (invitationId : string)
| AEnd
| ANavigate (path : string) (now : Z)
| AAddToCart (p : Product.t) (quantity : Z)
| ARemoveFromCart (productId : string)
| AUpdateQuantity (productId : string) (quantity : Z)
| ALogin (username : string)
| ALogout.

Definition act (a : Action) (t : Tab) (st : Store) : Tab * Store * list StorageEvent :=
  match a with
  | ASend r n => react (pair t) (with_pair (PairChat.sendPairChatRequest (cu t) r n (pair t)).1 t) st
  | AAccept i => react (pair t) (with_pair (PairChat.acceptPairChatRequest i (pair t)) t) st
  | ADecline i => react (pair t) (with_pair (PairChat.declinePairChatRequest i (pair t)).1 t) st
  | AEnd => react (pair t) (with_pair (PairChat.endPairChat (pair t)) t) st
  | ANavigate path now =>
      let '(r, st', evs) := PairChat.navigateShared (cu t) path now (pair t) st in
      (with_route r t, st', evs)
  | AAddToCart p q => withCartSave (Cart.addToCart p q (cart t)) t st
  | ARemoveFromCart pid => withCartSave (Cart.removeFromCart pid (cart t)) t st
  | AUpdateQuantity pid q => withCartSave (Cart.updateQuantity pid q (cart t)) t st
  | ALogin n => react (pair t) (with_auth (Auth.login n (auth t)).1 t) st
  | ALogout => react (pair t) (with_auth (Auth.logout (auth t)) t) st
  end.

(** The listeners of a tab on one [storage] event, then its effects. *)
Definition onEvent (e : StorageEvent) (t : Tab) (st : Store) : Tab * Store * list StorageEvent :=
  let p1 := PairChat.syncFromStorage st (pair t) in
  let r1 := match PairChat.handleStorageChange e (pair t) with Some path => path | None => route t end in
  let c := cart t in
  let c1 := if decide (Cart.activeCartKey c = Some (key e))
            then Cart.set_cartItems (Cart.loadCart (Cart.activeCartKey c) st) c else c in
  let '(st1, ev1) := if decide (c1 = c) then (st, []) else Cart.saveCart c1 st in
  let '(t2, st2, ev2) := react (pair t) (mkTab (auth t) p1 c1 r1) st1 in
  (t2, st2, ev1 ++ ev2).

Inductive Side := SideA | SideB.

Record World := mkWorld { store : Store; tabA : Tab; tabB : Tab }.

Definition tab (s : Side) (w : World) : Tab := match s with SideA => tabA w | SideB => tabB w end.
Definition other (s : Side) : Side := match s with SideA => SideB | SideB => SideA end.
Definition set_tab (s : Side) (t : Tab) (st : Store) (w : World) : World :=
  match s with SideA => mkWorld st t (tabB w) | SideB => mkWorld st (tabA w) t end.

(** Deliver the queued events, each to its tab, queuing what the handler
    fires for the other tab; [None] when the fuel runs out first. *)
Fixpoint deliver (fuel : nat) (w : World) (queue : list (Side * StorageEvent)) : option World :=
  match queue with
  | [] => Some w
  | (s, e) :: rest =>
      match fuel with
      | O => None
      | S n =>
          let '(t', st', evs) := onEvent e (tab s w) (store w) in
          deliver n (set_tab s t' st' w) (rest ++ map (fun e' => (other s, e')) evs)
      end
  end.

Definition run (fuel : nat) (s : Side) (a : Action) (w : World) : option World :=
  let '(t', st', evs) := act a (tab s w) (store w) in
  deliver fuel (set_tab s t' st' w) (map (fun e => (other s, e)) evs).

(** Run a script of actions, delivering after each. *)
Fixpoint runAll (fuel : nat) (script : list (Side * Action)) (w : World) : option World :=
  match script with
  | [] => Some w
  | (s, a) :: rest => match run fuel s a w with Some w' => runAll fuel rest w' | None => None end
  end.

(** A tab freshly logged in as [u], before any session. *)
Definition loggedIn (u : UserProfile.t) : Tab :=
  mkTab (Auth.mk (Some u) mockUsers) PairChat.init
        (Cart.mk [] [] (Some (Cart.CART_PREFIX +:+ UserProfile.id u)) (Some (Cart.FAV_PREFIX +:+ UserProfile.id u)))
        "/products".

Definition world0 : World := mkWorld ∅ (loggedIn (seedUser 0)) (loggedIn (seedUser 1)).

(** The first render of a tab: the listener registration reads the stored
    invitations, but the write-back effect of the same commit still sees
    the initial empty list; the next commit writes the read list back. *)
Definition mountStep1 (st : Store) : Store * list StorageEvent :=
  PairChat.persistInvitations PairChat.init st.

Definition mountStep2 (t : Tab) (st0 st : Store) : Tab * Store * list StorageEvent :=
  react PairChat.init (with_pair (PairChat.syncFromStorage st0 PairChat.init) t) st.

(** Fixtures: the invitation from [u1] to [u2], pending and accepted, and
    a tab of [u] holding [inv] in a session. *)
Definition inv1 (st : PairChatInvitation.Status) : PairChatInvitation.t :=
  PairChatInvitation.mk "inv1" (seedUser 0) (seedUser 1) st.

Definition inSession (u r : UserProfile.t) (inv : PairChatInvitation.t) : Tab :=
  mkTab (Auth.mk (Some u) mockUsers) (PairChat.mk [inv] true (Some r) (Some inv))
        (Cart.mk [] [] (Some (Cart.SHARED_CART_PREFIX +:+ PairChatInvitation.id inv))
                 (Some (Cart.FAV_PREFIX +:+ UserProfile.id u)))
        "/products".

Definition carol : UserProfile.t :=
  UserProfile.mk "u3" "carol" "Carol" "" "" 0 0 [] [] [] 0 true.

(** The scenario of a pair-shopping session: [u1] invites [u2], [u2]
    accepts, [u1] adds a product and navigates. *)
Definition sessionScript : list (Side * Action) :=
  [(SideA, ASend (seedUser 1) "inv1"); (SideB, AAccept "inv1");
   (SideA, AAddToCart (seedProduct 2) 1); (SideA, ANavigate "/products/3" 100)].

(** ** Lemmas *)

(** What [react] leaves: the session the effect derives, the cart key
    derived from it, the user and the route untouched. *)
Lemma react_spec before t st :
  let '(t', _, _) := react before t st in
  pair t' = PairChat.sessionEffect (cu t) (pair t) /\ auth t' = auth t /\ route t' = route t /\
  Cart.activeCartKey (cart t') =
    Cart.cartKeyFor (cu t) (PairChat.isPairChatActive (pair t')) (PairChat.activeInvitation (pair t')).
Proof.
  unfold react.
  destruct (persistIfChanged before (pair t) st) as [st1 ev1].
  destruct (persistIfChanged _ _ st1) as [st2 ev2].
  match goal with
  | |- context [if decide (?nk = Cart.activeCartKey ?c0) then _ else _] =>
      destruct (decide (nk = Cart.activeCartKey c0)) as [Heq | Hne];
      [simpl; split; [done | split; [done | split; [done | symmetry; exact Heq]]] |];
      pose proof (Cart.keyChange_view nk c0 st2) as Hv;
      destruct (Cart.keyChange nk c0 st2) as [[c' st3] ev3]
  end.
  simpl. destruct Hv as (_ & Hk & _). by repeat split.
Qed.

Lemma cartKeyFor_not_invites u act inv : Cart.cartKeyFor u act inv <> Some PairChat.INVITES_KEY.
Proof.
  unfold Cart.cartKeyFor.
  destruct act, inv, u; try done; intros [= Hk]; revert Hk; Cart.prefix_neq.
Qed.

(** The cart step of [react] leaves the invitation entry alone: it holds
    what the two write-backs left. *)
Lemma react_invites_entry before t st :
  let '(_, st', _) := react before t st in
  getItem PairChat.INVITES_KEY st' =
    getItem PairChat.INVITES_KEY
      (persistIfChanged (pair t) (PairChat.sessionEffect (cu t) (pair t))
         (persistIfChanged before (pair t) st).1).1.
Proof.
  unfold react. cbv zeta.
  destruct (persistIfChanged before (pair t) st) as [st1 ev1].
  destruct (persistIfChanged (pair t) _ st1) as [st2 ev2] eqn:E2. simpl. rewrite E2. simpl.
  match goal with
  | |- context [if decide (?nk = Cart.activeCartKey ?c0) then _ else _] =>
      destruct (decide (nk = Cart.activeCartKey c0)); [done |];
      pose proof (Cart.keyChange_view nk c0 st2) as Hv;
      destruct (Cart.keyChange nk c0 st2) as [[c' st3] ev3]; destruct Hv as (_ & _ & _ & Ho)
  end.
  apply Ho, cartKeyFor_not_invites.
Qed.

(** One write-back, once the key exists: it stores the new list exactly
    when the list changed. *)
Lemma persistIfChanged_entry b a st :
  getItem PairChat.INVITES_KEY st <> None ->
  getItem PairChat.INVITES_KEY (persistIfChanged b a st).1 =
    if decide (PairChat.invitations a = PairChat.invitations b) then getItem PairChat.INVITES_KEY st
    else Some (PInvites (PairChat.invitations a)).
Proof.
  intros Hk. unfold persistIfChanged. case_decide; [done |].
  by rewrite PairChat.persistInvitations_present, getItem_setItem_same.
Qed.

(** Where the invitation list ends up in the store after [react]: the
    list the effect leaves, whenever one of the two write-backs fires
    (the key already exists, so the empty-list guard does not apply). *)
Lemma react_store_invites before t st :
  getItem PairChat.INVITES_KEY st <> None ->
  (PairChat.invitations (pair t) <> PairChat.invitations before \/
   PairChat.invitations (PairChat.sessionEffect (cu t) (pair t)) <> PairChat.invitations (pair t)) ->
  let '(_, st', _) := react before t st in
  getItem PairChat.INVITES_KEY st' =
    Some (PInvites (PairChat.invitations (PairChat.sessionEffect (cu t) (pair t)))).
Proof.
  intros Hkey Hch. pose proof (react_invites_entry before t st) as He.
  destruct (react before t st) as [[t' st'] evs]. rewrite He.
  pose proof (persistIfChanged_entry before (pair t) st Hkey) as H1.
  assert (Hkey1 : getItem PairChat.INVITES_KEY (persistIfChanged before (pair t) st).1 <> None)
    by (rewrite H1; by case_decide).
  rewrite (persistIfChanged_entry _ _ _ Hkey1), H1.
  repeat case_decide; try done; [by destruct Hch | congruence].
Qed.


(** The session the effect starts: an inactive tab whose user has an
    accepted invitation becomes active with the counterpart and the shared
    cart key. *)
Lemma react_starts before t st b a :
  cu t = Some b -> PairChat.isPairChatActive (pair t) = false ->
  List.find (fun inv => PairChatInvitation.is_accepted inv && PairChat.involves (PairChat.uid b) inv)
    (PairChat.invitations (pair t)) = Some a ->
  let '(t', _, _) := react before t st in
  PairChat.isPairChatActive (pair t') = true /\
  PairChat.activeRecipient (pair t') = Some (PairChat.counterpart (PairChat.uid b) a) /\
  Cart.activeCartKey (cart t') = Some (Cart.SHARED_CART_PREFIX +:+ PairChat.iid a).
Proof.
  intros Hc Ha Hf. pose proof (react_spec before t st) as Hr.
  destruct (react before t st) as [[t' st'] evs]. destruct Hr as (Hp & _ & _ & Hk).
  rewrite Hk, Hp, Hc. unfold PairChat.sessionEffect. rewrite Hf, Ha. done.
Qed.

(** The session the effect ends: an active tab whose user has no accepted
    invitation left ends the session and goes back to the personal cart. *)
Lemma react_ends before t st b :
  cu t = Some b -> PairChat.isPairChatActive (pair t) = true ->
  List.find (fun inv => PairChatInvitation.is_accepted inv && PairChat.involves (PairChat.uid b) inv)
    (PairChat.invitations (pair t)) = None ->
  let '(t', _, _) := react before t st in
  pair t' = PairChat.endPairChat (pair t) /\
  Cart.activeCartKey (cart t') = Some (Cart.CART_PREFIX +:+ PairChat.uid b).
Proof.
  intros Hc Ha Hf. pose proof (react_spec before t st) as Hr.
  destruct (react before t st) as [[t' st'] evs]. destruct Hr as (Hp & _ & _ & Hk).
  rewrite Hk, Hp, Hc, PairChat.sessionEffect_none_ends by done. done.
Qed.

(** [onEvent] is the listeners followed by [react] on a tab whose
    invitations are the synced ones and whose user is unchanged. *)
Lemma onEvent_react e t st :
  exists t1 st1 ev1,
    pair t1 = PairChat.syncFromStorage st (pair t) /\ auth t1 = auth t /\
    onEvent e t st = (let '(t2, st2, ev2) := react (pair t) t1 st1 in (t2, st2, ev1 ++ ev2)).
Proof.
  unfold onEvent. cbv zeta.
  match goal with
  | |- context [react (pair t) ?t1 _] =>
      destruct (if decide _ then _ else Cart.saveCart _ st) as [st1 ev1]; by exists t1, st1, ev1
  end.
Qed.

(** The synced list keeps every accepted invitation, so looking for one
    in it is looking for one in the stored list. *)
Lemma sync_find_accepted st s l b :
  getItem PairChat.INVITES_KEY st = Some (PInvites l) ->
  List.find (fun inv => PairChatInvitation.is_accepted inv && PairChat.involves b inv)
    (PairChat.invitations (PairChat.syncFromStorage st s)) =
  List.find (fun inv => PairChatInvitation.is_accepted inv && PairChat.involves b inv) l.
Proof.
  intros Hg. unfold PairChat.syncFromStorage. rewrite Hg. simpl.
  apply find_filter_implied. intros x [Hx _]%andb_prop. by rewrite Hx, orb_true_r.
Qed.

(** A tab in a session that reads a store with no accepted invitation of
    its user leaves the session, whatever event it is handling. *)
Lemma onEvent_ends e t st b l :
  cu t = Some b -> PairChat.isPairChatActive (pair t) = true ->
  getItem PairChat.INVITES_KEY st = Some (PInvites l) ->
  List.find (fun inv => PairChatInvitation.is_accepted inv && PairChat.involves (PairChat.uid b) inv) l = None ->
  let '(t', _, _) := onEvent e t st in
  PairChat.isPairChatActive (pair t') = false /\
  Cart.activeCartKey (cart t') = Some (Cart.CART_PREFIX +:+ PairChat.uid b).
Proof.
  intros Hc Ha Hg Hf. destruct (onEvent_react e t st) as (t1 & st1 & ev1 & Hp & Hau & ->).
  assert (Hc1 : cu t1 = Some b) by (unfold cu; by rewrite Hau).
  assert (Ha1 : PairChat.isPairChatActive (pair t1) = true).
  { rewrite Hp. unfold PairChat.syncFromStorage. by rewrite Hg. }
  assert (Hf1 := Hf). rewrite <- (sync_find_accepted st (pair t)) in Hf1 by done. rewrite <- Hp in Hf1.
  pose proof (react_ends (pair t) t1 st1 b Hc1 Ha1 Hf1) as Hr.
  destruct (react (pair t) t1 st1) as [[t2 st2] ev2]. destruct Hr as [-> Hk]. done.
Qed.

(** [AEnd] stores the list without the ended invitation. *)
Lemma act_end_store t st a :
  PairChat.activeInvitation (pair t) = Some a -> In a (PairChat.invitations (pair t)) ->
  getItem PairChat.INVITES_KEY st <> None ->
  let '(_, st', _) := act AEnd t st in
  getItem PairChat.INVITES_KEY st' =
    Some (PInvites (filter (fun inv => PairChat.iid inv !== PairChat.iid a) (PairChat.invitations (pair t)))).
Proof.
  intros Hai Hin Hk. cbn [act].
  set (t1 := with_pair (PairChat.endPairChat (pair t)) t).
  assert (E : PairChat.invitations (PairChat.sessionEffect (cu t1) (pair t1)) =
              filter (fun inv => PairChat.iid inv !== PairChat.iid a) (PairChat.invitations (pair t))).
  { rewrite PairChat.sessionEffect_inactive_invitations by done. cbn. by rewrite Hai. }
  pose proof (react_store_invites (pair t) t1 st Hk) as H. rewrite E in H. apply H. left.
  apply (PairChat.endPairChat_shrinks _ a Hai Hin).
Qed.

(** Accepting [inv] makes its accepted copy the first accepted
    invitation of a user it involves, when none was accepted and no other
    entry shares its id. *)
Lemma accept_find l inv b :
  In inv l -> PairChat.involves b inv = true ->
  (forall x, In x l -> PairChatInvitation.is_accepted x && PairChat.involves b x = false) ->
  (forall x, In x l -> PairChat.iid x = PairChat.iid inv -> x = inv) ->
  List.find (fun x => PairChatInvitation.is_accepted x && PairChat.involves b x)
    (map (fun x => if PairChat.iid x === PairChat.iid inv
                   then PairChat.with_status PairChatInvitation.accepted x else x) l) =
    Some (PairChat.with_status PairChatInvitation.accepted inv).
Proof.
  intros Hin Hinv Hnone Huniq. induction l as [| x l IH]; [done |]. simpl.
  destruct (String.eqb_spec (PairChat.iid x) (PairChat.iid inv)) as [E | E].
  - rewrite (Huniq x (or_introl eq_refl) E).
    change (PairChat.involves b (PairChat.with_status PairChatInvitation.accepted inv)) with (PairChat.involves b inv).
    by rewrite Hinv.
  - rewrite (Hnone x (or_introl eq_refl)). apply IH.
    + destruct Hin as [-> | ?]; [done | done].
    + intros y Hy. apply Hnone. by right.
    + intros y Hy. apply Huniq. by right.
Qed.

(** ** Theorems *)

(** C3: accepting an invitation addressed to the tab's user, when no
    accepted invitation involves the user yet and no other entry shares
    its id, starts the session in the accepting tab: it becomes active
    with the sender as recipient and switches to the shared cart of the
    invitation. *)
Theorem accept_starts_session t st b inv :
  cu t = Some b -> PairChat.isPairChatActive (pair t) = false ->
  In inv (PairChat.invitations (pair t)) ->
  PairChat.to_id inv = PairChat.uid b -> PairChat.from_id inv <> PairChat.uid b ->
  (forall x, In x (PairChat.invitations (pair t)) ->
     PairChatInvitation.is_accepted x && PairChat.involves (PairChat.uid b) x = false) ->
  (forall x, In x (PairChat.invitations (pair t)) -> PairChat.iid x = PairChat.iid inv -> x = inv) ->
  let '(t', _, _) := act (AAccept (PairChat.iid inv)) t st in
  PairChat.isPairChatActive (pair t') = true /\
  PairChat.activeRecipient (pair t') = Some (PairChatInvitation.from inv) /\
  Cart.activeCartKey (cart t') = Some (Cart.SHARED_CART_PREFIX +:+ PairChat.iid inv).
Proof.
  intros Hc Ha Hin Hto Hfrom Hnone Huniq. cbn [act].
  assert (Hf := accept_find _ _ _ Hin ltac:(unfold PairChat.involves; apply orb_true_iff; right; by rewrite Hto, streqb_refl)
                   Hnone Huniq).
  pose proof (react_starts (pair t) (with_pair (PairChat.acceptPairChatRequest (PairChat.iid inv) (pair t)) t) st b _
                Hc Ha Hf) as Hr.
  destruct (react _ _ st) as [[t' st'] evs]. destruct Hr as (H1 & H2 & H3). split; [done | split; [| done]].
  rewrite H2. unfold PairChat.counterpart. cbn. by rewrite (streqb_false _ _ Hfrom).
Qed.

Lemma accept_starts_session_witness :
  let t := with_pair (PairChat.set_invitations [inv1 PairChatInvitation.pending] PairChat.init)
                     (loggedIn (seedUser 1)) in
  let inv := inv1 PairChatInvitation.pending in
  (cu t = Some (seedUser 1) /\ PairChat.isPairChatActive (pair t) = false /\
   In inv (PairChat.invitations (pair t)) /\ PairChat.to_id inv = "u2" /\ PairChat.from_id inv <> "u2" /\
   (forall x, In x (PairChat.invitations (pair t)) ->
      PairChatInvitation.is_accepted x && PairChat.involves "u2" x = false) /\
   (forall x, In x (PairChat.invitations (pair t)) -> PairChat.iid x = PairChat.iid inv -> x = inv)) /\
  let '(t', _, _) := act (AAccept "inv1") t ∅ in
  PairChat.isPairChatActive (pair t') = true /\
  PairChat.activeRecipient (pair t') = Some (seedUser 0) /\
  Cart.activeCartKey (cart t') = Some (Cart.SHARED_CART_PREFIX +:+ "inv1").
Proof.
  cbv zeta.
  assert (Hnone : forall x, In x (PairChat.invitations
                     (pair (with_pair (PairChat.set_invitations [inv1 PairChatInvitation.pending] PairChat.init)
                              (loggedIn (seedUser 1))))) ->
            PairChatInvitation.is_accepted x && PairChat.involves "u2" x = false)
    by (intros x [<- | []]; reflexivity).
  assert (Huniq : forall x, In x (PairChat.invitations
                     (pair (with_pair (PairChat.set_invitations [inv1 PairChatInvitation.pending] PairChat.init)
                              (loggedIn (seedUser 1))))) ->
            PairChat.iid x = PairChat.iid (inv1 PairChatInvitation.pending) -> x = inv1 PairChatInvitation.pending)
    by (intros x [<- | []] _; reflexivity).
  split; [split; [reflexivity | split; [reflexivity | split; [left; reflexivity | split; [reflexivity |
          split; [discriminate | split; [exact Hnone | exact Huniq]]]]]] |].
  apply (accept_starts_session
           (with_pair (PairChat.set_invitations [inv1 PairChatInvitation.pending] PairChat.init) (loggedIn (seedUser 1)))
           ∅ (seedUser 1) (inv1 PairChatInvitation.pending));
    [reflexivity | reflexivity | left; reflexivity | reflexivity | discriminate | exact Hnone | exact Huniq].
Defined.

(** C4: the other participant's tab joins the session on the
    next [storage] event it handles, whatever the event: its listener
    syncs the accepted invitation and the effect starts the session with
    the same shared cart. *)
Theorem event_starts_session e t st b l a :
  cu t = Some b -> PairChat.isPairChatActive (pair t) = false ->
  getItem PairChat.INVITES_KEY st = Some (PInvites l) ->
  List.find (fun inv => PairChatInvitation.is_accepted inv && PairChat.involves (PairChat.uid b) inv) l = Some a ->
  let '(t', _, _) := onEvent e t st in
  PairChat.isPairChatActive (pair t') = true /\
  PairChat.activeRecipient (pair t') = Some (PairChat.counterpart (PairChat.uid b) a) /\
  Cart.activeCartKey (cart t') = Some (Cart.SHARED_CART_PREFIX +:+ PairChat.iid a).
Proof.
  intros Hc Ha Hg Hf. destruct (onEvent_react e t st) as (t1 & st1 & ev1 & Hp & Hau & ->).
  assert (Hc1 : cu t1 = Some b) by (unfold cu; by rewrite Hau).
  assert (Ha1 : PairChat.isPairChatActive (pair t1) = false).
  { rewrite Hp. unfold PairChat.syncFromStorage. by rewrite Hg. }
  rewrite <- (sync_find_accepted st (pair t)), <- Hp in Hf by done.
  pose proof (react_starts (pair t) t1 st1 b a Hc1 Ha1 Hf) as Hr.
  destruct (react (pair t) t1 st1) as [[t2 st2] ev2]. exact Hr.
Qed.

Lemma event_starts_session_witness :
  let st : Store := {[ PairChat.INVITES_KEY := PInvites [inv1 PairChatInvitation.accepted] ]} in
  let e := mkEvent PairChat.INVITES_KEY (Some (PInvites [inv1 PairChatInvitation.accepted])) in
  (cu (loggedIn (seedUser 0)) = Some (seedUser 0) /\ PairChat.isPairChatActive (pair (loggedIn (seedUser 0))) = false /\
   getItem PairChat.INVITES_KEY st = Some (PInvites [inv1 PairChatInvitation.accepted]) /\
   List.find (fun inv => PairChatInvitation.is_accepted inv && PairChat.involves "u1" inv)
     [inv1 PairChatInvitation.accepted] = Some (inv1 PairChatInvitation.accepted)) /\
  let '(t', _, _) := onEvent e (loggedIn (seedUser 0)) st in
  PairChat.isPairChatActive (pair t') = true /\
  PairChat.activeRecipient (pair t') = Some (PairChat.counterpart "u1" (inv1 PairChatInvitation.accepted)) /\
  Cart.activeCartKey (cart t') = Some (Cart.SHARED_CART_PREFIX +:+ "inv1").
Proof.
  cbv zeta. split; [split; [reflexivity | split; [reflexivity | split; reflexivity]] |].
  apply (event_starts_session _ _ _ (seedUser 0) [inv1 PairChatInvitation.accepted] (inv1 PairChatInvitation.accepted)); reflexivity.
Defined.


(** C5: ending a session removes its invitation from the shared
    store, and the other participant's tab, on the next event it handles,
    reads that store and leaves the session for its personal cart (when no
    other accepted invitation involves it). *)
Theorem end_session_partner_idle tA tB st a b :
  PairChat.activeInvitation (pair tA) = Some a -> In a (PairChat.invitations (pair tA)) ->
  getItem PairChat.INVITES_KEY st <> None ->
  cu tB = Some b -> PairChat.isPairChatActive (pair tB) = true ->
  List.find (fun inv => PairChatInvitation.is_accepted inv && PairChat.involves (PairChat.uid b) inv)
    (filter (fun inv => PairChat.iid inv !== PairChat.iid a) (PairChat.invitations (pair tA))) = None ->
  let '(_, st', _) := act AEnd tA st in
  forall e, let '(tB', _, _) := onEvent e tB st' in
  PairChat.isPairChatActive (pair tB') = false /\
  Cart.activeCartKey (cart tB') = Some (Cart.CART_PREFIX +:+ PairChat.uid b).
Proof.
  intros Hai Hin Hk Hc Ha Hf. pose proof (act_end_store tA st a Hai Hin Hk) as Hs.
  destruct (act AEnd tA st) as [[tA' st'] evs]. intros e. by eapply onEvent_ends.
Qed.

Lemma end_session_partner_idle_witness :
  let a := inv1 PairChatInvitation.accepted in
  let st : Store := {[ PairChat.INVITES_KEY := PInvites [a] ]} in
  (PairChat.activeInvitation (pair (inSession (seedUser 0) (seedUser 1) a)) = Some a /\
   In a (PairChat.invitations (pair (inSession (seedUser 0) (seedUser 1) a))) /\
   getItem PairChat.INVITES_KEY st <> None /\
   cu (inSession (seedUser 1) (seedUser 0) a) = Some (seedUser 1) /\
   PairChat.isPairChatActive (pair (inSession (seedUser 1) (seedUser 0) a)) = true /\
   List.find (fun inv => PairChatInvitation.is_accepted inv && PairChat.involves "u2" inv)
     (filter (fun inv => PairChat.iid inv !== "inv1") [a]) = None) /\
  let '(_, st', _) := act AEnd (inSession (seedUser 0) (seedUser 1) a) st in
  forall e, let '(tB', _, _) := onEvent e (inSession (seedUser 1) (seedUser 0) a) st' in
  PairChat.isPairChatActive (pair tB') = false /\
  Cart.activeCartKey (cart tB') = Some (Cart.CART_PREFIX +:+ "u2").
Proof.
  cbv zeta. split.
  - split; [reflexivity | split; [left; reflexivity | split; [discriminate | split; [reflexivity | split; reflexivity]]]].
  - apply (end_session_partner_idle _ _ _ (inv1 PairChatInvitation.accepted) (seedUser 1));
      first [reflexivity | left; reflexivity | discriminate].
Defined.

(** logging out leaves the tab's session and its shared
    cart key as they were: the session effect and the cart key effect do
    nothing without a user, so the logged-out tab keeps reading and
    writing the shared cart. *)
Theorem logout_keeps_session t st a :
  PairChat.isPairChatActive (pair t) = true -> PairChat.activeInvitation (pair t) = Some a ->
  let '(t', _, _) := act ALogout t st in
  cu t' = None /\ pair t' = pair t /\
  Cart.activeCartKey (cart t') = Some (Cart.SHARED_CART_PREFIX +:+ PairChat.iid a).
Proof.
  intros Ha Hi. cbn [act]. pose proof (react_spec (pair t) (with_auth (Auth.logout (auth t)) t) st) as Hr.
  destruct (react _ _ st) as [[t' st'] evs]. destruct Hr as (Hp & Hau & _ & Hk).
  unfold cu in *. rewrite Hau in *. cbn in Hp. rewrite Hk, Hp, Ha, Hi. done.
Qed.

Lemma logout_keeps_session_witness :
  let a := inv1 PairChatInvitation.accepted in
  (PairChat.isPairChatActive (pair (inSession (seedUser 0) (seedUser 1) a)) = true /\
   PairChat.activeInvitation (pair (inSession (seedUser 0) (seedUser 1) a)) = Some a) /\
  let '(t', _, _) := act ALogout (inSession (seedUser 0) (seedUser 1) a) ∅ in
  cu t' = None /\ pair t' = pair (inSession (seedUser 0) (seedUser 1) a) /\
  Cart.activeCartKey (cart t') = Some (Cart.SHARED_CART_PREFIX +:+ "inv1").
Proof.
  cbv zeta. split; [split; reflexivity |].
  apply (logout_keeps_session _ ∅ (inv1 PairChatInvitation.accepted)); reflexivity.
Defined.


(** C24: logging a tab in as a user no accepted invitation
    involves, while the tab is in a session, ends that session and removes
    its invitation from the shared store, which ends it for the partner
    too on the next event the partner's tab handles. *)
Theorem login_uninvolved_ends_session t st n c a :
  Auth.getUserByUsername n (auth t) = Some c ->
  PairChat.isPairChatActive (pair t) = true -> PairChat.activeInvitation (pair t) = Some a ->
  In a (PairChat.invitations (pair t)) ->
  List.find (fun inv => PairChatInvitation.is_accepted inv && PairChat.involves (PairChat.uid c) inv)
    (PairChat.invitations (pair t)) = None ->
  getItem PairChat.INVITES_KEY st <> None ->
  let '(t', st', _) := act (ALogin n) t st in
  cu t' = Some c /\ PairChat.isPairChatActive (pair t') = false /\
  getItem PairChat.INVITES_KEY st' =
    Some (PInvites (filter (fun inv => PairChat.iid inv !== PairChat.iid a) (PairChat.invitations (pair t)))).
Proof.
  intros Hg Ha Hai Hin Hf Hk. cbn [act]. unfold Auth.login. rewrite Hg. cbn [fst].
  set (t1 := with_auth (Auth.mk (Some c) (Auth.users (auth t))) t).
  assert (Hc1 : cu t1 = Some c) by reflexivity.
  pose proof (react_spec (pair t) t1 st) as Hr.
  pose proof (react_ends (pair t) t1 st c Hc1 Ha Hf) as He.
  pose proof (react_store_invites (pair t) t1 st Hk) as Hs.
  rewrite Hc1, (PairChat.sessionEffect_none_ends c) in Hs by done.
  destruct (PairChat.endPairChat_shrinks (pair t) a Hai Hin) as [Ef Hne].
  destruct (react (pair t) t1 st) as [[t' st'] evs].
  destruct Hr as (_ & Hau & _), He as [Hp _].
  split; [unfold cu; by rewrite Hau | split; [by rewrite Hp |]].
  rewrite <- Ef. apply Hs. by right.
Qed.

Lemma login_uninvolved_ends_session_witness :
  let a := inv1 PairChatInvitation.accepted in
  let t := with_auth (Auth.mk (Some (seedUser 0)) (mockUsers ++ [carol])) (inSession (seedUser 0) (seedUser 1) a) in
  let st : Store := {[ PairChat.INVITES_KEY := PInvites [a] ]} in
  (Auth.getUserByUsername "carol" (auth t) = Some carol /\
   PairChat.isPairChatActive (pair t) = true /\ PairChat.activeInvitation (pair t) = Some a /\
   In a (PairChat.invitations (pair t)) /\
   List.find (fun inv => PairChatInvitation.is_accepted inv && PairChat.involves "u3" inv)
     (PairChat.invitations (pair t)) = None /\
   getItem PairChat.INVITES_KEY st <> None) /\
  let '(t', st', _) := act (ALogin "carol") t st in
  cu t' = Some carol /\ PairChat.isPairChatActive (pair t') = false /\
  getItem PairChat.INVITES_KEY st' =
    Some (PInvites (filter (fun inv => PairChat.iid inv !== PairChat.iid a) (PairChat.invitations (pair t)))).
Proof.
  cbv zeta. split.
  - split; [reflexivity | split; [reflexivity | split; [reflexivity | split; [left; reflexivity | split; [reflexivity | discriminate]]]]].
  - apply (login_uninvolved_ends_session _ _ "carol" carol (inv1 PairChatInvitation.accepted));
      first [reflexivity | left; reflexivity | discriminate].
Defined.

(** C25: the first commit of a newly opened tab writes the
    initial empty invitation list over a non-empty stored one (the
    write-back effect runs before the listener's read is rendered), and a
    tab in a session that handles that event leaves the session. *)
Theorem mount_wipes_partner_session st l tB b :
  getItem PairChat.INVITES_KEY st = Some (PInvites l) -> l <> [] ->
  cu tB = Some b -> PairChat.isPairChatActive (pair tB) = true ->
  let '(st1, evs) := mountStep1 st in
  evs = [mkEvent PairChat.INVITES_KEY (Some (PInvites []))] /\
  let '(tB', _, _) := onEvent (mkEvent PairChat.INVITES_KEY (Some (PInvites []))) tB st1 in
  PairChat.isPairChatActive (pair tB') = false.
Proof.
  intros Hg Hl Hc Ha. unfold mountStep1.
  rewrite PairChat.persistInvitations_present by congruence. cbn [PairChat.invitations PairChat.init].
  pose proof (setItem_events PairChat.INVITES_KEY (PInvites []) st) as Hev.
  rewrite decide_False in Hev by congruence.
  pose proof (getItem_setItem_same PairChat.INVITES_KEY (PInvites []) st) as Hs.
  destruct (setItem _ _ st) as [st1 evs]. simpl in Hev, Hs. split; [done |].
  pose proof (onEvent_ends (mkEvent PairChat.INVITES_KEY (Some (PInvites []))) tB st1 b [] Hc Ha Hs eq_refl) as Ho.
  destruct (onEvent _ tB st1) as [[tB' st2] ev2]. tauto.
Qed.

Lemma mount_wipes_partner_session_witness :
  let a := inv1 PairChatInvitation.accepted in
  let st : Store := {[ PairChat.INVITES_KEY := PInvites [a] ]} in
  (getItem PairChat.INVITES_KEY st = Some (PInvites [a]) /\ [a] <> [] /\
   cu (inSession (seedUser 1) (seedUser 0) a) = Some (seedUser 1) /\
   PairChat.isPairChatActive (pair (inSession (seedUser 1) (seedUser 0) a)) = true) /\
  let '(st1, evs) := mountStep1 st in
  evs = [mkEvent PairChat.INVITES_KEY (Some (PInvites []))] /\
  let '(tB', _, _) := onEvent (mkEvent PairChat.INVITES_KEY (Some (PInvites []))) (inSession (seedUser 1) (seedUser 0) a) st1 in
  PairChat.isPairChatActive (pair tB') = false.
Proof.
  cbv zeta. split; [split; [reflexivity | split; [discriminate | split; reflexivity]] |].
  apply (mount_wipes_partner_session _ [inv1 PairChatInvitation.accepted] _ (seedUser 1));
    first [reflexivity | discriminate].
Defined.

(** C12: a cart change in a tab is saved under its active key,
    so every tab on the same key (the partner's, in a session) loads
    exactly the new lines from the store. *)
Theorem add_to_cart_visible t st p q k :
  Cart.activeCartKey (cart t) = Some k ->
  let '(t', st', _) := act (AAddToCart p q) t st in
  Cart.cartItems (cart t') = Cart.cartItems (Cart.addToCart p q (cart t)) /\
  Cart.loadCart (Some k) st' = Cart.cartItems (cart t').
Proof.
  intros Hk. cbn [act]. unfold withCartSave.
  assert (Hk' : Cart.activeCartKey (Cart.addToCart p q (cart t)) = Some k)
    by (unfold Cart.addToCart; by rewrite Hk).
  pose proof (Cart.loadCart_saveCart (Cart.addToCart p q (cart t)) st k Hk') as H.
  destruct (Cart.saveCart _ st) as [st' evs]. done.
Qed.

Lemma add_to_cart_visible_witness :
  let t := inSession (seedUser 0) (seedUser 1) (inv1 PairChatInvitation.accepted) in
  Cart.activeCartKey (cart t) = Some "socialCartItems_shared_inv1" /\
  let '(t', st', _) := act (AAddToCart (seedProduct 2) 1) t ∅ in
  Cart.cartItems (cart t') = Cart.cartItems (Cart.addToCart (seedProduct 2) 1 (cart t)) /\
  Cart.loadCart (Some "socialCartItems_shared_inv1") st' = Cart.cartItems (cart t').
Proof.
  cbv zeta. split; [reflexivity |].
  apply add_to_cart_visible. reflexivity.
Defined.


(** C2: the whole exchange between two tabs, events delivered:
    after the invitation is sent and accepted both tabs are in the session
    with each other on the shared cart of the invitation, a product added
    in one tab is in the other's cart and a navigation is followed; after
    the partner ends the session both tabs are back on their personal carts
    and the store holds no invitation. *)
Theorem two_tab_session_scenario :
  match runAll 20 sessionScript world0 with
  | Some w =>
      PairChat.isPairChatActive (pair (tabA w)) = true /\ PairChat.isPairChatActive (pair (tabB w)) = true /\
      option_map UserProfile.id (PairChat.activeRecipient (pair (tabA w))) = Some "u2" /\
      option_map UserProfile.id (PairChat.activeRecipient (pair (tabB w))) = Some "u1" /\
      Cart.activeCartKey (cart (tabA w)) = Some "socialCartItems_shared_inv1" /\
      Cart.activeCartKey (cart (tabB w)) = Some "socialCartItems_shared_inv1" /\
      map CartItemType.id (Cart.cartItems (cart (tabB w))) = ["3"] /\
      route (tabB w) = "/products/3"
  | None => False
  end /\
  match runAll 20 (sessionScript ++ [(SideB, AEnd)]) world0 with
  | Some w =>
      PairChat.isPairChatActive (pair (tabA w)) = false /\ PairChat.isPairChatActive (pair (tabB w)) = false /\
      Cart.activeCartKey (cart (tabA w)) = Some "socialCartItems_u1" /\
      Cart.activeCartKey (cart (tabB w)) = Some "socialCartItems_u2" /\
      getItem PairChat.INVITES_KEY (store w) = Some (PInvites [])
  | None => False
  end.
Proof. split; vm_compute; repeat split. Qed.

End Session.
