(* ===== verification/StoreTyping.v ===== *)
(** * StoreTyping: every key of the shared [localStorage] holds the shape
    its readers parse.

    The code reads each key with [JSON.parse] and falls back (to an empty
    list, to the stored state, or by removing the key) when the value has
    the wrong shape.  [key_kind] says, for each key the code uses, the
    shape its writers store: the invitation list, the navigation record,
    the chat histories, the current user and the user list under their
    fixed keys, cart lines under [socialCartItems_...] and favourites
    under [socialCartFavorites_...].  [typed] says that a store agrees
    with [key_kind]; [tab_ok] that a tab's cart and favourites keys are
    of the right family.  The theorems show that the two-tab model of
    [Session] keeps both: in a run from a well-typed world no reader ever
    meets a value of the wrong shape. *)

From stdpp Require Import base list strings gmap.
From Stdlib Require Import ZArith String List Bool Lia.
From S2P Require Import Prelude Types Storage Auth PairChat Cart Chat Session.
Import ListNotations.
Local Open Scope string_scope.
Local Open Scope list_scope.

Module StoreTyping.

Inductive Kind := KInvites | KCart | KFavorites | KNav | KChat | KUser | KUsers.

#[global] Instance Kind_eq_dec : EqDecision Kind.
Proof. solve_decision. Defined.

Definition payload_kind (v : Payload) : Kind :=
  match v with
  | PInvites _ => KInvites
  | PCart _ => KCart
  | PFavorites _ => KFavorites
  | PNav _ => KNav
  | PChat _ => KChat
  | PUser _ => KUser
  | PUsers _ => KUsers
  end.

(** [p] is a prefix of [s] (by recursion on [p], so that it computes on
    a key whose tail is unknown). *)
Fixpoint has_prefix (p s : string) : bool :=
  match p, s with
  | EmptyString, _ => true
  | String c p', String d s' => Ascii.eqb c d && has_prefix p' s'
  | String _ _, EmptyString => false
  end.

(** The shape the writers of a key store under it. *)
Definition key_kind (k : string) : option Kind :=
  if k =? PairChat.INVITES_KEY then Some KInvites
  else if k =? PairChat.SHARED_NAV_KEY then Some KNav
  else if k =? Chat.CHAT_KEY then Some KChat
  else if k =? Auth.CURRENT_USER_KEY then Some KUser
  else if k =? Auth.USERS_KEY then Some KUsers
  else if has_prefix Cart.CART_PREFIX k then Some KCart
  else if has_prefix Cart.FAV_PREFIX k then Some KFavorites
  else None.

Definition typed (st : Store) : Prop := map_Forall (fun k v => key_kind k = Some (payload_kind v)) st.

Definition key_of (kd : Kind) (o : option string) : Prop :=
  match o with Some k => key_kind k = Some kd | None => True end.

Definition tab_ok (t : Session.Tab) : Prop :=
  key_of KCart (Cart.activeCartKey (Session.cart t)) /\ key_of KFavorites (Cart.favKey (Session.cart t)).

Definition world_ok (w : Session.World) : Prop :=
  typed (Session.store w) /\ tab_ok (Session.tabA w) /\ tab_ok (Session.tabB w).

(** ** Lemmas: keys *)

Lemma key_kind_cart x : key_kind (Cart.CART_PREFIX +:+ x) = Some KCart.
Proof. reflexivity. Qed.

Lemma key_kind_fav x : key_kind (Cart.FAV_PREFIX +:+ x) = Some KFavorites.
Proof. reflexivity. Qed.

Lemma key_of_cartKeyFor u act inv : key_of KCart (Cart.cartKeyFor u act inv).
Proof.
  unfold Cart.cartKeyFor. destruct act, inv; try destruct u; simpl; try done;
    rewrite ?string_app_assoc; apply key_kind_cart.
Qed.

Lemma key_of_favKeyFor u : key_of KFavorites (Cart.favKeyFor u).
Proof. destruct u; [apply key_kind_fav | done]. Qed.

#[local] Hint Resolve key_of_cartKeyFor key_of_favKeyFor : core.

(** ** Lemmas: the store operations *)

Lemma typed_setItem k v st :
  typed st -> key_kind k = Some (payload_kind v) -> typed (setItem k v st).1.
Proof. intros H Hk. unfold setItem. case_decide; [done |]. by apply map_Forall_insert_2. Qed.

Lemma typed_removeItem k st : typed st -> typed (removeItem k st).1.
Proof. intros H. unfold removeItem. destruct (st !! k); [by apply map_Forall_delete | done]. Qed.

Lemma typed_persistInvitations p st : typed st -> typed (PairChat.persistInvitations p st).1.
Proof.
  intros H. unfold PairChat.persistInvitations.
  destruct (PairChat.invitations p), (getItem PairChat.INVITES_KEY st); try done; by apply typed_setItem.
Qed.

Lemma typed_persistIfChanged b a st : typed st -> typed (Session.persistIfChanged b a st).1.
Proof. intros H. unfold Session.persistIfChanged. case_decide; [done |]. by apply typed_persistInvitations. Qed.

Lemma typed_saveCart c st :
  key_of KCart (Cart.activeCartKey c) -> typed st -> typed (Cart.saveCart c st).1.
Proof.
  intros Hk H. unfold Cart.saveCart. destruct (Cart.activeCartKey c) as [k |]; [| done].
  destruct (Cart.cartItems c); [by apply typed_removeItem | by apply typed_setItem].
Qed.

Lemma typed_navigateShared u path now p st :
  typed st -> typed (PairChat.navigateShared u path now p st).1.2.
Proof.
  intros H. unfold PairChat.navigateShared. destruct u as [cu |]; [| done].
  destruct (PairChat.isPairChatActive p); [| done].
  pose proof (typed_setItem PairChat.SHARED_NAV_KEY
                (PNav (NavRecord.mk path (PairChat.uid cu) now)) st H eq_refl) as Hs.
  by destruct (setItem _ _ st).
Qed.

Lemma keyChange_ok newKey c st :
  key_of KCart newKey -> typed st ->
  let '(c', st', _) := Cart.keyChange newKey c st in
  key_of KCart (Cart.activeCartKey c') /\ Cart.favKey c' = Cart.favKey c /\ typed st'.
Proof.
  intros Hk H. unfold Cart.keyChange.
  pose proof (typed_saveCart (Cart.mk (Cart.cartItems c) (Cart.favorites c) newKey (Cart.favKey c)) st Hk H) as H1.
  destruct (Cart.saveCart _ st) as [st1 ev1].
  pose proof (typed_saveCart (Cart.set_cartItems (Cart.loadCart newKey st)
                 (Cart.mk (Cart.cartItems c) (Cart.favorites c) newKey (Cart.favKey c))) st1 Hk H1) as H2.
  destruct (Cart.saveCart _ st1) as [st2 ev2]. done.
Qed.

Lemma cart_keys_ops c p q pid q' :
  (Cart.activeCartKey (Cart.addToCart p q c), Cart.favKey (Cart.addToCart p q c)) = (Cart.activeCartKey c, Cart.favKey c) /\
  (Cart.activeCartKey (Cart.removeFromCart pid c), Cart.favKey (Cart.removeFromCart pid c)) = (Cart.activeCartKey c, Cart.favKey c) /\
  (Cart.activeCartKey (Cart.updateQuantity pid q' c), Cart.favKey (Cart.updateQuantity pid q' c)) = (Cart.activeCartKey c, Cart.favKey c).
Proof. unfold Cart.updateQuantity. destruct c as [items favs [k |] fk]; simpl; [destruct (q' <=? 0)%Z |]; repeat split. Qed.

(** ** Lemmas: the tab *)

Lemma react_ok before t st :
  tab_ok t -> typed st -> let '(t', st', _) := Session.react before t st in tab_ok t' /\ typed st'.
Proof.
  intros [Hc Hf] H. unfold Session.react.
  pose proof (typed_persistIfChanged before (Session.pair t) st H) as H1.
  destruct (Session.persistIfChanged before (Session.pair t) st) as [st1 ev1].
  pose proof (typed_persistIfChanged (Session.pair t) (PairChat.sessionEffect (Session.cu t) (Session.pair t)) st1 H1) as H2.
  destruct (Session.persistIfChanged (Session.pair t) _ st1) as [st2 ev2].
  match goal with |- context [if decide (Cart.favKeyFor ?u = ?k) then ?a else ?b] =>
    set (c0 := if decide (Cart.favKeyFor u = k) then a else b) end.
  assert (H0 : key_of KCart (Cart.activeCartKey c0) /\ key_of KFavorites (Cart.favKey c0)).
  { unfold c0. case_decide; simpl; [done | split; [done | apply key_of_favKeyFor]]. }
  match goal with |- context [decide (?nk = Cart.activeCartKey c0)] =>
    destruct (decide (nk = Cart.activeCartKey c0)); [exact (conj H0 H2) |];
    pose proof (keyChange_ok nk c0 st2 (key_of_cartKeyFor _ _ _) H2) as Hk;
    destruct (Cart.keyChange nk c0 st2) as [[c' st3] ev3] end.
  destruct Hk as (Hk & Hfk & Ht). split; [split; [exact Hk | simpl; rewrite Hfk; apply H0] | exact Ht].
Qed.

Lemma act_ok a t st :
  tab_ok t -> typed st -> let '(t', st', _) := Session.act a t st in tab_ok t' /\ typed st'.
Proof.
  intros Ht H.
  destruct a as [r n | i | i | | path now | p q | pid | pid q | n |]; simpl;
    try (apply react_ok; done).
  - pose proof (typed_navigateShared (Session.cu t) path now (Session.pair t) st H) as Hn.
    destruct (PairChat.navigateShared _ _ _ _ st) as [[r st'] evs]. done.
  - unfold Session.withCartSave. destruct (cart_keys_ops (Session.cart t) p q "" 0) as [Hk _].
    injection Hk as Hk1 Hk2. destruct Ht as [Hc Hf].
    pose proof (typed_saveCart (Cart.addToCart p q (Session.cart t)) st ltac:(by rewrite Hk1) H) as Hs.
    destruct (Cart.saveCart _ st). split; [split; simpl; [by rewrite Hk1 | by rewrite Hk2] | done].
  - unfold Session.withCartSave. destruct (cart_keys_ops (Session.cart t) (seedProduct 0) 0 pid 0) as [_ [Hk _]].
    injection Hk as Hk1 Hk2. destruct Ht as [Hc Hf].
    pose proof (typed_saveCart (Cart.removeFromCart pid (Session.cart t)) st ltac:(by rewrite Hk1) H) as Hs.
    destruct (Cart.saveCart _ st). split; [split; simpl; [by rewrite Hk1 | by rewrite Hk2] | done].
  - unfold Session.withCartSave. destruct (cart_keys_ops (Session.cart t) (seedProduct 0) 0 pid q) as [_ [_ Hk]].
    injection Hk as Hk1 Hk2. destruct Ht as [Hc Hf].
    pose proof (typed_saveCart (Cart.updateQuantity pid q (Session.cart t)) st ltac:(by rewrite Hk1) H) as Hs.
    destruct (Cart.saveCart _ st). split; [split; simpl; [by rewrite Hk1 | by rewrite Hk2] | done].
Qed.

Lemma onEvent_ok e t st :
  tab_ok t -> typed st -> let '(t', st', _) := Session.onEvent e t st in tab_ok t' /\ typed st'.
Proof.
  intros [Hc Hf] H. unfold Session.onEvent.
  match goal with |- context [if decide (?c1 = Session.cart t) then _ else Cart.saveCart ?cs st] =>
    assert (Hk1 : Cart.activeCartKey c1 = Cart.activeCartKey (Session.cart t) /\ Cart.favKey c1 = Cart.favKey (Session.cart t))
      by (case_decide; split; reflexivity);
    assert (Hs : typed (if decide (c1 = Session.cart t) then (st, []) else Cart.saveCart cs st).1)
      by (destruct (decide (c1 = Session.cart t));
          [exact H | apply typed_saveCart; [first [rewrite (proj1 Hk1); exact Hc | exact Hc] | exact H]]);
    destruct (if decide (c1 = Session.cart t) then (st, []) else Cart.saveCart cs st) as [st1 ev1];
    pose proof (react_ok (Session.pair t)
      (Session.mkTab (Session.auth t) (PairChat.syncFromStorage st (Session.pair t)) c1
         (match PairChat.handleStorageChange e (Session.pair t) with Some path => path | None => Session.route t end)) st1)
      as Hr end.
  destruct (Session.react _ _ st1) as [[t2 st2] ev2].
  apply Hr; [split; simpl; [rewrite (proj1 Hk1) | rewrite (proj2 Hk1)]; done | exact Hs].
Qed.

Lemma set_tab_ok s t st w :
  world_ok w -> tab_ok t -> typed st -> world_ok (Session.set_tab s t st w).
Proof. intros (_ & Ha & Hb) Ht H. destruct s; (split; [exact H | split; simpl; assumption]). Qed.

Lemma tab_of_ok s w : world_ok w -> tab_ok (Session.tab s w).
Proof. intros (_ & Ha & Hb). by destruct s. Qed.

Lemma deliver_ok fuel w q w' :
  world_ok w -> Session.deliver fuel w q = Some w' -> world_ok w'.
Proof.
  revert w q. induction fuel as [| n IH]; intros w q Hw Hd; destruct q as [| [s e] q]; simpl in Hd;
    try (injection Hd as <-; done); try discriminate.
  pose proof (onEvent_ok e (Session.tab s w) (Session.store w) (tab_of_ok s w Hw) (proj1 Hw)) as Ho.
  destruct (Session.onEvent e _ _) as [[t' st'] evs]. destruct Ho as [Ht Hs].
  exact (IH _ _ (set_tab_ok s t' st' w Hw Ht Hs) Hd).
Qed.

Lemma run_ok fuel s a w w' : world_ok w -> Session.run fuel s a w = Some w' -> world_ok w'.
Proof.
  intros Hw Hr. unfold Session.run in Hr.
  pose proof (act_ok a (Session.tab s w) (Session.store w) (tab_of_ok s w Hw) (proj1 Hw)) as Ha.
  destruct (Session.act a _ _) as [[t' st'] evs]. destruct Ha as [Ht Hs].
  exact (deliver_ok _ _ _ _ (set_tab_ok s t' st' w Hw Ht Hs) Hr).
Qed.

(** ** Lemmas: the other writers *)

Lemma typed_persistHistories h st : typed st -> typed (Chat.persistHistories h st).1.
Proof.
  intros H. unfold Chat.persistHistories.
  case_decide; [destruct (getItem Chat.CHAT_KEY st); [| done] |]; by apply typed_setItem.
Qed.

Lemma typed_chat_sync st h : typed st -> typed (Chat.syncFromStorage st h).1.2.
Proof.
  intros H. unfold Chat.syncFromStorage. destruct (getItem Chat.CHAT_KEY st) as [[] |]; try done;
    pose proof (typed_removeItem Chat.CHAT_KEY st H); destruct (removeItem _ st); done.
Qed.

Lemma typed_loadFromStorage st s : typed st -> typed (Auth.loadFromStorage st s).1.2.
Proof.
  intros H. unfold Auth.loadFromStorage.
  pose proof (typed_removeItem Auth.USERS_KEY _ (typed_removeItem Auth.CURRENT_USER_KEY st H)) as Hc.
  destruct (removeItem Auth.CURRENT_USER_KEY st) as [st1 e1].
  destruct (removeItem Auth.USERS_KEY st1) as [st2 e2] eqn:E. simpl in Hc.
  rewrite E in Hc. simpl in Hc.
  destruct (getItem Auth.CURRENT_USER_KEY st) as [[] |], (getItem Auth.USERS_KEY st) as [[] |]; simpl; done.
Qed.

Lemma typed_mountAuth st : typed st -> typed (Auth.mountAuth st).2.
Proof.
  intros H. unfold Auth.mountAuth.
  pose proof (typed_loadFromStorage st Auth.init H) as H1.
  destruct (Auth.loadFromStorage st Auth.init) as [[s1 st1] ev1]. simpl in H1.
  assert (Hcu : forall s st, typed st -> typed (Auth.persistCurrentUser s st).1).
  { intros s' st' Hs. unfold Auth.persistCurrentUser.
    destruct (Auth.currentUser s'); [by apply typed_setItem | by apply typed_removeItem]. }
  assert (Hus : forall s st, typed st -> typed (Auth.persistUsers s st).1).
  { intros s' st' Hs. unfold Auth.persistUsers. destruct (_ || _); [by apply typed_setItem | done]. }
  pose proof (Hcu Auth.init st1 H1) as H2. destruct (Auth.persistCurrentUser Auth.init st1) as [st2 e2].
  pose proof (Hus Auth.init st2 H2) as H3. destruct (Auth.persistUsers Auth.init st2) as [st3 e3].
  pose proof (Hcu s1 st3 H3) as H4. destruct (Auth.persistCurrentUser s1 st3) as [st4 e4].
  pose proof (Hus s1 st4 H4) as H5. destruct (Auth.persistUsers s1 st4) as [st5 e5]. exact H5.
Qed.

Lemma runAll_ok fuel script w w' :
  world_ok w -> Session.runAll fuel script w = Some w' -> world_ok w'.
Proof.
  revert w. induction script as [| [s a] script IH]; intros w Hw Hr; simpl in Hr; [by injection Hr as <- |].
  destruct (Session.run fuel s a w) as [w1 |] eqn:E; [| discriminate].
  exact (IH w1 (run_ok _ _ _ _ _ Hw E) Hr).
Qed.

(** ** Theorems *)

(** C16: The shared [localStorage] keeps its shapes: from a world whose store
    agrees with [key_kind] and whose tabs use cart and favourites keys of
    their families, every run of tab actions (with the storage events
    they cause delivered) ends in such a world; and on a well-typed store
    the other writers (a tab mounting its pair-chat provider, the chat
    history's write-back and sync, the auth provider's mount) leave it
    well typed.  So no reader of a key meets a value of another shape. *)
Theorem store_stays_typed fuel script w w' st h :
  world_ok w -> typed st ->
  (Session.runAll fuel script w = Some w' -> world_ok w') /\
  typed (Session.mountStep1 st).1 /\ typed (Chat.persistHistories h st).1 /\
  typed (Chat.syncFromStorage st h).1.2 /\ typed (Auth.mountAuth st).2.
Proof.
  intros Hw H. split; [by apply runAll_ok |].
  split; [by apply typed_persistInvitations |].
  split; [by apply typed_persistHistories |].
  split; [by apply typed_chat_sync | by apply typed_mountAuth].
Qed.

Lemma store_stays_typed_witness :
  (world_ok Session.world0 /\ typed ∅) /\
  (Session.runAll 20 Session.sessionScript Session.world0 = Some Session.world0 -> world_ok Session.world0) /\
  typed (Session.mountStep1 ∅).1 /\ typed (Chat.persistHistories ∅ ∅).1 /\
  typed (Chat.syncFromStorage ∅ ∅).1.2 /\ typed (Auth.mountAuth ∅).2.
Proof.
  assert (Hw : world_ok Session.world0).
  { split; [apply map_Forall_empty | split; split; vm_compute; reflexivity]. }
  assert (H : typed ∅) by apply map_Forall_empty.
  split; [split; [exact Hw | exact H] |].
  exact (store_stays_typed 20 Session.sessionScript Session.world0 Session.world0 ∅ ∅ Hw H).
Defined.

End StoreTyping.
