(* ===== verification/Quiescence.v ===== *)
(** * Quiescence: the storage-event exchange after a cart action stops.

    Each tab listens for the [storage] events of the other one, and its
    listeners and effects can write to the store again, which fires new
    events.  [Session.deliver] runs that exchange with fuel.  This file
    shows it stops after one delivery for the cart operations of
    [CartContext] ([addToCart], [removeFromCart], [updateQuantity]) in a
    world at rest.

    A tab is at rest, [tab_settled], when nothing it would do on a render
    or an event changes anything:
    - its effects have run ([keyed]): the session effect leaves its pair
      state alone, and its cart and favourites keys are the ones derived
      from its user and session;
    - [syncFromStorage] on the stored invitations gives back its own list;
    - its cart lines are what the store holds under its cart key;
    - that slot holds what [saveCart] writes: nothing, or a non-empty
      list ([slot_ok]).
    [settled w] says both tabs are at rest.  The main theorem: a cart
    action in a settled world is delivered with one unit of fuel, leaves
    the world settled, and a tab that shares the cart key shows the new
    lines.  So the partner's echo never comes back. *)

From stdpp Require Import base list strings gmap.
From Stdlib Require Import ZArith String List Bool Lia.
From S2P Require Import Prelude Types Storage Auth PairChat Cart Session.
Import ListNotations.
Local Open Scope string_scope.
Local Open Scope list_scope.

Module Quiescence.

(** The slot of a cart key holds what [saveCart] leaves there. *)
Definition slot_ok (st : Store) (k : option string) : Prop :=
  match k with
  | None => True
  | Some k => match getItem k st with None => True | Some (PCart l) => l <> [] | Some _ => False end
  end.

(** The effects of the tab have run: the session effect is a no-op and
    the cart and favourites keys are the derived ones. *)
Record keyed (t : Session.Tab) : Prop := {
  k_session : PairChat.sessionEffect (Session.cu t) (Session.pair t) = Session.pair t;
  k_cartKey : Cart.activeCartKey (Session.cart t) =
                Cart.cartKeyFor (Session.cu t) (PairChat.isPairChatActive (Session.pair t))
                  (PairChat.activeInvitation (Session.pair t));
  k_favKey : Cart.favKey (Session.cart t) = Cart.favKeyFor (Session.cu t);
}.

Record tab_settled (st : Store) (t : Session.Tab) : Prop := {
  ts_keyed : keyed t;
  ts_sync : PairChat.syncFromStorage st (Session.pair t) = Session.pair t;
  ts_loaded : Cart.loadCart (Cart.activeCartKey (Session.cart t)) st = Cart.cartItems (Session.cart t);
  ts_slot : slot_ok st (Cart.activeCartKey (Session.cart t));
}.

Definition settled (w : Session.World) : Prop :=
  tab_settled (Session.store w) (Session.tabA w) /\ tab_settled (Session.store w) (Session.tabB w).

(** The cart operation an action performs, if it is one. *)
Definition cart_update (a : Session.Action) (c : Cart.State) : option Cart.State :=
  match a with
  | Session.AAddToCart p q => Some (Cart.addToCart p q c)
  | Session.ARemoveFromCart pid => Some (Cart.removeFromCart pid c)
  | Session.AUpdateQuantity pid q => Some (Cart.updateQuantity pid q c)
  | _ => None
  end.

(** ** Lemmas *)

(** A save fires at most one event, on the active key, and a save that
    fires nothing leaves the store as it was. *)
Lemma saveCart_shape c st :
  (Cart.saveCart c st).2 = [] /\ (Cart.saveCart c st).1 = st \/
  exists k v, Cart.activeCartKey c = Some k /\ (Cart.saveCart c st).2 = [mkEvent k v].
Proof.
  unfold Cart.saveCart. destruct (Cart.activeCartKey c) as [k |]; [| by left].
  destruct (Cart.cartItems c) as [| x l].
  - unfold removeItem. destruct (st !! k); [right; by eexists _, _ | by left].
  - unfold setItem. case_decide; [by left | right; by eexists _, _].
Qed.

Lemma slot_saveCart c st : slot_ok (Cart.saveCart c st).1 (Cart.activeCartKey c).
Proof.
  unfold slot_ok, Cart.saveCart. destruct (Cart.activeCartKey c) as [k |]; [| done].
  destruct (Cart.cartItems c) as [| x l].
  - by rewrite getItem_removeItem_same.
  - by rewrite getItem_setItem_same.
Qed.

(** Saving what was just loaded from a well-formed slot changes nothing. *)
Lemma saveCart_reload c st k :
  Cart.activeCartKey c = Some k -> slot_ok st (Some k) ->
  Cart.saveCart (Cart.set_cartItems (Cart.loadCart (Some k) st) c) st = (st, []).
Proof.
  intros Hk Hs. unfold Cart.saveCart, Cart.set_cartItems. cbn [Cart.activeCartKey Cart.cartItems].
  rewrite Hk. unfold slot_ok in Hs. unfold Cart.loadCart.
  destruct (getItem k st) as [v |] eqn:E.
  - destruct v as [| l | | | | |]; try contradiction.
    destruct l as [| x l]; [contradiction | by apply setItem_unchanged].
  - unfold removeItem. unfold getItem in E. by rewrite E.
Qed.

Lemma slot_ok_other st st' k k' :
  getItem k' st' = getItem k' st -> k = Some k' -> slot_ok st k -> slot_ok st' k.
Proof. intros Hg -> Hs. unfold slot_ok in *. by rewrite Hg. Qed.

Lemma sync_same_entry st st' p :
  getItem PairChat.INVITES_KEY st' = getItem PairChat.INVITES_KEY st ->
  PairChat.syncFromStorage st' p = PairChat.syncFromStorage st p.
Proof. intros Hg. unfold PairChat.syncFromStorage. by rewrite Hg. Qed.

Lemma cart_update_keys a c c' :
  cart_update a c = Some c' ->
  Cart.activeCartKey c' = Cart.activeCartKey c /\ Cart.favKey c' = Cart.favKey c.
Proof.
  destruct a; intros [= <-];
    [unfold Cart.addToCart | unfold Cart.removeFromCart | unfold Cart.updateQuantity];
    destruct (Cart.activeCartKey c) eqn:E; try done;
    try (destruct (_ <=? _)%Z; [unfold Cart.removeFromCart; rewrite E |]); done.
Qed.

Lemma act_cart_update a t st c' :
  cart_update a (Session.cart t) = Some c' -> Session.act a t st = Session.withCartSave c' t st.
Proof. destruct a; intros [= <-]; reflexivity. Qed.

(** A new cart state or route with the same keys keeps a tab keyed. *)
Lemma keyed_mkTab c r t :
  Cart.activeCartKey c = Cart.activeCartKey (Session.cart t) -> Cart.favKey c = Cart.favKey (Session.cart t) ->
  keyed t -> keyed (Session.mkTab (Session.auth t) (Session.pair t) c r).
Proof. intros Hk Hf [Hs Hk' Hf']. destruct t. split; unfold Session.cu in *; simpl in *; congruence. Qed.

(** The effects of a tab whose effects have run do nothing. *)
Lemma react_quiet p t st : Session.pair t = p -> keyed t -> Session.react p t st = (t, st, []).
Proof.
  intros <- [Hse Hk Hf]. unfold Session.react, Session.persistIfChanged. rewrite Hse.
  do 2 (rewrite decide_True by done; cbv beta iota zeta).
  rewrite (decide_True (P := Cart.favKeyFor _ = _)) by done.
  rewrite (decide_True (P := Cart.cartKeyFor _ _ _ = _)) by done.
  by destruct t.
Qed.

Lemma cart_update_inactive a c c' :
  cart_update a c = Some c' -> Cart.activeCartKey c = None -> c' = c.
Proof.
  destruct a; intros [= <-] E;
    [unfold Cart.addToCart | unfold Cart.removeFromCart | unfold Cart.updateQuantity]; by rewrite E.
Qed.

(** After the save, the active slot holds the lines of the saved state. *)
Lemma loaded_saveCart c c0 st :
  Cart.activeCartKey c = Cart.activeCartKey c0 -> (Cart.activeCartKey c = None -> c = c0) ->
  Cart.loadCart (Cart.activeCartKey c0) st = Cart.cartItems c0 ->
  Cart.loadCart (Cart.activeCartKey c) (Cart.saveCart c st).1 = Cart.cartItems c.
Proof.
  intros Hk Hn Hl. destruct (Cart.activeCartKey c) as [k |] eqn:E; [by apply Cart.loadCart_saveCart |].
  rewrite (Hn eq_refl). rewrite <- Hk in Hl. exact Hl.
Qed.

(** A save leaves the other slots, so what other tabs read from them. *)
Lemma slot_ok_saveCart c st k0 : slot_ok st k0 -> slot_ok (Cart.saveCart c st).1 k0.
Proof.
  destruct k0 as [k0 |]; [| done]. intros Hs.
  destruct (decide (Cart.activeCartKey c = Some k0)) as [E | E];
    [rewrite <- E; apply slot_saveCart |].
  unfold slot_ok in *. by rewrite Cart.saveCart_other.
Qed.

Lemma loadCart_saveCart_other c st k0 :
  Cart.activeCartKey c <> k0 -> Cart.loadCart k0 (Cart.saveCart c st).1 = Cart.loadCart k0 st.
Proof. destruct k0 as [k0 |]; [| done]. intros E. unfold Cart.loadCart. by rewrite Cart.saveCart_other. Qed.

(** A save on a derived cart key leaves the invitation list. *)
Lemma sync_saveCart c t st p :
  keyed t -> Cart.activeCartKey c = Cart.activeCartKey (Session.cart t) ->
  PairChat.syncFromStorage (Cart.saveCart c st).1 p = PairChat.syncFromStorage st p.
Proof.
  intros [_ Hk _] E. apply sync_same_entry, Cart.saveCart_other.
  rewrite E, Hk. apply Session.cartKeyFor_not_invites.
Qed.

Lemma tab_set_tab s t st w : Session.tab s (Session.set_tab s t st w) = t.
Proof. by destruct s. Qed.

Lemma tab_set_tab_other s t st w :
  Session.tab (Session.other s) (Session.set_tab s t st w) = Session.tab (Session.other s) w.
Proof. by destruct s. Qed.

Lemma tab_set_other_tab s t st w : Session.tab s (Session.set_tab (Session.other s) t st w) = Session.tab s w.
Proof. by destruct s. Qed.

Lemma settled_set_both s t u st st0 w :
  tab_settled st t -> tab_settled st u ->
  settled (Session.set_tab (Session.other s) u st (Session.set_tab s t st0 w)).
Proof. by destruct s; split. Qed.

Lemma settled_sides s w :
  settled w <-> tab_settled (Session.store w) (Session.tab s w) /\
                tab_settled (Session.store w) (Session.tab (Session.other s) w).
Proof. destruct s; unfold settled; simpl; tauto. Qed.

Lemma settled_set_tab s t st w :
  tab_settled st t -> tab_settled st (Session.tab (Session.other s) w) -> settled (Session.set_tab s t st w).
Proof. by destruct s; split. Qed.

(** One event to a tab that answers nothing is delivered with one unit of
    fuel. *)
Lemma deliver_one o e w t' st' :
  Session.onEvent e (Session.tab o w) (Session.store w) = (t', st', []) ->
  Session.deliver 1 w [(o, e)] = Some (Session.set_tab o t' st' w).
Proof. intros H. cbn [Session.deliver]. by rewrite H. Qed.

Lemma store_set_tab s t st w : Session.store (Session.set_tab s t st w) = st.
Proof. by destruct s. Qed.

(** A tab at rest, given an event: its listeners and effects write
    nothing and fire nothing, and it is at rest again, provided its lines
    are the stored ones or the event is on its own cart key (the listener
    then reloads them). *)
Lemma onEvent_quiet e t st :
  keyed t -> PairChat.syncFromStorage st (Session.pair t) = Session.pair t ->
  slot_ok st (Cart.activeCartKey (Session.cart t)) ->
  Cart.activeCartKey (Session.cart t) = Some (key e) \/
    Cart.loadCart (Cart.activeCartKey (Session.cart t)) st = Cart.cartItems (Session.cart t) ->
  exists t', Session.onEvent e t st = (t', st, []) /\ tab_settled st t'.
Proof.
  intros Hkd Hsync Hs Hl. unfold Session.onEvent. rewrite Hsync. cbv zeta.
  set (c := Session.cart t) in *.
  set (c1 := if decide (Cart.activeCartKey c = Some (key e))
             then Cart.set_cartItems (Cart.loadCart (Cart.activeCartKey c) st) c else c).
  assert (Hk1 : Cart.activeCartKey c1 = Cart.activeCartKey c /\ Cart.favKey c1 = Cart.favKey c)
    by (subst c1; by case_decide).
  assert (Hl1 : Cart.loadCart (Cart.activeCartKey c1) st = Cart.cartItems c1).
  { rewrite (proj1 Hk1). subst c1. case_decide; [done | by destruct Hl]. }
  assert (Hsave : (if decide (c1 = c) then (st, []) else Cart.saveCart c1 st) = (st, [])).
  { case_decide; [done |]. subst c1. case_decide as He; [| done].
    rewrite He in Hs |- *. by apply saveCart_reload. }
  rewrite Hsave. cbv beta iota.
  match goal with
  | |- context [Session.react _ (Session.mkTab ?a ?p ?c' ?r) ?s] =>
      rewrite (react_quiet p (Session.mkTab a p c' r) s eq_refl)
        by (apply keyed_mkTab; [apply Hk1 | apply Hk1 | exact Hkd])
  end.
  eexists. split; [reflexivity |]. split; simpl.
  - apply keyed_mkTab; [apply Hk1 | apply Hk1 | exact Hkd].
  - exact Hsync.
  - exact Hl1.
  - by rewrite (proj1 Hk1).
Qed.

(** ** Theorems *)

(** Two tabs freshly logged in as different users, on an empty store,
    are at rest. *)
Lemma settled_world0 : settled Session.world0.
Proof. split; (split; [split |..]); vm_compute; first [exact I | reflexivity]. Qed.

(** C21: A cart operation in a world at rest stops: [addToCart],
    [removeFromCart] or [updateQuantity] in either tab, with the save that
    follows it, is delivered with one unit of fuel; the acting tab shows
    the new cart, the world is at rest again, and the other tab, if it
    shares the cart key, shows the same lines.  The partner tab's reload
    of the shared cart writes nothing, so no event comes back. *)
Theorem cart_action_quiesces w s a c' :
  settled w -> cart_update a (Session.cart (Session.tab s w)) = Some c' ->
  exists w', Session.run 1 s a w = Some w' /\ settled w' /\
    Session.tab s w' = Session.with_cart c' (Session.tab s w) /\
    (Cart.activeCartKey (Session.cart (Session.tab (Session.other s) w')) = Cart.activeCartKey c' ->
     Cart.cartItems (Session.cart (Session.tab (Session.other s) w')) = Cart.cartItems c').
Proof.
  intros Hw Hc. apply (settled_sides s) in Hw as [Ht Hu].
  set (t := Session.tab s w) in *. set (u := Session.tab (Session.other s) w) in *.
  set (st := Session.store w) in *.
  destruct (cart_update_keys _ _ _ Hc) as [Hk Hf].
  (* the acting tab after the save *)
  assert (Ht' : tab_settled (Cart.saveCart c' st).1 (Session.with_cart c' t)).
  { split; simpl.
    - apply keyed_mkTab; [exact Hk | exact Hf | apply Ht].
    - rewrite (sync_saveCart c' t) by (apply Ht || exact Hk). apply Ht.
    - apply (loaded_saveCart c' (Session.cart t)); [exact Hk | intros E; apply (cart_update_inactive a _ _ Hc); congruence | apply Ht].
    - apply slot_saveCart. }
  assert (Hview : forall x, tab_settled (Cart.saveCart c' st).1 x ->
            Cart.activeCartKey (Session.cart x) = Cart.activeCartKey c' ->
            Cart.cartItems (Session.cart x) = Cart.cartItems c').
  { intros x Hx E. rewrite <- (ts_loaded _ _ Hx), E. apply Ht'. }
  unfold Session.run. fold t st. rewrite (act_cart_update _ _ _ _ Hc). unfold Session.withCartSave.
  destruct (saveCart_shape c' st) as [[Hev Hst] | (k & v & Hkey & Hev)];
    destruct (Cart.saveCart c' st) as [st' evs] eqn:Hs; simpl in Hev |- *; subst evs.
  - (* no event: the save wrote nothing *)
    simpl in Hst. subst st'. exists (Session.set_tab s (Session.with_cart c' t) st w).
    split; [done |]. rewrite tab_set_tab, tab_set_tab_other. split; [| split; [done |]].
    + apply settled_set_tab; [exact Ht' | exact Hu].
    + apply Hview, Hu.
  - (* one event, to the other tab *)
    assert (Hst' : (Cart.saveCart c' st).1 = st') by (rewrite Hs; done).
    assert (Hu1 : exists u', Session.onEvent (mkEvent k v) u st' = (u', st', []) /\ tab_settled st' u').
    { rewrite <- Hst'. apply onEvent_quiet; [apply Hu | | |].
      - rewrite (sync_saveCart c' t) by (apply Ht || exact Hk). apply Hu.
      - apply slot_ok_saveCart, Hu.
      - simpl. destruct (decide (Cart.activeCartKey (Session.cart u) = Some k)) as [E | E]; [by left | right].
        rewrite loadCart_saveCart_other by congruence. apply Hu. }
    destruct Hu1 as (u' & Hon & Hu').
    exists (Session.set_tab (Session.other s) u' st' (Session.set_tab s (Session.with_cart c' t) st' w)).
    split; [apply deliver_one; by rewrite tab_set_tab_other, store_set_tab |].
    split; [by apply settled_set_both |].
    rewrite tab_set_other_tab, !tab_set_tab. split; [done |]. apply Hview, Hu'.
Qed.

Lemma cart_action_quiesces_witness :
  let c := Session.cart (Session.tab Session.SideA Session.world0) in
  (settled Session.world0 /\
   cart_update (Session.AAddToCart (seedProduct 0) 1) c = Some (Cart.addToCart (seedProduct 0) 1 c)) /\
  exists w', Session.run 1 Session.SideA (Session.AAddToCart (seedProduct 0) 1) Session.world0 = Some w' /\
    settled w' /\
    Session.tab Session.SideA w' = Session.with_cart (Cart.addToCart (seedProduct 0) 1 c) (Session.tab Session.SideA Session.world0) /\
    (Cart.activeCartKey (Session.cart (Session.tab (Session.other Session.SideA) w')) =
       Cart.activeCartKey (Cart.addToCart (seedProduct 0) 1 c) ->
     Cart.cartItems (Session.cart (Session.tab (Session.other Session.SideA) w')) =
       Cart.cartItems (Cart.addToCart (seedProduct 0) 1 c)).
Proof.
  cbv zeta. split; [split; [exact settled_world0 | reflexivity] |].
  exact (cart_action_quiesces Session.world0 Session.SideA (Session.AAddToCart (seedProduct 0) 1) _ settled_world0 eq_refl).
Defined.

End Quiescence.
